(* ===== verification/_CoqProject ===== *)
-Q . S2P
Prelude.v
Binary64.v
PyNum.v
Config.v
Image.v
Detector.v
Solidity.v
Classifier.v
Cropper.v
Border.v
Renderer.v
Extensional.v
Pipeline.v
Names.v
Narration.v
Sheet.v
Page.v
Scanner.v
Batch.v
Run.v
Disk.v
Program.v
Transcript.v
Output.v
Scenario.v
