(* ===== verification/Prelude.v ===== *)
(** * proxify: a verified model of the card border-normalisation pipeline

    [src/proxify.py] turns a folder of card pictures into print sheets.  For
    each picture it finds where the artwork ends and the black frame begins,
    classifies the frame style, cuts the picture so that, once resized to
    the fixed card size, every card has the same printed border, and pastes
    nine cards on each page with cut lines between them.  This library is a
    shallow embedding of that program in Rocq: each function of the source
    is a definition that computes, named as in the source, and the theorems
    state what the functions return on every input.

    ** The parts of the program and the files that model them

    The data flows downwards in this list; each file requires the ones
    above it that it calls.

    - [Prelude] (this file): the effects of Python the program uses.  A
      function returns a value or raises ([result], with the exceptions of
      [exn]); what it prints is the log of a [logged] computation, which
      keeps what was printed before an exception; a [for] loop over a
      [range] is a monadic fold ([fold_m], [fold_log] when the body
      prints), a loop left by [break] is [for_break], [find_m] or
      [forallb_m]; [log_map] shows a log through a function that hides or
      renames its messages.  A small program
      logic ([returns], [ensures]) carries the proofs about logged code, and
      [result_rel], [logged_rel] relate two computations step by step.
    - [Binary64], [PyNum]: Python's numbers.  A [float] is a binary64 value,
      modelled as a dyadic rational; every operation is the exact one
      followed by rounding to nearest, ties to even, on 53 bits ([rn]).
      [PyNum] has [int]/[float] promotion, [/] with [ZeroDivisionError],
      [int()], [round()], [abs()] and the literals of the source.
    - [Config]: the configuration block (lines 7-37, [settings]) and the
      calculations block (lines 41-62, [calculations]) that turns
      millimetres into the pixel constants [pixels].  The functions of the
      source read these module globals; the model passes the two records.
    - [Image]: the imaging library, from its documentation.  A raster is a
      size and a function from coordinates to pixels of four channels;
      [getpixel], [putpixel], [new], [copy], [crop], [getbbox] are the calls
      the source makes.  Resampling and the enhancers are the operations of
      the class [Imaging]: the size of their result is known, and that they
      read the pixels of the picture only; their colours are not.
      [nearest_imaging] is an instance that computes.
    - [Detector]: [get_content_bounding_box] (lines 64-101) and
      [get_content_extents_at_row] (lines 103-139).
    - [Solidity]: [check_strip_for_solid_lr_border] (lines 141-193).
    - [Classifier]: [determine_card_type] (lines 195-228), which cuts two
      zones out of the picture and asks [Solidity] about each.
    - [Cropper]: the part of [resize_card] that chooses the crop (lines
      254-324): effective content, side scan of extended art, scale
      factors, back-projected borders, clamping, fallbacks.
    - [Border]: no new code; the width on the card of the borders the cropper
      keeps, once the crop is resized.
    - [Renderer]: [resize_card] as a whole (lines 230-386): [render] is the
      body of its [try] block and composes [Classifier], [Detector],
      [Cropper], the resize and the enhancements; [resize_card] is the
      handler that maps every exception to [None].
    - [Extensional]: no new code; pictures that agree on their pixels are
      treated alike by every function above.
    - [Pipeline]: no new code; [Renderer.resize_card] run on the synthetic
      cards of the specification, a white box of artwork in a black frame
      ([framed_card]), between two black caps ([capped_card]) or without
      a frame ([bare_card]), under conditions on the picture and the
      configuration only.
    - [Names]: [sanitize_filename_component] (lines 424-431) and the name of
      a sheet (line 485), on strings as lists of code points.
    - [Narration]: [resize_card] once more, with every [print] of lines
      235-383: [resize_card_log] prints the progress lines ([info]) and
      the warnings in the order of the source; the parts of the function
      that print warnings only are those of [Cropper] and [Renderer].
    - [Sheet]: [create_printable_sheet] (lines 388-422): the white page it
      makes first ([blank_page]), the list of the paste and line calls it
      makes, calling [Renderer.resize_card] for each file of the chunk, and
      the save of the page, whose exception the function catches.
    - [Page]: the page these calls draw.  [sheet.paste] under the mask of
      the card and [draw.line] are modelled from the documentation of the
      library ([paste], [draw_line]); the blending of half-transparent
      pixels and the pixels a line covers are the operations of the class
      [Canvas], with two laws, and [box_canvas] is an instance that
      computes.  [printed_page] is the page handed to [sheet.save].
    - [Scanner]: the files of a run (lines 452-456): the entries of the
      folder with one of six extensions, joined to the folder and sorted.
      The listing of the folder is an argument.
    - [Batch]: the batching of [__main__] (lines 458-505) as a function of
      the list of files: no sheet for fewer than nine files, the chunks of
      nine with their numbers and names, the leftover files.
    - [Run]: [__main__] from line 458 on as the program runs it: the loop
      over the batches, which names each sheet and calls
      [Sheet.create_printable_sheet]; the file system is a function from
      paths to the outcome of opening them and a function that says what
      saving a page does.
    - [Disk]: the loop of [__main__] on a disk that the saves of the run
      change: a function ([main_on]) and a transition system ([step]) on
      states that hold the index of the loop, the disk and the variables
      of the loop.  What a saved page is read back as is a parameter.
    - [Program]: the checks of the two folders (lines 437-450) and the
      whole [__main__] block, over the record [world] of what the calls to
      the operating system return or raise.
    - [Transcript]: the [print] calls of the [__main__] block (lines
      438-505) and of [create_printable_sheet] (lines 389, 420, 422), in
      the order the program makes them: [program_log] is [Program.program]
      with its prints, a [logged] computation over the messages of
      [message]; the warnings and errors of the cards, which the sheet
      collects, are printed between the announcement of the sheet and the
      message of its save; [sheet_lines] is every line the cards of a
      sheet print.
    - [Output]: the whole standard output of the module: [script_out] is
      the calculations with their warning (line 60), the two prompts
      (lines 434-435) and the [__main__] block with the messages of
      [Transcript] and every line of the cards.
    - [Scenario]: no new code; the program and the page evaluated on a
      folder of nine small pictures of the three frame styles, and the
      sheet of nine pictures of the size of the specification, 750 x 1050,
      for any resampling.

    ** What the theorems show

    - Numbers: [rn] is monotone, exact on representable numbers and within
      a relative error of 2^-53; hence [int(h * 0.05) = h // 20],
      [int(h * 0.50) = h // 2], [int(h * 0.60) = 3 * h // 5] for the
      heights in range, and a bound on the error of a rounded quotient.
    - Config: the calculations never raise; the margins are never
      negative and the grid is three cards by three; settings without a
      negative length give pixel sizes that are not negative, hence a paper
      the library can make a page of.
    - Detector: the bounding box is None exactly on pictures without
      content and otherwise the tight box of the content, uniquely; the row
      extent is the first and last content column; a row outside the
      picture raises, a negative row wraps around.
    - Solidity: the loops with flags and breaks decide the specification
      [solid_lr]; the answer is monotone in the band width.
    - Classifier: the function never raises and implements the decision
      table [frame_style]; the zones are given by integer arithmetic, lie
      in the picture when the minimum zone height fits, and can exceed it
      otherwise.
    - Cropper: the cropper never raises; for a content box inside the
      picture the crop holds the content and lies in the picture; each
      border kept is the exact quotient rounded, up to the float error;
      the right side of extended art is the last content column itself.
    - Border: a printed border is off by at most half a source pixel at the
      scale of the resize, hence by less than a pixel when the picture is
      not magnified; a concrete card shows that it is off by more than a
      pixel when the picture is magnified four times.
    - Renderer: [resize_card] returns a card of exactly the target size for
      every non-empty picture and every target of at least 1 x 1, and in
      every case either such a card or None; what the card is for each of
      the three frame styles; the trim of borderless cards.
    - Extensional: the card depends only on the size of the picture and on
      the pixels inside its bounds.
    - Pipeline: the four components together on a framed picture: no
      warning is printed, the crop lies strictly inside the picture, and each
      border of the card is printed within one pixel of the configured
      width when the artwork is at least as large as the card; with the
      nearest-neighbour resampling the detector, run on the card, finds the
      artwork behind these borders (the round trip of the specification,
      with three aspect ratios as its witness).  A picture with artwork
      from side to side between two caps is classified extended art, and
      its crop ends at the last column or one before it: with no right
      border configured the last column of the artwork is not on the card.
      A picture without a frame is classified borderless and loses the
      rows of the configured trim, and nothing else, before the resize.
      The stages of each style ([standard_card_stages],
      [capped_card_stages], [bare_card_stages]) hold for every target of
      at least 1 x 1, and a synthetic card of any style gives a card
      without a warning ([synthetic_card_quiet]).
    - Narration: hiding the progress lines of [resize_card_log] gives
      [Renderer.resize_card], card and warnings, for every file; a card
      made without a warning prints the lines of the reference
      [narration] and nothing else: the name and the size of the picture,
      the frame style, for extended art the sample row and its extent,
      the action, the size of the card; a run prints [Processing] first
      when the file opened and [Finished] last when it made a card,
      otherwise the error last; the lines of the three synthetic cards.
    - Sheet: the page is made first and a negative paper size raises; the
      loops make exactly the calls of the reference layout [placed]; every
      paste is on the grid, pastes do not overlap, a file that fails to
      open leaves its cell empty, files that open fill the cells in order;
      the log of a sheet is the warnings of its files, file by file, and
      is empty when no file has one.
    - Page: every pixel of the page of a chunk ([layout_page]): the ink of
      the cut lines under a line, the card over white in the cell of a file
      that gave one, white elsewhere; the cut lines run from edge to edge;
      an opaque pixel of a card away from the lines is on the page
      unchanged; the cell of a file that did not open stays white.
    - Names and Scanner: sanitised names are clean and sanitising is
      idempotent; the files of a run are the entries with an extension, in
      increasing order; the name of a sheet does not depend on the folder;
      a sheet left in the input folder is taken for a picture.
    - Batch and Run: chunks and leftover files partition the files found;
      the loop of [__main__] computes this batching; the sheets of a run
      have different paths; a save that raises does not stop the run and
      its sheet is counted as created; a run on a folder of twelve
      entries, computed.
    - Disk: the invariant of the transition system, by induction on its
      transitions: the sheets saved open as their pages, every other path
      opens as at the start; the loop of [main_on] goes through reachable
      states and returns; a run that writes to another folder than it
      reads does what [Run.main] does on the disk of the start, and leaves
      its files as they were; a sheet saved under the name of a file of
      the next batch is read by that batch in place of the file.
    - Program: the program as a function of the world, case by case; an
      error of the folders ends it before any file is listed, opened or
      saved; on a paper of a size that is not negative it raises only if
      [makedirs] or [listdir] do, and on a negative one it raises when it
      makes its first page; every picture of a full batch that opens ends
      up as a card in its cell of a sheet that is saved, if the save
      returns.
    - Transcript: the program without its prints is [Program.program], in
      every world; on a paper of a size that is not negative it prints the
      reference transcript [transcript_of] of its batching: the files
      found, for every chunk the batch, the sheet, the warnings of its
      cards and the outcome of its save, the summary, the leftover files;
      every file is in an announced chunk or listed as left over; the
      messages of lines 473 and 496 are never printed; a setup error
      prints its message only, and a paper of negative size ends the
      transcript after the announcement of the first sheet; the warnings
      of a sheet in the transcript are the lines of its cards
      ([sheet_lines]) with the progress lines hidden.
    - Output: the output without the prompts, the warning of the
      calculations and the progress lines is the transcript, and the
      program that prints everything does what [Program.program] does;
      on folders that pass the checks the output is the reference
      [output_of] of the batching, with every line of every card between
      the announcement of its sheet and the message of the save; every
      file of a full chunk prints its name and its size, or its error,
      and every other file is listed as left over; the warning of the
      calculations is printed exactly when the grid is wider or higher
      than the paper, and never with the configuration of the source; the
      complete output of a run on eleven files, computed.
    - Scenario: nine pictures of the three frame styles give one sheet
      with nine cards at the corners of the grid and the four cut lines,
      and a page of the size of the paper on which each card shows the
      frame of its style (evaluated, on small pictures); with pictures of
      750 x 1050 and any resampling and canvas, the sheet is nine cards of
      the card size in the nine cells, in the order of the files, and the
      four cut lines, without a warning; the cells lie on the page and do
      not overlap, and the cut lines cross the page
      ([nine_pictures_scenario]).

    Theorems with hypotheses come with a lemma named [<theorem>_witness]
    that applies them to a concrete input, mostly a synthetic picture
    [framed w h b] (a white box on black).

    ** Bounds

    Integers are unbounded, as in Python.  Floats have 53 bits of mantissa
    and an unbounded exponent: overflow, subnormals, infinities and NaN do
    not occur in the model.  The program applies floats to pixel counts and
    to the constants of the configuration only, far inside the normal
    range.  The identities on [int(h * c)] are proved for [h < 2^48]
    ([c = 0.05]), [h < 2^52] ([c = 0.50]) and [h < 2^50] ([c = 0.60]); the
    accuracy of a border for a target border below 2^53 (below 2^31 for the
    bound of one pixel) and a content at most 2^19 times wider than the
    artwork of the card (beyond, the scale is below the [1e-6] of the source
    and the border kept is 0).  The theorems of [Pipeline] ask for a frame
    wider than the border at the scale of the artwork plus one pixel, which
    keeps the crop off the sides of the picture, and for the round trip an
    artwork of at least two pixels on the card.  The examples that evaluate
    use pictures of 20 to 40 columns with the configuration of the source.
    No definition uses fuel: every loop of the source is a [for] over a
    finite range.

    ** Not modelled

    - Reading files: [Image.open] and [convert] (lines 232-233); the model
      of [resize_card] takes their outcome.  The mode tests of lines 82-83
      and 150-153 are the identity on the rasters of the model.
    - The colours computed by the LANCZOS filter and by the enhancers
      (interface [Imaging]).
    - The arithmetic of the canvas: how the library mixes a pixel whose
      alpha is neither 0 nor 255 with the page, and which pixels a line of
      a given width covers beyond those between its end points (interface
      [Page.Canvas]); these are not in the repository, and the theorems
      hold for every canvas with the two laws.
    - The file [sheet.save] writes: a saved sheet is the list of its
      calls, whose page is [Page.printed_page].
    - The disk: what [os.path.isdir], [os.path.exists], [os.makedirs],
      [os.listdir], [Image.open] and [sheet.save] return or raise is given
      by [Program.world], and the theorems hold for every world.  In
      [Run] and [Program] the world is not changed by the run; [Disk]
      shows when this is exact (the sheets are not saved over files of the
      run) and what happens otherwise.  Folders made or removed during
      the run, and other programs that write to the disk, are not
      modelled.
    - What is typed at the prompts (lines 434-435): the two paths are the
      arguments of [Program.program].  The text of the messages: a
      message is a constructor that holds the values it shows.  The text
      of an exception and the traceback of line 385, which goes to the
      error stream: an exception is known by its class.
    - [str.lower] outside ASCII (interface [Scanner.Lowercase]). *)

From Stdlib Require Import ZArith List Bool Lia.
From Stdlib Require Import FinFun.
Import ListNotations.
Local Open Scope Z_scope.

(** ** Exceptions and results

    Python code either returns a value or raises.  [result A] is the value
    of a computation that may raise one of the exceptions the modelled code
    can meet; [None]-returning functions keep their [option]. *)

Inductive exn : Type :=
| IndexError          (* pixel access outside the raster *)
| ValueError          (* PIL: inverted crop box, non-positive resize target *)
| ZeroDivisionError   (* float or int division by zero *)
| OverflowError       (* int too large to convert to float *)
| FileNotFoundError   (* opening a file that does not exist *)
| UnidentifiedImageError (* opening a file that is not a picture *)
| OSError.            (* any other failure of the operating system *)

(** [isinstance(e, OSError)]: the two exceptions of opening a file are
    subclasses of [OSError]. *)
Definition is_OSError (e : exn) : bool :=
  match e with
  | OSError | FileNotFoundError | UnidentifiedImageError => true
  | _ => false
  end.

Inductive result (A : Type) : Type :=
| Ok (a : A)
| Raise (e : exn).
Arguments Ok {A} a.
Arguments Raise {A} e.

Definition bind {A B} (m : result A) (k : A -> result B) : result B :=
  match m with
  | Ok a => k a
  | Raise e => Raise e
  end.

Definition is_ok {A} (m : result A) : bool :=
  match m with Ok _ => true | Raise _ => false end.

(** [try: ... except Exception: return None] *)
Definition catch_none {A} (m : result (option A)) : option A :=
  match m with
  | Ok o => o
  | Raise _ => None
  end.

Declare Scope result_scope.
Delimit Scope result_scope with result.
Notation "x <- m ;; k" := (bind m (fun x => k))
  (at level 61, m at next level, right associativity) : result_scope.
Notation "' p <- m ;; k" := (bind m (fun x => let 'p := x in k))
  (at level 61, p pattern, m at next level, right associativity) : result_scope.

(** ** Diagnostics

    The program reports the fallbacks it takes by printing.  [logged D A] is
    a computation that may raise and that emits diagnostics of type [D] on
    the way; what was printed before an exception stays printed. *)

Definition logged (D A : Type) : Type := (result A * list D)%type.

Definition lret {D A} (a : A) : logged D A := (Ok a, []).

Definition lbind {D A B} (m : logged D A) (k : A -> logged D B) : logged D B :=
  match m with
  | (Ok a, l) => let '(r, l') := k a in (r, l ++ l')
  | (Raise e, l) => (Raise e, l)
  end.

(** [print(...)] *)
Definition tell {D} (d : D) : logged D unit := (Ok tt, [d]).

(** A computation that prints nothing. *)
Definition lift {D A} (m : result A) : logged D A := (m, []).

(** The messages of a list, printed in order. *)
Definition tell_all {D} (l : list D) : logged D unit := (Ok tt, l).

(** The same computation seen through [f], which gives for each message
    the messages that stand for it: none to hide it, one to rename it. *)
Definition log_map {D E A} (f : D -> list E) (m : logged D A) : logged E A :=
  (fst m, flat_map f (snd m)).

(** [returns m P L]: the computation [m] returns a value that satisfies [P],
    having printed only messages that satisfy [L]. *)
Definition returns {D A} (m : logged D A) (P : A -> Prop) (L : D -> Prop) : Prop :=
  exists a l, m = (Ok a, l) /\ P a /\ Forall L l.

(** [ensures m P]: what [m] returns, if it returns, satisfies [P]. *)
Definition ensures {D A} (m : logged D A) (P : A -> Prop) : Prop :=
  forall a l, m = (Ok a, l) -> P a.

(** ** Related outcomes

    Two computations are related by [R] when both return, with values
    related by [R], or both raise the same exception; logged computations
    when, besides, they print the same. *)

Definition result_rel {A B} (R : A -> B -> Prop) (m : result A) (n : result B) : Prop :=
  match m, n with
  | Ok a, Ok b => R a b
  | Raise e, Raise e' => e = e'
  | _, _ => False
  end.

Definition option_rel {A B} (R : A -> B -> Prop) (o : option A) (o' : option B) : Prop :=
  match o, o' with
  | Some a, Some b => R a b
  | None, None => True
  | _, _ => False
  end.

Definition logged_rel {D A B} (R : A -> B -> Prop) (m : logged D A) (n : logged D B)
    : Prop :=
  result_rel R (fst m) (fst n) /\ snd m = snd n.

Declare Scope log_scope.
Delimit Scope log_scope with log.
Notation "x <- m ;; k" := (lbind m (fun x => k))
  (at level 61, m at next level, right associativity) : log_scope.
Notation "' p <- m ;; k" := (lbind m (fun x => let 'p := x in k))
  (at level 61, p pattern, m at next level, right associativity) : log_scope.
Notation "m ;; k" := (lbind m (fun _ => k))
  (at level 61, right associativity) : log_scope.

(** ** Python ranges

    [range lo hi] is [range(lo, hi)]; [range_down hi lo] is
    [range(hi, lo, -1)]: hi, hi-1, ..., lo+1. *)

Definition range (lo hi : Z) : list Z :=
  map (fun i => lo + Z.of_nat i) (seq 0 (Z.to_nat (hi - lo))).

Definition range_down (hi lo : Z) : list Z :=
  map (fun i => hi - Z.of_nat i) (seq 0 (Z.to_nat (hi - lo))).

(** ** Loops that may raise

    [fold_m f l s] is [for x in l: s = f(s, x)] where the body may raise;
    [forallb_m] is the loop that clears a flag and breaks at the first
    element failing the test; [find_m] the loop that breaks at the first
    element passing it. *)

Fixpoint fold_m {A S} (f : S -> A -> result S) (l : list A) (s : S) : result S :=
  match l with
  | [] => Ok s
  | x :: l' => bind (f s x) (fold_m f l')
  end.

(** The same for a body that prints. *)
Fixpoint fold_log {D A S} (f : S -> A -> logged D S) (l : list A) (s : S)
    : logged D S :=
  match l with
  | [] => (Ok s, [])
  | a :: l => lbind (f s a) (fold_log f l)
  end.

Fixpoint forallb_m {A} (p : A -> result bool) (l : list A) : result bool :=
  match l with
  | [] => Ok true
  | x :: l' => bind (p x) (fun b => if b then forallb_m p l' else Ok false)
  end.

Fixpoint find_m {A} (p : A -> result bool) (l : list A) : result (option A) :=
  match l with
  | [] => Ok None
  | x :: l' => bind (p x) (fun b => if b then Ok (Some x) else find_m p l')
  end.

(** [for x in l: ... break ...]: the body returns the new state and whether
    it met [break]; the remaining iterations are then skipped. *)
Fixpoint for_break {A S} (body : S -> A -> result (S * bool)) (l : list A) (s : S)
    : result S :=
  match l with
  | [] => Ok s
  | x :: l' =>
      bind (body s x) (fun r => if snd r then Ok (fst r) else for_break body l' (fst r))
  end.

(** ** Tactics *)

(** Turn boolean comparisons on [Z] in the context into propositions. *)
Ltac zbool :=
  repeat match goal with
  | H : (_ <? _) = true |- _ => apply Z.ltb_lt in H
  | H : (_ <? _) = false |- _ => apply Z.ltb_ge in H
  | H : (_ <=? _) = true |- _ => apply Z.leb_le in H
  | H : (_ <=? _) = false |- _ => apply Z.leb_gt in H
  | H : (_ =? _) = true |- _ => apply Z.eqb_eq in H
  | H : (_ =? _) = false |- _ => apply Z.eqb_neq in H
  | H : (_ >? _) = true |- _ => rewrite Z.gtb_ltb in H
  | H : (_ >? _) = false |- _ => rewrite Z.gtb_ltb in H
  | H : (_ >=? _) = true |- _ => rewrite Z.geb_leb in H
  | H : (_ >=? _) = false |- _ => rewrite Z.geb_leb in H
  | H : (_ && _) = true |- _ => apply andb_true_iff in H; destruct H
  | H : (_ || _) = false |- _ => apply orb_false_iff in H; destruct H
  | H : negb _ = true |- _ => apply negb_true_iff in H
  | H : negb _ = false |- _ => apply negb_false_iff in H
  end.

(** An equation between closed terms by evaluation in the virtual machine.
    The tactic gives the kernel the proof [eq_refl] with a request to
    compare by evaluation, so the two sides are evaluated once, when the
    proof is checked, and not a second time by the tactic. *)
Ltac vm_refl :=
  lazymatch goal with |- _ = ?b => vm_cast_no_check (eq_refl b) end.

(** [lia] that first reflects boolean comparisons. *)
Ltac zlia := zbool; lia.

(** [zlia] for goals with quotients and remainders by constants. *)
Ltac zdiv := zbool; Z.div_mod_to_equations; lia.

(** Equivalences between a conjunction of boolean comparisons and the
    corresponding arithmetic statement. *)
Ltac zlia_iff :=
  rewrite ?Z.leb_le, ?Z.ltb_lt, ?Z.eqb_eq, ?Z.geb_le, ?Z.gtb_lt; lia.

(** A computation made of prints and a return has a result. *)
Ltac log_ok :=
  cbn [lbind tell lret lift fst snd app]; eexists _, _; reflexivity.

Create HintDb proxify discriminated.

(** ** Results *)

(** [Ok] is injective; as a lemma, so that a proof can use it on terms
    that are expensive to reduce. *)
Lemma Ok_inj {A} (a b : A) : Ok a = Ok b -> a = b.
Proof. now intros [= E]. Qed.

Lemma bind_Ok {A B} (m : result A) (k : A -> result B) b :
  bind m k = Ok b <-> exists a, m = Ok a /\ k a = Ok b.
Proof.
  destruct m as [a|e]; cbn; split.
  - eauto.
  - now intros (a' & [= <-] & H).
  - discriminate.
  - now intros (a' & [=] & _).
Qed.

Lemma bind_ok_l {A B} (m : result A) (k : A -> result B) a :
  m = Ok a -> bind m k = k a.
Proof. now intros ->. Qed.

(** The rest of a list from an element on. *)
Lemma skipn_nth_error {A} (l : list A) n a :
  nth_error l n = Some a -> skipn n l = a :: skipn (S n) l.
Proof.
  revert l. induction n as [|n IH]; intros [|b l] E; try discriminate.
  - now injection E as ->.
  - apply (IH l E).
Qed.

(** A loop over two lists in a row. *)
Lemma fold_m_app {A S} (f : S -> A -> result S) l1 l2 s :
  fold_m f (l1 ++ l2) s = bind (fold_m f l1 s) (fold_m f l2).
Proof.
  revert s. induction l1 as [|x l1 IH]; intros s; [reflexivity|].
  cbn [app fold_m]. destruct (f s x) as [s'|e]; [apply IH | reflexivity].
Qed.

(** A loop whose body does not raise on the elements it visits is the pure
    loop. *)
Lemma fold_m_ok {A S} (f : S -> A -> result S) (g : S -> A -> S) l s :
  (forall s x, In x l -> f s x = Ok (g s x)) ->
  fold_m f l s = Ok (fold_left g l s).
Proof.
  revert s. induction l as [|a l IH]; intros s H; cbn; [reflexivity|].
  rewrite H by now left. cbn. apply IH. intros; apply H. now right.
Qed.

Lemma forallb_m_ok {A} (p : A -> result bool) (q : A -> bool) l :
  (forall x, In x l -> p x = Ok (q x)) ->
  forallb_m p l = Ok (forallb q l).
Proof.
  induction l as [|a l IH]; intros H; cbn; [reflexivity|].
  rewrite H by now left. cbn. destruct (q a); [|reflexivity].
  apply IH. intros; apply H. now right.
Qed.

Lemma find_m_ok {A} (p : A -> result bool) (q : A -> bool) l :
  (forall x, In x l -> p x = Ok (q x)) ->
  find_m p l = Ok (find q l).
Proof.
  induction l as [|a l IH]; intros H; cbn; [reflexivity|].
  rewrite H by now left. cbn. destruct (q a); [reflexivity|].
  apply IH. intros; apply H. now right.
Qed.

(** Loops over the same elements with bodies that agree on them agree. *)
Lemma find_m_ext {A} (p q : A -> result bool) l :
  (forall x, In x l -> p x = q x) -> find_m p l = find_m q l.
Proof.
  induction l as [|a l IH]; intros H; cbn; [reflexivity|].
  rewrite H by now left. rewrite IH; [reflexivity|]. intros; apply H. now right.
Qed.

Lemma forallb_m_ext {A} (p q : A -> result bool) l :
  (forall x, In x l -> p x = q x) -> forallb_m p l = forallb_m q l.
Proof.
  induction l as [|a l IH]; intros H; cbn; [reflexivity|].
  rewrite H by now left. rewrite IH; [reflexivity|]. intros; apply H. now right.
Qed.

(** ** Ranges *)

Lemma range_nil lo hi : hi <= lo -> range lo hi = [].
Proof.
  intros H. unfold range.
  now replace (Z.to_nat (hi - lo)) with 0%nat by lia.
Qed.

Lemma range_cons lo hi : lo < hi -> range lo hi = lo :: range (lo + 1) hi.
Proof.
  intros H. unfold range.
  replace (Z.to_nat (hi - lo)) with (S (Z.to_nat (hi - (lo + 1)))) by lia.
  cbn [seq map]. f_equal; [lia|].
  rewrite <- seq_shift, map_map. apply map_ext. intros; lia.
Qed.

Lemma range_snoc lo hi : lo < hi -> range lo hi = range lo (hi - 1) ++ [hi - 1].
Proof.
  intros H. unfold range.
  replace (Z.to_nat (hi - lo)) with (S (Z.to_nat (hi - 1 - lo))) by lia.
  rewrite seq_S, map_app. cbn. do 2 f_equal. lia.
Qed.

Lemma NoDup_range lo hi : NoDup (range lo hi).
Proof.
  unfold range. apply Injective_map_NoDup; [|apply seq_NoDup].
  intros a b E. lia.
Qed.

Lemma nth_error_range lo hi k :
  0 <= k < hi - lo -> nth_error (range lo hi) (Z.to_nat k) = Some (lo + k).
Proof.
  intros Hk. unfold range. rewrite nth_error_map, nth_error_seq.
  replace (Z.to_nat k <? Z.to_nat (hi - lo))%nat with true
    by (symmetry; apply Nat.ltb_lt; lia).
  cbn. f_equal. lia.
Qed.

Lemma range_length lo hi : length (range lo hi) = Z.to_nat (hi - lo).
Proof. unfold range. now rewrite length_map, length_seq. Qed.

Lemma in_range lo hi x : In x (range lo hi) <-> lo <= x < hi.
Proof.
  unfold range. rewrite in_map_iff. split.
  - intros (i & <- & Hi). apply in_seq in Hi. lia.
  - intros H. exists (Z.to_nat (x - lo)). split; [lia|]. apply in_seq. lia.
Qed.

Lemma range_down_nil hi lo : hi <= lo -> range_down hi lo = [].
Proof.
  intros H. unfold range_down.
  now replace (Z.to_nat (hi - lo)) with 0%nat by lia.
Qed.

Lemma range_down_cons hi lo :
  lo < hi -> range_down hi lo = hi :: range_down (hi - 1) lo.
Proof.
  intros H. unfold range_down.
  replace (Z.to_nat (hi - lo)) with (S (Z.to_nat (hi - 1 - lo))) by lia.
  cbn [seq map]. f_equal; [lia|].
  rewrite <- seq_shift, map_map. apply map_ext. intros; lia.
Qed.

Lemma in_range_down hi lo x : In x (range_down hi lo) <-> lo < x <= hi.
Proof.
  unfold range_down. rewrite in_map_iff. split.
  - intros (i & <- & Hi). apply in_seq in Hi. lia.
  - intros H. exists (Z.to_nat (hi - x)). split; [lia|]. apply in_seq. lia.
Qed.

(** Induction on the length of an ascending (resp. descending) range. *)
Lemma range_ind (P : Z -> Z -> Prop) :
  (forall lo hi, hi <= lo -> P lo hi) ->
  (forall lo hi, lo < hi -> P (lo + 1) hi -> P lo hi) ->
  forall lo hi, P lo hi.
Proof.
  intros Hnil Hcons lo hi.
  remember (Z.to_nat (hi - lo)) as n eqn:E. revert lo E.
  induction n as [|n IH]; intros lo E.
  - apply Hnil. lia.
  - apply Hcons; [lia|]. apply IH. lia.
Qed.

Lemma range_down_ind (P : Z -> Z -> Prop) :
  (forall hi lo, hi <= lo -> P hi lo) ->
  (forall hi lo, lo < hi -> P (hi - 1) lo -> P hi lo) ->
  forall hi lo, P hi lo.
Proof.
  intros Hnil Hcons hi lo.
  remember (Z.to_nat (hi - lo)) as n eqn:E. revert hi E.
  induction n as [|n IH]; intros hi E.
  - apply Hnil. lia.
  - apply Hcons; [lia|]. apply IH. lia.
Qed.

(** ** Scans over ranges

    A [for] loop that breaks at the first index satisfying [p] is [find p]
    over the range; a loop that clears a flag and breaks at the first
    counterexample is [forallb]. *)

(** [find] on two lists in a row. *)
Lemma find_app {A} (f : A -> bool) l1 l2 :
  find f (l1 ++ l2) = match find f l1 with Some x => Some x | None => find f l2 end.
Proof. induction l1 as [|a l1 IH]; [reflexivity|]. cbn. now destruct (f a). Qed.

Lemma find_range_Some p lo hi x :
  find p (range lo hi) = Some x <->
  lo <= x < hi /\ p x = true /\ forall y, lo <= y < x -> p y = false.
Proof.
  revert x. pattern lo, hi. apply range_ind; clear lo hi; intros lo hi H.
  - rewrite range_nil by lia. cbn. split; [discriminate | lia].
  - intros IH x. rewrite range_cons by lia. cbn [find].
    destruct (p lo) eqn:E.
    + split.
      * intros [= <-]. repeat split; try lia; auto.
      * intros (Hx & Hp & Hmin). f_equal.
        destruct (Z.eq_dec lo x); [auto|]. rewrite Hmin in E by lia. discriminate.
    + rewrite IH. split; intros (Hx & Hp & Hmin); (split; [|split; [assumption|]]).
      * lia.
      * intros y Hy. destruct (Z.eq_dec y lo) as [->|]; [assumption|]. apply Hmin; lia.
      * destruct (Z.eq_dec lo x) as [->|]; [congruence|lia].
      * intros y Hy. apply Hmin. lia.
Qed.

Lemma find_range_None p lo hi :
  find p (range lo hi) = None <-> forall y, lo <= y < hi -> p y = false.
Proof.
  split.
  - intros H y Hy. apply (find_none _ _ H). now apply in_range.
  - intros H. destruct (find p (range lo hi)) as [x|] eqn:E; [|reflexivity].
    apply find_range_Some in E as (Hx & Hp & _). rewrite H in Hp by lia. discriminate.
Qed.

Lemma find_range_down_Some p hi lo x :
  find p (range_down hi lo) = Some x <->
  lo < x <= hi /\ p x = true /\ forall y, x < y <= hi -> p y = false.
Proof.
  revert x. pattern hi, lo. apply range_down_ind; clear hi lo; intros hi lo H.
  - rewrite range_down_nil by lia. cbn. split; [discriminate | lia].
  - intros IH x. rewrite range_down_cons by lia. cbn [find].
    destruct (p hi) eqn:E.
    + split.
      * intros [= <-]. repeat split; try lia; auto.
      * intros (Hx & Hp & Hmax). f_equal.
        destruct (Z.eq_dec hi x); [auto|]. rewrite Hmax in E by lia. discriminate.
    + rewrite IH. split; intros (Hx & Hp & Hmax); (split; [|split; [assumption|]]).
      * lia.
      * intros y Hy. destruct (Z.eq_dec y hi) as [->|]; [assumption|]. apply Hmax; lia.
      * destruct (Z.eq_dec hi x) as [->|]; [congruence|lia].
      * intros y Hy. apply Hmax. lia.
Qed.

Lemma find_range_down_None p hi lo :
  find p (range_down hi lo) = None <-> forall y, lo < y <= hi -> p y = false.
Proof.
  split.
  - intros H y Hy. apply (find_none _ _ H). now apply in_range_down.
  - intros H. destruct (find p (range_down hi lo)) as [x|] eqn:E; [|reflexivity].
    apply find_range_down_Some in E as (Hx & Hp & _). rewrite H in Hp by lia. discriminate.
Qed.

Lemma forallb_range p lo hi :
  forallb p (range lo hi) = true <-> forall y, lo <= y < hi -> p y = true.
Proof.
  rewrite forallb_forall. split; intros H y Hy; apply H; now apply in_range.
Qed.

Lemma forallb_false_In {A} (p : A -> bool) l :
  forallb p l = false <-> exists x, In x l /\ p x = false.
Proof.
  induction l as [|a l IH]; cbn.
  - split; [discriminate | now intros (x & [] & _)].
  - rewrite andb_false_iff, IH. split.
    + intros [H | (x & Hx & Hp)]; eauto.
    + intros (x & [<- | Hx] & Hp); eauto.
Qed.

Lemma forallb_range_false p lo hi :
  forallb p (range lo hi) = false <-> exists y, lo <= y < hi /\ p y = false.
Proof.
  rewrite forallb_false_In.
  split; intros (y & H1 & H2); exists y; split; auto; now apply in_range.
Qed.

Lemma existsb_range p lo hi :
  existsb p (range lo hi) = true <-> exists y, lo <= y < hi /\ p y = true.
Proof.
  rewrite existsb_exists. split; intros (y & H1 & H2); exists y; split; auto;
    now apply in_range.
Qed.

Lemma existsb_range_false p lo hi :
  existsb p (range lo hi) = false <-> forall y, lo <= y < hi -> p y = false.
Proof.
  rewrite <- not_true_iff_false, existsb_range. split.
  - intros H y Hy. destruct (p y) eqn:E; [|reflexivity]. exfalso; eauto.
  - intros H (y & Hy & Hp). rewrite H in Hp by lia. discriminate.
Qed.

(** ** The loop rule

    An invariant [I k s] of the state before iteration [k] that every
    iteration re-establishes holds at the exit; with it the loop does not
    raise. *)

Lemma fold_m_range_inv {S} (I : Z -> S -> Prop) (f : S -> Z -> result S) lo hi s :
  lo <= hi -> I lo s ->
  (forall k s, lo <= k < hi -> I k s -> exists s', f s k = Ok s' /\ I (k + 1) s') ->
  exists s', fold_m f (range lo hi) s = Ok s' /\ I hi s'.
Proof.
  revert s. pattern lo, hi. apply range_ind; clear lo hi; intros lo hi H.
  - intros s Hle Hs _. rewrite range_nil by lia. replace hi with lo by lia.
    exists s. now split.
  - intros IH s _ Hs Hstep. rewrite range_cons by lia. cbn [fold_m].
    destruct (Hstep lo s ltac:(lia) Hs) as (s1 & -> & Hs1). cbn [bind].
    apply IH; [lia | assumption |]. intros k s2 Hk. apply Hstep. lia.
Qed.

Lemma fold_left_range_inv {S} (I : Z -> S -> Prop) (f : S -> Z -> S) lo hi s :
  lo <= hi -> I lo s ->
  (forall k s, lo <= k < hi -> I k s -> I (k + 1) (f s k)) ->
  I hi (fold_left f (range lo hi) s).
Proof.
  revert s. pattern lo, hi. apply range_ind; clear lo hi; intros lo hi H.
  - intros s Hle Hs _. rewrite range_nil by lia. now replace hi with lo by lia.
  - intros IH s _ Hs Hstep. rewrite range_cons by lia. cbn [fold_left].
    apply IH; [lia | apply Hstep; [lia | assumption] |].
    intros k s2 Hk. apply Hstep. lia.
Qed.

#[export] Hint Resolve -> in_range in_range_down : proxify.
#[export] Hint Resolve <- in_range in_range_down : proxify.

(** ** Logged computations *)

Lemma lbind_lret {D A B} (a : A) (k : A -> logged D B) : lbind (lret a) k = k a.
Proof. unfold lbind, lret. destruct (k a). reflexivity. Qed.

Lemma lbind_silent {D A B} (a : A) (k : A -> logged D B) :
  lbind (Ok a, []) k = k a.
Proof. apply lbind_lret. Qed.

Lemma lbind_lift_Ok {D A B} (a : A) (k : A -> logged D B) :
  lbind (lift (Ok a)) k = k a.
Proof. apply lbind_lret. Qed.

Lemma lbind_lift_Raise {D A B} e (k : A -> logged D B) :
  lbind (lift (Raise e)) k = (Raise e, []).
Proof. reflexivity. Qed.

Lemma lbind_tell {D B} (d : D) (k : unit -> logged D B) :
  lbind (tell d) k = (fst (k tt), d :: snd (k tt)).
Proof. unfold lbind, tell. destruct (k tt). reflexivity. Qed.

Lemma lbind_right_id {D A} (m : logged D A) : lbind m lret = m.
Proof. destruct m as [[a|e] l]; cbn; [rewrite app_nil_r|]; reflexivity. Qed.

Lemma lbind_assoc {D A B C} (m : logged D A) (k : A -> logged D B)
    (k' : B -> logged D C) :
  lbind (lbind m k) k' = lbind m (fun a => lbind (k a) k').
Proof.
  destruct m as [[a|e] l]; cbn; [|reflexivity].
  destruct (k a) as [[b|e] l1]; cbn; [|reflexivity].
  destruct (k' b) as [r l2]. now rewrite app_assoc.
Qed.

Lemma lbind_tell_all {D B} (l : list D) (k : unit -> logged D B) :
  lbind (tell_all l) k = (fst (k tt), l ++ snd (k tt)).
Proof. unfold lbind, tell_all. destruct (k tt). reflexivity. Qed.

(** What a computation returns or raises, its messages put aside, is what
    the computation without its prints does. *)
Lemma fst_lbind {D A B} (m : logged D A) (k : A -> logged D B) :
  fst (lbind m k) = bind (fst m) (fun a => fst (k a)).
Proof. destruct m as [[a|e] l]; cbn; [destruct (k a)|]; reflexivity. Qed.

Lemma bind_ext {A B} (m : result A) (k k' : A -> result B) :
  (forall a, k a = k' a) -> bind m k = bind m k'.
Proof. intros E. destruct m; cbn; [apply E | reflexivity]. Qed.

Lemma lbind_ext {D A B} (m : logged D A) (k k' : A -> logged D B) :
  (forall a, k a = k' a) -> lbind m k = lbind m k'.
Proof. intros E. destruct m as [[a|e] l]; cbn; [now rewrite E | reflexivity]. Qed.

(** One element more of a prefix. *)
Lemma firstn_snoc {A} (l : list A) n x :
  nth_error l n = Some x -> firstn (S n) l = firstn n l ++ [x].
Proof.
  revert n. induction l as [|a l IH]; intros [|n] E; try discriminate.
  - now injection E as ->.
  - cbn [firstn app]. f_equal. now apply IH.
Qed.

Lemma firstn_past {A} (l : list A) n :
  nth_error l n = None -> firstn (S n) l = firstn n l.
Proof.
  intros E%nth_error_None. now rewrite !firstn_all2 by lia.
Qed.

(** Bind with the same computation and continuations that agree. *)
Lemma lbind_cong {D A B} (m m' : logged D A) (k k' : A -> logged D B) :
  m = m' -> (forall a, k a = k' a) -> lbind m k = lbind m' k'.
Proof. intros <-. apply lbind_ext. Qed.

(** What [lbind] returns, by cases: the first computation returned and the
    continuation printed after it. *)
Lemma lbind_Ok_inv {D A B} (m : logged D A) (k : A -> logged D B) b l :
  lbind m k = (Ok b, l) ->
  exists a l1 l2, m = (Ok a, l1) /\ k a = (Ok b, l2) /\ l = l1 ++ l2.
Proof.
  destruct m as [[a|e] l1]; cbn [lbind]; [|discriminate].
  destruct (k a) as [r l2] eqn:E. intros [= -> <-]. now exists a, l1, l2.
Qed.

(** *** Seeing a log through a function *)

Lemma log_map_lret {D E A} (f : D -> list E) (a : A) : log_map f (lret a) = lret a.
Proof. reflexivity. Qed.

Lemma log_map_lift {D E A} (f : D -> list E) (m : result A) : log_map f (lift m) = lift m.
Proof. reflexivity. Qed.

Lemma log_map_tell {D E} (f : D -> list E) (d : D) : log_map f (tell d) = tell_all (f d).
Proof. unfold log_map, tell, tell_all. cbn. now rewrite app_nil_r. Qed.

Lemma log_map_lbind {D E A B} (f : D -> list E) (m : logged D A) (k : A -> logged D B) :
  log_map f (lbind m k) = lbind (log_map f m) (fun a => log_map f (k a)).
Proof.
  destruct m as [[a|e] l]; unfold log_map; cbn [lbind fst snd]; [|reflexivity].
  destruct (k a) as [r l']. cbn [fst snd]. now rewrite flat_map_app.
Qed.

Lemma log_map_tell_all {D E} (f : D -> list E) (l : list D) :
  log_map f (tell_all l) = tell_all (flat_map f l).
Proof. reflexivity. Qed.

Lemma log_map_log_map {D E F A} (f : D -> list E) (g : E -> list F) (m : logged D A) :
  log_map g (log_map f m) = log_map (fun d => flat_map g (f d)) m.
Proof.
  unfold log_map. cbn [fst snd]. f_equal.
  induction (snd m) as [|d l IH]; [reflexivity|]. cbn [flat_map].
  now rewrite flat_map_app, IH.
Qed.

Lemma log_map_ext {D E A} (f g : D -> list E) (m : logged D A) :
  (forall d, f d = g d) -> log_map f m = log_map g m.
Proof. intros H. unfold log_map. f_equal. apply flat_map_ext. exact H. Qed.

Lemma log_map_id {D A} (m : logged D A) : log_map (fun d => [d]) m = m.
Proof.
  destruct m as [r l]. unfold log_map. cbn [fst snd]. f_equal.
  induction l as [|d l IH]; [reflexivity|]. cbn [flat_map app]. now rewrite IH.
Qed.

Lemma log_map_hide {D E A} (m : logged D A) : log_map (fun _ => @nil E) m = lift (fst m).
Proof.
  unfold log_map, lift. f_equal. induction (snd m) as [|d l IH]; [reflexivity | exact IH].
Qed.

Lemma fold_log_app {D A S} (f : S -> A -> logged D S) l1 l2 s :
  fold_log f (l1 ++ l2) s = lbind (fold_log f l1 s) (fold_log f l2).
Proof.
  revert s. induction l1 as [|a l1 IH]; intros s; cbn [fold_log app].
  - now rewrite lbind_silent.
  - rewrite lbind_assoc. apply lbind_ext. intros s'. apply IH.
Qed.

Lemma fold_log_ext {D A S} (f g : S -> A -> logged D S) l s :
  (forall s a, f s a = g s a) -> fold_log f l s = fold_log g l s.
Proof.
  intros E. revert s. induction l as [|a l IH]; intros s; [reflexivity|].
  cbn [fold_log]. rewrite E. now apply lbind_ext.
Qed.

Lemma log_map_fold_log {D E A S} (h : D -> list E) (f : S -> A -> logged D S) l s :
  log_map h (fold_log f l s) = fold_log (fun s a => log_map h (f s a)) l s.
Proof.
  revert s. induction l as [|a l IH]; intros s; [reflexivity|].
  cbn [fold_log]. rewrite log_map_lbind. now apply lbind_ext.
Qed.

(** A loop whose turns are known: the state after [q] turns and what the
    turns printed, turn by turn. *)
Lemma fold_log_turns {D A S} (f : S -> A -> logged D S) (at_turn : Z -> A)
    (state : Z -> S) (printed : Z -> list D) q :
  0 <= q ->
  (forall j, 0 <= j < q -> f (state j) (at_turn j) = (Ok (state (j + 1)), printed j)) ->
  fold_log f (map at_turn (range 0 q)) (state 0)
  = (Ok (state q), flat_map printed (range 0 q)).
Proof.
  intros Hq. pattern q. apply natlike_ind; [reflexivity| |assumption]. clear q Hq.
  intros q Hq IH T. unfold Z.succ. rewrite range_snoc by lia.
  replace (q + 1 - 1) with q by lia.
  rewrite map_app, fold_log_app, IH by (intros; apply T; lia).
  cbn [map fold_log lbind]. rewrite T by lia. cbn [lbind].
  rewrite flat_map_app. cbn [flat_map]. now rewrite !app_nil_r.
Qed.

Lemma flat_map_map {A B C} (f : B -> list C) (g : A -> B) l :
  flat_map f (map g l) = flat_map (fun a => f (g a)) l.
Proof. induction l as [|a l IH]; [reflexivity|]. cbn [map flat_map]. now rewrite IH. Qed.

Lemma flat_map_single {A B} (f : A -> B) l : flat_map (fun a => [f a]) l = map f l.
Proof. induction l as [|a l IH]; [reflexivity|]. cbn [map flat_map app]. now rewrite IH. Qed.

Lemma fst_fold_log {D A S} (f : S -> A -> logged D S) (g : S -> A -> result S) l s :
  (forall s a, fst (f s a) = g s a) -> fst (fold_log f l s) = fold_m g l s.
Proof.
  intros E. revert s. induction l as [|a l IH]; intros s; [reflexivity|].
  cbn [fold_log fold_m]. rewrite fst_lbind, E. now apply bind_ext.
Qed.

(** ** What a logged computation returns *)

Section Returns.
Context {D : Type} (L : D -> Prop).

Lemma returns_lret {A} (a : A) (P : A -> Prop) : P a -> returns (lret a) P L.
Proof. intros H. exists a, []. auto. Qed.

Lemma returns_lift {A} (m : result A) a (P : A -> Prop) :
  m = Ok a -> P a -> returns (lift m) P L.
Proof. intros -> H. exists a, []. auto. Qed.

Lemma returns_tell (d : D) : L d -> returns (tell d) (fun _ => True) L.
Proof. intros H. exists tt, [d]. auto. Qed.

Lemma returns_bind {A B} (m : logged D A) (k : A -> logged D B)
    (P : A -> Prop) (Q : B -> Prop) :
  returns m P L -> (forall a, P a -> returns (k a) Q L) ->
  returns (lbind m k) Q L.
Proof.
  intros (a & l & -> & Pa & Ll) K. destruct (K a Pa) as (b & l' & E & Qb & Ll').
  exists b, (l ++ l'). cbn. rewrite E. repeat split; [assumption|].
  apply Forall_app. auto.
Qed.

Lemma returns_weaken {A} (m : logged D A) (P Q : A -> Prop) :
  returns m P L -> (forall a, P a -> Q a) -> returns m Q L.
Proof. intros (a & l & E & Pa & Ll) W. exists a, l. auto. Qed.

Lemma returns_if {A} (c : bool) (m n : logged D A) (P : A -> Prop) :
  (c = true -> returns m P L) -> (c = false -> returns n P L) ->
  returns (if c then m else n) P L.
Proof. destruct c; auto. Qed.

End Returns.

Lemma returns_silent {D A} (m : logged D A) a (P : A -> Prop) (L : D -> Prop) :
  m = (Ok a, []) -> P a -> returns m P L.
Proof. intros -> H. exists a, []. auto. Qed.

(** ** What a logged computation ensures *)

Lemma ensures_lret {D A} (a : A) (P : A -> Prop) : P a -> ensures (D:=D) (lret a) P.
Proof. intros H b l [= <- _]. exact H. Qed.

Lemma ensures_lift {D A} (m : result A) (P : A -> Prop) :
  (forall a, m = Ok a -> P a) -> ensures (D:=D) (lift m) P.
Proof. intros H a l [= -> _]. now apply H. Qed.

Lemma ensures_bind {D A B} (m : logged D A) (k : A -> logged D B)
    (P : A -> Prop) (Q : B -> Prop) :
  ensures m P -> (forall a, P a -> ensures (k a) Q) -> ensures (lbind m k) Q.
Proof.
  intros Hm Hk b l. destruct m as [[a|e] l0]; cbn [lbind]; [|discriminate].
  destruct (k a) as [r l1] eqn:Ek. intros [= -> _].
  eapply Hk; [|exact Ek]. now apply (Hm a l0).
Qed.

Lemma ensures_any {D A} (m : logged D A) : ensures m (fun _ => True).
Proof. now intros a l _. Qed.

Lemma returns_ensures {D A} (m : logged D A) (P : A -> Prop) (L : D -> Prop) :
  returns m P L -> ensures m P.
Proof. intros (a & l & -> & Pa & _) b l' [= <- _]. exact Pa. Qed.

(** ** Computations that raise *)

Lemma lbind_raises {D A B} (m : logged D A) (k : A -> logged D B) e :
  fst m = Raise e -> fst (lbind m k) = Raise e.
Proof. destruct m as [[a|e'] l]; cbn; intros E; [discriminate | now injection E as ->]. Qed.

Lemma lbind_returns_raises {D A B} (m : logged D A) (k : A -> logged D B)
    (P : A -> Prop) (L : D -> Prop) e :
  returns m P L -> (forall a, P a -> fst (k a) = Raise e) ->
  fst (lbind m k) = Raise e.
Proof.
  intros (a & l & -> & Pa & _) K. specialize (K a Pa). cbn.
  destruct (k a) as [r l']. exact K.
Qed.

(** ** Related outcomes *)

Lemma result_rel_eq {A} (m n : result A) : result_rel eq m n <-> m = n.
Proof.
  destruct m, n; cbn; split; try congruence; try contradiction; discriminate.
Qed.

Lemma bind_rel {A A' B B'} (R : A -> A' -> Prop) (S : B -> B' -> Prop) m m' k k' :
  result_rel R m m' -> (forall a a', R a a' -> result_rel S (k a) (k' a')) ->
  result_rel S (bind m k) (bind m' k').
Proof. destruct m, m'; cbn; try contradiction; auto. Qed.

Lemma lbind_rel {D A A' B B'} (R : A -> A' -> Prop) (S : B -> B' -> Prop)
    (m : logged D A) (m' : logged D A') k k' :
  logged_rel R m m' -> (forall a a', R a a' -> logged_rel S (k a) (k' a')) ->
  logged_rel S (lbind m k) (lbind m' k').
Proof.
  destruct m as [[a|e] l], m' as [[a'|e'] l']; intros [Hr El]; cbn in Hr, El;
    try contradiction; subst l'.
  - intros Hk. destruct (Hk a a' Hr) as [Hs El]. cbn [lbind].
    destruct (k a) as [r1 l1], (k' a') as [r2 l2]. cbn in *. subst l2. now split.
  - intros _. now split.
Qed.

Lemma lift_rel {D A B} (R : A -> B -> Prop) m n :
  result_rel R m n -> logged_rel (D:=D) R (lift m) (lift n).
Proof. now split. Qed.

Lemma logged_rel_refl {D A} (m : logged D A) : logged_rel eq m m.
Proof. split; [now apply result_rel_eq | reflexivity]. Qed.

Lemma fold_m_ext {A S} (f g : S -> A -> result S) l s :
  (forall s x, In x l -> f s x = g s x) -> fold_m f l s = fold_m g l s.
Proof.
  revert s. induction l as [|a l IH]; intros s E; [reflexivity|].
  cbn [fold_m]. rewrite E by now left.
  destruct (g s a); [apply IH; intros; apply E; now right | reflexivity].
Qed.

Lemma lret_rel {D A B} (R : A -> B -> Prop) a b :
  R a b -> logged_rel (D:=D) R (lret a) (lret b).
Proof. now split. Qed.

(** A step both sides compute alike. *)
Lemma lbind_same {D A B B'} (S : B -> B' -> Prop) (m : logged D A) k k' :
  (forall a, logged_rel S (k a) (k' a)) ->
  logged_rel S (lbind m k) (lbind m k').
Proof.
  intros Hk. apply (lbind_rel eq S); [apply logged_rel_refl|]. now intros a _ <-.
Qed.

(** A print that satisfies the log predicate by computation, then the rest. *)
Ltac tell_then :=
  eapply returns_bind; [apply returns_tell; discriminate | intros _ _].

(** ** Automation

    The rewriting database [logged] runs the steps of a computation whose
    outcome is known; the database [proxify] proves that a computation made
    of tests, prints and returns has a result, leaving the facts on the
    value returned to [auto]. *)
Create Rewrite HintDb logged.
#[export] Hint Rewrite @lbind_lret @lbind_silent @lbind_lift_Ok @lbind_lift_Raise
  : logged.

Ltac log_simpl := autorewrite with logged.

#[export] Hint Resolve returns_lret ensures_lret : proxify.
#[export] Hint Extern 2 (returns (lbind (tell _) _) _ _) => tell_then : proxify.
#[export] Hint Extern 2 (returns (if _ then _ else _) _ _) =>
  (apply returns_if; intros ?) : proxify.
