(* ===== verification/Binary64.v ===== *)
(** * Binary64: the floating-point numbers of Python

    Python's [float] is IEEE 754 binary64.  The program multiplies and
    divides pixel counts by floats and rounds them back to integers
    ([int(height * 0.05)], [round(BORDER_LEFT_PX / scale_w)]), so a faithful
    model needs the rounding of each operation.

    A finite float is a pair mantissa/exponent [Float m e] of value
    [m * 2^e].  [rn x] rounds a rational to the nearest such number with a
    53-bit mantissa, ties to even; every operation is the exact rational
    operation followed by [rn], which is how IEEE 754 defines them.  The
    exponent is unbounded: overflow, subnormals, infinities and NaN are not
    modelled.  This is exact for magnitudes in [2^-1022, 2^1024), which the
    program never leaves (its floats are ratios and products of pixel counts
    and of the millimetre constants of the configuration).

    The theory shows that [rn] is within half a unit in the last place of
    its argument ([rn_error], [rn_rel_error]), the identity on representable
    numbers ([rn_exact]) and monotone ([rn_monotone]); [rn_up_to_Z] and
    [ftrunc_unique] turn these into the value of [int(x * c)]. *)

From Stdlib Require Import ZArith QArith Qround Qabs Qpower List Lia Lqa Morphisms.
Import ListNotations.
From S2P Require Import Prelude.
Local Open Scope Z_scope.

(** ** Numbers *)

Record float : Type := Float { Fnum : Z; Fexp : Z }.

(** 2^e as a rational, for any integer e. *)
Definition pow2 (e : Z) : Q := Qpower 2 e.

(** The value of a float. *)
Definition F2Q (f : float) : Q := inject_Z (Fnum f) * pow2 (Fexp f).

(** Number of mantissa bits of binary64. *)
Definition prec : Z := 53.

(** ** Rounding *)

(** [rne a b], for [0 < b], is the integer nearest to [a / b], ties to the
    even one. *)
Definition rne (a b : Z) : Z :=
  let q := a / b in
  let r := a mod b in
  if 2 * r <? b then q
  else if b <? 2 * r then q + 1
  else if Z.even q then q else q + 1.

Definition round_half_even (x : Q) : Z := rne (Qnum x) (Zpos (Qden x)).

(** [ilog2 x], for [x] not zero, is the integer [k] with
    [2^k <= |x| < 2^(k+1)].  The difference of the bit lengths of numerator
    and denominator is [k] or [k + 1]; one comparison decides. *)
Definition ilog2 (x : Q) : Z :=
  let k := Z.log2 (Z.abs (Qnum x)) - Z.log2 (Zpos (Qden x)) in
  if Qle_bool (pow2 k) (Qabs x) then k else k - 1.

(** Round to nearest, ties to even, to [prec] bits. *)
Definition rn (x : Q) : float :=
  if Qnum x =? 0 then Float 0 0
  else let e := ilog2 x - (prec - 1) in
       Float (round_half_even (x * pow2 (- e))) e.

(** ** Operations *)

(** A decimal literal [n/d] of the source text: Python reads it correctly
    rounded. *)
Definition lit (n : Z) (d : positive) : float := rn (n # d).

(** [float(n)] for an int [n]. *)
Definition of_int (n : Z) : float := rn (inject_Z n).

Definition fzero : float := Float 0 0.

Definition is_zero (x : float) : bool := Fnum x =? 0.

Definition fmul (x y : float) : float := rn (F2Q x * F2Q y).

(** Float division raises on a zero divisor. *)
Definition fdiv (x y : float) : result float :=
  if is_zero y then Raise ZeroDivisionError
  else Ok (rn (F2Q x / F2Q y)).

(** [a / b] on ints is the correctly rounded quotient. *)
Definition int_truediv (a b : Z) : result float :=
  if b =? 0 then Raise ZeroDivisionError
  else Ok (rn (Qmake a 1 / Qmake b 1)).

Definition fabs (x : float) : float := Float (Z.abs (Fnum x)) (Fexp x).

(** [x < y] *)
Definition fltb (x y : float) : bool := negb (Qle_bool (F2Q y) (F2Q x)).

(** [int(x)]: truncation toward zero. *)
Definition ftrunc (x : float) : Z :=
  let q := F2Q x in Z.quot (Qnum q) (Zpos (Qden q)).

(** [round(x)]: nearest integer, ties to even. *)
Definition fround (x : float) : Z := round_half_even (F2Q x).

(** A float is representable when its mantissa fits [prec] bits. *)
Definition representable (x : Q) : Prop :=
  exists m e, Z.abs m < 2 ^ prec /\ x == inject_Z m * pow2 e.

(** ** Tactics

    [lra] reads [inject_Z] of a numeral as an unknown; [inject_consts]
    turns such constants into fractions, and [qlra] also evaluates the
    closed arithmetic of the goal first. *)
Ltac inject_consts :=
  change (inject_Z 0) with 0%Q in *;
  repeat match goal with
  | H : context [inject_Z (Zpos ?p)] |- _ =>
      change (inject_Z (Zpos p)) with (Zpos p # 1)%Q in H
  | |- context [inject_Z (Zpos ?p)] =>
      change (inject_Z (Zpos p)) with (Zpos p # 1)%Q
  end.
Ltac qlra := cbn in *; inject_consts; lra.

(** ** Checks on concrete values *)

(** The literals of the program, as CPython reads them. *)
Example lit_0_05_bits : lit 5 100 = Float 7205759403792794 (-57).
Proof. vm_compute. reflexivity. Qed.

Example lit_0_6_bits : lit 6 10 = Float 5404319552844595 (-53).
Proof. vm_compute. reflexivity. Qed.

Example lit_25_4_bits : lit 254 10 = Float 7149464408450662 (-48).
Proof. vm_compute. reflexivity. Qed.

(** Ties go to the even integer, in both directions. *)
Example fround_ties :
  map fround [lit 5 10; lit 15 10; lit 25 10; lit (-5) 10; lit (-15) 10; lit (-25) 10]
  = [0; 2; 2; 0; -2; -2].
Proof. vm_compute. reflexivity. Qed.

Example ftrunc_toward_zero : (ftrunc (lit (-27) 10), ftrunc (lit 27 10)) = (-2, 2).
Proof. vm_compute. reflexivity. Qed.

(** ** The nearest integer *)

(** The four cases of the definition. *)
Lemma rne_cases a b :
  0 < b ->
  let q := a / b in let r := a mod b in
  (2 * r < b /\ rne a b = q) \/
  (b < 2 * r /\ rne a b = q + 1) \/
  (2 * r = b /\ Z.even q = true /\ rne a b = q) \/
  (2 * r = b /\ Z.even q = false /\ rne a b = q + 1).
Proof.
  intros Hb. cbv zeta. unfold rne.
  destruct (2 * (a mod b) <? b) eqn:E1; [left; zlia|].
  destruct (b <? 2 * (a mod b)) eqn:E2; [right; left; zlia|].
  destruct (Z.even (a / b)) eqn:E3; right; right; [left | right]; zlia.
Qed.

(** The result is within a half of the quotient. *)
Lemma rne_near a b : 0 < b -> 2 * Z.abs (rne a b * b - a) <= b.
Proof.
  intros Hb. pose proof (Z.div_mod a b ltac:(lia)) as E.
  pose proof (Z.mod_pos_bound a b Hb) as R.
  destruct (rne_cases a b Hb) as [[? ->]|[[? ->]|[(? & ? & ->)|(? & ? & ->)]]]; nia.
Qed.

(** In a tie the result is even. *)
Lemma rne_tie_even a b :
  0 < b -> 2 * Z.abs (rne a b * b - a) = b -> Z.even (rne a b) = true.
Proof.
  intros Hb. pose proof (Z.div_mod a b ltac:(lia)) as E.
  pose proof (Z.mod_pos_bound a b Hb) as R.
  destruct (rne_cases a b Hb) as [[? ->]|[[? ->]|[(? & ? & ->)|(? & Ev & ->)]]];
    intros T; try nia; auto.
  rewrite Z.even_add, Ev. reflexivity.
Qed.

(** The nearest integer, ties to even, is unique. *)
Lemma rne_unique a b k :
  0 < b -> 2 * Z.abs (k * b - a) <= b ->
  (2 * Z.abs (k * b - a) = b -> Z.even k = true) ->
  rne a b = k.
Proof.
  intros Hb Hk Ek. pose proof (rne_near a b Hb) as Hn.
  pose proof (rne_tie_even a b Hb) as En.
  assert (D : rne a b = k \/ rne a b = k + 1 \/ rne a b = k - 1) by nia.
  destruct D as [D | [D | D]]; [assumption | exfalso ..].
  - assert (T1 : 2 * Z.abs (rne a b * b - a) = b) by nia.
    assert (T2 : 2 * Z.abs (k * b - a) = b) by nia.
    specialize (En T1). specialize (Ek T2). rewrite D, Z.even_add, Ek in En. discriminate.
  - assert (T1 : 2 * Z.abs (rne a b * b - a) = b) by nia.
    assert (T2 : 2 * Z.abs (k * b - a) = b) by nia.
    specialize (En T1). specialize (Ek T2). rewrite D, Z.even_sub, Ek in En. discriminate.
Qed.

Lemma rne_exact k b : 0 < b -> rne (k * b) b = k.
Proof. intros Hb. apply rne_unique; auto; lia. Qed.

(** Two fractions with the same value round alike. *)
Lemma rne_ext a b a' b' :
  0 < b -> 0 < b' -> a * b' = a' * b -> rne a b = rne a' b'.
Proof.
  intros Hb Hb' E. symmetry. apply rne_unique; auto.
  - pose proof (rne_near a b Hb). nia.
  - intros T. apply (rne_tie_even a b Hb). pose proof (rne_near a b Hb). nia.
Qed.

(** Rounding to the nearest integer is monotone. *)
Lemma rne_monotone a b a' b' :
  0 < b -> 0 < b' -> a * b' <= a' * b -> rne a b <= rne a' b'.
Proof.
  intros Hb Hb' Le.
  pose proof (rne_near a b Hb) as N. pose proof (rne_near a' b' Hb') as N'.
  destruct (Z_le_gt_dec (rne a b) (rne a' b')) as [|G]; [assumption|exfalso].
  set (k := rne a b) in *. set (k' := rne a' b') in *.
  assert (L : (2 * k - 1) * b <= 2 * a) by lia.
  assert (U : 2 * a' <= (2 * k' + 1) * b') by lia.
  assert (L' : (2 * k - 1) * b * b' <= 2 * a * b') by (apply Z.mul_le_mono_nonneg_r; lia).
  assert (U' : 2 * a' * b <= (2 * k' + 1) * b' * b) by (apply Z.mul_le_mono_nonneg_r; lia).
  assert (M : (2 * k - 1) * (b * b') <= (2 * k' + 1) * (b * b')) by lia.
  assert (P : 0 < b * b') by lia.
  assert (D : k = k' + 1) by nia.
  assert (T1 : 2 * Z.abs (k * b - a) = b) by nia.
  assert (T2 : 2 * Z.abs (k' * b' - a') = b') by nia.
  apply (rne_tie_even a b Hb) in T1. apply (rne_tie_even a' b' Hb') in T2.
  change (Z.even k = true) in T1. change (Z.even k' = true) in T2.
  rewrite D, Z.even_add, T2 in T1. discriminate.
Qed.

Lemma rne_nonneg a b : 0 < b -> 0 <= a -> 0 <= rne a b.
Proof.
  intros Hb Ha. replace 0 with (rne (0 * b) b) at 1 by now apply rne_exact.
  apply rne_monotone; lia.
Qed.
Local Open Scope Q_scope.

(** ** Powers of two *)

Lemma two_neq_0 : ~ (2 == 0)%Q.
Proof. discriminate. Qed.

Lemma pow2_pos e : 0 < pow2 e.
Proof. apply Qpower_0_lt. reflexivity. Qed.

Lemma pow2_add a b : pow2 (a + b) == pow2 a * pow2 b.
Proof. apply Qpower_plus, two_neq_0. Qed.

Lemma pow2_opp e : pow2 (- e) == / pow2 e.
Proof. apply Qpower_opp. Qed.

Lemma pow2_Z e : (0 <= e)%Z -> pow2 e == inject_Z (2 ^ e).
Proof. intros H. unfold pow2. now rewrite Zpower_Qpower. Qed.

Lemma pow2_0 : pow2 0 == 1.
Proof. reflexivity. Qed.

Lemma pow2_succ e : pow2 (e + 1) == 2 * pow2 e.
Proof. rewrite pow2_add. change (pow2 1) with 2. ring. Qed.

Lemma pow2_le a b : (a <= b)%Z -> pow2 a <= pow2 b.
Proof. intros H. apply Qpower_le_compat_l; [assumption | discriminate]. Qed.

Lemma pow2_lt a b : (a < b)%Z -> pow2 a < pow2 b.
Proof. intros H. apply Qpower_lt_compat_l; [assumption | reflexivity]. Qed.

Lemma pow2_cancel e : pow2 e * pow2 (- e) == 1.
Proof. rewrite <- pow2_add. now replace (e + - e)%Z with 0%Z by lia. Qed.

Lemma pow2_lt_inv a b : pow2 a < pow2 b -> (a < b)%Z.
Proof.
  intros H. destruct (Z_lt_le_dec a b) as [|L]; [assumption|exfalso].
  apply pow2_le in L. lra.
Qed.

(** ** The binade of a rational *)
Lemma Qabs_frac x : Qabs x == inject_Z (Z.abs (Qnum x)) / inject_Z (Zpos (Qden x)).
Proof. destruct x as [n d]. cbn [Qabs Qnum Qden]. apply Qmake_Qdiv. Qed.

Lemma log2_bounds n : (0 < n)%Z ->
  pow2 (Z.log2 n) <= inject_Z n < pow2 (Z.log2 n + 1).
Proof.
  intros H. pose proof (Z.log2_spec n H) as [L U]. pose proof (Z.log2_nonneg n).
  rewrite !pow2_Z by lia. rewrite <- Zle_Qle, <- Zlt_Qlt.
  replace (Z.log2 n + 1)%Z with (Z.succ (Z.log2 n)) by lia. auto.
Qed.

(** [ilog2 x] is the exponent of the binade of [x]. *)
Lemma ilog2_spec x : ~ x == 0 -> pow2 (ilog2 x) <= Qabs x < pow2 (ilog2 x + 1).
Proof.
  intros Hx. unfold ilog2.
  set (n := Z.abs (Qnum x)). set (d := Zpos (Qden x)).
  assert (Hn : (0 < n)%Z).
  { destruct (Z.eq_dec (Qnum x) 0) as [E|E]; [exfalso|subst n; lia].
    apply Hx. unfold Qeq. cbn. lia. }
  assert (Hd : (0 < d)%Z) by (subst d; lia).
  pose proof (log2_bounds n Hn) as [Ln Un]. pose proof (log2_bounds d Hd) as [Ld Ud].
  set (k := (Z.log2 n - Z.log2 d)%Z) in *.
  assert (Pd : 0 < inject_Z d) by (change (inject_Z 0 < inject_Z d); now rewrite <- Zlt_Qlt).
  assert (Ex : Qabs x * inject_Z d == inject_Z n).
  { rewrite Qabs_frac. fold n d. field. lra. }
  assert (Lo : pow2 (k - 1) < Qabs x).
  { apply Qmult_lt_r with (z := inject_Z d); [assumption|]. rewrite Ex.
    apply Qlt_le_trans with (pow2 (k - 1) * pow2 (Z.log2 d + 1)).
    - apply Qmult_lt_l; [apply pow2_pos | assumption].
    - rewrite <- pow2_add. now replace (k - 1 + (Z.log2 d + 1))%Z with (Z.log2 n) by lia. }
  assert (Hi : Qabs x < pow2 (k + 1)).
  { apply Qmult_lt_r with (z := inject_Z d); [assumption|]. rewrite Ex.
    apply Qlt_le_trans with (pow2 (Z.log2 n + 1)); [assumption|].
    replace (Z.log2 n + 1)%Z with (k + 1 + Z.log2 d)%Z by lia. rewrite pow2_add.
    apply Qmult_le_l; [apply pow2_pos | assumption]. }
  destruct (Qle_bool (pow2 k) (Qabs x)) eqn:E.
  - apply Qle_bool_iff in E. split; assumption.
  - assert (Qabs x < pow2 k).
    { apply Qnot_le_lt. intros C. apply Qle_bool_iff in C. congruence. }
    replace (k - 1 + 1)%Z with k by lia. split; [apply Qlt_le_weak|]; assumption.
Qed.

Lemma ilog2_unique x k : pow2 k <= Qabs x < pow2 (k + 1) -> ilog2 x = k.
Proof.
  intros [L U].
  assert (Hx : ~ x == 0).
  { intros E. rewrite E in L. pose proof (pow2_pos k). cbn in L. lra. }
  pose proof (ilog2_spec x Hx) as [L' U'].
  assert (ilog2 x < k + 1)%Z by (apply pow2_lt_inv; lra).
  assert (k < ilog2 x + 1)%Z by (apply pow2_lt_inv; lra).
  lia.
Qed.

Lemma ilog2_ext x y : ~ x == 0 -> x == y -> ilog2 x = ilog2 y.
Proof.
  intros NZ E. symmetry. apply ilog2_unique. rewrite <- E. now apply ilog2_spec.
Qed.

(** ** Rounding a rational to an integer *)
#[export] Instance round_half_even_proper : Proper (Qeq ==> eq) round_half_even.
Proof. intros x y E. unfold round_half_even. apply rne_ext; try lia. exact E. Qed.

Lemma round_half_even_monotone x y : x <= y -> (round_half_even x <= round_half_even y)%Z.
Proof. intros L. unfold round_half_even. apply rne_monotone; try lia. exact L. Qed.

Lemma round_half_even_Z k : round_half_even (inject_Z k) = k.
Proof.
  unfold round_half_even. cbn. rewrite <- (rne_exact k 1) at 2 by lia.
  now rewrite Z.mul_1_r.
Qed.

(** [round_half_even] is within a half of its argument. *)
Lemma round_half_even_near x : Qabs (inject_Z (round_half_even x) - x) <= 1 # 2.
Proof.
  unfold round_half_even. destruct x as [n d]. cbn [Qnum Qden].
  pose proof (rne_near n (Zpos d) ltac:(lia)) as N.
  apply Qabs_Qle_condition. unfold Qle, Qminus, Qplus, Qopp, inject_Z. cbn.
  split; nia.
Qed.

Lemma round_half_even_opp x : round_half_even (- x) = (- round_half_even x)%Z.
Proof.
  unfold round_half_even. destruct x as [n d]. cbn [Qnum Qden Qopp].
  pose proof (rne_near n (Zpos d) ltac:(lia)) as N.
  apply rne_unique; [lia | lia |].
  intros T. rewrite Z.even_opp. apply (rne_tie_even n (Zpos d)); lia.
Qed.

(** ** Rounding to binary64 *)
Lemma Qnum_0_iff x : (Qnum x =? 0)%Z = true <-> x == 0.
Proof. rewrite Z.eqb_eq. unfold Qeq. cbn. lia. Qed.

Lemma rn_zero x : x == 0 -> rn x = Float 0 0.
Proof. intros E. unfold rn. now rewrite (proj2 (Qnum_0_iff x) E). Qed.

Lemma rn_nonzero x :
  ~ x == 0 ->
  rn x = Float (round_half_even (x * pow2 (- (ilog2 x - (prec - 1)))))
               (ilog2 x - (prec - 1)).
Proof.
  intros NZ. unfold rn. destruct (Qnum x =? 0)%Z eqn:E; [|reflexivity].
  apply Qnum_0_iff in E. contradiction.
Qed.

#[export] Instance pow2_proper : Proper (eq ==> Qeq) pow2.
Proof. now intros a _ <-. Qed.

#[export] Instance rn_proper : Proper (Qeq ==> eq) rn.
Proof.
  intros x y E. destruct (Qeq_dec x 0) as [Z|NZ].
  - assert (Zy : y == 0) by (transitivity x; [now symmetry | assumption]).
    now rewrite !rn_zero.
  - assert (NZ' : ~ y == 0).
    { intros Zy. apply NZ. now transitivity y. }
    rewrite !rn_nonzero by assumption.
    rewrite <- (ilog2_ext x y NZ E). f_equal.
    apply round_half_even_proper. apply Qmult_comp; [exact E | reflexivity].
Qed.

#[export] Instance F2Q_proper : Proper (eq ==> Qeq) F2Q.
Proof. now intros a _ <-. Qed.

(** The argument of [rn], scaled to its mantissa, lies in [2^52, 2^53). *)
Lemma scaled_bounds x :
  ~ x == 0 ->
  pow2 (prec - 1) <= Qabs (x * pow2 (- (ilog2 x - (prec - 1)))) < pow2 prec.
Proof.
  intros NZ. pose proof (ilog2_spec x NZ) as [L U].
  set (k := ilog2 x) in *. pose proof (pow2_pos (- (k - (prec - 1)))) as P.
  rewrite Qabs_Qmult, (Qabs_pos (pow2 _)) by lra.
  split.
  - replace (prec - 1)%Z with (k + - (k - (prec - 1)))%Z at 1 by lia.
    rewrite pow2_add. apply Qmult_le_r; assumption.
  - replace prec with (k + 1 + - (k - (prec - 1)))%Z at 2 by lia.
    rewrite pow2_add. apply Qmult_lt_r; assumption.
Qed.

Lemma F2Q_rn x :
  ~ x == 0 ->
  F2Q (rn x) ==
  inject_Z (round_half_even (x * pow2 (- (ilog2 x - (prec - 1)))))
  * pow2 (ilog2 x - (prec - 1)).
Proof. intros NZ. now rewrite rn_nonzero. Qed.

(** The absolute error of rounding is at most half a unit in the last
    place. *)
Lemma rn_error x :
  ~ x == 0 -> Qabs (F2Q (rn x) - x) <= pow2 (ilog2 x - prec).
Proof.
  intros NZ. rewrite F2Q_rn by assumption. remember (ilog2 x) as k eqn:Ek.
  set (e := (k - (prec - 1))%Z). set (t := x * pow2 (- e)).
  set (m := inject_Z (round_half_even t)).
  assert (N : Qabs (m - t) <= 1 # 2) by apply round_half_even_near.
  pose proof (pow2_pos e) as P.
  assert (Ex : x == t * pow2 e).
  { unfold t. rewrite <- Qmult_assoc, (Qmult_comm (pow2 (- e))), pow2_cancel. ring. }
  setoid_replace (m * pow2 e - x) with ((m - t) * pow2 e) by (rewrite Ex; ring).
  rewrite Qabs_Qmult, (Qabs_pos (pow2 e)) by lra.
  replace (k - prec)%Z with (-1 + e)%Z by (unfold e; lia).
  rewrite pow2_add. change (pow2 (-1)) with (1 # 2).
  apply Qmult_le_r; assumption.
Qed.

(** The relative error of rounding is at most 2^-53. *)
Lemma rn_rel_error x : Qabs (F2Q (rn x) - x) <= Qabs x * pow2 (- prec).
Proof.
  destruct (Qeq_dec x 0) as [Z|NZ].
  - rewrite (rn_zero x Z), Z. cbn. lra.
  - eapply Qle_trans; [now apply rn_error|].
    replace (ilog2 x - prec)%Z with (ilog2 x + - prec)%Z by lia. rewrite pow2_add.
    apply Qmult_le_r; [apply pow2_pos|]. now apply ilog2_spec.
Qed.

Lemma F2Q_zero e : F2Q (Float 0 e) == 0.
Proof. unfold F2Q. cbn [Fnum Fexp]. change (inject_Z 0) with 0. ring. Qed.

Lemma scaled_back x e : x * pow2 (- e) * pow2 e == x.
Proof. rewrite <- Qmult_assoc, (Qmult_comm (pow2 (- e))), pow2_cancel. ring. Qed.

(** Rounding is the identity on representable numbers. *)
Lemma rn_exact x : representable x -> F2Q (rn x) == x.
Proof.
  intros (m' & e' & Hm & Ex). destruct (Qeq_dec x 0) as [Z|NZ].
  - rewrite (rn_zero x Z), F2Q_zero. now symmetry.
  - rewrite F2Q_rn by assumption. pose proof (ilog2_spec x NZ) as [L U].
    remember (ilog2 x) as k eqn:Ek. set (e := (k - (prec - 1))%Z).
    assert (He : (e <= e')%Z).
    { apply Z.nlt_ge. intros Lt.
      assert (B : Qabs x < pow2 prec * pow2 e').
      { rewrite Ex, Qabs_Qmult, (Qabs_pos (pow2 e')) by (pose proof (pow2_pos e'); lra).
        apply Qmult_lt_r; [apply pow2_pos|].
        rewrite pow2_Z by (unfold prec; lia).
        change (Qabs (inject_Z m')) with (inject_Z (Z.abs m')).
        now rewrite <- Zlt_Qlt. }
      rewrite <- pow2_add in B.
      assert (pow2 (prec + e') <= pow2 k) by (apply pow2_le; unfold e in Lt; lia).
      lra. }
    assert (Et : x * pow2 (- e) == inject_Z (m' * 2 ^ (e' - e))).
    { rewrite Ex, inject_Z_mult, <- pow2_Z by lia.
      replace (e' - e)%Z with (e' + - e)%Z by lia. rewrite pow2_add. ring. }
    rewrite Et, round_half_even_Z, <- Et. apply scaled_back.
Qed.

Lemma ilog2_opp x : ilog2 (- x) = ilog2 x.
Proof.
  unfold ilog2. destruct x as [n d]. cbn [Qopp Qnum Qden Qabs].
  now rewrite Z.abs_opp.
Qed.

Lemma rn_opp x : rn (- x) = Float (- Fnum (rn x)) (Fexp (rn x)).
Proof.
  destruct (Qeq_dec x 0) as [Z|NZ].
  - rewrite (rn_zero x Z), rn_zero; [reflexivity|]. rewrite Z. reflexivity.
  - assert (NZ' : ~ - x == 0) by (intros E; apply NZ; lra).
    rewrite !rn_nonzero, ilog2_opp by assumption. cbn [Fnum Fexp]. f_equal.
    rewrite <- round_half_even_opp. apply round_half_even_proper. ring.
Qed.

Lemma F2Q_rn_opp x : F2Q (rn (- x)) == - F2Q (rn x).
Proof. rewrite rn_opp. unfold F2Q. cbn [Fnum Fexp]. rewrite inject_Z_opp. ring. Qed.

(** A positive number and its rounding lie in the same binade. *)
Lemma rn_binade x :
  0 < x -> pow2 (ilog2 x) <= F2Q (rn x) <= pow2 (ilog2 x + 1).
Proof.
  intros Px. assert (NZ : ~ x == 0) by lra.
  pose proof (scaled_bounds x NZ) as [L U]. rewrite F2Q_rn by assumption.
  remember (ilog2 x) as k eqn:Ek. set (e := (k - (prec - 1))%Z) in *.
  set (t := x * pow2 (- e)) in *. pose proof (pow2_pos (- e)) as P.
  assert (Pt : 0 <= t) by (unfold t; apply Qmult_le_0_compat; lra).
  rewrite (Qabs_pos t Pt) in L, U.
  assert (Lm : (2 ^ (prec - 1) <= round_half_even t)%Z).
  { rewrite <- (round_half_even_Z (2 ^ (prec - 1))).
    apply round_half_even_monotone. now rewrite <- pow2_Z by (unfold prec; lia). }
  assert (Um : (round_half_even t <= 2 ^ prec)%Z).
  { rewrite <- (round_half_even_Z (2 ^ prec)).
    apply round_half_even_monotone. rewrite <- pow2_Z by (unfold prec; lia). lra. }
  rewrite Zle_Qle, <- pow2_Z in Lm, Um by (unfold prec; lia).
  pose proof (pow2_pos e) as Pe. split.
  - replace k with (prec - 1 + e)%Z at 1 by (unfold e; lia). rewrite pow2_add.
    apply Qmult_le_r; assumption.
  - replace (k + 1)%Z with (prec + e)%Z by (unfold e; lia). rewrite pow2_add.
    apply Qmult_le_r; assumption.
Qed.

Lemma ilog2_monotone x y : 0 < x -> x <= y -> (ilog2 x <= ilog2 y)%Z.
Proof.
  intros Px Le. assert (NZx : ~ x == 0) by lra. assert (NZy : ~ y == 0) by lra.
  pose proof (ilog2_spec x NZx) as [Lx Ux]. pose proof (ilog2_spec y NZy) as [Ly Uy].
  rewrite Qabs_pos in * by lra.
  assert (ilog2 x < ilog2 y + 1)%Z by (apply pow2_lt_inv; lra). lia.
Qed.

Lemma rn_monotone_pos x y : 0 < x -> x <= y -> F2Q (rn x) <= F2Q (rn y).
Proof.
  intros Px Le. assert (Py : 0 < y) by lra.
  pose proof (ilog2_monotone x y Px Le) as K.
  destruct (Z.eq_dec (ilog2 x) (ilog2 y)) as [E|NE].
  - rewrite !F2Q_rn, <- E by lra. apply Qmult_le_r; [apply pow2_pos|].
    rewrite <- Zle_Qle. apply round_half_even_monotone.
    apply Qmult_le_r; [apply pow2_pos | assumption].
  - pose proof (rn_binade x Px) as [_ Ux]. pose proof (rn_binade y Py) as [Ly _].
    assert (pow2 (ilog2 x + 1) <= pow2 (ilog2 y)) by (apply pow2_le; lia). lra.
Qed.

Lemma rn_nonneg x : 0 <= x -> 0 <= F2Q (rn x).
Proof.
  intros Px. destruct (Qeq_dec x 0) as [Z|NZ].
  - rewrite (rn_zero x Z), F2Q_zero. lra.
  - assert (0 < x) by lra. pose proof (rn_binade x H) as [L _].
    pose proof (pow2_pos (ilog2 x)). lra.
Qed.

Lemma rn_positive x : 0 < x -> 0 < F2Q (rn x).
Proof.
  intros Px. pose proof (rn_binade x Px) as [L _].
  pose proof (pow2_pos (ilog2 x)). lra.
Qed.

(** Rounding is monotone. *)
Theorem rn_monotone x y : x <= y -> F2Q (rn x) <= F2Q (rn y).
Proof.
  intros Le. destruct (Qlt_le_dec 0 x) as [Px|Nx].
  - now apply rn_monotone_pos.
  - destruct (Qlt_le_dec y 0) as [Ny|Py].
    + (* both negative: mirror *)
      assert (M : F2Q (rn (- y)) <= F2Q (rn (- x))) by (apply rn_monotone_pos; lra).
      rewrite !F2Q_rn_opp in M. lra.
    + assert (0 <= F2Q (rn y)) by now apply rn_nonneg.
      assert (0 <= F2Q (rn (- x))) by (apply rn_nonneg; lra).
      rewrite F2Q_rn_opp in *. lra.
Qed.

(** ** Integers and floats *)

Lemma representable_Z n : (Z.abs n < 2 ^ prec)%Z -> representable (inject_Z n).
Proof. intros H. exists n, 0%Z. split; [assumption|]. rewrite pow2_0. ring. Qed.

Lemma of_int_exact n : (Z.abs n < 2 ^ prec)%Z -> F2Q (of_int n) == inject_Z n.
Proof. intros H. apply rn_exact, representable_Z, H. Qed.

Lemma floor_unique x k : inject_Z k <= x < inject_Z (k + 1) -> Qfloor x = k.
Proof.
  intros [L U]. pose proof (Qfloor_le x) as F1. pose proof (Qlt_floor x) as F2.
  assert (k < Qfloor x + 1)%Z by (rewrite Zlt_Qlt; lra).
  assert (Qfloor x < k + 1)%Z by (rewrite Zlt_Qlt; lra). lia.
Qed.

Lemma ftrunc_floor f : 0 <= F2Q f -> ftrunc f = Qfloor (F2Q f).
Proof.
  intros P. unfold ftrunc. destruct (F2Q f) as [n d]. cbn [Qnum Qden Qfloor].
  apply Z.quot_div_nonneg; [|lia]. unfold Qle in P. cbn in P. lia.
Qed.

Lemma ftrunc_unique f k :
  (0 <= k)%Z -> inject_Z k <= F2Q f < inject_Z (k + 1) -> ftrunc f = k.
Proof.
  intros Pk B. rewrite ftrunc_floor; [now apply floor_unique|].
  assert (0 <= inject_Z k) by (change 0 with (inject_Z 0); now rewrite <- Zle_Qle). lra.
Qed.

(** If an integer [N] is above [x] by less than half a unit in the last
    place of [x], then [x] rounds to [N]. *)
Lemma rn_up_to_Z x N :
  0 < x -> x <= inject_Z N -> (N < 2 ^ prec)%Z -> (ilog2 x <= prec - 1)%Z ->
  inject_Z N - x < pow2 (ilog2 x - prec) ->
  F2Q (rn x) == inject_Z N.
Proof.
  intros Px Le HN Hk Close. assert (NZ : ~ x == 0) by lra.
  assert (PN : (0 < N)%Z) by (rewrite Zlt_Qlt; change (inject_Z 0) with 0; lra).
  apply Qle_antisym.
  - rewrite <- (rn_exact (inject_Z N)) by (apply representable_Z; lia).
    now apply rn_monotone.
  - apply Qnot_lt_le. intros Lt.
    pose proof (rn_error x NZ) as Err. rewrite F2Q_rn in * by assumption.
    remember (ilog2 x) as k eqn:Ek. set (e := (k - (prec - 1))%Z) in *.
    set (m := round_half_even (x * pow2 (- e))) in *.
    assert (EN : inject_Z N == inject_Z (N * 2 ^ (- e)) * pow2 e).
    { rewrite inject_Z_mult, <- pow2_Z by lia.
      rewrite <- Qmult_assoc, (Qmult_comm (pow2 (- e))), pow2_cancel. ring. }
    pose proof (pow2_pos e) as Pe.
    assert (Hm : (m + 1 <= N * 2 ^ (- e))%Z).
    { apply Zlt_le_succ. rewrite Zlt_Qlt. apply Qmult_lt_r with (z := pow2 e); [assumption|].
      now rewrite <- EN. }
    rewrite Zle_Qle, inject_Z_plus in Hm.
    assert (Hm' : (inject_Z m + 1) * pow2 e <= inject_Z N).
    { rewrite EN. apply Qmult_le_r; assumption. }
    apply Qabs_Qle_condition in Err as [Err _].
    replace (k - prec)%Z with (-1 + e)%Z in * by (unfold e; lia).
    rewrite pow2_add in *. change (pow2 (-1)) with (1 # 2) in *.
    change (inject_Z 1) with 1 in *. lra.
Qed.

Lemma ilog2_lt x k : ~ x == 0 -> Qabs x < pow2 k -> (ilog2 x < k)%Z.
Proof.
  intros NZ H. apply pow2_lt_inv. pose proof (ilog2_spec x NZ) as [L _]. lra.
Qed.

Lemma representable_dyadic n (k : nat) :
  (Z.abs n < 2 ^ prec)%Z -> representable (inject_Z n * pow2 (- Z.of_nat k)).
Proof. intros H. exists n, (- Z.of_nat k)%Z. split; [assumption | reflexivity]. Qed.

Lemma inject_Z_div_mod a b :
  (0 < b)%Z -> inject_Z a == inject_Z b * inject_Z (a / b) + inject_Z (a mod b).
Proof.
  intros Hb. rewrite <- inject_Z_mult, <- inject_Z_plus.
  now rewrite <- (Z.div_mod a b) by lia.
Qed.

Lemma Q_of_Z_bounds a lo hi :
  (lo <= a <= hi)%Z -> inject_Z lo <= inject_Z a <= inject_Z hi.
Proof. intros [L U]. now rewrite <- !Zle_Qle. Qed.

(** ** Zero and division *)

Lemma is_zero_true f : is_zero f = true -> F2Q f == 0.
Proof.
  unfold is_zero. rewrite Z.eqb_eq. destruct f as [m e]. cbn. intros ->.
  apply F2Q_zero.
Qed.

Lemma F2Q_0_is_zero f : F2Q f == 0 -> is_zero f = true.
Proof.
  destruct f as [m e]. unfold F2Q, is_zero. cbn [Fnum Fexp]. intros Z.
  pose proof (pow2_pos e). apply Qmult_integral in Z as [Z|Z]; [|lra].
  unfold Qeq in Z. cbn in Z. zlia.
Qed.

Lemma is_zero_false f : ~ F2Q f == 0 -> is_zero f = false.
Proof.
  intros N. destruct (is_zero f) eqn:E; [|reflexivity].
  now apply is_zero_true in E.
Qed.

Lemma rn_eq_0 x : F2Q (rn x) == 0 -> x == 0.
Proof.
  intros E. destruct (Q_dec x 0) as [[N|P]|Z]; [| |assumption].
  - pose proof (rn_positive (- x) ltac:(lra)) as H. rewrite F2Q_rn_opp in H. lra.
  - pose proof (rn_positive x P). lra.
Qed.

Lemma F2Q_fabs f : F2Q (fabs f) == Qabs (F2Q f).
Proof.
  unfold F2Q, fabs. cbn [Fnum Fexp]. rewrite Qabs_Qmult.
  rewrite (Qabs_pos (pow2 _)) by (pose proof (pow2_pos (Fexp f)); lra).
  reflexivity.
Qed.

Lemma fdiv_ok x y : ~ F2Q y == 0 -> fdiv x y = Ok (rn (F2Q x / F2Q y)).
Proof. intros N. unfold fdiv. now rewrite is_zero_false. Qed.

Lemma int_truediv_ok a b : b <> 0%Z -> int_truediv a b = Ok (rn (inject_Z a / inject_Z b)).
Proof. intros N. unfold int_truediv. apply Z.eqb_neq in N. now rewrite N. Qed.

(** ** The error of a rounded quotient *)

Lemma Qmult_le_compat_nonneg_l x y z : 0 <= z -> x <= y -> z * x <= z * y.
Proof. intros Pz L. rewrite !(Qmult_comm z). now apply Qmult_le_compat_r. Qed.

Lemma quotient_perturbed a s X y u :
  0 < a -> 0 <= X -> 0 <= u <= 1 # 4 ->
  a * (1 - u) <= s <= a * (1 + u) -> y * s == X * a ->
  X * (1 - 2 * u) <= y <= X * (1 + 2 * u).
Proof.
  intros Pa PX Hu Hs E.
  assert (Pau : 0 <= a * u) by (apply Qmult_le_0_compat; lra).
  assert (Pau' : a * u <= a * (1 # 4)) by (apply Qmult_le_compat_nonneg_l; lra).
  assert (Pauu : 0 <= a * u * u) by (apply Qmult_le_0_compat; lra).
  assert (Pauu' : a * u * u <= a * u * (1 # 4))
    by (apply Qmult_le_compat_nonneg_l; lra).
  assert (Ps : 0 < s) by lra.
  assert (L : (1 - 2 * u) * s <= a).
  { apply Qle_trans with (y := (1 - 2 * u) * (a * (1 + u))).
    - apply Qmult_le_compat_nonneg_l; lra.
    - lra. }
  assert (U : a <= (1 + 2 * u) * s).
  { apply Qle_trans with (y := (1 + 2 * u) * (a * (1 - u))).
    - lra.
    - apply Qmult_le_compat_nonneg_l; lra. }
  split; apply Qmult_le_r with (z := s); try assumption; rewrite E.
  - rewrite <- Qmult_assoc. now apply Qmult_le_compat_nonneg_l.
  - rewrite <- Qmult_assoc. now apply Qmult_le_compat_nonneg_l.
Qed.

(** Two roundings of relative error [u] around a quotient by a quantity of
    relative error [u]. *)
Lemma quotient_rounded a s X y g u :
  0 < a -> 0 <= X -> 0 <= u <= 1 # 4 ->
  Qabs (s - a) <= a * u -> y * s == X * a -> Qabs (g - y) <= y * u ->
  Qabs (g - X) <= X * (4 * u).
Proof.
  intros Pa PX Hu Hs E Hg.
  apply Qabs_Qle_condition in Hs as [Hs1 Hs2].
  apply Qabs_Qle_condition in Hg as [Hg1 Hg2].
  destruct (quotient_perturbed a s X y u) as [L U]; try assumption; [lra|].
  assert (PXu : 0 <= X * u) by (apply Qmult_le_0_compat; lra).
  assert (Pyu : y * u <= X * (1 + 2 * u) * u)
    by (apply Qmult_le_compat_r; lra).
  assert (PXuu : X * u * u <= X * u * (1 # 4))
    by (apply Qmult_le_compat_nonneg_l; lra).
  apply Qabs_Qle_condition. split; lra.
Qed.

Lemma inject_Z_pos n : (0 < n)%Z -> 0 < inject_Z n.
Proof. intros H. change 0 with (inject_Z 0). now rewrite <- Zlt_Qlt. Qed.

Lemma inject_Z_nonneg n : (0 <= n)%Z -> 0 <= inject_Z n.
Proof. intros H. change 0 with (inject_Z 0). now rewrite <- Zle_Qle. Qed.

Lemma Qdiv_pos a b : 0 < a -> 0 < b -> 0 < a / b.
Proof. intros Pa Pb. apply Qlt_shift_div_l; [assumption|]. lra. Qed.

Lemma Qdiv_nonneg a b : 0 <= a -> 0 < b -> 0 <= a / b.
Proof. intros Pa Pb. apply Qle_shift_div_l; [assumption|]. lra. Qed.

(** [rn] with its relative error, for a nonnegative argument. *)
Lemma rn_rel_error_nonneg x :
  0 <= x -> Qabs (F2Q (rn x) - x) <= x * (1 # 2 ^ 53).
Proof.
  intros P. pose proof (rn_rel_error x) as H. rewrite (Qabs_pos x P) in H.
  exact H.
Qed.

(** The border [B] projected back through the rounded scale [a / c] and
    rounded again is [B * c / a] up to a relative error of 2^-51. *)
Lemma back_projection_error B a c :
  (0 <= B < 2 ^ 53)%Z -> (0 < a)%Z -> (0 < c)%Z ->
  let X := inject_Z (B * c) / inject_Z a in
  let s := rn (inject_Z a / inject_Z c) in
  Qabs (F2Q (rn (F2Q (of_int B) / F2Q s)) - X) <= X * (4 * (1 # 2 ^ 53)).
Proof.
  intros HB Ha Hc X s.
  pose proof (inject_Z_pos a Ha) as Pa. pose proof (inject_Z_pos c Hc) as Pc.
  pose proof (inject_Z_nonneg B (proj1 HB)) as PB.
  assert (Pq : 0 < inject_Z a / inject_Z c) by now apply Qdiv_pos.
  pose proof (rn_positive _ Pq) as Ps. fold s in Ps.
  rewrite (of_int_exact B) by (unfold prec; lia).
  apply quotient_rounded with (a := inject_Z a / inject_Z c) (s := F2Q s)
                              (y := inject_Z B / F2Q s).
  - assumption.
  - unfold X. rewrite inject_Z_mult. apply Qdiv_nonneg; [|assumption].
    apply Qmult_le_0_compat; lra.
  - split; apply Qle_bool_iff; reflexivity.
  - apply rn_rel_error_nonneg. lra.
  - unfold X. rewrite inject_Z_mult. field. repeat split; lra.
  - apply rn_rel_error_nonneg. apply Qdiv_nonneg; assumption.
Qed.
