(* ===== verification/PyNum.v ===== *)
(** * PyNum: Python's numbers and the built-ins the program applies to them

    A Python number is an [int] (unbounded, [Z]) or a [float]
    ([Binary64.float]).  Arithmetic on two ints stays in the ints, except
    true division; an int meeting a float is converted first.  The
    definitions follow the language reference.  [py_int], [py_round],
    [py_abs] are the built-ins [int()], [round()] with one argument and
    [abs()]. *)

From Stdlib Require Import ZArith QArith Qround Qabs Qpower Lia Lqa.
From S2P Require Import Prelude Binary64.
Local Open Scope Z_scope.

Inductive number : Type :=
| NInt (n : Z)
| NFloat (f : float).

Definition to_float (x : number) : float :=
  match x with
  | NInt n => of_int n
  | NFloat f => f
  end.

(** [x * y] *)
Definition py_mul (x y : number) : number :=
  match x, y with
  | NInt a, NInt b => NInt (a * b)
  | _, _ => NFloat (fmul (to_float x) (to_float y))
  end.

(** [x / y]: always a float; two ints are divided exactly, then rounded. *)
Definition py_truediv (x y : number) : result number :=
  match x, y with
  | NInt a, NInt b => f <- int_truediv a b ;; Ok (NFloat f)
  | _, _ => f <- fdiv (to_float x) (to_float y) ;; Ok (NFloat f)
  end%result.

(** [int(x)] *)
Definition py_int (x : number) : Z :=
  match x with
  | NInt n => n
  | NFloat f => ftrunc f
  end.

(** [round(x)] *)
Definition py_round (x : number) : Z :=
  match x with
  | NInt n => n
  | NFloat f => fround f
  end.

(** [abs(x)] *)
Definition py_abs (x : number) : number :=
  match x with
  | NInt n => NInt (Z.abs n)
  | NFloat f => NFloat (fabs f)
  end.

(** The exact value of a number. *)
Definition value (x : number) : Q :=
  match x with
  | NInt n => inject_Z n
  | NFloat f => F2Q f
  end.

(** [x > y], [x == y], [x != y]: Python compares numbers by their exact
    values, also an int with a float. *)
Definition py_gt (x y : number) : bool := negb (Qle_bool (value x) (value y)).

Definition py_eq (x y : number) : bool := Qeq_bool (value x) (value y).

Definition py_ne (x y : number) : bool := negb (py_eq x y).

(** The operands of a true division as rationals: two ints are divided
    exactly, otherwise each operand is first converted to a float. *)
Definition operand (other x : number) : Q :=
  match other, x with
  | NInt _, NInt n => inject_Z n
  | _, _ => F2Q (to_float x)
  end.

(** The float literals of the source text. *)
Definition lit_0_05 : float := lit 5 100.
Definition lit_0_50 : float := lit 50 100.
Definition lit_0_60 : float := lit 60 100.
Definition lit_1e_6 : float := lit 1 1000000.
Definition lit_1_0 : float := lit 10 10.

(** ** Concrete checks *)

Example py_int_mul_1050 :
  (py_int (py_mul (NInt 1050) (NFloat lit_0_05)),
   py_int (py_mul (NInt 1050) (NFloat lit_0_50)),
   py_int (py_mul (NInt 1050) (NFloat lit_0_60))) = (52, 525, 630).
Proof. vm_compute. reflexivity. Qed.

Example py_round_truediv :
  (f <- py_truediv (NInt 2716) (NInt 679) ;;
   g <- py_truediv (NInt 142) f ;;
   Ok (py_round g))%result = Ok 36.
Proof. vm_compute. reflexivity. Qed.

(** ** The value of [int(h * c)] *)

Local Open Scope Q_scope.


Lemma py_mul_int_float_value h c :
  (Z.abs h < 2 ^ prec)%Z ->
  value (py_mul (NInt h) (NFloat c)) == F2Q (rn (inject_Z h * F2Q c)).
Proof.
  intros H. cbn [py_mul value to_float]. unfold fmul.
  now rewrite (of_int_exact h H).
Qed.

(** [int(h * c)] is [q] as soon as the exact product lies between [q] and
    a representable number below [q + 1]. *)
Lemma py_int_mul_between h c q r :
  (0 <= q < 2 ^ prec)%Z -> (Z.abs h < 2 ^ prec)%Z ->
  inject_Z q <= inject_Z h * F2Q c -> inject_Z h * F2Q c <= r ->
  representable r -> r < inject_Z (q + 1) ->
  py_int (py_mul (NInt h) (NFloat c)) = q.
Proof.
  intros Hq Hh L U R Lt. cbn [py_int py_mul to_float]. unfold fmul.
  apply ftrunc_unique; [lia|].
  rewrite (rn_proper _ _ (Qmult_comp _ _ (of_int_exact h Hh) _ _ (Qeq_refl (F2Q c)))).
  split.
  - rewrite <- (rn_exact (inject_Z q)) by (apply representable_Z; lia).
    now apply rn_monotone.
  - apply Qle_lt_trans with (y := r); [|assumption].
    rewrite <- (rn_exact r R). now apply rn_monotone.
Qed.

Lemma lit_0_05_value : F2Q lit_0_05 == 7205759403792794 # (2 ^ 57).
Proof. apply Qeq_bool_eq. vm_compute. reflexivity. Qed.

Lemma lit_0_50_value : F2Q lit_0_50 == 1 # 2.
Proof. apply Qeq_bool_eq. vm_compute. reflexivity. Qed.

Lemma lit_0_60_value : F2Q lit_0_60 == 5404319552844595 # (2 ^ 53).
Proof. apply Qeq_bool_eq. vm_compute. reflexivity. Qed.



Theorem py_int_mul_0_05 h :
  (0 <= h < 2 ^ 48)%Z -> py_int (py_mul (NInt h) (NFloat lit_0_05)) = (h / 20)%Z.
Proof.
  intros Hh. pose proof (Z.mod_pos_bound h 20 ltac:(lia)) as Hr.
  pose proof (Z.div_mod h 20 ltac:(lia)) as Hd.
  pose proof (inject_Z_div_mod h 20 ltac:(lia)) as E.
  assert (Hq : (0 <= h / 20 <= 2 ^ 44)%Z) by lia.
  pose proof (Q_of_Z_bounds (h mod 20) 0 19 ltac:(lia)) as Hr'.
  pose proof (Q_of_Z_bounds _ _ _ Hq) as Hq'.
  pose proof (Q_of_Z_bounds h 0 (2 ^ 48) ltac:(lia)) as Hh'.
  apply py_int_mul_between
    with (r := inject_Z (32 * (h / 20) + 31) * pow2 (- Z.of_nat 5)).
  - unfold prec. lia.
  - unfold prec. lia.
  - rewrite lit_0_05_value. qlra.
  - rewrite lit_0_05_value, inject_Z_plus, inject_Z_mult.
    change (pow2 (- Z.of_nat 5)) with (1 # 32). qlra.
  - apply representable_dyadic. unfold prec. lia.
  - rewrite !inject_Z_plus, inject_Z_mult.
    change (pow2 (- Z.of_nat 5)) with (1 # 32). qlra.
Qed.

Theorem py_int_mul_0_50 h :
  (0 <= h < 2 ^ 52)%Z -> py_int (py_mul (NInt h) (NFloat lit_0_50)) = (h / 2)%Z.
Proof.
  intros Hh. pose proof (Z.mod_pos_bound h 2 ltac:(lia)) as Hr.
  pose proof (Z.div_mod h 2 ltac:(lia)) as Hd.
  pose proof (inject_Z_div_mod h 2 ltac:(lia)) as E.
  pose proof (Q_of_Z_bounds (h mod 2) 0 1 ltac:(lia)) as Hr'.
  apply py_int_mul_between
    with (r := inject_Z (2 * (h / 2) + 1) * pow2 (- Z.of_nat 1)).
  - unfold prec. lia.
  - unfold prec. lia.
  - rewrite lit_0_50_value. qlra.
  - rewrite lit_0_50_value, inject_Z_plus, inject_Z_mult.
    change (pow2 (- Z.of_nat 1)) with (1 # 2). qlra.
  - apply representable_dyadic. unfold prec. lia.
  - rewrite !inject_Z_plus, inject_Z_mult.
    change (pow2 (- Z.of_nat 1)) with (1 # 2). qlra.
Qed.

(** [0.60] is below 3/5, so the product with a multiple of 5 falls just
    below an integer; it rounds back up to it. *)
Lemma mul_0_60_multiple j :
  (0 < j < 2 ^ 50)%Z ->
  F2Q (rn (inject_Z (5 * j) * F2Q lit_0_60)) == inject_Z (3 * j).
Proof.
  intros Hj. pose proof (Q_of_Z_bounds j 1 (2 ^ 50) ltac:(lia)) as Hj'.
  assert (Ex : inject_Z (5 * j) * F2Q lit_0_60 ==
               3 * inject_Z j - inject_Z j * (1 # 2 ^ 53)).
  { rewrite lit_0_60_value, inject_Z_mult. qlra. }
  set (x := inject_Z (5 * j) * F2Q lit_0_60) in *. clearbody x.
  assert (Px : 0 < x) by qlra.
  assert (NZ : ~ x == 0) by lra.
  pose proof (ilog2_spec x NZ) as [Lk Uk]. rewrite Qabs_pos in Lk, Uk by lra.
  rewrite pow2_succ in Uk.
  apply rn_up_to_Z.
  - assumption.
  - rewrite inject_Z_mult. qlra.
  - unfold prec. lia.
  - assert (ilog2 x < prec)%Z; [|lia]. apply ilog2_lt; [assumption|].
    rewrite Qabs_pos by lra. change (pow2 prec) with (inject_Z (2 ^ 53)). qlra.
  - replace (ilog2 x - prec)%Z with (ilog2 x + - prec)%Z by lia.
    rewrite pow2_add, inject_Z_mult. change (pow2 (- prec)) with (1 # 2 ^ 53).
    pose proof (pow2_pos (ilog2 x)). qlra.
Qed.

Theorem py_int_mul_0_60 h :
  (0 <= h < 2 ^ 50)%Z ->
  py_int (py_mul (NInt h) (NFloat lit_0_60)) = (3 * h / 5)%Z.
Proof.
  intros Hh. destruct (Z.eq_dec (3 * h mod 5) 0) as [M|M].
  - (* a multiple of five *)
    apply Z.mod_divide in M; [|lia]. apply Z.gauss in M; [|reflexivity].
    destruct M as [j ->]. replace (3 * (j * 5) / 5)%Z with (3 * j)%Z
      by (apply Z.div_unique_exact; lia).
    destruct (Z.eq_dec j 0) as [->|NZ]; [vm_compute; reflexivity|].
    cbn [py_int py_mul to_float]. unfold fmul.
    pose proof (mul_0_60_multiple j ltac:(lia)) as R.
    pose proof (of_int_exact (j * 5) ltac:(unfold prec; lia)) as O.
    apply ftrunc_unique; [lia|].
    rewrite (rn_proper _ (inject_Z (5 * j) * F2Q lit_0_60)), R.
    + rewrite inject_Z_plus. inject_consts. lra.
    + rewrite O. now replace (j * 5)%Z with (5 * j)%Z by lia.
  - pose proof (Z.mod_pos_bound (3 * h) 5 ltac:(lia)) as Hr.
    pose proof (Z.div_mod (3 * h) 5 ltac:(lia)) as Hd.
    pose proof (inject_Z_div_mod (3 * h) 5 ltac:(lia)) as E.
    pose proof (Q_of_Z_bounds (3 * h mod 5) 1 4 ltac:(lia)) as Hr'.
    pose proof (Q_of_Z_bounds h 0 (2 ^ 50) ltac:(lia)) as Hh'.
    rewrite inject_Z_mult in E.
    apply py_int_mul_between
      with (r := inject_Z (8 * (3 * h / 5) + 7) * pow2 (- Z.of_nat 3)).
    + unfold prec. lia.
    + unfold prec. lia.
    + rewrite lit_0_60_value. qlra.
    + rewrite lit_0_60_value, inject_Z_plus, inject_Z_mult.
      change (pow2 (- Z.of_nat 3)) with (1 # 8). qlra.
    + apply representable_dyadic. unfold prec. lia.
    + rewrite !inject_Z_plus, inject_Z_mult.
      change (pow2 (- Z.of_nat 3)) with (1 # 8). qlra.
Qed.

(** ** Division, comparison and rounding *)

Lemma value_to_float_0 x : F2Q (to_float x) == 0 -> value x == 0.
Proof. destruct x as [n|f]; cbn; [apply rn_eq_0 | trivial]. Qed.

Lemma value_py_abs x : value (py_abs x) == Qabs (value x).
Proof.
  destruct x as [n|f]; cbn [py_abs value]; [|apply F2Q_fabs].
  reflexivity.
Qed.

Lemma py_truediv_ok x y :
  ~ value y == 0 ->
  py_truediv x y = Ok (NFloat (rn (operand y x / operand x y))).
Proof.
  intros N. destruct x as [a|f], y as [b|g]; cbn [py_truediv operand to_float].
  - rewrite int_truediv_ok; [reflexivity|]. intros ->. now apply N.
  - now rewrite fdiv_ok.
  - rewrite fdiv_ok; [reflexivity|]. intros Z. now apply N, rn_eq_0.
  - now rewrite fdiv_ok.
Qed.

Lemma py_truediv_raise x y :
  value y == 0 -> py_truediv x y = Raise ZeroDivisionError.
Proof.
  intros Z. destruct x as [a|f], y as [b|g]; cbn [py_truediv to_float value] in *;
    try (unfold fdiv, of_int; rewrite ?(rn_zero _ Z), ?(F2Q_0_is_zero _ Z);
         reflexivity).
  unfold int_truediv. replace b with 0%Z; [reflexivity|].
  unfold Qeq in Z. cbn in Z. lia.
Qed.

Lemma py_gt_true x y : py_gt x y = true <-> value y < value x.
Proof.
  unfold py_gt. rewrite Bool.negb_true_iff. split.
  - intros E. apply Qnot_le_lt. intros L. apply Qle_bool_iff in L. congruence.
  - intros L. destruct (Qle_bool (value x) (value y)) eqn:E; [|reflexivity].
    apply Qle_bool_iff in E. lra.
Qed.

(** A number whose absolute value exceeds a nonnegative bound is not 0. *)
Lemma py_gt_abs_nonzero x c :
  0 <= value c -> py_gt (py_abs x) c = true -> ~ value x == 0.
Proof.
  intros Pc G Z. apply py_gt_true in G. rewrite value_py_abs, Z in G.
  cbn in G. lra.
Qed.

Lemma py_round_nonneg x : 0 <= value x -> (0 <= py_round x)%Z.
Proof.
  intros P. destruct x as [n|f]; cbn [py_round value] in *.
  - rewrite Zle_Qle. exact P.
  - unfold fround. rewrite <- (round_half_even_Z 0).
    now apply round_half_even_monotone.
Qed.
