(* ===== verification/Config.v ===== *)
(** * Config: the configuration block and the pixel calculations

    [settings] holds the constants of the "Configuration" block of
    [src/proxify.py] (lines 6-37) and [default_settings] their values in
    the source; [calculations] is the "Calculations" block (lines 40-62),
    which derives every pixel dimension from them with float arithmetic and
    [round].  The functions of the pipeline read these module globals; the
    model passes the two records explicitly.

    The theorems give the values of the source ([calculations_default]),
    and show that the block never raises and that its sizes are not
    negative when the lengths and the resolution of the configuration are
    not ([calculations_total]). *)

From Stdlib Require Import ZArith QArith List Lia Lqa.
Import ListNotations.
From S2P Require Import Prelude Binary64 PyNum.
Local Open Scope Z_scope.

Record settings : Type := {
  CARD_WIDTH_MM : number;
  CARD_HEIGHT_MM : number;
  PAPER_WIDTH_IN : number;
  PAPER_HEIGHT_IN : number;
  DPI : number;
  DESIRED_BORDER_TOP_MM : number;
  DESIRED_BORDER_LEFT_MM : number;
  DESIRED_BORDER_RIGHT_MM : number;
  DESIRED_BORDER_BOTTOM_MM : number;
  EXTENDED_ART_SCAN_OFFSET_Y_MM : number;
  FULL_ART_BOTTOM_CROP_PX : Z;
  LINE_COLOR : Z * Z * Z;
  LINE_WIDTH : Z;
  BLACK_BORDER_THRESHOLD : Z;
  EDGE_ZONE_CHECK_WIDTH_PX : Z;
  SATURATION_FACTOR : number;
  BRIGHTNESS_FACTOR : number;
  FORCE_STANDARD_FRAME_TYPE : bool
}.

Definition default_settings : settings := {|
  CARD_WIDTH_MM := NFloat (lit 635 10);
  CARD_HEIGHT_MM := NFloat (lit 889 10);
  PAPER_WIDTH_IN := NFloat (lit 85 10);
  PAPER_HEIGHT_IN := NInt 11;
  DPI := NInt 1200;
  DESIRED_BORDER_TOP_MM := NInt 3;
  DESIRED_BORDER_LEFT_MM := NInt 3;
  DESIRED_BORDER_RIGHT_MM := NInt 3;
  DESIRED_BORDER_BOTTOM_MM := NFloat (lit 41 10);
  EXTENDED_ART_SCAN_OFFSET_Y_MM := NInt 3;
  FULL_ART_BOTTOM_CROP_PX := 80;
  LINE_COLOR := (255, 51, 153);
  LINE_WIDTH := 4;
  BLACK_BORDER_THRESHOLD := 50;
  EDGE_ZONE_CHECK_WIDTH_PX := 10;
  SATURATION_FACTOR := NFloat lit_1_0;
  BRIGHTNESS_FACTOR := NFloat lit_1_0;
  FORCE_STANDARD_FRAME_TYPE := false
|}.

(** [MM_TO_IN = 1 / 25.4] *)
Definition MM_TO_IN : result number :=
  py_truediv (NInt 1) (NFloat (lit 254 10)).

Record pixels : Type := {
  CARD_WIDTH_PX : Z;
  CARD_HEIGHT_PX : Z;
  BORDER_TOP_PX : Z;
  BORDER_LEFT_PX : Z;
  BORDER_RIGHT_PX : Z;
  BORDER_BOTTOM_PX : Z;
  EXTENDED_ART_SCAN_OFFSET_Y_PX : Z;
  PAPER_WIDTH_PX : Z;
  PAPER_HEIGHT_PX : Z;
  GRID_WIDTH_PX : Z;
  GRID_HEIGHT_PX : Z;
  MARGIN_X : Z;
  MARGIN_Y : Z
}.

(** [round((mm * MM_TO_IN) * DPI)] *)
Definition mm_to_px (mm mm_to_in dpi : number) : Z :=
  py_round (py_mul (py_mul mm mm_to_in) dpi).

(** The test of line 59, which prints the warning that the grid exceeds the
    paper. *)
Definition grid_exceeds_paper (margin_x margin_y : Z) : bool :=
  (margin_x <? 0) || (margin_y <? 0).

(** The margins of the grid on the paper; both are clamped at 0 when either
    is negative (lines 56-62). *)
Definition margins (paper_w paper_h grid_w grid_h : Z) : Z * Z :=
  let margin_x := (paper_w - grid_w) / 2 in
  let margin_y := (paper_h - grid_h) / 2 in
  if grid_exceeds_paper margin_x margin_y
  then (Z.max 0 margin_x, Z.max 0 margin_y)
  else (margin_x, margin_y).

Definition calculations (s : settings) : result pixels :=
  (mm_to_in <- MM_TO_IN ;;
   let card_w := mm_to_px (CARD_WIDTH_MM s) mm_to_in (DPI s) in
   let card_h := mm_to_px (CARD_HEIGHT_MM s) mm_to_in (DPI s) in
   let paper_w := py_round (py_mul (PAPER_WIDTH_IN s) (DPI s)) in
   let paper_h := py_round (py_mul (PAPER_HEIGHT_IN s) (DPI s)) in
   let grid_w := 3 * card_w in
   let grid_h := 3 * card_h in
   let '(margin_x, margin_y) := margins paper_w paper_h grid_w grid_h in
   Ok {|
     CARD_WIDTH_PX := card_w;
     CARD_HEIGHT_PX := card_h;
     BORDER_TOP_PX := mm_to_px (DESIRED_BORDER_TOP_MM s) mm_to_in (DPI s);
     BORDER_LEFT_PX := mm_to_px (DESIRED_BORDER_LEFT_MM s) mm_to_in (DPI s);
     BORDER_RIGHT_PX := mm_to_px (DESIRED_BORDER_RIGHT_MM s) mm_to_in (DPI s);
     BORDER_BOTTOM_PX := mm_to_px (DESIRED_BORDER_BOTTOM_MM s) mm_to_in (DPI s);
     EXTENDED_ART_SCAN_OFFSET_Y_PX :=
       mm_to_px (EXTENDED_ART_SCAN_OFFSET_Y_MM s) mm_to_in (DPI s);
     PAPER_WIDTH_PX := paper_w;
     PAPER_HEIGHT_PX := paper_h;
     GRID_WIDTH_PX := grid_w;
     GRID_HEIGHT_PX := grid_h;
     MARGIN_X := margin_x;
     MARGIN_Y := margin_y
   |})%result.

(** The pixel constants of a run with the source's configuration. *)
Definition default_pixels : pixels := {|
  CARD_WIDTH_PX := 3000;
  CARD_HEIGHT_PX := 4200;
  BORDER_TOP_PX := 142;
  BORDER_LEFT_PX := 142;
  BORDER_RIGHT_PX := 142;
  BORDER_BOTTOM_PX := 194;
  EXTENDED_ART_SCAN_OFFSET_Y_PX := 142;
  PAPER_WIDTH_PX := 10200;
  PAPER_HEIGHT_PX := 13200;
  GRID_WIDTH_PX := 9000;
  GRID_HEIGHT_PX := 12600;
  MARGIN_X := 600;
  MARGIN_Y := 300
|}.

(** Consistency of a set of pixel constants: what the later components
    rely on. *)
Record pixels_ok (p : pixels) : Prop := {
  card_w_pos : 0 < CARD_WIDTH_PX p;
  card_h_pos : 0 < CARD_HEIGHT_PX p;
  border_top_nonneg : 0 <= BORDER_TOP_PX p;
  border_left_nonneg : 0 <= BORDER_LEFT_PX p;
  border_right_nonneg : 0 <= BORDER_RIGHT_PX p;
  border_bottom_nonneg : 0 <= BORDER_BOTTOM_PX p;
  grid_w_eq : GRID_WIDTH_PX p = 3 * CARD_WIDTH_PX p;
  grid_h_eq : GRID_HEIGHT_PX p = 3 * CARD_HEIGHT_PX p;
  margin_x_nonneg : 0 <= MARGIN_X p;
  margin_y_nonneg : 0 <= MARGIN_Y p
}.

(** The lengths and the resolution of a configuration; none is negative
    in a configuration that describes a card and a page. *)
Definition lengths (s : settings) : list number :=
  [CARD_WIDTH_MM s; CARD_HEIGHT_MM s; PAPER_WIDTH_IN s; PAPER_HEIGHT_IN s; DPI s;
   DESIRED_BORDER_TOP_MM s; DESIRED_BORDER_LEFT_MM s; DESIRED_BORDER_RIGHT_MM s;
   DESIRED_BORDER_BOTTOM_MM s; EXTENDED_ART_SCAN_OFFSET_Y_MM s].

Definition settings_nonneg (s : settings) : Prop :=
  Forall (fun x => (0 <= value x)%Q) (lengths s).

(** The sizes of a set of pixel constants. *)
Definition sizes (p : pixels) : list Z :=
  [CARD_WIDTH_PX p; CARD_HEIGHT_PX p; PAPER_WIDTH_PX p; PAPER_HEIGHT_PX p;
   BORDER_TOP_PX p; BORDER_LEFT_PX p; BORDER_RIGHT_PX p; BORDER_BOTTOM_PX p;
   EXTENDED_ART_SCAN_OFFSET_Y_PX p].

(** ** Theorems *)

(** Products and roundings of numbers that are not negative. *)
Lemma to_float_nonneg x : (0 <= value x -> 0 <= F2Q (to_float x))%Q.
Proof. destruct x as [n|f]; cbn [value to_float]; [apply rn_nonneg | trivial]. Qed.

Lemma py_mul_nonneg x y : (0 <= value x -> 0 <= value y -> 0 <= value (py_mul x y))%Q.
Proof.
  intros Hx Hy.
  assert (F : (0 <= F2Q (fmul (to_float x) (to_float y)))%Q).
  { apply rn_nonneg, Qmult_le_0_compat; now apply to_float_nonneg. }
  destruct x as [a|f], y as [b|g]; cbn [py_mul value]; try exact F.
  cbn [value] in Hx, Hy. change 0%Q with (inject_Z 0) in *.
  rewrite <- Zle_Qle in *. nia.
Qed.

Lemma mm_to_px_nonneg mm mm_to_in dpi :
  (0 <= value mm)%Q -> (0 <= value mm_to_in)%Q -> (0 <= value dpi)%Q ->
  0 <= mm_to_px mm mm_to_in dpi.
Proof. intros. unfold mm_to_px. now apply py_round_nonneg; repeat apply py_mul_nonneg. Qed.

(** The factor from millimetres to inches. *)
Lemma MM_TO_IN_ok : exists m, MM_TO_IN = Ok m /\ (0 <= value m)%Q.
Proof. eexists. split; [vm_compute; reflexivity | vm_compute; discriminate]. Qed.

Lemma margins_nonneg pw ph gw gh :
  0 <= fst (margins pw ph gw gh) /\ 0 <= snd (margins pw ph gw gh).
Proof.
  unfold margins, grid_exceeds_paper.
  destruct ((pw - gw) / 2 <? 0) eqn:Ex, ((ph - gh) / 2 <? 0) eqn:Ey;
    cbn [orb fst snd]; zlia.
Qed.

Lemma margins_fit pw ph gw gh :
  gw <= pw -> gh <= ph ->
  margins pw ph gw gh = ((pw - gw) / 2, (ph - gh) / 2).
Proof.
  intros Hw Hh. unfold margins, grid_exceeds_paper.
  assert (0 <= (pw - gw) / 2) by (apply Z.div_pos; lia).
  assert (0 <= (ph - gh) / 2) by (apply Z.div_pos; lia).
  destruct ((pw - gw) / 2 <? 0) eqn:Ex; [zlia|].
  destruct ((ph - gh) / 2 <? 0) eqn:Ey; [zlia|]. reflexivity.
Qed.

(** The module-level calculations do not raise, and give the
    pixel constants of a 1200 DPI sheet: a 3000 x 4200 card, borders of 142
    and 194 pixels, a 10200 x 13200 page. *)
Theorem calculations_default : calculations default_settings = Ok default_pixels.
Proof. vm_compute. reflexivity. Qed.

(** When no length of the configuration is negative, no size in pixels
    is. *)
Lemma calculations_sizes s p :
  calculations s = Ok p -> settings_nonneg s -> Forall (Z.le 0) (sizes p).
Proof.
  unfold calculations. destruct MM_TO_IN_ok as (m & -> & Pm). cbn [bind].
  destruct (margins _ _ _ _) as [mx my]. intros [= <-].
  unfold settings_nonneg, lengths, sizes. intros N.
  repeat match goal with H : Forall _ (_ :: _) |- _ => apply Forall_cons_iff in H as [? H] end.
  repeat constructor; cbn [sizes CARD_WIDTH_PX CARD_HEIGHT_PX PAPER_WIDTH_PX PAPER_HEIGHT_PX
    BORDER_TOP_PX BORDER_LEFT_PX BORDER_RIGHT_PX BORDER_BOTTOM_PX EXTENDED_ART_SCAN_OFFSET_Y_PX];
    (now apply mm_to_px_nonneg) || (now apply py_round_nonneg, py_mul_nonneg).
Qed.

Lemma calculations_returns s : exists p, calculations s = Ok p.
Proof.
  unfold calculations. destruct MM_TO_IN_ok as (m & -> & _). cbn [bind].
  destruct (margins _ _ _ _). now eexists.
Qed.

(** Whatever the settings, the computed margins are not negative and the
    grid is three cards wide and high. *)
Theorem calculations_margins s p :
  calculations s = Ok p ->
  0 <= MARGIN_X p /\ 0 <= MARGIN_Y p /\
  GRID_WIDTH_PX p = 3 * CARD_WIDTH_PX p /\ GRID_HEIGHT_PX p = 3 * CARD_HEIGHT_PX p.
Proof.
  unfold calculations. intros H. apply bind_Ok in H as (m & _ & H).
  destruct (margins _ _ _ _) as [mx my] eqn:E.
  pose proof (margins_nonneg (py_round (py_mul (PAPER_WIDTH_IN s) (DPI s)))
    (py_round (py_mul (PAPER_HEIGHT_IN s) (DPI s)))
    (3 * mm_to_px (CARD_WIDTH_MM s) m (DPI s))
    (3 * mm_to_px (CARD_HEIGHT_MM s) m (DPI s))) as Hm.
  rewrite E in Hm. injection H as <-. cbn. tauto.
Qed.

(** Claim C40: the calculations return for every configuration: the only
    division is that of [MM_TO_IN].  The margins are never negative and the
    grid is three cards wide and high; when no length of the configuration
    is negative, no size in pixels is. *)
Theorem calculations_total s :
  exists p, calculations s = Ok p /\
    0 <= MARGIN_X p /\ 0 <= MARGIN_Y p /\
    GRID_WIDTH_PX p = 3 * CARD_WIDTH_PX p /\ GRID_HEIGHT_PX p = 3 * CARD_HEIGHT_PX p /\
    (settings_nonneg s -> Forall (Z.le 0) (sizes p)).
Proof.
  destruct (calculations_returns s) as [p E]. exists p. split; [exact E|].
  destruct (calculations_margins s p E) as (Mx & My & Gw & Gh).
  repeat split; try assumption. now apply calculations_sizes.
Qed.

Lemma calculations_total_witness :
  exists p, calculations default_settings = Ok p /\
    0 <= MARGIN_X p /\ 0 <= MARGIN_Y p /\
    GRID_WIDTH_PX p = 3 * CARD_WIDTH_PX p /\ GRID_HEIGHT_PX p = 3 * CARD_HEIGHT_PX p /\
    (settings_nonneg default_settings -> Forall (Z.le 0) (sizes p)).
Proof. exact (calculations_total default_settings). Defined.

Lemma default_pixels_ok : pixels_ok default_pixels.
Proof. constructor; cbn; lia. Qed.

Lemma calculations_margins_witness :
  0 <= MARGIN_X default_pixels /\ 0 <= MARGIN_Y default_pixels /\
  GRID_WIDTH_PX default_pixels = 3 * CARD_WIDTH_PX default_pixels /\
  GRID_HEIGHT_PX default_pixels = 3 * CARD_HEIGHT_PX default_pixels.
Proof.
  apply (calculations_margins default_settings default_pixels).
  vm_compute. reflexivity.
Defined.

(** With the source's configuration the grid lies inside the page. *)
Theorem default_grid_on_page :
  MARGIN_X default_pixels + GRID_WIDTH_PX default_pixels <= PAPER_WIDTH_PX default_pixels /\
  MARGIN_Y default_pixels + GRID_HEIGHT_PX default_pixels <= PAPER_HEIGHT_PX default_pixels.
Proof. cbn. lia. Qed.
