(* ===== verification/Image.v ===== *)
(** * Image: rasters and the operations of the imaging library

    The program works on Pillow images.  A [raster A] is a width, a height
    and the pixel at each coordinate; an [image] is an RGBA picture, the
    mode [resize_card] converts every file to (the detector and the
    classifier read [pixel_tuple[:3]] only, and [convert("RGB")] drops the
    alpha channel; the alpha channel is the mask of a paste), a [gray]
    image is mode "L".  Only the pixels inside the bounds carry
    meaning: [raster_eq] identifies rasters that agree there, and every
    operation respects it.

    The operations are those the source calls on images.  They are modelled
    from Pillow's documented behaviour, this code not being part of the
    repository: [getpixel]/[putpixel] ([PixelAccess] indexing, negative
    indices counted from the end, [IndexError] outside), [new], [crop]
    (regions outside the source are filled with zeros, an inverted box
    raises [ValueError]), [getbbox].  Resampling ([resize] with LANCZOS) and
    the enhancers of [ImageEnhance] compute on floats pixel by pixel; the
    model keeps them abstract behind the class [Imaging], which promises the
    size of their result and that they read the pixels of the picture only,
    and nothing about the colours. *)

From Stdlib Require Import ZArith List Bool Lia Morphisms Setoid.
Import ListNotations.
From S2P Require Import Prelude Binary64 PyNum.
Local Open Scope Z_scope.

(** ** Data *)

Record pixel : Type := RGBA { red : Z; green : Z; blue : Z; alpha : Z }.

(** The zeros the library fills with, and the two opaque colours of the
    synthetic pictures. *)
Definition transparent : pixel := RGBA 0 0 0 0.
Definition black : pixel := RGBA 0 0 0 255.
Definition white : pixel := RGBA 255 255 255 255.

Record raster (A : Type) : Type := Raster {
  width : Z;
  height : Z;
  px : Z -> Z -> A
}.
Arguments Raster {A} width height px.
Arguments width {A} r.
Arguments height {A} r.
Arguments px {A} r x y.

Definition image : Type := raster pixel.
Definition gray : Type := raster Z.

(** A box [(left, upper, right, lower)], exclusive on the high side. *)
Record box : Type := Box { x0 : Z; y0 : Z; x1 : Z; y1 : Z }.

Definition size {A} (r : raster A) : Z * Z := (width r, height r).

Definition in_bounds {A} (r : raster A) (x y : Z) : bool :=
  (0 <=? x) && (x <? width r) && (0 <=? y) && (y <? height r).

(** Sizes are never negative. *)
Definition wf_raster {A} (r : raster A) : Prop := 0 <= width r /\ 0 <= height r.

(** Agreement on size and on every pixel inside the bounds. *)
Definition raster_eq {A} (r s : raster A) : Prop :=
  width r = width s /\ height r = height s /\
  forall x y, 0 <= x < width r -> 0 <= y < height r -> px r x y = px s x y.

(** Results that agree up to [raster_eq]. *)
Definition result_eq {A} (m n : result (raster A)) : Prop :=
  match m, n with
  | Ok r, Ok s => raster_eq r s
  | Raise e, Raise e' => e = e'
  | _, _ => False
  end.

(** ** Pixel access *)

(** An index of a [PixelAccess]: a negative one counts from the end. *)
Definition wrap_index (n i : Z) : Z := if i <? 0 then n + i else i.

(** [pixels[x, y]] *)
Definition getpixel {A} (r : raster A) (x y : Z) : result A :=
  let x := wrap_index (width r) x in
  let y := wrap_index (height r) y in
  if in_bounds r x y then Ok (px r x y) else Raise IndexError.

(** [pixels[x, y] = v] *)
Definition putpixel {A} (r : raster A) (x y : Z) (v : A) : result (raster A) :=
  let x := wrap_index (width r) x in
  let y := wrap_index (height r) y in
  if in_bounds r x y
  then Ok (Raster (width r) (height r)
             (fun x' y' => if (x' =? x) && (y' =? y) then v else px r x' y'))
  else Raise IndexError.

(** ** Construction *)

(** [Image.new(mode, size, color)] *)
Definition new {A} (sz : Z * Z) (color : A) : result (raster A) :=
  if (fst sz <? 0) || (snd sz <? 0) then Raise ValueError
  else Ok (Raster (fst sz) (snd sz) (fun _ _ => color)).

(** [image.copy()] *)
Definition copy {A} (r : raster A) : raster A := r.

(** [image.crop(box)] *)
Definition crop (im : image) (b : box) : result image :=
  if (x1 b <? x0 b) || (y1 b <? y0 b) then Raise ValueError
  else Ok (Raster (x1 b - x0 b) (y1 b - y0 b)
             (fun x y =>
                if in_bounds im (x0 b + x) (y0 b + y)
                then px im (x0 b + x) (y0 b + y)
                else transparent)).

(** ** Bounding box of the non-zero pixels

    [image.getbbox()]: the smallest box holding every non-zero pixel, or
    [None] for an image without any.  Its left bound is the first column
    with a non-zero pixel, its right bound one past the last such column,
    and likewise for the rows. *)

Definition nonzero (v : Z) : bool := negb (v =? 0).

Definition col_has_data (m : gray) (x : Z) : bool :=
  existsb (fun y => nonzero (px m x y)) (range 0 (height m)).

Definition row_has_data (m : gray) (y : Z) : bool :=
  existsb (fun x => nonzero (px m x y)) (range 0 (width m)).

Definition getbbox (m : gray) : option box :=
  match find (col_has_data m) (range 0 (width m)),
        find (col_has_data m) (range_down (width m - 1) (-1)),
        find (row_has_data m) (range 0 (height m)),
        find (row_has_data m) (range_down (height m - 1) (-1)) with
  | Some l, Some r, Some u, Some d => Some (Box l u (r + 1) (d + 1))
  | _, _, _, _ => None
  end.

(** ** Resampling and enhancement *)

Class Imaging : Type := {
  (** the resampling kernel, for a target of positive size *)
  resample : image -> Z -> Z -> image;
  (** [ImageEnhance.Brightness(im).enhance(factor)] *)
  enhance_brightness : image -> number -> image;
  (** [ImageEnhance.Color(im).enhance(factor)] *)
  enhance_color : image -> number -> image;
  resample_width : forall im w h, width (resample im w h) = w;
  resample_height : forall im w h, height (resample im w h) = h;
  enhance_brightness_size : forall im f, size (enhance_brightness im f) = size im;
  enhance_color_size : forall im f, size (enhance_color im f) = size im;
  (** the three operations read the pixels of the picture and nothing else *)
  resample_ext : forall im im' w h,
    raster_eq im im' -> raster_eq (resample im w h) (resample im' w h);
  enhance_brightness_ext : forall im im' f,
    raster_eq im im' -> raster_eq (enhance_brightness im f) (enhance_brightness im' f);
  enhance_color_ext : forall im im' f,
    raster_eq im im' -> raster_eq (enhance_color im f) (enhance_color im' f)
}.

(** [image.resize(size, Image.Resampling.LANCZOS)] *)
Definition resize `{Imaging} (im : image) (sz : Z * Z) : result image :=
  if (fst sz <? 1) || (snd sz <? 1) then Raise ValueError
  else Ok (resample im (fst sz) (snd sz)).

(** Nearest-neighbour resampling and enhancers that leave the colours
    alone: an implementation of the interface that computes. *)
Definition nearest (im : image) (w h : Z) : image :=
  Raster w h (fun x y =>
    let i := x * width im / w in
    let j := y * height im / h in
    if in_bounds im i j then px im i j else transparent).

Lemma nearest_ext im im' w h :
  raster_eq im im' -> raster_eq (nearest im w h) (nearest im' w h).
Proof.
  intros (Hw & Hh & Hp). repeat split; trivial. cbn. intros x y Hx Hy.
  unfold in_bounds. rewrite <- Hw, <- Hh.
  destruct (_ && _) eqn:B; [|reflexivity]. apply Hp; zlia.
Qed.

#[export] Instance nearest_imaging : Imaging := {|
  resample := nearest;
  enhance_brightness := fun im _ => im;
  enhance_color := fun im _ => im;
  resample_width := fun _ _ _ => eq_refl;
  resample_height := fun _ _ _ => eq_refl;
  enhance_brightness_size := fun _ _ => eq_refl;
  enhance_color_size := fun _ _ => eq_refl;
  resample_ext := nearest_ext;
  enhance_brightness_ext := fun _ _ _ E => E;
  enhance_color_ext := fun _ _ _ E => E
|}.

(** ** Synthetic pictures

    [framed w h b]: a [w] x [h] picture, white inside the box [b] and black
    around it: artwork in a solid frame. *)

Definition in_box (b : box) (x y : Z) : bool :=
  (x0 b <=? x) && (x <? x1 b) && (y0 b <=? y) && (y <? y1 b).

Definition framed (w h : Z) (b : box) : image :=
  Raster w h (fun x y => if in_box b x y then white else black).

(** A picture without content. *)
Definition new_black (w h : Z) : image := Raster w h (fun _ _ => black).

(** ** Abstract specification of a bounding box

    [is_bbox nz m b]: [b] lies inside the raster, every pixel selected by
    [nz] lies inside [b], and each of the four edges of [b] touches a
    selected pixel. *)

Definition inside (b : box) (x y : Z) : Prop :=
  x0 b <= x < x1 b /\ y0 b <= y < y1 b.

Record is_bbox {A} (nz : A -> bool) (m : raster A) (b : box) : Prop := {
  bbox_bounds : 0 <= x0 b < x1 b /\ x1 b <= width m /\ 0 <= y0 b < y1 b /\ y1 b <= height m;
  bbox_covers : forall x y, 0 <= x < width m -> 0 <= y < height m ->
                nz (px m x y) = true -> inside b x y;
  bbox_left : exists y, y0 b <= y < y1 b /\ nz (px m (x0 b) y) = true;
  bbox_right : exists y, y0 b <= y < y1 b /\ nz (px m (x1 b - 1) y) = true;
  bbox_top : exists x, x0 b <= x < x1 b /\ nz (px m x (y0 b)) = true;
  bbox_bottom : exists x, x0 b <= x < x1 b /\ nz (px m x (y1 b - 1)) = true
}.


(** ** Rasters up to their visible pixels *)

#[export] Instance raster_eq_equiv {A} : Equivalence (@raster_eq A).
Proof.
  split.
  - intros r. repeat split; auto.
  - intros r s (Hw & Hh & Hp). repeat split; auto.
    intros x y Hx Hy. symmetry. apply Hp; lia.
  - intros r s t (Hw & Hh & Hp) (Hw' & Hh' & Hp'). repeat split; try congruence.
    intros x y Hx Hy. rewrite Hp by lia. apply Hp'; lia.
Qed.

Lemma in_bounds_true {A} (r : raster A) x y :
  in_bounds r x y = true <-> 0 <= x < width r /\ 0 <= y < height r.
Proof. unfold in_bounds. rewrite !andb_true_iff. zlia_iff. Qed.

Lemma in_bounds_false {A} (r : raster A) x y :
  in_bounds r x y = false <-> ~ (0 <= x < width r /\ 0 <= y < height r).
Proof. rewrite <- in_bounds_true. symmetry. apply not_true_iff_false. Qed.

#[export] Instance in_bounds_proper {A} :
  Proper (raster_eq ==> eq ==> eq ==> eq) (@in_bounds A).
Proof.
  intros r s (Hw & Hh & _) x _ <- y _ <-. unfold in_bounds. now rewrite Hw, Hh.
Qed.

(** ** Pixel access *)

Lemma wrap_index_nonneg n i : 0 <= i -> wrap_index n i = i.
Proof. intros H. unfold wrap_index. destruct (i <? 0) eqn:E; zlia. Qed.

(** Inside the bounds, indexing returns the pixel. *)
Lemma getpixel_in {A} (r : raster A) x y :
  0 <= x < width r -> 0 <= y < height r -> getpixel r x y = Ok (px r x y).
Proof.
  intros Hx Hy. unfold getpixel. rewrite !wrap_index_nonneg by lia.
  now rewrite (proj2 (in_bounds_true r x y)).
Qed.

(** At or past the end, and before minus the size, it raises. *)
Lemma getpixel_out {A} (r : raster A) x y :
  ~ (- width r <= x < width r /\ - height r <= y < height r) ->
  getpixel r x y = Raise IndexError.
Proof.
  intros H. unfold getpixel.
  destruct (in_bounds _ _ _) eqn:E; [|reflexivity].
  apply in_bounds_true in E. unfold wrap_index in E.
  destruct (x <? 0) eqn:Ex, (y <? 0) eqn:Ey; zlia.
Qed.

(** A negative index within the size counts from the end. *)
Lemma getpixel_wrap_neg {A} (r : raster A) x y :
  - height r <= y < 0 -> getpixel r x y = getpixel r x (height r + y).
Proof.
  intros Hy. unfold getpixel, wrap_index.
  destruct (y <? 0) eqn:E; [|zlia]. destruct (height r + y <? 0) eqn:E'; [zlia|].
  reflexivity.
Qed.

Lemma putpixel_in {A} (r : raster A) x y v :
  0 <= x < width r -> 0 <= y < height r ->
  putpixel r x y v =
  Ok (Raster (width r) (height r)
        (fun x' y' => if (x' =? x) && (y' =? y) then v else px r x' y')).
Proof.
  intros Hx Hy. unfold putpixel. rewrite !wrap_index_nonneg by lia.
  now rewrite (proj2 (in_bounds_true r x y)).
Qed.

#[export] Instance getpixel_proper {A} :
  Proper (raster_eq ==> eq ==> eq ==> eq) (@getpixel A).
Proof.
  intros r s E x _ <- y _ <-. unfold getpixel.
  rewrite <- E at 1. destruct E as (Hw & Hh & Hp). rewrite <- Hw, <- Hh.
  destruct (in_bounds r _ _) eqn:B; [|reflexivity].
  apply in_bounds_true in B. now rewrite Hp.
Qed.

(** ** Construction *)

Lemma new_ok {A} w h (c : A) :
  0 <= w -> 0 <= h -> new (w, h) c = Ok (Raster w h (fun _ _ => c)).
Proof.
  intros Hw Hh. unfold new. cbn [fst snd].
  destruct (w <? 0) eqn:E1, (h <? 0) eqn:E2; try zlia. reflexivity.
Qed.

Lemma crop_ok im b :
  x0 b <= x1 b -> y0 b <= y1 b ->
  exists c, crop im b = Ok c /\ width c = x1 b - x0 b /\ height c = y1 b - y0 b /\
    (forall x y, in_bounds im (x0 b + x) (y0 b + y) = true ->
       px c x y = px im (x0 b + x) (y0 b + y)) /\
    (forall x y, in_bounds im (x0 b + x) (y0 b + y) = false -> px c x y = transparent).
Proof.
  intros Hx Hy. unfold crop.
  destruct (x1 b <? x0 b) eqn:E1, (y1 b <? y0 b) eqn:E2; try zlia.
  eexists. split; [reflexivity|]. cbn. repeat split; intros x y ->; reflexivity.
Qed.

Lemma crop_raise im b :
  x1 b < x0 b \/ y1 b < y0 b -> crop im b = Raise ValueError.
Proof.
  intros H. unfold crop.
  destruct (x1 b <? x0 b) eqn:E1, (y1 b <? y0 b) eqn:E2; try reflexivity; zlia.
Qed.

(** Cropping keeps sizes non-negative. *)
Lemma crop_wf im b c : crop im b = Ok c -> wf_raster c.
Proof.
  unfold crop. destruct (x1 b <? x0 b) eqn:E1, (y1 b <? y0 b) eqn:E2;
    cbn; try discriminate.
  intros [= <-]. split; cbn; zlia.
Qed.

#[export] Instance crop_proper : Proper (raster_eq ==> eq ==> result_eq) crop.
Proof.
  intros r s E b _ <-. unfold crop.
  destruct ((x1 b <? x0 b) || (y1 b <? y0 b)); cbn; [reflexivity|].
  repeat split; cbn; auto. intros x y Hx Hy.
  rewrite <- E at 1. destruct (in_bounds r _ _) eqn:B; [|reflexivity].
  apply in_bounds_true in B. now apply E.
Qed.

(** ** Resizing *)

Lemma resize_ok `{Imaging} im w h :
  1 <= w -> 1 <= h -> resize im (w, h) = Ok (resample im w h).
Proof.
  intros Hw Hh. unfold resize. cbn [fst snd].
  destruct (w <? 1) eqn:E1, (h <? 1) eqn:E2; try zlia. reflexivity.
Qed.

Lemma resize_size `{Imaging} im sz r : resize im sz = Ok r -> size r = sz.
Proof.
  unfold resize. destruct ((fst sz <? 1) || (snd sz <? 1)); [discriminate|].
  intros [= <-]. unfold size. rewrite resample_width, resample_height.
  now destruct sz.
Qed.

(** ** The bounding box *)

Lemma col_has_data_true m x :
  col_has_data m x = true <->
  exists y, 0 <= y < height m /\ nonzero (px m x y) = true.
Proof. unfold col_has_data. apply existsb_range. Qed.

Lemma row_has_data_true m y :
  row_has_data m y = true <->
  exists x, 0 <= x < width m /\ nonzero (px m x y) = true.
Proof. unfold row_has_data. apply existsb_range. Qed.

Lemma col_has_data_false m x :
  col_has_data m x = false <->
  forall y, 0 <= y < height m -> nonzero (px m x y) = false.
Proof. unfold col_has_data. apply existsb_range_false. Qed.

Lemma row_has_data_false m y :
  row_has_data m y = false <->
  forall x, 0 <= x < width m -> nonzero (px m x y) = false.
Proof. unfold row_has_data. apply existsb_range_false. Qed.

(** A box that covers the selected pixels and touches one on each edge is
    the only one. *)
Lemma is_bbox_unique {A} (nz : A -> bool) m b b' :
  is_bbox nz m b -> is_bbox nz m b' -> b = b'.
Proof.
  intros [B C (yl & Hyl & L) (yr & Hyr & R) (xt & Hxt & T) (xb & Hxb & D)]
         [B' C' (yl' & Hyl' & L') (yr' & Hyr' & R') (xt' & Hxt' & T') (xb' & Hxb' & D')].
  apply C' in L, R, T, D; try lia. apply C in L', R', T', D'; try lia.
  unfold inside in *. destruct b, b'; cbn in *. f_equal; lia.
Qed.

(** [getbbox] returns the bounding box of the non-zero pixels. *)
Lemma getbbox_Some m b : getbbox m = Some b -> is_bbox nonzero m b.
Proof.
  unfold getbbox.
  destruct (find _ (range 0 (width m))) as [l|] eqn:El; [|discriminate].
  destruct (find _ (range_down _ _)) as [r|] eqn:Er; [|discriminate].
  destruct (find _ (range 0 (height m))) as [u|] eqn:Eu; [|discriminate].
  destruct (find _ (range_down (height m - 1) _)) as [d|] eqn:Ed; [|discriminate].
  intros [= <-].
  apply find_range_Some in El as (Hl & Ll & Ml), Eu as (Hu & Lu & Mu).
  apply find_range_down_Some in Er as (Hr & Lr & Mr), Ed as (Hd & Ld & Md).
  assert (cover : forall x y, 0 <= x < width m -> 0 <= y < height m ->
            nonzero (px m x y) = true -> (l <= x <= r) /\ (u <= y <= d)).
  { intros x y Hx Hy N.
    assert (Cx : col_has_data m x = true) by (apply col_has_data_true; eauto).
    assert (Cy : row_has_data m y = true) by (apply row_has_data_true; eauto).
    repeat split; apply Z.nlt_ge; intros Lt.
    - rewrite Ml in Cx by lia. discriminate.
    - rewrite Mr in Cx by lia. discriminate.
    - rewrite Mu in Cy by lia. discriminate.
    - rewrite Md in Cy by lia. discriminate. }
  apply col_has_data_true in Ll as (yl & Hyl & Nl), Lr as (yr & Hyr & Nr).
  apply row_has_data_true in Lu as (xu & Hxu & Nu), Ld as (xd & Hxd & Nd).
  pose proof (cover l yl Hl Hyl Nl). pose proof (cover r yr ltac:(lia) Hyr Nr).
  pose proof (cover xu u Hxu Hu Nu). pose proof (cover xd d Hxd ltac:(lia) Nd).
  constructor; cbn.
  - lia.
  - intros x y Hx Hy N. unfold inside; cbn. specialize (cover x y Hx Hy N). lia.
  - exists yl. split; [lia | assumption].
  - exists yr. replace (r + 1 - 1) with r by lia. split; [lia | assumption].
  - exists xu. split; [lia | assumption].
  - exists xd. replace (d + 1 - 1) with d by lia. split; [lia | assumption].
Qed.

(** It returns [None] exactly when every pixel is zero. *)
Lemma getbbox_None m :
  getbbox m = None <->
  forall x y, 0 <= x < width m -> 0 <= y < height m -> px m x y = 0.
Proof.
  split.
  - intros E x y Hx Hy. destruct (px m x y =? 0) eqn:N; [zlia|exfalso].
    assert (Cx : col_has_data m x = true).
    { apply col_has_data_true. exists y. unfold nonzero. now rewrite N. }
    assert (Cy : row_has_data m y = true).
    { apply row_has_data_true. exists x. unfold nonzero. now rewrite N. }
    unfold getbbox in E.
    destruct (find _ (range 0 (width m))) eqn:E1.
    2:{ rewrite find_range_None in E1. rewrite E1 in Cx by lia. discriminate. }
    destruct (find _ (range_down _ _)) eqn:E2.
    2:{ rewrite find_range_down_None in E2. rewrite E2 in Cx by lia. discriminate. }
    destruct (find _ (range 0 (height m))) eqn:E3.
    2:{ rewrite find_range_None in E3. rewrite E3 in Cy by lia. discriminate. }
    destruct (find _ (range_down (height m - 1) _)) eqn:E4; [discriminate|].
    rewrite find_range_down_None in E4. rewrite E4 in Cy by lia. discriminate.
  - intros Z. destruct (getbbox m) as [b|] eqn:E; [exfalso|reflexivity].
    apply getbbox_Some in E as [B _ (y & Hy & N) _ _ _].
    unfold nonzero in N. rewrite Z in N by lia. discriminate.
Qed.

(** Any box meeting the specification is the one [getbbox] returns. *)
Lemma getbbox_complete m b : is_bbox nonzero m b -> getbbox m = Some b.
Proof.
  intros Hb. destruct (getbbox m) as [b'|] eqn:E.
  - f_equal. eapply is_bbox_unique; eauto using getbbox_Some.
  - exfalso. destruct Hb as [B _ (y & Hy & N) _ _ _].
    rewrite getbbox_None in E. unfold nonzero in N. rewrite E in N by lia.
    discriminate.
Qed.

(** The specification only looks at the selected pixels inside the
    bounds. *)
Lemma is_bbox_ext {A B} (nz : A -> bool) (nz' : B -> bool) m m' b :
  width m = width m' -> height m = height m' ->
  (forall x y, 0 <= x < width m -> 0 <= y < height m ->
     nz (px m x y) = nz' (px m' x y)) ->
  is_bbox nz m b -> is_bbox nz' m' b.
Proof.
  intros Hw Hh Hp [B0 C (yl & Hyl & L) (yr & Hyr & R) (xt & Hxt & T) (xb & Hxb & D)].
  constructor.
  - lia.
  - intros x y Hx Hy N. apply C; try lia. rewrite Hp; auto; lia.
  - exists yl. rewrite <- Hp by lia. auto.
  - exists yr. rewrite <- Hp by lia. auto.
  - exists xt. rewrite <- Hp by lia. auto.
  - exists xb. rewrite <- Hp by lia. auto.
Qed.

#[export] Instance getbbox_proper : Proper (raster_eq ==> eq) getbbox.
Proof.
  intros r s E. destruct (getbbox r) as [b|] eqn:Er.
  - symmetry. apply getbbox_complete. destruct E as (Hw & Hh & Hp).
    apply (is_bbox_ext nonzero nonzero r); auto using getbbox_Some.
    intros x y Hx Hy. now rewrite Hp.
  - symmetry. rewrite getbbox_None in *. destruct E as (Hw & Hh & Hp).
    intros x y Hx Hy. rewrite <- Hp by lia. apply Er; lia.
Qed.
