(* ===== verification/Detector.v ===== *)
(** * Detector: where the content of a picture is

    Models [get_content_bounding_box] and [get_content_extents_at_row] of
    [src/proxify.py].  A pixel is content when one of its channels exceeds
    the threshold.  The first function paints a mask of the content pixels
    into a fresh grey image, pixel by pixel, and asks the imaging library
    for the bounding box of the mask; the second scans one row from the left
    for the first content pixel and from the right for the last.

    Both index pixels through [getpixel]/[putpixel], which raise outside
    the raster: the theorems show that the first never raises and that the
    second raises exactly when the row lies outside (and the image has a
    column to read).  [content_mask] is the reference definition of the mask
    the loop builds. *)

From Stdlib Require Import ZArith List Bool Lia Morphisms Setoid.
Import ListNotations.
From S2P Require Import Prelude Image.
Local Open Scope Z_scope.
Local Open Scope result_scope.

(** [r > threshold or g > threshold or b > threshold] *)
Definition is_content (threshold : Z) (p : pixel) : bool :=
  (threshold <? red p) || (threshold <? green p) || (threshold <? blue p).

(** ** The bounding box of the content *)

(** The body of the inner loop: read the source pixel, mark the mask white
    and set the flag when it is content. *)
Definition mark_pixel (source : image) (threshold y_f : Z)
    (st : gray * bool) (x_f : Z) : result (gray * bool) :=
  let '(dest, has_any_content_pixel) := st in
  p <- getpixel source x_f y_f ;;
  if is_content threshold p
  then dest' <- putpixel dest x_f y_f 255 ;; Ok (dest', true)
  else Ok (dest, has_any_content_pixel).

(** The inner loop: one row. *)
Definition mark_row (source : image) (threshold : Z)
    (st : gray * bool) (y_f : Z) : result (gray * bool) :=
  fold_m (mark_pixel source threshold y_f) (range 0 (width source)) st.

Definition get_content_bounding_box (image : image) (threshold : Z)
    : result (option box) :=
  let original_size := size image in
  let image_width := width image in
  let image_height := height image in
  if (image_width =? 0) || (image_height =? 0) then Ok None
  else
    temp_l_image_full <- new original_size 0 ;;
    st <- fold_m (mark_row image threshold) (range 0 image_height)
            (temp_l_image_full, false) ;;
    let '(dest, has_any_content_pixel) := st in
    if negb has_any_content_pixel then Ok None
    else Ok (getbbox dest).

(** ** The extent of the content on one row *)

(** Is the pixel at column [x] of row [y_row] content? *)
Definition content_at (image : image) (y_row threshold x : Z) : result bool :=
  pixel_tuple <- getpixel image x y_row ;;
  Ok (is_content threshold pixel_tuple).

Definition get_content_extents_at_row (image : image) (y_row threshold : Z)
    : result (option Z * option Z) :=
  let width := width image in
  found <- find_m (content_at image y_row threshold) (range 0 width) ;;
  let content_start_x := match found with Some x => x | None => -1 end in
  if content_start_x =? -1 then Ok (None, None)
  else
    found <- find_m (content_at image y_row threshold)
               (range_down (width - 1) (content_start_x - 1)) ;;
    let content_end_x := match found with Some x => x | None => content_start_x end in
    Ok (Some content_start_x, Some content_end_x).

(** ** Reference definitions *)

(** The mask of the content: white where the picture is content. *)
Definition content_mask (im : image) (threshold : Z) : gray :=
  Raster (width im) (height im)
    (fun x y => if is_content threshold (px im x y) then 255 else 0).

(** Is there content before position [(k, y)] in row-major order? *)
Definition scanned (y k x' y' : Z) : Prop := y' < y \/ (y' = y /\ x' < k).

(** The state of the marking loop before it visits [(k, y)]. *)
Definition marked (im : image) (threshold y k : Z) (st : gray * bool) : Prop :=
  width (fst st) = width im /\ height (fst st) = height im /\
  (forall x' y', 0 <= x' < width im -> 0 <= y' < height im ->
     (scanned y k x' y' -> px (fst st) x' y' = px (content_mask im threshold) x' y') /\
     (~ scanned y k x' y' -> px (fst st) x' y' = 0)) /\
  (snd st = true <->
   exists x' y', 0 <= x' < width im /\ 0 <= y' < height im /\ scanned y k x' y' /\
                 is_content threshold (px im x' y') = true).

(** A row without content; the extent of the content of a row. *)
Definition row_dark (im : image) (threshold y : Z) : Prop :=
  forall x, 0 <= x < width im -> is_content threshold (px im x y) = false.

Record row_extent (im : image) (threshold y s e : Z) : Prop := {
  extent_bounds : 0 <= s <= e /\ e < width im;
  extent_start : is_content threshold (px im s y) = true;
  extent_end : is_content threshold (px im e y) = true;
  extent_left : forall x, 0 <= x < s -> is_content threshold (px im x y) = false;
  extent_right : forall x, e < x < width im -> is_content threshold (px im x y) = false
}.

(** ** The marking loop

    [marked] is the invariant of the two nested loops: before the loop visits
    [(k, y)], the mask is painted on the positions already scanned and black
    elsewhere, and the flag tells whether content was met. *)

Section Marking.
Context (im : image) (threshold : Z).
Let w := width im.
Let h := height im.

Lemma scanned_succ y k x' y' :
  scanned y (k + 1) x' y' <-> scanned y k x' y' \/ (x' = k /\ y' = y).
Proof. unfold scanned. lia. Qed.

Lemma scanned_next_row y x' y' :
  0 <= x' < w -> (scanned y w x' y' <-> scanned (y + 1) 0 x' y').
Proof. unfold scanned. lia. Qed.

Lemma marked_ext y k y2 k2 st :
  (forall x' y', 0 <= x' < w -> 0 <= y' < h ->
     (scanned y k x' y' <-> scanned y2 k2 x' y')) ->
  marked im threshold y k st -> marked im threshold y2 k2 st.
Proof.
  intros E (Hw & Hh & Hp & Hs). unfold marked. fold w h.
  split; [assumption|]. split; [assumption|]. split.
  - intros x' y' Hx Hy. rewrite <- (E x' y') by assumption. now apply Hp.
  - rewrite Hs. split; intros (x' & y' & Hx & Hy & Sc & C); exists x', y';
      (split; [assumption|]); (split; [assumption|]); (split; [|assumption]);
      now apply (E x' y').
Qed.

Lemma marked_next_row y st :
  marked im threshold y w st -> marked im threshold (y + 1) 0 st.
Proof. apply marked_ext. intros. now apply scanned_next_row. Qed.

Lemma mark_pixel_step y k st :
  0 <= k < w -> 0 <= y < h -> marked im threshold y k st ->
  exists st', mark_pixel im threshold y st k = Ok st' /\ marked im threshold y (k + 1) st'.
Proof.
  intros Hk Hy (Hw & Hh & Hp & Hs). destruct st as [dest has]. cbn [fst snd] in *.
  unfold mark_pixel. rewrite getpixel_in by assumption. cbn [bind].
  destruct (is_content threshold (px im k y)) eqn:C.
  - rewrite putpixel_in by (fold w h; lia). cbn [bind]. eexists. split; [reflexivity|].
    unfold marked. cbn [fst snd width height px]. fold w h.
    split; [assumption|]. split; [assumption|]. split.
    + intros x' y' Hx' Hy'. destruct (Hp x' y' Hx' Hy') as [Hp1 Hp2].
      rewrite scanned_succ. destruct ((x' =? k) && (y' =? y)) eqn:E.
      * zbool. subst x' y'. cbn. rewrite C. tauto.
      * split; [intros [Sc | [-> ->]]; [auto|] | intros N; apply Hp2; tauto].
        rewrite !Z.eqb_refl in E. discriminate.
    + split; [intros _ | reflexivity]. exists k, y. rewrite scanned_succ. tauto.
  - eexists. split; [reflexivity|].
    unfold marked. cbn [fst snd]. fold w h.
    split; [assumption|]. split; [assumption|]. split.
    + intros x' y' Hx' Hy'. destruct (Hp x' y' Hx' Hy') as [Hp1 Hp2].
      rewrite scanned_succ.
      split; [intros [Sc | [-> ->]]; [auto|] | intros N; apply Hp2; tauto].
      cbn. rewrite C. apply Hp2. unfold scanned. lia.
    + rewrite Hs. split; intros (x' & y' & Hx' & Hy' & Sc & C'); exists x', y';
        rewrite scanned_succ in *; [tauto|].
      destruct Sc as [Sc | [-> ->]]; [tauto | congruence].
Qed.

Lemma mark_row_step y st :
  0 <= w -> 0 <= y < h -> marked im threshold y 0 st ->
  exists st', mark_row im threshold st y = Ok st' /\ marked im threshold (y + 1) 0 st'.
Proof.
  intros Hw Hy Hm. unfold mark_row. fold w.
  destruct (fold_m_range_inv (marked im threshold y) (mark_pixel im threshold y) 0 w st)
    as (st' & E & M); auto.
  - intros k s Hk. now apply mark_pixel_step.
  - exists st'. split; [assumption|]. now apply marked_next_row.
Qed.

Lemma mark_all_rows dest :
  wf_raster im -> width dest = w -> height dest = h ->
  (forall x y, 0 <= x < w -> 0 <= y < h -> px dest x y = 0) ->
  exists st', fold_m (mark_row im threshold) (range 0 h) (dest, false) = Ok st' /\
              marked im threshold h 0 st'.
Proof.
  intros [Hw Hh] Wd Hd Z.
  apply (fold_m_range_inv (fun y => marked im threshold y 0)); auto.
  - unfold marked, scanned. cbn [fst snd]. fold w h.
    split; [assumption|]. split; [assumption|]. split.
    + intros x' y' Hx' Hy'. split; [lia | auto].
    + split; [discriminate | intros (x' & y' & ?); lia].
  - intros y st Hy. now apply mark_row_step.
Qed.

End Marking.

(** At the exit of the loops the mask is complete. *)
Lemma marked_final im threshold st :
  marked im threshold (height im) 0 st ->
  raster_eq (fst st) (content_mask im threshold) /\
  (snd st = true <->
   exists x y, 0 <= x < width im /\ 0 <= y < height im /\
               is_content threshold (px im x y) = true).
Proof.
  intros (Hw & Hh & Hp & Hs). split.
  - split; [assumption|]. split; [assumption|].
    intros x y Hx Hy. apply Hp; unfold scanned; lia.
  - rewrite Hs. split; intros (x & y & H); exists x, y; unfold scanned in *; intuition lia.
Qed.

Lemma nonzero_content_mask im threshold x y :
  nonzero (px (content_mask im threshold) x y) = is_content threshold (px im x y).
Proof. cbn. now destruct (is_content _ _). Qed.

Lemma is_bbox_content_mask im threshold b :
  is_bbox nonzero (content_mask im threshold) b <-> is_bbox (is_content threshold) im b.
Proof.
  split; apply is_bbox_ext; auto; intros x y _ _;
    now rewrite nonzero_content_mask.
Qed.

Lemma content_mask_dark im threshold :
  getbbox (content_mask im threshold) = None <->
  forall x y, 0 <= x < width im -> 0 <= y < height im ->
              is_content threshold (px im x y) = false.
Proof.
  rewrite getbbox_None. cbn [width height content_mask].
  split; intros H x y Hx Hy; specialize (H x y Hx Hy); cbn in *;
    destruct (is_content _ _); congruence.
Qed.

(** The marking loops never index outside the picture, and what they build
    is the content mask: the function returns the bounding box of the mask. *)
Lemma get_content_bounding_box_mask im threshold :
  wf_raster im ->
  get_content_bounding_box im threshold = Ok (getbbox (content_mask im threshold)).
Proof.
  intros Hwf. pose proof Hwf as [Hw Hh]. unfold get_content_bounding_box.
  destruct ((width im =? 0) || (height im =? 0)) eqn:E.
  - f_equal. symmetry. apply content_mask_dark. intros x y Hx Hy.
    apply orb_true_iff in E. zlia.
  - unfold size. rewrite new_ok by assumption. cbn [bind].
    destruct (mark_all_rows im threshold (Raster (width im) (height im) (fun _ _ => 0)))
      as ([dest has] & -> & M); auto.
    apply marked_final in M as [Eq Has]. cbn [fst snd bind] in *.
    destruct has; cbn [negb].
    + now rewrite Eq.
    + f_equal. symmetry. apply content_mask_dark. intros x y Hx Hy.
      destruct (is_content _ _) eqn:C; [|reflexivity].
      assert (false = true) by (apply Has; eauto). discriminate.
Qed.

(** For a picture entirely at or below the threshold, and only for
    such a picture, [get_content_bounding_box] returns [None] (no content),
    not an empty box. *)
Theorem get_content_bounding_box_None im threshold :
  wf_raster im ->
  (get_content_bounding_box im threshold = Ok None <->
   forall x y, 0 <= x < width im -> 0 <= y < height im ->
               is_content threshold (px im x y) = false).
Proof.
  intros Hwf. rewrite get_content_bounding_box_mask by assumption.
  rewrite <- content_mask_dark. split; [now intros [= ->] | now intros ->].
Qed.

Lemma get_content_bounding_box_None_witness :
  get_content_bounding_box (new_black 4 3) 50 = Ok None <->
  forall x y, 0 <= x < width (new_black 4 3) -> 0 <= y < height (new_black 4 3) ->
              is_content 50 (px (new_black 4 3) x y) = false.
Proof.
  apply (get_content_bounding_box_None (new_black 4 3) 50). split; cbn; lia.
Defined.

(** A box returned by [get_content_bounding_box] lies inside the picture,
    every content pixel lies inside the box, and each of its four edges
    holds a content pixel. *)
Lemma get_content_bounding_box_tight im threshold b :
  wf_raster im ->
  get_content_bounding_box im threshold = Ok (Some b) ->
  is_bbox (is_content threshold) im b.
Proof.
  intros Hwf. rewrite get_content_bounding_box_mask by assumption.
  intros [= E]. now apply is_bbox_content_mask, getbbox_Some.
Qed.

(** The box is determined by the picture: whenever a box is tight around
    the content, it is the one [get_content_bounding_box] returns. *)
Lemma get_content_bounding_box_complete im threshold b :
  wf_raster im ->
  is_bbox (is_content threshold) im b ->
  get_content_bounding_box im threshold = Ok (Some b).
Proof.
  intros Hwf Hb. rewrite get_content_bounding_box_mask by assumption.
  f_equal. now apply getbbox_complete, is_bbox_content_mask.
Qed.

(** Claim C2: [get_content_bounding_box] never raises, also on a picture
    without width or height.  It returns [None] when no pixel of the picture
    is content, and otherwise a box that lies inside the picture, holds
    every content pixel and has a content pixel on each of its four
    edges. *)
Theorem get_content_bounding_box_spec im threshold :
  wf_raster im ->
  (get_content_bounding_box im threshold = Ok None /\
   forall x y, 0 <= x < width im -> 0 <= y < height im ->
               is_content threshold (px im x y) = false) \/
  (exists b, get_content_bounding_box im threshold = Ok (Some b) /\
             is_bbox (is_content threshold) im b).
Proof.
  intros Hwf. destruct (get_content_bounding_box im threshold) as [[b|]|e] eqn:E.
  - right. exists b. split; [reflexivity|].
    now apply (get_content_bounding_box_tight im threshold b Hwf).
  - left. split; [reflexivity|]. rewrite get_content_bounding_box_mask in E by assumption.
    apply content_mask_dark. now injection E.
  - now rewrite get_content_bounding_box_mask in E.
Qed.

Lemma get_content_bounding_box_spec_witness :
  (get_content_bounding_box (framed 8 6 (Box 2 1 6 5)) 50 = Ok None /\
   forall x y, 0 <= x < width (framed 8 6 (Box 2 1 6 5)) ->
               0 <= y < height (framed 8 6 (Box 2 1 6 5)) ->
               is_content 50 (px (framed 8 6 (Box 2 1 6 5)) x y) = false) \/
  (exists b, get_content_bounding_box (framed 8 6 (Box 2 1 6 5)) 50 = Ok (Some b) /\
             is_bbox (is_content 50) (framed 8 6 (Box 2 1 6 5)) b).
Proof.
  apply (get_content_bounding_box_spec (framed 8 6 (Box 2 1 6 5)) 50).
  split; cbn; lia.
Defined.

(** The box is the bounding box of the content and no other:
    [get_content_bounding_box] returns [b] exactly when [b] is tight around
    the content pixels. *)
Theorem get_content_bounding_box_iff im threshold b :
  wf_raster im ->
  (get_content_bounding_box im threshold = Ok (Some b) <->
   is_bbox (is_content threshold) im b).
Proof.
  intros Hwf. split.
  - now apply get_content_bounding_box_tight.
  - now apply get_content_bounding_box_complete.
Qed.

Lemma get_content_bounding_box_iff_witness :
  get_content_bounding_box (framed 8 6 (Box 2 1 6 5)) 50 = Ok (Some (Box 2 1 6 5)) <->
  is_bbox (is_content 50) (framed 8 6 (Box 2 1 6 5)) (Box 2 1 6 5).
Proof.
  apply (get_content_bounding_box_iff (framed 8 6 (Box 2 1 6 5)) 50 (Box 2 1 6 5)).
  split; cbn; lia.
Defined.

(** ** Row extents *)

Lemma content_at_in im y threshold x :
  0 <= x < width im -> 0 <= y < height im ->
  content_at im y threshold x = Ok (is_content threshold (px im x y)).
Proof. intros Hx Hy. unfold content_at. now rewrite getpixel_in. Qed.

(** On a row of the picture the two scans never raise: they are the pure
    searches. *)
Lemma get_content_extents_at_row_pure im y threshold :
  0 <= y < height im ->
  get_content_extents_at_row im y threshold =
  Ok match find (fun x => is_content threshold (px im x y)) (range 0 (width im)) with
     | None => (None, None)
     | Some s =>
         (Some s,
          Some match find (fun x => is_content threshold (px im x y))
                       (range_down (width im - 1) (s - 1)) with
               | Some e => e
               | None => s
               end)
     end.
Proof.
  intros Hy. unfold get_content_extents_at_row.
  rewrite (find_m_ok _ (fun x => is_content threshold (px im x y)))
    by (intros x Hx%in_range; now apply content_at_in).
  cbn [bind]. destruct (find _ _) as [s|] eqn:Es; [|reflexivity].
  apply find_range_Some in Es as (Hs & _).
  destruct (s =? -1) eqn:E; [zlia|].
  rewrite (find_m_ok _ (fun x => is_content threshold (px im x y)))
    by (intros x Hx%in_range_down; apply content_at_in; lia).
  reflexivity.
Qed.

(** On a row inside the picture, [get_content_extents_at_row] returns
    [(None, None)] when the row has no content, and otherwise the columns of
    its first and last content pixels, the start never after the end. *)
Lemma get_content_extents_at_row_spec im y threshold :
  0 <= y < height im ->
  (row_dark im threshold y /\
   get_content_extents_at_row im y threshold = Ok (None, None)) \/
  (exists s e, row_extent im threshold y s e /\
   get_content_extents_at_row im y threshold = Ok (Some s, Some e)).
Proof.
  intros Hy. rewrite get_content_extents_at_row_pure by assumption.
  destruct (find _ (range 0 _)) as [s|] eqn:Es.
  - right. apply find_range_Some in Es as (Hs & Cs & Ls).
    destruct (find _ (range_down _ _)) as [e|] eqn:Ee.
    + apply find_range_down_Some in Ee as (He & Ce & Re).
      exists s, e. split; [|reflexivity]. constructor; auto; try lia.
      intros x Hx. apply Re. lia.
    + rewrite find_range_down_None in Ee. rewrite Ee in Cs by lia. discriminate.
  - left. split; [|reflexivity]. intros x Hx.
    rewrite find_range_None in Es. now apply Es.
Qed.

(** A row at or past the bottom, or more than the height above the
    top, makes [get_content_extents_at_row] raise [IndexError] at its first
    read, provided the picture has a column to read. *)
Theorem get_content_extents_at_row_IndexError im y threshold :
  0 < width im -> (y < - height im \/ height im <= y) ->
  get_content_extents_at_row im y threshold = Raise IndexError.
Proof.
  intros Hw Hy. unfold get_content_extents_at_row.
  rewrite range_cons by lia. cbn [find_m]. unfold content_at at 1.
  rewrite getpixel_out by lia. reflexivity.
Qed.

Lemma get_content_extents_at_row_IndexError_witness :
  get_content_extents_at_row (framed 8 6 (Box 2 1 6 5)) 6 50 = Raise IndexError.
Proof.
  apply (get_content_extents_at_row_IndexError (framed 8 6 (Box 2 1 6 5)) 6 50);
    cbn; lia.
Defined.

(** A negative row within the height is not refused: the scan
    reads the row counted from the bottom. *)
Theorem get_content_extents_at_row_wraps im y threshold :
  - height im <= y < 0 ->
  get_content_extents_at_row im y threshold =
  get_content_extents_at_row im (height im + y) threshold.
Proof.
  intros Hy. unfold get_content_extents_at_row.
  assert (F : forall l, find_m (content_at im y threshold) l
                      = find_m (content_at im (height im + y) threshold) l).
  { intros l. apply find_m_ext. intros x _. unfold content_at.
    now rewrite getpixel_wrap_neg. }
  rewrite F. destruct (find_m _ _); [|reflexivity]. cbn [bind].
  destruct (_ =? -1); [reflexivity|]. now rewrite F.
Qed.

Lemma get_content_extents_at_row_wraps_witness :
  get_content_extents_at_row (framed 8 6 (Box 2 1 6 5)) (-1) 50 =
  get_content_extents_at_row (framed 8 6 (Box 2 1 6 5))
    (height (framed 8 6 (Box 2 1 6 5)) + -1) 50.
Proof.
  apply (get_content_extents_at_row_wraps (framed 8 6 (Box 2 1 6 5)) (-1) 50).
  cbn. lia.
Defined.

(** A row has one extent. *)
Lemma row_extent_unique im threshold y l r l' r' :
  row_extent im threshold y l r -> row_extent im threshold y l' r' ->
  l = l' /\ r = r'.
Proof.
  intros [B S E L R] [B' S' E' L' R']. split.
  - destruct (Z.lt_trichotomy l l') as [H|[H|H]]; [|assumption|].
    + rewrite L' in S by lia. discriminate.
    + rewrite L in S' by lia. discriminate.
  - destruct (Z.lt_trichotomy r r') as [H|[H|H]]; [|assumption|].
    + rewrite R in E' by lia. discriminate.
    + rewrite R' in E by lia. discriminate.
Qed.

(** The scan of a row with content finds its extent. *)
Lemma get_content_extents_at_row_extent im y threshold l r :
  0 <= y < height im -> row_extent im threshold y l r ->
  get_content_extents_at_row im y threshold = Ok (Some l, Some r).
Proof.
  intros Hy R.
  destruct (get_content_extents_at_row_spec im y threshold Hy)
    as [[D _]|(l' & r' & R' & ->)].
  - pose proof (extent_bounds _ _ _ _ _ R). pose proof (extent_start _ _ _ _ _ R) as C.
    rewrite D in C by lia. discriminate.
  - now destruct (row_extent_unique _ _ _ _ _ _ _ R R') as [<- <-].
Qed.

(** Claim C33: on a row inside the picture, [get_content_extents_at_row]
    returns the pair [(s, e)] exactly when [s] is the column of the first
    content pixel of the row and [e] the column of the last; both are
    columns of the picture and [s <= e]. *)
Theorem get_content_extents_at_row_iff im y threshold s e :
  0 <= y < height im ->
  (get_content_extents_at_row im y threshold = Ok (Some s, Some e) <->
   row_extent im threshold y s e).
Proof.
  intros Hy.
  destruct (get_content_extents_at_row_spec im y threshold Hy)
    as [[D ->]|(s' & e' & R & ->)]; split.
  - discriminate.
  - intros R. pose proof (extent_bounds _ _ _ _ _ R).
    pose proof (extent_start _ _ _ _ _ R) as C. rewrite D in C by lia. discriminate.
  - now intros [= <- <-].
  - intros R'. now destruct (row_extent_unique _ _ _ _ _ _ _ R R') as [-> ->].
Qed.

Lemma get_content_extents_at_row_iff_witness :
  get_content_extents_at_row (framed 8 6 (Box 2 1 6 5)) 3 50 = Ok (Some 2, Some 5) <->
  row_extent (framed 8 6 (Box 2 1 6 5)) 50 3 2 5.
Proof.
  apply (get_content_extents_at_row_iff (framed 8 6 (Box 2 1 6 5)) 3 50 2 5).
  cbn. lia.
Defined.

(** On a row inside the picture, [get_content_extents_at_row]
    returns [(None, None)] exactly when no pixel of the row is content. *)
Theorem get_content_extents_at_row_None im y threshold :
  0 <= y < height im ->
  (get_content_extents_at_row im y threshold = Ok (None, None) <->
   row_dark im threshold y).
Proof.
  intros Hy.
  destruct (get_content_extents_at_row_spec im y threshold Hy)
    as [[D ->]|(s & e & R & ->)]; split; try easy.
  intros D. pose proof (extent_bounds _ _ _ _ _ R).
  pose proof (extent_start _ _ _ _ _ R) as C. rewrite D in C by lia. discriminate.
Qed.

Lemma get_content_extents_at_row_None_witness :
  get_content_extents_at_row (framed 8 6 (Box 2 1 6 5)) 0 50 = Ok (None, None) <->
  row_dark (framed 8 6 (Box 2 1 6 5)) 50 0.
Proof.
  apply (get_content_extents_at_row_None (framed 8 6 (Box 2 1 6 5)) 0 50).
  cbn. lia.
Defined.

(** ** Synthetic pictures *)

(** In a framed picture the content is the inside of the box, for every
    threshold that tells black from white. *)
Lemma framed_content w h b threshold x y :
  0 <= threshold < 255 ->
  is_content threshold (px (framed w h b) x y) = in_box b x y.
Proof.
  intros Ht. cbn [framed px]. destruct (in_box b x y); unfold is_content; cbn; lia.
Qed.

Lemma in_box_true b x y : in_box b x y = true <-> inside b x y.
Proof. unfold in_box, inside. rewrite !andb_true_iff. zlia_iff. Qed.

Lemma framed_is_bbox w h b threshold :
  0 <= threshold < 255 ->
  0 <= x0 b < x1 b -> x1 b <= w -> 0 <= y0 b < y1 b -> y1 b <= h ->
  is_bbox (is_content threshold) (framed w h b) b.
Proof.
  intros Ht Hx Hw Hy Hh.
  constructor; cbn [width height framed]; try lia.
  - intros x y _ _. rewrite framed_content by assumption. apply in_box_true.
  - exists (y0 b). rewrite framed_content by assumption. split; [lia|].
    apply in_box_true. unfold inside. lia.
  - exists (y0 b). rewrite framed_content by assumption. split; [lia|].
    apply in_box_true. unfold inside. lia.
  - exists (x0 b). rewrite framed_content by assumption. split; [lia|].
    apply in_box_true. unfold inside. lia.
  - exists (x0 b). rewrite framed_content by assumption. split; [lia|].
    apply in_box_true. unfold inside. lia.
Qed.

Lemma framed_row_extent w h b threshold y :
  0 <= threshold < 255 -> 0 <= x0 b < x1 b -> x1 b <= w -> y0 b <= y < y1 b ->
  row_extent (framed w h b) threshold y (x0 b) (x1 b - 1).
Proof.
  intros Ht Hx Hw Hy.
  constructor; cbn [width framed]; try lia; try intros x Hx';
    rewrite framed_content by assumption.
  - apply in_box_true. unfold inside. lia.
  - apply in_box_true. unfold inside. lia.
  - apply not_true_iff_false. rewrite in_box_true. unfold inside. lia.
  - apply not_true_iff_false. rewrite in_box_true. unfold inside. lia.
Qed.

(** The detector finds the frame of a synthetic card: on a
    picture that is white inside a box and black around it, the box
    returned is that box. *)
Theorem get_content_bounding_box_framed w h b threshold :
  0 <= threshold < 255 ->
  0 <= x0 b < x1 b -> x1 b <= w -> 0 <= y0 b < y1 b -> y1 b <= h ->
  get_content_bounding_box (framed w h b) threshold = Ok (Some b).
Proof.
  intros Ht Hx Hw Hy Hh. apply get_content_bounding_box_complete.
  - split; cbn; lia.
  - now apply framed_is_bbox.
Qed.

Lemma get_content_bounding_box_framed_witness :
  get_content_bounding_box (framed 750 1050 (Box 36 36 714 1014)) 50
  = Ok (Some (Box 36 36 714 1014)).
Proof.
  apply (get_content_bounding_box_framed 750 1050 (Box 36 36 714 1014) 50);
    cbn; lia.
Defined.
