(* ===== verification/Solidity.v ===== *)
(** * Solidity: is a strip framed by dark bands on its left and right?

    Models [check_strip_for_solid_lr_border] of [src/proxify.py].  The
    function looks at the leftmost and the rightmost [check_width_px]
    columns of a strip and answers whether every pixel there is at or below
    the threshold.  Its loops clear a flag and break at the first content
    pixel; the right band is not read when the left one fails.

    [dark_band] and [solid_lr] are the specification: the answer is [true]
    exactly when the band width is positive, the strip is at least twice as
    wide and not empty, and both bands are dark. *)

From Stdlib Require Import ZArith List Bool Lia Morphisms.
Import ListNotations.
From S2P Require Import Prelude Image Detector.
Local Open Scope Z_scope.
Local Open Scope result_scope.

(** The inner loop: is every pixel of column [x_coord] dark? *)
Definition column_dark (strip_pixels : image) (strip_h threshold x_coord : Z)
    : result bool :=
  forallb_m
    (fun y_coord =>
       pixel_tuple <- getpixel strip_pixels x_coord y_coord ;;
       Ok (negb (is_content threshold pixel_tuple)))
    (range 0 strip_h).

(** The outer loop over the columns of a band. *)
Definition band_solid (strip_pixels : image) (strip_h threshold : Z)
    (columns : list Z) : result bool :=
  forallb_m (column_dark strip_pixels strip_h threshold) columns.

Definition check_strip_for_solid_lr_border
    (strip_image : image) (check_width_px threshold : Z) : result bool :=
  if (height strip_image =? 0) || (width strip_image <? 2 * check_width_px)
  then Ok false
  else
    let strip_h := height strip_image in
    let strip_w := width strip_image in
    left_border_is_solid <-
      (if 0 <? check_width_px
       then band_solid strip_image strip_h threshold (range 0 check_width_px)
       else Ok false) ;;
    if negb left_border_is_solid then Ok false
    else
      right_border_is_solid <-
        (if 0 <? check_width_px
         then band_solid strip_image strip_h threshold
                (range (strip_w - check_width_px) strip_w)
         else Ok false) ;;
      Ok (left_border_is_solid && right_border_is_solid).

(** ** Specification *)

(** Every pixel of the columns [lo <= x < hi] is at or below the
    threshold. *)
Definition dark_band (strip : image) (threshold lo hi : Z) : Prop :=
  forall x y, lo <= x < hi -> 0 <= y < height strip ->
              is_content threshold (px strip x y) = false.

Definition solid_lr (strip : image) (check_width_px threshold : Z) : Prop :=
  0 < check_width_px /\ 0 < height strip /\ 2 * check_width_px <= width strip /\
  dark_band strip threshold 0 check_width_px /\
  dark_band strip threshold (width strip - check_width_px) (width strip).

(** The same, as a test that computes. *)
Definition dark_bandb (strip : image) (threshold lo hi : Z) : bool :=
  forallb (fun x => forallb (fun y => negb (is_content threshold (px strip x y)))
                      (range 0 (height strip)))
          (range lo hi).

Definition solid_lrb (strip : image) (check_width_px threshold : Z) : bool :=
  (0 <? check_width_px) && (0 <? height strip) &&
  (2 * check_width_px <=? width strip) &&
  dark_bandb strip threshold 0 check_width_px &&
  dark_bandb strip threshold (width strip - check_width_px) (width strip).

(** ** Theorems *)

Lemma dark_bandb_true strip threshold lo hi :
  dark_bandb strip threshold lo hi = true <-> dark_band strip threshold lo hi.
Proof.
  unfold dark_bandb, dark_band. rewrite forallb_range.
  split.
  - intros H x y Hx Hy. specialize (H x Hx). rewrite forallb_range in H.
    apply negb_true_iff. now apply H.
  - intros H x Hx. apply forallb_range. intros y Hy.
    apply negb_true_iff. now apply H.
Qed.

Lemma solid_lrb_true strip check_width_px threshold :
  solid_lrb strip check_width_px threshold = true <->
  solid_lr strip check_width_px threshold.
Proof.
  unfold solid_lrb, solid_lr.
  rewrite !andb_true_iff, !dark_bandb_true, !Z.ltb_lt, Z.leb_le. tauto.
Qed.

(** A band inside the strip is read without raising. *)
Lemma band_solid_pure strip threshold lo hi :
  0 <= lo -> hi <= width strip ->
  band_solid strip (height strip) threshold (range lo hi) =
  Ok (dark_bandb strip threshold lo hi).
Proof.
  intros Hlo Hhi. unfold band_solid, dark_bandb.
  apply forallb_m_ok. intros x Hx%in_range. unfold column_dark.
  apply forallb_m_ok. intros y Hy%in_range.
  now rewrite getpixel_in by lia.
Qed.

(** The loops of [check_strip_for_solid_lr_border] never index outside the
    strip, and their flags compute the test [solid_lrb]: both bands dark, a
    positive band width, a strip at least twice as wide and not empty. *)
Lemma check_strip_pure strip check_width_px threshold :
  0 <= height strip ->
  check_strip_for_solid_lr_border strip check_width_px threshold =
  Ok (solid_lrb strip check_width_px threshold).
Proof.
  intros Hh. unfold check_strip_for_solid_lr_border, solid_lrb.
  destruct (height strip =? 0) eqn:E0; cbn [orb].
  { replace (0 <? height strip) with false by zlia. now rewrite andb_false_r. }
  destruct (width strip <? 2 * check_width_px) eqn:E1.
  { replace (2 * check_width_px <=? width strip) with false by zlia.
    now rewrite andb_false_r. }
  replace (0 <? height strip) with true by zlia.
  replace (2 * check_width_px <=? width strip) with true by zlia.
  destruct (0 <? check_width_px) eqn:E2; [|reflexivity]. cbn [andb].
  rewrite !band_solid_pure by zlia. cbn [bind].
  destruct (dark_bandb strip threshold 0 check_width_px); reflexivity.
Qed.

(** Claim C4: the answer is [true] exactly when every pixel of the leftmost and
    of the rightmost [check_width_px] columns is at or below the threshold
    on the full height, the width is positive and the strip is not narrower
    than twice the width nor empty. *)
Theorem check_strip_spec strip check_width_px threshold :
  0 <= height strip ->
  (check_strip_for_solid_lr_border strip check_width_px threshold = Ok true <->
   solid_lr strip check_width_px threshold).
Proof.
  intros Hh. rewrite check_strip_pure by assumption.
  rewrite <- solid_lrb_true. split; [now intros [= ->] | now intros ->].
Qed.

Lemma check_strip_spec_witness :
  check_strip_for_solid_lr_border (framed 12 4 (Box 3 0 9 4)) 3 50 = Ok true <->
  solid_lr (framed 12 4 (Box 3 0 9 4)) 3 50.
Proof.
  apply (check_strip_spec (framed 12 4 (Box 3 0 9 4)) 3 50). cbn. lia.
Defined.

(** Narrower bands of a solid strip are solid. *)
Lemma solid_lr_narrower strip w w' threshold :
  0 < w <= w' -> solid_lr strip w' threshold -> solid_lr strip w threshold.
Proof.
  intros Hw (H1 & H2 & H3 & L & R). unfold solid_lr, dark_band in *.
  repeat split; try lia; intros x y Hx Hy; [apply L | apply R]; lia.
Qed.

(** Claim C26: widening the checked band can only turn [true] into [false]: a
    strip that is solid for a width is solid for every smaller positive
    width. *)
Theorem check_strip_monotone strip w w' threshold :
  0 <= height strip -> 0 < w <= w' ->
  check_strip_for_solid_lr_border strip w' threshold = Ok true ->
  check_strip_for_solid_lr_border strip w threshold = Ok true.
Proof.
  intros Hh Hw. rewrite !check_strip_pure by assumption. intros [= E].
  f_equal. apply solid_lrb_true in E. apply solid_lrb_true.
  now apply (solid_lr_narrower strip w w').
Qed.

Lemma check_strip_monotone_witness :
  check_strip_for_solid_lr_border (framed 12 4 (Box 3 0 9 4)) 2 50 = Ok true.
Proof.
  apply (check_strip_monotone (framed 12 4 (Box 3 0 9 4)) 2 3 50);
    [cbn; lia | lia | vm_compute; reflexivity].
Defined.

(** A band width that is not positive proves nothing: the answer
    is [false], whatever the strip. *)
Theorem check_strip_no_width strip check_width_px threshold :
  check_width_px <= 0 ->
  check_strip_for_solid_lr_border strip check_width_px threshold = Ok false.
Proof.
  intros Hw. unfold check_strip_for_solid_lr_border.
  destruct (_ || _); [reflexivity|].
  destruct (0 <? check_width_px) eqn:E; [zlia | reflexivity].
Qed.

Lemma check_strip_no_width_witness :
  check_strip_for_solid_lr_border (framed 12 4 (Box 3 0 9 4)) 0 50 = Ok false.
Proof. apply (check_strip_no_width (framed 12 4 (Box 3 0 9 4)) 0 50). lia. Defined.
