(* ===== verification/Classifier.v ===== *)
(** * Classifier: the frame style of a card

    Models [determine_card_type] of [src/proxify.py].  A picture lower than
    20 pixels is borderless.  Otherwise two horizontal zones are cut out of
    it, one at the top (about 5% of the height) and one in the middle (from
    50% to 60% of the height), each at least [min_zone_height] high; the
    solidity checker runs on both and [classify] reads the frame style off
    the two answers.

    The heights are computed with floats ([int(height * 0.05)]); the
    definitions keep this arithmetic, and the theorems at the end of the
    file give the zones in integer arithmetic for every realistic height. *)

From Stdlib Require Import ZArith List Bool Lia EquivDec.
Import ListNotations.
From S2P Require Import Prelude Binary64 PyNum Image Detector Solidity.
Local Open Scope Z_scope.
Local Open Scope result_scope.

Inductive card_type : Type :=
| standard
| extended_art
| borderless.

(** [max(1, edge_check_pixel_width // 2 if edge_check_pixel_width > 0 else 1)] *)
Definition min_zone_height (edge_check_pixel_width : Z) : Z :=
  Z.max 1 (if 0 <? edge_check_pixel_width then edge_check_pixel_width / 2 else 1).

(** The box of the top zone. *)
Definition top_zone (width height edge_check_pixel_width : Z) : box :=
  let top_zone_actual_height :=
    Z.max (min_zone_height edge_check_pixel_width)
          (py_int (py_mul (NInt height) (NFloat lit_0_05))) in
  Box 0 0 width top_zone_actual_height.

(** The box of the middle zone: when its height was raised to the minimum
    and it would end below the picture, its top is pulled up. *)
Definition middle_zone (width height edge_check_pixel_width : Z) : box :=
  let min_zone_height := min_zone_height edge_check_pixel_width in
  let middle_zone_top_y := py_int (py_mul (NInt height) (NFloat lit_0_50)) in
  let middle_zone_bottom_y := py_int (py_mul (NInt height) (NFloat lit_0_60)) in
  let middle_zone_calculated_height := middle_zone_bottom_y - middle_zone_top_y in
  let middle_zone_actual_height :=
    Z.max min_zone_height middle_zone_calculated_height in
  let middle_zone_top_y :=
    if (middle_zone_actual_height =? min_zone_height)
       && (middle_zone_calculated_height <? min_zone_height)
    then if height <? middle_zone_top_y + middle_zone_actual_height
         then Z.max 0 (height - middle_zone_actual_height)
         else middle_zone_top_y
    else middle_zone_top_y in
  Box 0 middle_zone_top_y width (middle_zone_top_y + middle_zone_actual_height).

(** The frame style from the two answers of the solidity checker. *)
Definition classify (top_has_lr_border middle_has_lr_border : bool) : card_type :=
  if top_has_lr_border && middle_has_lr_border then standard
  else if top_has_lr_border && negb middle_has_lr_border then extended_art
  else borderless.

Definition determine_card_type (image : image)
    (threshold edge_check_pixel_width : Z) : result card_type :=
  let '(width, height) := size image in
  if height <? 20 then Ok borderless
  else
    top_zone_img <- crop image (top_zone width height edge_check_pixel_width) ;;
    middle_zone_img <- crop image (middle_zone width height edge_check_pixel_width) ;;
    top_has_lr_border <-
      check_strip_for_solid_lr_border top_zone_img edge_check_pixel_width threshold ;;
    middle_has_lr_border <-
      check_strip_for_solid_lr_border middle_zone_img edge_check_pixel_width threshold ;;
    Ok (classify top_has_lr_border middle_has_lr_border).

(** ** Specification *)

(** The pixel a crop holds for a position: zeros outside the picture. *)
Definition px_pad (im : Image.image) (x y : Z) : pixel :=
  if in_bounds im x y then px im x y else transparent.

(** The rows [y0 z <= y < y1 z] of the picture (extended by black rows
    outside it) are dark on the leftmost and rightmost [w] columns. *)
Definition zone_solid (im : Image.image) (threshold w : Z) (z : box) : Prop :=
  0 < w /\ 2 * w <= width im /\
  forall x y, (0 <= x < w \/ width im - w <= x < width im) ->
              y0 z <= y < y1 z ->
              is_content threshold (px_pad im x y) = false.

(** The frame style as the specification defines it. *)
Inductive frame_style (im : Image.image) (threshold w : Z) : card_type -> Prop :=
| style_small :
    height im < 20 -> frame_style im threshold w borderless
| style_standard :
    20 <= height im ->
    zone_solid im threshold w (top_zone (width im) (height im) w) ->
    zone_solid im threshold w (middle_zone (width im) (height im) w) ->
    frame_style im threshold w standard
| style_extended_art :
    20 <= height im ->
    zone_solid im threshold w (top_zone (width im) (height im) w) ->
    ~ zone_solid im threshold w (middle_zone (width im) (height im) w) ->
    frame_style im threshold w extended_art
| style_borderless :
    20 <= height im ->
    ~ zone_solid im threshold w (top_zone (width im) (height im) w) ->
    frame_style im threshold w borderless.

(** The middle zone as the integer quotients give it. *)
Definition middle_zone_int (width height edge_check_pixel_width : Z) : box :=
  let m := min_zone_height edge_check_pixel_width in
  let top := height / 2 in
  let calculated := 3 * height / 5 - top in
  if calculated <? m
  then let top := if height <? top + m then Z.max 0 (height - m) else top in
       Box 0 top width (top + m)
  else Box 0 top width (3 * height / 5).

(** Frame styles are compared by [==] and [equiv_decb]. *)
#[export] Instance card_type_eqdec : EqDec card_type eq.
Proof. intros a b. change ({a = b} + {a <> b}). decide equality. Defined.

(** ** The zones are boxes the library accepts *)

Lemma min_zone_height_pos w : 1 <= min_zone_height w.
Proof. unfold min_zone_height. lia. Qed.

Lemma top_zone_shape w h e :
  let z := top_zone w h e in x0 z = 0 /\ x1 z = w /\ y0 z = 0 /\ 1 <= y1 z.
Proof.
  unfold top_zone. cbn [x0 x1 y0 y1]. pose proof (min_zone_height_pos e). lia.
Qed.

Lemma middle_zone_shape w h e :
  let z := middle_zone w h e in x0 z = 0 /\ x1 z = w /\ y0 z < y1 z.
Proof.
  unfold middle_zone. cbn [x0 x1 y0 y1]. pose proof (min_zone_height_pos e). lia.
Qed.

(** Reading the crop of a full-width zone is reading the picture, padded. *)
Lemma crop_zone im z :
  0 <= width im -> x0 z = 0 -> x1 z = width im -> y0 z <= y1 z ->
  exists c, crop im z = Ok c /\ width c = width im /\ height c = y1 z - y0 z /\
    forall x y, px c x y = px_pad im x (y0 z + y).
Proof.
  intros Hw H0 H1 Hy. destruct (crop_ok im z) as (c & E & Wc & Hc & In & Out); try lia.
  exists c. repeat split; try lia; auto. intros x y. unfold px_pad.
  specialize (In x y). specialize (Out x y). rewrite H0 in *. cbn in *.
  destruct (in_bounds im x (y0 z + y)); auto.
Qed.

(** The checker's verdict on the crop is the darkness of the zone in the
    picture. *)
Lemma solid_lr_zone im threshold w z c :
  width c = width im -> height c = y1 z - y0 z -> y0 z < y1 z ->
  (forall x y, px c x y = px_pad im x (y0 z + y)) ->
  solid_lr c w threshold <-> zone_solid im threshold w z.
Proof.
  intros Wc Hc Hy P. unfold solid_lr, zone_solid, dark_band. rewrite Wc, Hc.
  split.
  - intros (H1 & H2 & H3 & L & R). repeat split; try lia.
    intros x y Hx Hyz. replace y with (y0 z + (y - y0 z)) by lia. rewrite <- P.
    destruct Hx; [apply L | apply R]; lia.
  - intros (H1 & H2 & D). repeat split; try lia; intros x y Hx Hyz; rewrite P;
      apply D; lia.
Qed.

Lemma check_zone im threshold w z :
  0 <= width im -> x0 z = 0 -> x1 z = width im -> y0 z < y1 z ->
  exists c b, crop im z = Ok c /\
    check_strip_for_solid_lr_border c w threshold = Ok b /\
    (b = true <-> zone_solid im threshold w z).
Proof.
  intros Hw H0 H1 Hy. destruct (crop_zone im z) as (c & E & Wc & Hc & P); try lia.
  exists c, (solid_lrb c w threshold). split; [assumption|].
  split; [apply check_strip_pure; lia|].
  rewrite solid_lrb_true. now apply solid_lr_zone.
Qed.

(** A run of [determine_card_type]: it returns, and what it returns is a
    frame style that the specification [frame_style] allows. *)
Lemma determine_card_type_run im threshold w :
  0 <= width im ->
  exists t, determine_card_type im threshold w = Ok t /\ frame_style im threshold w t.
Proof.
  intros Hw. unfold determine_card_type, size.
  destruct (height im <? 20) eqn:E.
  { exists borderless. split; [reflexivity|]. constructor. zlia. }
  pose proof (top_zone_shape (width im) (height im) w) as (T0 & T1 & T2 & T3).
  pose proof (middle_zone_shape (width im) (height im) w) as (M0 & M1 & M2).
  destruct (check_zone im threshold w (top_zone (width im) (height im) w))
    as (ct & bt & Ect & Ebt & Ht); try lia.
  destruct (check_zone im threshold w (middle_zone (width im) (height im) w))
    as (cm & bm & Ecm & Ebm & Hm); try lia.
  rewrite Ect, Ecm. cbn [bind]. rewrite Ebt, Ebm. cbn [bind].
  exists (classify bt bm). split; [reflexivity|].
  assert (20 <= height im) by zlia.
  destruct bt, bm; cbn.
  - apply style_standard; tauto.
  - apply style_extended_art; try tauto. intros N. apply Hm in N. discriminate.
  - apply style_borderless; auto. intros N. apply Ht in N. discriminate.
  - apply style_borderless; auto. intros N. apply Ht in N. discriminate.
Qed.

(** [determine_card_type] never raises: its crop boxes are never
    inverted and the checker never reads outside its strip. *)
Theorem determine_card_type_never_raises im threshold w :
  0 <= width im -> exists t, determine_card_type im threshold w = Ok t.
Proof.
  intros Hw. destruct (determine_card_type_run im threshold w Hw) as (t & E & _).
  eauto.
Qed.

Lemma determine_card_type_never_raises_witness :
  exists t, determine_card_type (framed 80 112 (Box 10 10 70 102)) 50 10 = Ok t.
Proof.
  apply (determine_card_type_never_raises (framed 80 112 (Box 10 10 70 102)) 50 10).
  cbn. lia.
Defined.

(** The specification allows one style only. *)
Lemma frame_style_functional im threshold w t t' :
  frame_style im threshold w t -> frame_style im threshold w t' -> t = t'.
Proof. intros [] H'; inversion H'; subst; try reflexivity; try lia; tauto. Qed.

(** Claim C3: [determine_card_type] returns the frame style the
    specification defines, and no other: [standard] when the top and the
    middle zone are both solid, [extended_art] when only the top one is,
    [borderless] when the top one is not or the picture is lower than 20
    pixels. *)
Theorem determine_card_type_iff im threshold w t :
  0 <= width im ->
  (determine_card_type im threshold w = Ok t <-> frame_style im threshold w t).
Proof.
  intros Hw. destruct (determine_card_type_run im threshold w Hw) as (t0 & E & F).
  rewrite E. split.
  - now intros [= <-].
  - intros F'. f_equal. eapply frame_style_functional; eauto.
Qed.

Lemma determine_card_type_iff_witness :
  determine_card_type (framed 80 112 (Box 10 10 70 102)) 50 10 = Ok standard <->
  frame_style (framed 80 112 (Box 10 10 70 102)) 50 10 standard.
Proof.
  apply (determine_card_type_iff (framed 80 112 (Box 10 10 70 102)) 50 10 standard).
  cbn. lia.
Defined.

(** A framed card, a card with caps at the top and the bottom only, and a
    card without frame. *)
Example determine_card_type_samples :
  determine_card_type (framed 80 112 (Box 10 10 70 102)) 50 10 = Ok standard /\
  determine_card_type (framed 80 112 (Box 0 12 80 100)) 50 10 = Ok extended_art /\
  determine_card_type (framed 80 112 (Box 0 0 80 112)) 50 10 = Ok borderless.
Proof. repeat split; vm_compute; reflexivity. Qed.

(** ** Synthetic cards *)

(** The side bands of a framed picture are dark on every row, when the
    frame is at least as wide as the band. *)
Lemma framed_zone_solid w h b threshold e z :
  0 <= threshold < 255 -> 0 < e -> 2 * e <= w -> e <= x0 b -> x1 b <= w - e ->
  zone_solid (framed w h b) threshold e z.
Proof.
  intros Ht He Hw H0 H1. unfold zone_solid. cbn [width framed].
  repeat split; try assumption. intros x y Hx _. unfold px_pad.
  destruct (in_bounds _ x y); [|unfold is_content; cbn; lia].
  rewrite framed_content by assumption. apply not_true_iff_false.
  rewrite in_box_true. unfold inside. lia.
Qed.

(** A synthetic card with a black frame at least as wide as the
    checked band on the left and on the right is classified [standard]. *)
Theorem determine_card_type_framed w h b threshold e :
  0 <= threshold < 255 -> 20 <= h -> 0 < e -> 2 * e <= w ->
  e <= x0 b -> x1 b <= w - e ->
  determine_card_type (framed w h b) threshold e = Ok standard.
Proof.
  intros Ht Hh He Hw H0 H1.
  destruct (determine_card_type_run (framed w h b) threshold e) as (t & -> & F);
    [cbn; lia|].
  f_equal. apply (frame_style_functional _ _ _ _ _ F).
  apply style_standard; [cbn; lia | |]; now apply framed_zone_solid.
Qed.

Lemma determine_card_type_framed_witness :
  determine_card_type (framed 750 1050 (Box 36 36 714 1014)) 50 10 = Ok standard.
Proof.
  apply (determine_card_type_framed 750 1050 (Box 36 36 714 1014) 50 10);
    cbn; lia.
Defined.

(** ** The zones in integer arithmetic *)

Lemma top_zone_int w h e :
  0 <= h < 2 ^ 48 ->
  top_zone w h e = Box 0 0 w (Z.max (min_zone_height e) (h / 20)).
Proof. intros H. unfold top_zone. now rewrite py_int_mul_0_05. Qed.

Lemma middle_zone_eq_int w h e :
  0 <= h < 2 ^ 50 -> middle_zone w h e = middle_zone_int w h e.
Proof.
  intros H. unfold middle_zone, middle_zone_int.
  rewrite py_int_mul_0_50, py_int_mul_0_60 by lia.
  set (m := min_zone_height e). set (c := 3 * h / 5 - h / 2).
  destruct (c <? m) eqn:C.
  - replace (Z.max m c) with m by zlia. rewrite Z.eqb_refl. cbn [andb].
    reflexivity.
  - rewrite andb_false_r. f_equal. zlia.
Qed.

(** Both zones lie inside a picture that is at least as high as the minimum
    zone height. *)
Theorem zones_inside w h e :
  20 <= h < 2 ^ 48 -> min_zone_height e <= h ->
  y1 (top_zone w h e) <= h /\
  0 <= y0 (middle_zone w h e) /\ y1 (middle_zone w h e) <= h.
Proof.
  intros H M. rewrite top_zone_int, middle_zone_eq_int by lia.
  unfold middle_zone_int. cbn [y0 y1].
  destruct (_ <? min_zone_height e) eqn:C; [destruct (h <? _) eqn:D|];
    cbn [y0 y1]; zdiv.
Qed.

Lemma zones_inside_witness :
  y1 (top_zone 750 1050 10) <= 1050 /\
  0 <= y0 (middle_zone 750 1050 10) /\ y1 (middle_zone 750 1050 10) <= 1050.
Proof. apply (zones_inside 750 1050 10); [lia | vm_compute; discriminate]. Defined.

(** For every height below 2^48 the float products
    [int(height * 0.05)], [int(height * 0.50)] and [int(height * 0.60)] are
    the integer quotients [height / 20], [height / 2] and [3 * height / 5]:
    the zones are those of [middle_zone_int] and of the top [height / 20]
    rows, no rounding error moves a zone by a row. *)
Theorem zones_in_integers w h e :
  0 <= h < 2 ^ 48 ->
  top_zone w h e = Box 0 0 w (Z.max (min_zone_height e) (h / 20)) /\
  middle_zone w h e = middle_zone_int w h e.
Proof.
  intros H. split; [now apply top_zone_int | apply middle_zone_eq_int; lia].
Qed.

Lemma zones_in_integers_witness :
  top_zone 750 1050 10 = Box 0 0 750 (Z.max (min_zone_height 10) (1050 / 20)) /\
  middle_zone 750 1050 10 = middle_zone_int 750 1050 10.
Proof. apply (zones_in_integers 750 1050 10). lia. Defined.

(** Inside the picture no padding is read: the solidity of a zone is a
    statement about the pixels of the picture. *)
Lemma zone_solid_inside im threshold w z :
  0 <= y0 z -> y1 z <= height im ->
  zone_solid im threshold w z <->
  (0 < w /\ 2 * w <= width im /\
   forall x y, (0 <= x < w \/ width im - w <= x < width im) ->
               y0 z <= y < y1 z -> is_content threshold (px im x y) = false).
Proof.
  intros H0 H1. unfold zone_solid, px_pad.
  split; intros (Hw & Hw2 & D); repeat split; try assumption; intros x y Hx Hy;
    specialize (D x y Hx Hy);
    assert (B : in_bounds im x y = true) by (apply in_bounds_true; lia);
    rewrite B in *; assumption.
Qed.

(** The minimum zone height is not capped by the height of the
    picture: for a picture 30 pixels high and an edge width of 100, both
    zones are the box of the first 50 rows, 20 of them below the picture. *)
Example zones_exceed_picture :
  top_zone 200 30 100 = Box 0 0 200 50 /\ middle_zone 200 30 100 = Box 0 0 200 50.
Proof. vm_compute. split; reflexivity. Qed.
