(* ===== verification/Cropper.v ===== *)
(** * Cropper: the crop that gives every card the same border

    Models the part of [resize_card] ([src/proxify.py], lines 246-324) that
    turns the content box of a picture into the rectangle to cut out of it.
    The artwork must fill the target card minus its borders; the scale from
    content to artwork says how many source pixels each target border is
    worth, and the content box is grown by that much on each side, clamped
    to the picture.  For extended art the horizontal extent of the content
    is measured on one row below the top of the content instead.

    The program prints a warning at every fallback and an error when it
    gives a picture up; the model emits a [diag] for each of them (progress
    messages are not modelled).

    The functions read the module's pixel constants: here the section
    variables [s] and [p].  [Border] follows the borders kept through the
    final resize. *)

From Stdlib Require Import ZArith QArith Qabs Qpower List Bool Lia Lqa.
Import ListNotations.
From S2P Require Import Prelude Binary64 PyNum Config Image Detector Classifier.
Local Open Scope Z_scope.

(** The warnings and the errors [resize_card] prints, by the line that
    prints them. *)
Inductive diag : Type :=
| NoOverallContent               (* 260 *)
| NoSideContent (y : Z)          (* 279 *)
| SampleRowOutOfBounds (y : Z)   (* 281 *)
| SideScanSkipped                (* 283 *)
| InvalidProportionalCrop        (* 315 *)
| FallbackToContentBox (b : box) (* 317 *)
| FallbackToFullImage            (* 320 *)
| DegenerateContentBox           (* 323 *)
| TrimExceedsHeight              (* 342 *)
| ZeroWidthFullArt               (* 348 *)
| FallbackError                  (* 362 *)
| ImageFileNotFound              (* 380 *)
| ErrorProcessingImage (e : exn). (* 383 *)

(** What to cut out of the original: a box, or nothing (a copy). *)
Inductive crop_choice : Type :=
| CropTo (b : box)
| WholeImage.

Section Cropper.
Context (s : settings) (p : pixels).
Local Open Scope log_scope.

(** The effective content: the bounding box, or the full picture when there
    is none (lines 254-262). *)
Definition effective_content (original_w original_h : Z)
    (overall_content_bbox : option box) : logged diag box :=
  match overall_content_bbox with
  | Some b => lret b
  | None => tell NoOverallContent ;; lret (Box 0 0 original_w original_h)
  end.

(** Extended art: the sides of the content are those of the row
    [EXTENDED_ART_SCAN_OFFSET_Y_PX] below its top (lines 265-283). *)
Definition extended_art_sides (original_img : image)
    (overall_content_bbox : option box) (effective : box) : logged diag box :=
  let original_h := height original_img in
  match overall_content_bbox with
  | Some _ =>
      let content_top_y_for_scan := y0 effective in
      let vertical_sample_y :=
        content_top_y_for_scan + EXTENDED_ART_SCAN_OFFSET_Y_PX p in
      if (0 <=? vertical_sample_y) && (vertical_sample_y <? original_h)
      then
        ext <- lift (get_content_extents_at_row original_img vertical_sample_y
                       (BLACK_BORDER_THRESHOLD s)) ;;
        match ext with
        | (Some cx_at_row_start, Some cx_at_row_end) =>
            if cx_at_row_start <=? cx_at_row_end
            then lret (Box cx_at_row_start (y0 effective)
                           cx_at_row_end (y1 effective))
            else tell (NoSideContent vertical_sample_y) ;; lret effective
        | _ => tell (NoSideContent vertical_sample_y) ;; lret effective
        end
      else tell (SampleRowOutOfBounds vertical_sample_y) ;; lret effective
  | None => tell SideScanSkipped ;; lret effective
  end.

(** [final_artwork / current_content if current_content != 0 else 0] *)
Definition content_scale (final_artwork current_content_orig : Z) : result number :=
  if negb (current_content_orig =? 0)
  then py_truediv (NInt final_artwork) (NInt current_content_orig)
  else Ok (NInt 0).

(** [round(BORDER_PX / scale) if abs(scale) > 1e-6 else 0] *)
Definition keep_orig_border (border_px : Z) (scale : number) : result Z :=
  if py_gt (py_abs scale) (NFloat lit_1e_6)
  then (q <- py_truediv (NInt border_px) scale ;; Ok (py_round q))%result
  else Ok 0.

(** The crop for a standard or extended-art card (lines 292-324). *)
Definition proportional_crop (original_w original_h : Z)
    (target_final_card_width_px target_final_card_height_px : Z)
    (effective : box) : logged diag crop_choice :=
  let current_content_width_orig := x1 effective - x0 effective in
  let current_content_height_orig := y1 effective - y0 effective in
  if (0 <? current_content_width_orig) && (0 <? current_content_height_orig)
  then
    let final_artwork_width :=
      Z.max 1 (target_final_card_width_px - BORDER_LEFT_PX p - BORDER_RIGHT_PX p) in
    let final_artwork_height :=
      Z.max 1 (target_final_card_height_px - BORDER_TOP_PX p - BORDER_BOTTOM_PX p) in
    scale_w <- lift (content_scale final_artwork_width current_content_width_orig) ;;
    scale_h <- lift (content_scale final_artwork_height current_content_height_orig) ;;
    keep_orig_border_left_px <- lift (keep_orig_border (BORDER_LEFT_PX p) scale_w) ;;
    keep_orig_border_top_px <- lift (keep_orig_border (BORDER_TOP_PX p) scale_h) ;;
    keep_orig_border_right_px <- lift (keep_orig_border (BORDER_RIGHT_PX p) scale_w) ;;
    keep_orig_border_bottom_px <- lift (keep_orig_border (BORDER_BOTTOM_PX p) scale_h) ;;
    let crop_x0 := Z.max 0 (x0 effective - keep_orig_border_left_px) in
    let crop_y0 := Z.max 0 (y0 effective - keep_orig_border_top_px) in
    let crop_x1 := Z.min original_w (x1 effective + keep_orig_border_right_px) in
    let crop_y1 := Z.min original_h (y1 effective + keep_orig_border_bottom_px) in
    if (crop_x0 <? crop_x1) && (crop_y0 <? crop_y1)
    then lret (CropTo (Box crop_x0 crop_y0 crop_x1 crop_y1))
    else
      tell InvalidProportionalCrop ;;
      if (0 <=? x0 effective) && (0 <=? y0 effective)
         && (x0 effective <? x1 effective) && (y0 effective <? y1 effective)
      then tell (FallbackToContentBox effective) ;; lret (CropTo effective)
      else tell FallbackToFullImage ;; lret WholeImage
  else tell DegenerateContentBox ;; lret WholeImage.

(** The picture a choice stands for. *)
Definition apply_crop (original_img : image) (c : crop_choice) : result image :=
  match c with
  | CropTo b => crop original_img b
  | WholeImage => Ok (copy original_img)
  end.

End Cropper.

(** ** Predicates on the outcome *)

(** A choice the library can cut: a box with a width and a height. *)
Definition valid_choice (c : crop_choice) : Prop :=
  match c with
  | CropTo b => x0 b < x1 b /\ y0 b < y1 b
  | WholeImage => True
  end.

(** Every warning but the one of line 362. *)
Definition no_fallback_error (d : diag) : Prop := d <> FallbackError.

(** ** Theorems *)

Section CropperFacts.
Context (s : settings) (p : pixels).

Lemma content_scale_ok faw cw :
  content_scale faw cw =
  Ok (if cw =? 0 then NInt 0 else NFloat (rn (inject_Z faw / inject_Z cw))).
Proof.
  unfold content_scale. destruct (cw =? 0) eqn:E; cbn [negb]; [reflexivity|].
  cbn [py_truediv]. rewrite int_truediv_ok by zlia. reflexivity.
Qed.

Lemma lit_1e_6_nonneg : (0 <= value (NFloat lit_1e_6))%Q.
Proof. apply Qle_bool_iff. vm_compute. reflexivity. Qed.

(** The guard [abs(scale) > 1e-6] protects the division: the function
    raises for no border and no scale. *)
Lemma keep_orig_border_ok border_px scale :
  keep_orig_border border_px scale =
  Ok (if py_gt (py_abs scale) (NFloat lit_1e_6)
      then py_round (NFloat (rn (operand scale (NInt border_px) /
                                 operand (NInt border_px) scale)))
      else 0).
Proof.
  unfold keep_orig_border. destruct (py_gt _ _) eqn:G; [|reflexivity].
  apply py_gt_abs_nonzero in G; [|apply lit_1e_6_nonneg].
  now rewrite py_truediv_ok.
Qed.

(** Without a border to print, no source pixel is kept. *)
Lemma keep_orig_border_no_border scale : keep_orig_border 0 scale = Ok 0.
Proof.
  rewrite keep_orig_border_ok. destruct (py_gt _ _); [|reflexivity]. f_equal.
  assert (Z : (operand scale (NInt 0) == 0)%Q).
  { destruct scale; cbn [operand to_float]; [reflexivity|].
    unfold of_int. now rewrite rn_zero, F2Q_zero. }
  cbn [py_round]. rewrite rn_zero; [reflexivity|]. rewrite Z. apply Qmult_0_l.
Qed.

Lemma operand_nonneg x y : (0 <= value x -> 0 <= operand y x)%Q.
Proof.
  destruct x as [n|f], y as [m|g]; cbn [operand value to_float]; trivial.
  apply rn_nonneg.
Qed.

Lemma keep_orig_border_nonneg border_px scale k :
  0 <= border_px -> (0 <= value scale)%Q ->
  keep_orig_border border_px scale = Ok k -> 0 <= k.
Proof.
  intros PB PS. rewrite keep_orig_border_ok. intros [= <-].
  destruct (py_gt _ _) eqn:G; [|lia].
  apply (py_round_nonneg (NFloat _)). cbn [value]. apply rn_nonneg.
  apply Qmult_le_0_compat; [|apply Qinv_le_0_compat].
  - apply (operand_nonneg (NInt border_px) scale). cbn [value].
    change 0%Q with (inject_Z 0). now rewrite <- Zle_Qle.
  - exact (operand_nonneg scale (NInt border_px) PS).
Qed.

Lemma keep_of_scale border_px faw cw :
  0 <= border_px -> 1 <= faw -> 0 < cw ->
  exists k,
    keep_orig_border border_px (NFloat (rn (inject_Z faw / inject_Z cw))) = Ok k /\
    0 <= k.
Proof.
  intros PB Pf Pc. rewrite keep_orig_border_ok. eexists. split; [reflexivity|].
  eapply keep_orig_border_nonneg; [eassumption| |apply keep_orig_border_ok].
  apply rn_nonneg, Qmult_le_0_compat; [|apply Qinv_le_0_compat];
    change 0%Q with (inject_Z 0); rewrite <- Zle_Qle; lia.
Qed.

(** The crop of a content box that lies in the picture: the box grown by
    the four back-projected borders, clamped to the picture; nothing is
    printed. *)
Lemma proportional_crop_box ow oh tw th e :
  0 <= BORDER_LEFT_PX p -> 0 <= BORDER_TOP_PX p ->
  0 <= BORDER_RIGHT_PX p -> 0 <= BORDER_BOTTOM_PX p ->
  0 <= x0 e < x1 e -> x1 e <= ow -> 0 <= y0 e < y1 e -> y1 e <= oh ->
  let scale_w :=
    NFloat (rn (inject_Z (Z.max 1 (tw - BORDER_LEFT_PX p - BORDER_RIGHT_PX p))
                / inject_Z (x1 e - x0 e))) in
  let scale_h :=
    NFloat (rn (inject_Z (Z.max 1 (th - BORDER_TOP_PX p - BORDER_BOTTOM_PX p))
                / inject_Z (y1 e - y0 e))) in
  exists kl kt kr kb,
    (keep_orig_border (BORDER_LEFT_PX p) scale_w = Ok kl /\
     keep_orig_border (BORDER_TOP_PX p) scale_h = Ok kt /\
     keep_orig_border (BORDER_RIGHT_PX p) scale_w = Ok kr /\
     keep_orig_border (BORDER_BOTTOM_PX p) scale_h = Ok kb) /\
    (0 <= kl /\ 0 <= kt /\ 0 <= kr /\ 0 <= kb) /\
    proportional_crop p ow oh tw th e
    = (Ok (CropTo (Box (Z.max 0 (x0 e - kl)) (Z.max 0 (y0 e - kt))
                       (Z.min ow (x1 e + kr)) (Z.min oh (y1 e + kb)))), []).
Proof.
  intros BL BT BR BB Hx Hx1 Hy Hy1 sw sh. unfold proportional_crop.
  replace (0 <? x1 e - x0 e) with true by zlia.
  replace (0 <? y1 e - y0 e) with true by zlia. cbn [andb].
  rewrite !content_scale_ok, !lbind_lift_Ok.
  replace (x1 e - x0 e =? 0) with false by zlia.
  replace (y1 e - y0 e =? 0) with false by zlia. fold sw sh.
  set (faw := Z.max 1 (tw - _ - _)) in *. set (fah := Z.max 1 (th - _ - _)) in *.
  destruct (keep_of_scale _ faw (x1 e - x0 e) BL) as (kl & El & Pl); try lia.
  destruct (keep_of_scale _ fah (y1 e - y0 e) BT) as (kt & Et & Pt); try lia.
  destruct (keep_of_scale _ faw (x1 e - x0 e) BR) as (kr & Er & Pr); try lia.
  destruct (keep_of_scale _ fah (y1 e - y0 e) BB) as (kb & Eb & Pb); try lia.
  fold sw in El, Er. fold sh in Et, Eb.
  exists kl, kt, kr, kb. split; [now repeat split|]. split; [now repeat split|].
  rewrite El, Et, Er, Eb, !lbind_lift_Ok.
  replace (Z.max 0 _ <? Z.min ow _) with true by zlia.
  replace (Z.max 0 _ <? Z.min oh _) with true by zlia.
  reflexivity.
Qed.

(** Hence the crop holds the content box and lies in the picture. *)
Lemma proportional_crop_grows ow oh tw th e :
  0 <= BORDER_LEFT_PX p -> 0 <= BORDER_TOP_PX p ->
  0 <= BORDER_RIGHT_PX p -> 0 <= BORDER_BOTTOM_PX p ->
  0 <= x0 e < x1 e -> x1 e <= ow -> 0 <= y0 e < y1 e -> y1 e <= oh ->
  exists b, proportional_crop p ow oh tw th e = (Ok (CropTo b), []) /\
    0 <= x0 b <= x0 e /\ x1 e <= x1 b <= ow /\
    0 <= y0 b <= y0 e /\ y1 e <= y1 b <= oh.
Proof.
  intros BL BT BR BB Hx Hx1 Hy Hy1.
  destruct (proportional_crop_box ow oh tw th e) as
    (kl & kt & kr & kb & _ & (Pl & Pt & Pr & Pb) & ->); try assumption.
  eexists. split; [reflexivity|]. cbn [x0 x1 y0 y1]. lia.
Qed.

(** Claim C38: whatever the content box and the sizes, the cropper raises
    nothing. *)
Theorem proportional_crop_total ow oh tw th e :
  exists c l, proportional_crop p ow oh tw th e = (Ok c, l).
Proof.
  unfold proportional_crop. destruct (_ && _); [|log_ok].
  rewrite !content_scale_ok, !lbind_lift_Ok.
  rewrite !keep_orig_border_ok, !lbind_lift_Ok.
  destruct (_ && _); [log_ok|]. destruct (_ && _); log_ok.
Qed.

(** A content box without width or height is given up: the whole picture is
    used, with a warning. *)
Lemma proportional_crop_no_extent ow oh tw th e :
  x1 e <= x0 e \/ y1 e <= y0 e ->
  proportional_crop p ow oh tw th e = (Ok WholeImage, [DegenerateContentBox]).
Proof.
  intros H. unfold proportional_crop.
  replace ((0 <? x1 e - x0 e) && (0 <? y1 e - y0 e)) with false; [reflexivity|].
  symmetry. apply andb_false_iff. destruct H; [left|right]; zlia.
Qed.

(** The sides of extended art: the scan row is read only inside the picture,
    so nothing is raised. *)
Theorem extended_art_sides_total im bbox e :
  exists b l, extended_art_sides s p im bbox e = (Ok b, l).
Proof.
  unfold extended_art_sides. destruct bbox as [b|]; [|log_ok].
  destruct (_ && _) eqn:G; [|log_ok].
  destruct (get_content_extents_at_row_spec im (y0 e + EXTENDED_ART_SCAN_OFFSET_Y_PX p)
              (BLACK_BORDER_THRESHOLD s)) as [[_ ->]|(l & r & _ & ->)]; [zlia| |];
    rewrite lbind_lift_Ok; [log_ok|].
  destruct (l <=? r); log_ok.
Qed.

(** On a row with content the sides become the columns of the first and of
    the last content pixel of the row. *)
Lemma extended_art_sides_row im b e l r :
  let y := y0 e + EXTENDED_ART_SCAN_OFFSET_Y_PX p in
  0 <= y < height im ->
  row_extent im (BLACK_BORDER_THRESHOLD s) y l r ->
  extended_art_sides s p im (Some b) e = (Ok (Box l (y0 e) r (y1 e)), []).
Proof.
  intros y Hy R. unfold extended_art_sides. fold y.
  replace ((0 <=? y) && (y <? height im)) with true by lia.
  rewrite (get_content_extents_at_row_extent im y _ l r Hy R), lbind_lift_Ok.
  pose proof (extent_bounds _ _ _ _ _ R).
  replace (l <=? r) with true by zlia. reflexivity.
Qed.

Lemma lit_1e_6_small : (F2Q lit_1e_6 < pow2 (-19))%Q.
Proof. apply Qlt_alt. vm_compute. reflexivity. Qed.

(** A scale of at least 2^-19 passes the guard [abs(scale) > 1e-6]. *)
Lemma scale_guard faw cw :
  1 <= faw -> 1 <= cw <= 2 ^ 19 * faw ->
  py_gt (py_abs (NFloat (rn (inject_Z faw / inject_Z cw)))) (NFloat lit_1e_6) = true.
Proof.
  intros Hf Hc. apply py_gt_true. rewrite value_py_abs. cbn [value].
  pose proof (inject_Z_pos faw ltac:(lia)) as Pf.
  pose proof (inject_Z_pos cw ltac:(lia)) as Pc.
  assert (L : (pow2 (-19) <= inject_Z faw / inject_Z cw)%Q).
  { apply Qle_shift_div_l; [assumption|]. change (pow2 (-19)) with (1 # 2 ^ 19)%Q.
    assert (inject_Z cw <= inject_Z (2 ^ 19) * inject_Z faw)%Q
      by (rewrite <- inject_Z_mult, <- Zle_Qle; lia).
    qlra. }
  apply rn_monotone in L. rewrite (rn_exact (pow2 (-19))) in L.
  - pose proof lit_1e_6_small. pose proof (pow2_pos (-19)). rewrite Qabs_pos; lra.
  - exists 1%Z, (-19)%Z. split; [reflexivity|]. ring.
Qed.

(** The back-projected border is the exact quotient [B * cw / faw], rounded
    to an integer, up to the rounding of the two float divisions. *)
Lemma keep_orig_border_near B faw cw :
  0 <= B < 2 ^ 53 -> 1 <= faw -> 1 <= cw <= 2 ^ 19 * faw ->
  exists k,
    keep_orig_border B (NFloat (rn (inject_Z faw / inject_Z cw))) = Ok k /\
    (Qabs (inject_Z k - inject_Z (B * cw) / inject_Z faw)
     <= (1 # 2) + inject_Z (B * cw) / inject_Z faw * (1 # 2 ^ 51))%Q.
Proof.
  intros HB Hf Hc. rewrite keep_orig_border_ok, scale_guard by assumption.
  eexists. split; [reflexivity|]. cbn [py_round operand to_float]. unfold fround.
  pose proof (back_projection_error B faw cw HB ltac:(lia) ltac:(lia)) as E.
  cbv zeta in E. set (g := F2Q _) in *. set (X := (inject_Z (B * cw) / _)%Q) in *.
  pose proof (round_half_even_near g) as N.
  setoid_replace (inject_Z (round_half_even g) - X)%Q
    with ((inject_Z (round_half_even g) - g) + (g - X))%Q by ring.
  eapply Qle_trans; [apply Qabs_triangle|].
  setoid_replace (X * (1 # 2 ^ 51))%Q with (X * (4 * (1 # 2 ^ 53)))%Q
    by (apply Qmult_comp; [reflexivity | reflexivity]).
  lra.
Qed.


(** *** What the cropper returns *)

Lemma keep_orig_border_total border_px scale :
  exists k, keep_orig_border border_px scale = Ok k.
Proof. rewrite keep_orig_border_ok. eauto. Qed.

Lemma proportional_crop_returns ow oh tw th e :
  returns (proportional_crop p ow oh tw th e) valid_choice no_fallback_error.
Proof.
  unfold proportional_crop. apply returns_if; intros _.
  - rewrite !content_scale_ok. log_simpl.
    set (sw := if _ =? 0 then _ else _). set (sh := if _ =? 0 then _ else _).
    destruct (keep_orig_border_total (BORDER_LEFT_PX p) sw) as [kl ->].
    destruct (keep_orig_border_total (BORDER_TOP_PX p) sh) as [kt ->].
    destruct (keep_orig_border_total (BORDER_RIGHT_PX p) sw) as [kr ->].
    destruct (keep_orig_border_total (BORDER_BOTTOM_PX p) sh) as [kb ->].
    log_simpl. apply returns_if; intros C; [apply returns_lret; cbn; zlia|].
    tell_then. apply returns_if; intros C'; tell_then; apply returns_lret; cbn; zlia.
  - tell_then. now apply returns_lret.
Qed.

Lemma extended_art_sides_returns im bbox e :
  returns (extended_art_sides s p im bbox e) (fun _ => True) no_fallback_error.
Proof.
  unfold extended_art_sides. destruct bbox as [b|]; [|auto with proxify].
  apply returns_if; intros G; [|auto with proxify].
  destruct (get_content_extents_at_row_spec im (y0 e + EXTENDED_ART_SCAN_OFFSET_Y_PX p)
              (BLACK_BORDER_THRESHOLD s)) as [[_ ->]|(l & r & _ & ->)]; [zlia| |];
    log_simpl; auto with proxify.
Qed.

Lemma apply_crop_ok im c :
  0 < width im -> 0 < height im -> valid_choice c ->
  exists img, apply_crop im c = Ok img /\ 0 < width img /\ 0 < height img.
Proof.
  intros Hw Hh V. destruct c as [b|]; cbn [apply_crop]; [|now exists im].
  destruct V as [Vx Vy].
  destruct (crop_ok im b) as (img & E & W & H & _); try lia.
  exists img. rewrite E, W, H. repeat split; lia.
Qed.


(** *** The right side of extended art *)

(** The end of the row extent is the column of the last content
    pixel, the end of a box the column after it: used as the right side of
    the effective content box, the extent loses its last column.  The box is
    one column narrower than the content of the row, and its right bound is
    itself a content pixel. *)
Theorem extended_art_sides_inclusive_end im b e l r :
  let y := y0 e + EXTENDED_ART_SCAN_OFFSET_Y_PX p in
  0 <= y < height im ->
  row_extent im (BLACK_BORDER_THRESHOLD s) y l r ->
  exists eff, extended_art_sides s p im (Some b) e = (Ok eff, []) /\
    x1 eff - x0 eff = (r - l + 1) - 1 /\
    is_content (BLACK_BORDER_THRESHOLD s) (px im (x1 eff) y) = true.
Proof.
  intros y Hy R. eexists. split; [exact (extended_art_sides_row im b e l r Hy R)|].
  cbn [x0 x1]. split; [lia|]. now destruct R.
Qed.

(** A row whose content is a single pixel gives a box without width, and
    the cropper gives the content up. *)
Theorem extended_art_single_pixel_row im b e x ow oh tw th :
  let y := y0 e + EXTENDED_ART_SCAN_OFFSET_Y_PX p in
  0 <= y < height im ->
  row_extent im (BLACK_BORDER_THRESHOLD s) y x x ->
  exists eff, extended_art_sides s p im (Some b) e = (Ok eff, []) /\
    proportional_crop p ow oh tw th eff = (Ok WholeImage, [DegenerateContentBox]).
Proof.
  intros y Hy R. eexists. split; [exact (extended_art_sides_row im b e x x Hy R)|].
  apply proportional_crop_no_extent. cbn [x0 x1]. lia.
Qed.


(** *** The crop of a content box *)

(** Claim C5: for a content box with a width and a height that lies in the
    picture, the cropper prints no warning and chooses a box that holds the
    content box and lies in the picture; cutting it raises nothing and gives
    the pixels of the picture under the box, without padding. *)
Theorem proportional_crop_valid im tw th e :
  0 <= BORDER_LEFT_PX p -> 0 <= BORDER_TOP_PX p ->
  0 <= BORDER_RIGHT_PX p -> 0 <= BORDER_BOTTOM_PX p ->
  0 <= x0 e < x1 e -> x1 e <= width im -> 0 <= y0 e < y1 e -> y1 e <= height im ->
  exists b img,
    proportional_crop p (width im) (height im) tw th e = (Ok (CropTo b), []) /\
    (0 <= x0 b <= x0 e /\ x1 e <= x1 b <= width im /\
     0 <= y0 b <= y0 e /\ y1 e <= y1 b <= height im) /\
    apply_crop im (CropTo b) = Ok img /\
    size img = (x1 b - x0 b, y1 b - y0 b) /\
    forall x y, 0 <= x < width img -> 0 <= y < height img ->
                px img x y = px im (x0 b + x) (y0 b + y).
Proof.
  intros BL BT BR BB Hx Hx1 Hy Hy1.
  destruct (proportional_crop_grows (width im) (height im) tw th e)
    as (b & E & Hb); try assumption.
  destruct (crop_ok im b) as (img & Ec & W & Hh & In & _); try lia.
  exists b, img. repeat split; try assumption; try lia.
  - unfold size. now rewrite W, Hh.
  - intros x y Hx' Hy'. apply In, in_bounds_true. lia.
Qed.


(** A content box without width or without height is given up:
    the cropper warns and uses a copy of the whole picture. *)
Theorem proportional_crop_degenerate im tw th e :
  x1 e <= x0 e \/ y1 e <= y0 e ->
  exists c, proportional_crop p (width im) (height im) tw th e
            = (Ok c, [DegenerateContentBox]) /\
            apply_crop im c = Ok im.
Proof.
  intros H. exists WholeImage. split; [|reflexivity].
  now apply proportional_crop_no_extent.
Qed.

End CropperFacts.

(** ** Witnesses *)

Lemma proportional_crop_valid_witness :
  exists b img,
    proportional_crop default_pixels (width (framed 750 1050 (Box 36 36 714 1014)))
      (height (framed 750 1050 (Box 36 36 714 1014))) 3000 4200 (Box 36 36 714 1014)
    = (Ok (CropTo b), []) /\
    (0 <= x0 b <= x0 (Box 36 36 714 1014) /\
     x1 (Box 36 36 714 1014) <= x1 b <= width (framed 750 1050 (Box 36 36 714 1014)) /\
     0 <= y0 b <= y0 (Box 36 36 714 1014) /\
     y1 (Box 36 36 714 1014) <= y1 b <= height (framed 750 1050 (Box 36 36 714 1014))) /\
    apply_crop (framed 750 1050 (Box 36 36 714 1014)) (CropTo b) = Ok img /\
    size img = (x1 b - x0 b, y1 b - y0 b) /\
    forall x y, 0 <= x < width img -> 0 <= y < height img ->
                px img x y = px (framed 750 1050 (Box 36 36 714 1014)) (x0 b + x) (y0 b + y).
Proof.
  apply (proportional_crop_valid default_pixels (framed 750 1050 (Box 36 36 714 1014))
           3000 4200 (Box 36 36 714 1014)); cbn; lia.
Defined.

Lemma proportional_crop_degenerate_witness :
  exists c, proportional_crop default_pixels (width (new_black 40 30))
              (height (new_black 40 30)) 3000 4200 (Box 7 3 7 20)
            = (Ok c, [DegenerateContentBox]) /\
            apply_crop (new_black 40 30) c = Ok (new_black 40 30).
Proof.
  apply (proportional_crop_degenerate default_pixels (new_black 40 30) 3000 4200
           (Box 7 3 7 20)). cbn. lia.
Defined.

Lemma extended_art_sides_inclusive_end_witness :
  exists eff,
    extended_art_sides default_settings default_pixels
      (framed 750 1050 (Box 36 36 714 1014)) (Some (Box 36 36 714 1014))
      (Box 36 36 714 1014) = (Ok eff, []) /\
    x1 eff - x0 eff = (713 - 36 + 1) - 1 /\
    is_content (BLACK_BORDER_THRESHOLD default_settings)
      (px (framed 750 1050 (Box 36 36 714 1014)) (x1 eff)
          (y0 (Box 36 36 714 1014) + EXTENDED_ART_SCAN_OFFSET_Y_PX default_pixels)) = true.
Proof.
  apply (extended_art_sides_inclusive_end default_settings default_pixels
           (framed 750 1050 (Box 36 36 714 1014)) (Box 36 36 714 1014)
           (Box 36 36 714 1014) 36 713).
  - cbn. lia.
  - apply (framed_row_extent 750 1050 (Box 36 36 714 1014) 50 178); cbn; lia.
Defined.

Lemma extended_art_single_pixel_row_witness :
  exists eff,
    extended_art_sides default_settings default_pixels
      (framed 750 1050 (Box 100 36 101 1014)) (Some (Box 100 36 101 1014))
      (Box 100 36 101 1014) = (Ok eff, []) /\
    proportional_crop default_pixels 750 1050 3000 4200 eff
    = (Ok WholeImage, [DegenerateContentBox]).
Proof.
  apply (extended_art_single_pixel_row default_settings default_pixels
           (framed 750 1050 (Box 100 36 101 1014)) (Box 100 36 101 1014)
           (Box 100 36 101 1014) 100 750 1050 3000 4200).
  - cbn. lia.
  - apply (framed_row_extent 750 1050 (Box 100 36 101 1014) 50 178); cbn; lia.
Defined.

(** ** Concrete checks *)

