(* ===== verification/Border.v ===== *)
(** * Border: the width of the printed border

    The cropper keeps, around the content, as many source columns as the
    target border is worth at the scale from content to artwork
    ([Cropper.keep_orig_border]).  This file follows these columns through
    the final resize: a crop [crop_w] columns wide is resized to [target_w]
    columns, so [kept] columns of it are printed
    [kept * target_w / crop_w] pixels wide ([printed]).

    Were the kept borders not rounded to whole source pixels, the printed
    border would be the configured one exactly.  The theorems bound the
    effect of the rounding: the printed border is off by at most half a
    source pixel (plus the error of the two float divisions), that is by
    [target_w / crop_w] times [rounding] pixels of the card; it is within
    one pixel whenever the crop is at least as wide as the card.  When the
    picture is magnified by more than two the half source pixel is more
    than one pixel of the card ([Cropper.border_error_exceeds_one_pixel]).

    Both hold when the frame of the picture is wide enough for the borders
    kept, so that the crop is not clamped at the sides of the picture. *)

From Stdlib Require Import ZArith QArith Qabs Qpower List Bool Lia Lqa.
Import ListNotations.
From S2P Require Import Prelude Binary64 PyNum Config Image Cropper.
Local Open Scope Z_scope.

(** The width on the card of [kept] columns of a crop [crop_w] wide that is
    resized to [target_w] columns. *)
Definition printed (kept crop_w target_w : Z) : Q :=
  inject_Z kept * (inject_Z target_w / inject_Z crop_w).

(** The error of a kept border, in source pixels: half a pixel for [round],
    and the relative error of the float quotients on the exact value
    [border * content / artwork]. *)
Definition rounding (border content artwork : Z) : Q :=
  (1 # 2) + inject_Z (border * content) / inject_Z artwork * (1 # 2 ^ 51).

(** ** One axis, in the rationals *)

Local Open Scope Q_scope.

Lemma Qabs_mult_le x c e : 0 <= c -> Qabs x <= e -> Qabs (x * c) <= e * c.
Proof.
  intros Pc H. rewrite Qabs_Qmult, (Qabs_pos c Pc). now apply Qmult_le_compat_r.
Qed.

Lemma axis_error a el er Bl Br tw kl kr W :
  0 <= Bl -> Bl <= tw ->
  Qabs (kl - Bl * a) <= el -> Qabs (kr - Br * a) <= er ->
  W == a * tw + (kl - Bl * a) + (kr - Br * a) ->
  Qabs (kl * tw - Bl * W) <= el * (tw - Bl) + er * Bl.
Proof.
  intros PB Ht Hl Hr ->.
  setoid_replace (kl * tw - Bl * (a * tw + (kl - Bl * a) + (kr - Br * a)))
    with ((kl - Bl * a) * (tw - Bl) + - ((kr - Br * a) * Bl)) by ring.
  eapply Qle_trans; [apply Qabs_triangle|]. rewrite Qabs_opp.
  apply Qplus_le_compat; apply Qabs_mult_le; trivial. lra.
Qed.

Lemma rounding_le B B' cw faw :
  (0 <= B <= B')%Z -> (0 <= cw)%Z -> (1 <= faw)%Z ->
  rounding B cw faw <= rounding B' cw faw.
Proof.
  intros HB Hc Hf. unfold rounding.
  apply Qplus_le_r, Qmult_le_compat_r; [|discriminate].
  apply Qmult_le_compat_r; [rewrite <- Zle_Qle; nia|].
  apply Qinv_le_0_compat. change 0 with (inject_Z 0). rewrite <- Zle_Qle. lia.
Qed.

Lemma printed_error kept B W tw c :
  (0 < W)%Z -> (0 <= tw)%Z ->
  Qabs (inject_Z kept * inject_Z tw - inject_Z B * inject_Z W) <= c * inject_Z tw ->
  Qabs (printed kept W tw - inject_Z B) <= inject_Z tw / inject_Z W * c.
Proof.
  intros PW Pt H. unfold printed.
  assert (P : 0 < inject_Z W) by (change 0 with (inject_Z 0); now rewrite <- Zlt_Qlt).
  setoid_replace (inject_Z kept * (inject_Z tw / inject_Z W) - inject_Z B)
    with ((inject_Z kept * inject_Z tw - inject_Z B * inject_Z W) * / inject_Z W)
    by (field; lra).
  setoid_replace (inject_Z tw / inject_Z W * c) with (c * inject_Z tw * / inject_Z W)
    by (field; lra).
  apply Qabs_mult_le; [|assumption]. apply Qinv_le_0_compat. lra.
Qed.

(** One axis: [kl] and [kr] columns kept around a content [cw] wide. *)
Lemma axis_printed Bl Br faw cw kl kr :
  (0 <= Bl)%Z -> (0 <= Br)%Z -> (1 <= faw)%Z -> (1 <= cw)%Z -> (0 <= kl)%Z -> (0 <= kr)%Z ->
  Qabs (inject_Z kl - inject_Z (Bl * cw) / inject_Z faw) <= rounding Bl cw faw ->
  Qabs (inject_Z kr - inject_Z (Br * cw) / inject_Z faw) <= rounding Br cw faw ->
  let tw := (faw + Bl + Br)%Z in
  let W := (cw + kl + kr)%Z in
  Qabs (printed kl W tw - inject_Z Bl) <= inject_Z tw / inject_Z W * rounding (Z.max Bl Br) cw faw.
Proof.
  intros PBl PBr Pf Pc Pkl Pkr Hl Hr tw W.
  apply printed_error; [lia | lia |].
  set (c := rounding (Z.max Bl Br) cw faw).
  assert (Hl' : Qabs (inject_Z kl - inject_Z Bl * (inject_Z cw / inject_Z faw)) <= c).
  { eapply Qle_trans; [|apply (rounding_le Bl (Z.max Bl Br)); lia].
    rewrite inject_Z_mult in Hl. unfold Qdiv in *. now rewrite Qmult_assoc. }
  assert (Hr' : Qabs (inject_Z kr - inject_Z Br * (inject_Z cw / inject_Z faw)) <= c).
  { eapply Qle_trans; [|apply (rounding_le Br (Z.max Bl Br)); lia].
    rewrite inject_Z_mult in Hr. unfold Qdiv in *. now rewrite Qmult_assoc. }
  assert (PF : 0 < inject_Z faw) by (change 0 with (inject_Z 0); rewrite <- Zlt_Qlt; lia).
  assert (P0 : 0 <= inject_Z Bl) by (change 0 with (inject_Z 0); now rewrite <- Zle_Qle).
  assert (P1 : inject_Z Bl <= inject_Z tw) by (rewrite <- Zle_Qle; lia).
  eapply Qle_trans.
  - apply (axis_error (inject_Z cw / inject_Z faw) c c (inject_Z Bl) (inject_Z Br)
             (inject_Z tw) (inject_Z kl) (inject_Z kr)); try eassumption.
    unfold W, tw. rewrite !inject_Z_plus. field. lra.
  - lra.
Qed.

Local Open Scope Z_scope.

(** ** The borders the cropper keeps *)

Section BorderFacts.
Context (p : pixels).

(** Both borders of one axis, as the program computes them. *)
Lemma axis_accuracy B0 B1 faw cw k0 k1 :
  0 <= B0 < 2 ^ 53 -> 0 <= B1 < 2 ^ 53 -> 1 <= faw -> 1 <= cw <= 2 ^ 19 * faw ->
  keep_orig_border B0 (NFloat (rn (inject_Z faw / inject_Z cw))) = Ok k0 ->
  keep_orig_border B1 (NFloat (rn (inject_Z faw / inject_Z cw))) = Ok k1 ->
  let tw := faw + B0 + B1 in
  let W := cw + k0 + k1 in
  let bound := (inject_Z tw / inject_Z W * rounding (Z.max B0 B1) cw faw)%Q in
  (Qabs (printed k0 W tw - inject_Z B0) <= bound)%Q /\
  (Qabs (printed k1 W tw - inject_Z B1) <= bound)%Q.
Proof.
  intros H0 H1 Hf Hc E0 E1 tw W bound.
  destruct (keep_orig_border_near B0 faw cw H0 Hf Hc) as (k & E & N0).
  rewrite E0 in E. injection E as <-.
  destruct (keep_orig_border_near B1 faw cw H1 Hf Hc) as (k & E & N1).
  rewrite E1 in E. injection E as <-.
  assert (P0 : 0 <= k0) by (destruct (keep_of_scale B0 faw cw) as (k & E & P); try lia; congruence).
  assert (P1 : 0 <= k1) by (destruct (keep_of_scale B1 faw cw) as (k & E & P); try lia; congruence).
  split.
  - apply (axis_printed B0 B1 faw cw k0 k1); trivial; lia.
  - unfold bound, W, tw.
    replace (cw + k0 + k1) with (cw + k1 + k0) by lia.
    replace (faw + B0 + B1) with (faw + B1 + B0) by lia. rewrite Z.max_comm.
    apply (axis_printed B1 B0 faw cw k1 k0); trivial; lia.
Qed.

(** The same on a clamped interval: the content [lo, hi) of a picture [n]
    wide, grown by [k0] and [k1] and clamped to the picture, when the clamps
    do not bite. *)
Lemma clamped_axis_accuracy B0 B1 t lo hi n k0 k1 :
  0 <= B0 < 2 ^ 53 -> 0 <= B1 < 2 ^ 53 -> 0 <= lo < hi -> hi <= n ->
  let faw := t - B0 - B1 in
  1 <= faw -> hi - lo <= 2 ^ 19 * faw ->
  keep_orig_border B0 (NFloat (rn (inject_Z (Z.max 1 faw) / inject_Z (hi - lo)))) = Ok k0 ->
  keep_orig_border B1 (NFloat (rn (inject_Z (Z.max 1 faw) / inject_Z (hi - lo)))) = Ok k1 ->
  let c0 := Z.max 0 (lo - k0) in
  let c1 := Z.min n (hi + k1) in
  0 < c0 -> c1 < n ->
  let bound :=
    (inject_Z t / inject_Z (c1 - c0) * rounding (Z.max B0 B1) (hi - lo) faw)%Q in
  (Qabs (printed (lo - c0) (c1 - c0) t - inject_Z B0) <= bound)%Q /\
  (Qabs (printed (c1 - hi) (c1 - c0) t - inject_Z B1) <= bound)%Q.
Proof.
  intros H0 H1 Hlo Hhi faw Hf Hc E0 E1 c0 c1 L R.
  replace (Z.max 1 faw) with faw in E0, E1 by lia.
  pose proof (axis_accuracy B0 B1 faw (hi - lo) k0 k1 H0 H1 Hf ltac:(lia) E0 E1) as A.
  cbv zeta in A. replace (faw + B0 + B1) with t in A by (unfold faw; lia).
  replace (lo - c0) with k0 by lia. replace (c1 - hi) with k1 by lia.
  now replace (c1 - c0) with (hi - lo + k0 + k1) by lia.
Qed.

(** Claim C6: when the crop is not clamped at the sides of the picture, each
    printed border differs from the configured one by at most the scale of
    the resize times [rounding]: half a source pixel and the float error. *)
Theorem printed_border_accuracy ow oh tw th e :
  0 <= BORDER_LEFT_PX p < 2 ^ 53 -> 0 <= BORDER_TOP_PX p < 2 ^ 53 ->
  0 <= BORDER_RIGHT_PX p < 2 ^ 53 -> 0 <= BORDER_BOTTOM_PX p < 2 ^ 53 ->
  0 <= x0 e < x1 e -> x1 e <= ow -> 0 <= y0 e < y1 e -> y1 e <= oh ->
  let faw := tw - BORDER_LEFT_PX p - BORDER_RIGHT_PX p in
  let fah := th - BORDER_TOP_PX p - BORDER_BOTTOM_PX p in
  1 <= faw -> 1 <= fah ->
  x1 e - x0 e <= 2 ^ 19 * faw -> y1 e - y0 e <= 2 ^ 19 * fah ->
  exists b,
    proportional_crop p ow oh tw th e = (Ok (CropTo b), []) /\
    (0 < x0 b -> x1 b < ow ->
     let bound :=
       (inject_Z tw / inject_Z (x1 b - x0 b)
        * rounding (Z.max (BORDER_LEFT_PX p) (BORDER_RIGHT_PX p)) (x1 e - x0 e) faw)%Q in
     (Qabs (printed (x0 e - x0 b) (x1 b - x0 b) tw - inject_Z (BORDER_LEFT_PX p)) <= bound)%Q /\
     (Qabs (printed (x1 b - x1 e) (x1 b - x0 b) tw - inject_Z (BORDER_RIGHT_PX p)) <= bound)%Q) /\
    (0 < y0 b -> y1 b < oh ->
     let bound :=
       (inject_Z th / inject_Z (y1 b - y0 b)
        * rounding (Z.max (BORDER_TOP_PX p) (BORDER_BOTTOM_PX p)) (y1 e - y0 e) fah)%Q in
     (Qabs (printed (y0 e - y0 b) (y1 b - y0 b) th - inject_Z (BORDER_TOP_PX p)) <= bound)%Q /\
     (Qabs (printed (y1 b - y1 e) (y1 b - y0 b) th - inject_Z (BORDER_BOTTOM_PX p)) <= bound)%Q).
Proof.
  intros BL BT BR BB Hx Hx1 Hy Hy1 faw fah Hfw Hfh Hcw Hch.
  destruct (proportional_crop_box p ow oh tw th e) as
    (kl & kt & kr & kb & (El & Et & Er & Eb) & _ & ->); try lia.
  eexists. split; [reflexivity|]. cbn [x0 x1 y0 y1]. split; intros L R.
  - now apply (clamped_axis_accuracy _ _ tw (x0 e) (x1 e) ow kl kr).
  - now apply (clamped_axis_accuracy _ _ th (y0 e) (y1 e) oh kt kb).
Qed.

(** Without magnification the bound is below one pixel. *)
Lemma rounding_small B cw faw :
  0 <= B < 2 ^ 31 -> 1 <= faw -> 1 <= cw <= 2 ^ 19 * faw ->
  (rounding B cw faw < 1)%Q.
Proof.
  intros HB Hf Hc. unfold rounding.
  assert (PF : (0 < inject_Z faw)%Q) by (change 0%Q with (inject_Z 0); rewrite <- Zlt_Qlt; lia).
  assert (H : (inject_Z (B * cw) / inject_Z faw <= inject_Z (2 ^ 50 - 1))%Q).
  { apply Qle_shift_div_r; [assumption|]. rewrite <- inject_Z_mult, <- Zle_Qle. nia. }
  change (inject_Z (2 ^ 50 - 1)) with (1125899906842623 # 1)%Q in H.
  change (1 # 2 ^ 51)%Q with (1 # 2251799813685248)%Q. lra.
Qed.

Lemma within_one_pixel kept B W tw c :
  0 < tw <= W -> (c < 1)%Q ->
  (Qabs (printed kept W tw - inject_Z B) <= inject_Z tw / inject_Z W * c)%Q ->
  (Qabs (printed kept W tw - inject_Z B) < 1)%Q.
Proof.
  intros HW Hc H. eapply Qle_lt_trans; [exact H|].
  assert (PW : (0 < inject_Z W)%Q) by (change 0%Q with (inject_Z 0); rewrite <- Zlt_Qlt; lia).
  assert (PT : (0 < inject_Z tw)%Q) by (change 0%Q with (inject_Z 0); rewrite <- Zlt_Qlt; lia).
  assert (S : (inject_Z tw / inject_Z W <= 1)%Q).
  { apply Qle_shift_div_r; [assumption|]. rewrite Qmult_1_l, <- Zle_Qle. lia. }
  assert (S0 : (0 < inject_Z tw / inject_Z W)%Q) by (apply Qlt_shift_div_l; lra).
  apply Qlt_le_trans with (inject_Z tw / inject_Z W * 1)%Q; [|lra].
  now apply Qmult_lt_l.
Qed.

(** One axis of a crop that is at least as long as the card. *)
Lemma clamped_axis_within_one B0 B1 t lo hi n k0 k1 :
  0 <= B0 < 2 ^ 31 -> 0 <= B1 < 2 ^ 31 -> 0 <= lo < hi -> hi <= n ->
  let faw := t - B0 - B1 in
  1 <= faw -> hi - lo <= 2 ^ 19 * faw ->
  keep_orig_border B0 (NFloat (rn (inject_Z (Z.max 1 faw) / inject_Z (hi - lo)))) = Ok k0 ->
  keep_orig_border B1 (NFloat (rn (inject_Z (Z.max 1 faw) / inject_Z (hi - lo)))) = Ok k1 ->
  let c0 := Z.max 0 (lo - k0) in
  let c1 := Z.min n (hi + k1) in
  0 < c0 -> c1 < n -> t <= c1 - c0 ->
  (Qabs (printed (lo - c0) (c1 - c0) t - inject_Z B0) < 1)%Q /\
  (Qabs (printed (c1 - hi) (c1 - c0) t - inject_Z B1) < 1)%Q.
Proof.
  intros H0 H1 Hlo Hhi faw Hf Hc E0 E1 c0 c1 L R M.
  destruct (clamped_axis_accuracy B0 B1 t lo hi n k0 k1) as [A0 A1];
    try assumption; try lia.
  assert (S : (rounding (Z.max B0 B1) (hi - lo) faw < 1)%Q) by (apply rounding_small; lia).
  split; eapply within_one_pixel; try exact S; try eassumption; unfold faw in *; lia.
Qed.

(** When the crop is at least as wide as the card (the picture is
    not magnified) and is not clamped at the sides, the left and right
    printed borders are within one pixel of the configured ones; likewise
    the top and bottom borders when the crop is at least as high as the
    card. *)
Theorem printed_border_within_one_pixel ow oh tw th e b :
  0 <= BORDER_LEFT_PX p < 2 ^ 31 -> 0 <= BORDER_TOP_PX p < 2 ^ 31 ->
  0 <= BORDER_RIGHT_PX p < 2 ^ 31 -> 0 <= BORDER_BOTTOM_PX p < 2 ^ 31 ->
  0 <= x0 e < x1 e -> x1 e <= ow -> 0 <= y0 e < y1 e -> y1 e <= oh ->
  1 <= tw - BORDER_LEFT_PX p - BORDER_RIGHT_PX p ->
  1 <= th - BORDER_TOP_PX p - BORDER_BOTTOM_PX p ->
  x1 e - x0 e <= 2 ^ 19 * (tw - BORDER_LEFT_PX p - BORDER_RIGHT_PX p) ->
  y1 e - y0 e <= 2 ^ 19 * (th - BORDER_TOP_PX p - BORDER_BOTTOM_PX p) ->
  proportional_crop p ow oh tw th e = (Ok (CropTo b), []) ->
  (0 < x0 b -> x1 b < ow -> tw <= x1 b - x0 b ->
   (Qabs (printed (x0 e - x0 b) (x1 b - x0 b) tw - inject_Z (BORDER_LEFT_PX p)) < 1)%Q /\
   (Qabs (printed (x1 b - x1 e) (x1 b - x0 b) tw - inject_Z (BORDER_RIGHT_PX p)) < 1)%Q) /\
  (0 < y0 b -> y1 b < oh -> th <= y1 b - y0 b ->
   (Qabs (printed (y0 e - y0 b) (y1 b - y0 b) th - inject_Z (BORDER_TOP_PX p)) < 1)%Q /\
   (Qabs (printed (y1 b - y1 e) (y1 b - y0 b) th - inject_Z (BORDER_BOTTOM_PX p)) < 1)%Q).
Proof.
  intros BL BT BR BB Hx Hx1 Hy Hy1 Hfw Hfh Hcw Hch E.
  destruct (proportional_crop_box p ow oh tw th e) as
    (kl & kt & kr & kb & (El & Et & Er & Eb) & _ & E'); try lia.
  rewrite E' in E. injection E as <-. cbn [x0 x1 y0 y1]. split; intros L R M.
  - now apply (clamped_axis_within_one _ _ tw (x0 e) (x1 e) ow kl kr).
  - now apply (clamped_axis_within_one _ _ th (y0 e) (y1 e) oh kt kb).
Qed.

End BorderFacts.

(** ** Witnesses *)

Lemma printed_border_accuracy_witness :
  exists b,
    proportional_crop default_pixels 800 1100 3000 4200 (Box 50 50 729 1000)
    = (Ok (CropTo b), []) /\
    (0 < x0 b -> x1 b < 800 ->
     let bound := (inject_Z 3000 / inject_Z (x1 b - x0 b)
                   * rounding (Z.max 142 142) (729 - 50) (3000 - 142 - 142))%Q in
     (Qabs (printed (50 - x0 b) (x1 b - x0 b) 3000 - inject_Z 142) <= bound)%Q /\
     (Qabs (printed (x1 b - 729) (x1 b - x0 b) 3000 - inject_Z 142) <= bound)%Q) /\
    (0 < y0 b -> y1 b < 1100 ->
     let bound := (inject_Z 4200 / inject_Z (y1 b - y0 b)
                   * rounding (Z.max 142 194) (1000 - 50) (4200 - 142 - 194))%Q in
     (Qabs (printed (50 - y0 b) (y1 b - y0 b) 4200 - inject_Z 142) <= bound)%Q /\
     (Qabs (printed (y1 b - 1000) (y1 b - y0 b) 4200 - inject_Z 194) <= bound)%Q).
Proof.
  apply (printed_border_accuracy default_pixels 800 1100 3000 4200 (Box 50 50 729 1000));
    cbn [default_pixels BORDER_LEFT_PX BORDER_TOP_PX BORDER_RIGHT_PX BORDER_BOTTOM_PX
         x0 x1 y0 y1]; lia.
Defined.

Lemma printed_border_within_one_pixel_witness :
  (0 < 12 -> 3988 < 4000 -> 3000 <= 3988 - 12 ->
   (Qabs (printed (200 - 12) (3988 - 12) 3000 - inject_Z 142) < 1)%Q /\
   (Qabs (printed (3988 - 3800) (3988 - 12) 3000 - inject_Z 142) < 1)%Q) /\
  (0 < 116 -> 5551 < 5600 -> 4200 <= 5551 - 116 ->
   (Qabs (printed (300 - 116) (5551 - 116) 4200 - inject_Z 142) < 1)%Q /\
   (Qabs (printed (5551 - 5300) (5551 - 116) 4200 - inject_Z 194) < 1)%Q).
Proof.
  apply (printed_border_within_one_pixel default_pixels 4000 5600 3000 4200
           (Box 200 300 3800 5300) (Box 12 116 3988 5551));
    cbn [default_pixels BORDER_LEFT_PX BORDER_TOP_PX BORDER_RIGHT_PX BORDER_BOTTOM_PX
         x0 x1 y0 y1]; try lia.
  vm_compute. reflexivity.
Defined.
