(* ===== verification/Renderer.v ===== *)
(** * Renderer: one card from one picture

    Models [resize_card] of [src/proxify.py] as a whole: classify the
    picture (unless the configuration forces [standard]), find its content,
    cut the proportional crop (standard and extended art) or trim the bottom
    (borderless), resize to the card size, enhance.  Any exception inside
    is caught and makes the function return [None].

    Opening and decoding the file is not modelled: [resize_card] takes the
    outcome of [Image.open(path).convert("RGBA")], a picture or an
    exception. *)

From Stdlib Require Import ZArith QArith List Bool Lia.
Import ListNotations.
From S2P Require Import Prelude Binary64 PyNum Config Image Detector Solidity.
From S2P Require Import Classifier Cropper.
Local Open Scope Z_scope.

Section Renderer.
Context `{Imaging} (s : settings) (p : pixels).
Local Open Scope log_scope.

(** [img.size != (w, h)] *)
Definition size_differs (img : image) (w h : Z) : bool :=
  negb ((width img =? w) && (height img =? h)).

(** Resize unless the picture has the target size already (lines 327-333
    and 353-359). *)
Definition resize_to_target (img : image)
    (target_final_card_width_px target_final_card_height_px : Z) : result image :=
  if size_differs img target_final_card_width_px target_final_card_height_px
  then resize img (target_final_card_width_px, target_final_card_height_px)
  else Ok (copy img).

(** Borderless cards: trim [FULL_ART_BOTTOM_CROP_PX] pixels off the bottom
    (lines 338-351). *)
Definition full_art_crop (original_img : image) : logged diag image :=
  let original_w := width original_img in
  let original_h := height original_img in
  let img_for_full_art_processing := copy original_img in
  if 0 <? FULL_ART_BOTTOM_CROP_PX s
  then
    if original_h <=? FULL_ART_BOTTOM_CROP_PX s
    then
      tell TrimExceedsHeight ;;
      if 0 <? original_h
      then lift (crop original_img (Box 0 0 original_w 1))
      else lift (new (Z.max 1 original_w, 1) transparent)
    else if 0 <? original_w
    then
      let crop_bottom_y := Z.max 1 (original_h - FULL_ART_BOTTOM_CROP_PX s) in
      lift (crop original_img (Box 0 0 original_w crop_bottom_y))
    else if original_w =? 0
    then tell ZeroWidthFullArt ;; lift (new (1, 1) transparent)
    else lret img_for_full_art_processing
  else lret img_for_full_art_processing.

(** Brightness first, then saturation, each skipped when its factor is 1.0
    (lines 368-374). *)
Definition apply_enhancements (image_ready_for_enhancement : image) : image :=
  let image_after_enhancements := image_ready_for_enhancement in
  let image_after_enhancements :=
    if py_ne (BRIGHTNESS_FACTOR s) (NFloat lit_1_0)
    then enhance_brightness image_after_enhancements (BRIGHTNESS_FACTOR s)
    else image_after_enhancements in
  let image_after_enhancements :=
    if py_ne (SATURATION_FACTOR s) (NFloat lit_1_0)
    then enhance_color image_after_enhancements (SATURATION_FACTOR s)
    else image_after_enhancements in
  image_after_enhancements.

(** The frame style of the picture, or [standard] when forced (lines
    238-243). *)
Definition card_type_of (original_img : image) : result card_type :=
  if FORCE_STANDARD_FRAME_TYPE s then Ok standard
  else determine_card_type original_img (BLACK_BORDER_THRESHOLD s)
         (EDGE_ZONE_CHECK_WIDTH_PX s).

(** The body of the [try] block. *)
Definition render (original_img : image)
    (target_final_card_width_px target_final_card_height_px : Z)
    : logged diag image :=
  let original_w := width original_img in
  let original_h := height original_img in
  card_type <- lift (card_type_of original_img) ;;
  overall_content_bbox <-
    lift (get_content_bounding_box original_img (BLACK_BORDER_THRESHOLD s)) ;;
  effective <- effective_content original_w original_h overall_content_bbox ;;
  effective <-
    (match card_type with
     | extended_art => extended_art_sides s p original_img overall_content_bbox effective
     | _ => lret effective
     end) ;;
  image_ready_for_enhancement <-
    (match card_type with
     | standard | extended_art =>
         choice <- proportional_crop p original_w original_h
                     target_final_card_width_px target_final_card_height_px
                     effective ;;
         img_to_final_resize <- lift (apply_crop original_img choice) ;;
         resized <- lift (resize_to_target img_to_final_resize
                            target_final_card_width_px target_final_card_height_px) ;;
         lret (Some resized)
     | borderless =>
         img_for_full_art_processing <- full_art_crop original_img ;;
         resized <- lift (resize_to_target img_for_full_art_processing
                            target_final_card_width_px target_final_card_height_px) ;;
         lret (Some resized)
     end) ;;
  image_ready_for_enhancement <-
    (match image_ready_for_enhancement with
     | Some img => lret img
     | None =>
         tell FallbackError ;;
         lift (resize (copy original_img)
                 (target_final_card_width_px, target_final_card_height_px))
     end) ;;
  lret (apply_enhancements image_ready_for_enhancement).

(** The error the handlers of lines 379-386 print for an exception. *)
Definition report_error (e : exn) : diag :=
  match e with
  | FileNotFoundError => ImageFileNotFound
  | _ => ErrorProcessingImage e
  end.

(** [resize_card]: the card, or [None] when opening the file or anything
    after it raised; and what was printed. *)
Definition resize_card (opened : result image)
    (target_final_card_width_px target_final_card_height_px : Z)
    : option image * list diag :=
  let '(r, log) :=
    original_img <- lift opened ;;
    render original_img target_final_card_width_px target_final_card_height_px in
  match r with
  | Ok image_after_enhancements => (Some image_after_enhancements, log)
  | Raise e => (None, log ++ [report_error e])
  end.

End Renderer.

(** ** Predicates on pictures *)

(** A picture with at least one pixel: what opening a file gives. *)
Definition nonempty (im : image) : Prop := 0 < width im /\ 0 < height im.

(** The card of a branch: present, and of the target size. *)
Definition card_sized (tw th : Z) (o : option image) : Prop :=
  exists img, o = Some img /\ size img = (tw, th).

(** ** Theorems *)

Section RendererFacts.
Context `{Imaging} (s : settings) (p : pixels).

Lemma resize_to_target_ok img tw th :
  1 <= tw -> 1 <= th ->
  exists r, resize_to_target img tw th = Ok r /\ size r = (tw, th).
Proof.
  intros Hw Hh. unfold resize_to_target, size_differs.
  destruct (_ && _) eqn:E; cbn [negb].
  - exists (copy img). split; [reflexivity|]. unfold copy, size. f_equal; zlia.
  - rewrite resize_ok by assumption. eexists. split; [reflexivity|].
    unfold size. now rewrite resample_width, resample_height.
Qed.

Lemma apply_enhancements_size img : size (apply_enhancements s img) = size img.
Proof.
  unfold apply_enhancements.
  destruct (py_ne (BRIGHTNESS_FACTOR s) _), (py_ne (SATURATION_FACTOR s) _);
    now rewrite ?enhance_color_size, ?enhance_brightness_size.
Qed.

Lemma card_type_of_ok im : 0 <= width im -> exists t, card_type_of s im = Ok t.
Proof.
  intros Hw. unfold card_type_of. destruct (FORCE_STANDARD_FRAME_TYPE s); [eauto|].
  destruct (determine_card_type_run im (BLACK_BORDER_THRESHOLD s)
              (EDGE_ZONE_CHECK_WIDTH_PX s) Hw) as (t & E & _). eauto.
Qed.



Lemma full_art_crop_returns im :
  nonempty im -> returns (full_art_crop s im) nonempty no_fallback_error.
Proof.
  intros [Hw Hh]. unfold full_art_crop.
  apply returns_if; intros T; [|now apply returns_lret].
  apply returns_if; intros E.
  - tell_then. replace (0 <? height im) with true by lia.
    destruct (crop_ok im (Box 0 0 (width im) 1)) as (c & Ec & W & Hc & _);
      cbn [x0 x1 y0 y1]; try lia.
    eapply returns_lift; [exact Ec|]. cbn [x0 x1 y0 y1] in *. split; lia.
  - replace (0 <? width im) with true by lia.
    destruct (crop_ok im (Box 0 0 (width im)
                (Z.max 1 (height im - FULL_ART_BOTTOM_CROP_PX s))))
      as (c & Ec & W & Hc & _); cbn [x0 x1 y0 y1]; try lia.
    eapply returns_lift; [exact Ec|]. cbn [x0 x1 y0 y1] in *. split; lia.
Qed.

Local Open Scope log_scope.



Lemma effective_content_returns w h bbox :
  returns (effective_content w h bbox) (fun _ => True) no_fallback_error.
Proof. destruct bbox; cbn [effective_content]; auto with proxify. Qed.

Lemma resized_returns img tw th :
  1 <= tw -> 1 <= th ->
  returns (resized <- lift (resize_to_target img tw th) ;; lret (Some resized))
          (card_sized tw th) no_fallback_error.
Proof.
  intros Hw Hh. destruct (resize_to_target_ok img tw th Hw Hh) as (r & -> & Sz).
  rewrite lbind_lift_Ok. apply returns_lret. now exists r.
Qed.

Lemma crop_branch_returns im tw th e :
  nonempty im -> 1 <= tw -> 1 <= th ->
  returns (choice <- proportional_crop p (width im) (height im) tw th e ;;
           img_to_final_resize <- lift (apply_crop im choice) ;;
           resized <- lift (resize_to_target img_to_final_resize tw th) ;;
           lret (Some resized))
          (card_sized tw th) no_fallback_error.
Proof.
  intros [Hw Hh] Htw Hth.
  eapply returns_bind; [apply proportional_crop_returns|]. intros c V.
  destruct (apply_crop_ok im c Hw Hh V) as (img & -> & _).
  rewrite lbind_lift_Ok. now apply resized_returns.
Qed.

Lemma full_art_branch_returns im tw th :
  nonempty im -> 1 <= tw -> 1 <= th ->
  returns (img_for_full_art_processing <- full_art_crop s im ;;
           resized <- lift (resize_to_target img_for_full_art_processing tw th) ;;
           lret (Some resized))
          (card_sized tw th) no_fallback_error.
Proof.
  intros N Htw Hth. eapply returns_bind; [now apply full_art_crop_returns|].
  intros c _. now apply resized_returns.
Qed.

(** The crop branch on a picture whose crop box, cut and resize are known. *)
Lemma crop_branch_eq im tw th e c cropped r :
  proportional_crop p (width im) (height im) tw th e = (Ok (CropTo c), []) ->
  crop im c = Ok cropped -> resize_to_target cropped tw th = Ok r ->
  (choice <- proportional_crop p (width im) (height im) tw th e ;;
   img_to_final_resize <- lift (apply_crop im choice) ;;
   resized <- lift (resize_to_target img_to_final_resize tw th) ;;
   lret (Some resized)) = lret (Some r).
Proof.
  intros -> Ecr Er. log_simpl. cbn [apply_crop]. rewrite Ecr. log_simpl.
  rewrite Er. now log_simpl.
Qed.

(** Run the first stages of [render] on the picture [im], given its frame
    style [Et] and its content box [Hb]. *)
Ltac render_stages im Et Hb :=
  unfold render;
  rewrite Et, (get_content_bounding_box_complete im _ _ ltac:(split; lia) Hb);
  repeat progress (cbn [effective_content]; log_simpl).

(** The body of [resize_card] returns a card of the target size and never
    takes the fallback of line 362. *)
Lemma render_returns im tw th :
  nonempty im -> 1 <= tw -> 1 <= th ->
  returns (render s p im tw th) (fun card => size card = (tw, th)) no_fallback_error.
Proof.
  intros N Htw Hth. pose proof N as [Hw Hh]. unfold render.
  destruct (card_type_of_ok im) as [t ->]; [lia|]. rewrite lbind_lift_Ok.
  rewrite get_content_bounding_box_mask by (split; lia). rewrite lbind_lift_Ok.
  eapply returns_bind; [apply effective_content_returns|]. intros e _.
  eapply returns_bind with (P := fun _ => True).
  { destruct t; try now apply returns_lret. apply extended_art_sides_returns. }
  intros e' _. eapply returns_bind with (P := card_sized tw th).
  { destruct t; [apply crop_branch_returns | apply crop_branch_returns
                 | apply full_art_branch_returns]; assumption. }
  intros o (img & -> & Sz). rewrite lbind_lret. apply returns_lret.
  now rewrite apply_enhancements_size.
Qed.

(** Hence a picture that was opened and is not empty gives a card. *)
Lemma resize_card_opened im tw th :
  nonempty im -> 1 <= tw -> 1 <= th ->
  exists card, fst (resize_card s p (Ok im) tw th) = Some card /\ size card = (tw, th).
Proof.
  intros N Htw Hth. unfold resize_card. rewrite lbind_lift_Ok.
  destruct (render_returns im tw th N Htw Hth) as (card & log & -> & Sz & _).
  now exists card.
Qed.

(** Claim C1: for a picture that was opened and is not empty and a target
    of at least 1 x 1, [resize_card] returns a card, the card has exactly
    the target size, and the fallback of line 362 is not taken. *)
Theorem resize_card_size im tw th :
  0 < width im -> 0 < height im -> 1 <= tw -> 1 <= th ->
  exists card log, resize_card s p (Ok im) tw th = (Some card, log) /\
    size card = (tw, th) /\ ~ In FallbackError log.
Proof.
  intros Hw Hh Htw Hth. unfold resize_card. rewrite lbind_lift_Ok.
  destruct (render_returns im tw th) as (card & log & -> & Sz & L);
    try assumption; [now split|].
  exists card, log. repeat split; try assumption.
  intros I. rewrite Forall_forall in L. now apply (L _ I).
Qed.

(** The trim of a picture that is taller than the trim. *)
Lemma full_art_crop_cut im :
  0 < width im -> 0 < FULL_ART_BOTTOM_CROP_PX s < height im ->
  exists c, full_art_crop s im = (Ok c, []) /\
    size c = (width im, height im - FULL_ART_BOTTOM_CROP_PX s) /\
    forall x y, 0 <= x < width c -> 0 <= y < height c -> px c x y = px im x y.
Proof.
  intros Hw HT. unfold full_art_crop.
  replace (0 <? FULL_ART_BOTTOM_CROP_PX s) with true by lia.
  replace (height im <=? FULL_ART_BOTTOM_CROP_PX s) with false by lia.
  replace (0 <? width im) with true by lia.
  replace (Z.max 1 _) with (height im - FULL_ART_BOTTOM_CROP_PX s) by lia.
  destruct (crop_ok im (Box 0 0 (width im) (height im - FULL_ART_BOTTOM_CROP_PX s)))
    as (c & -> & W & Hc & In & _); cbn [x0 x1 y0 y1] in *; try lia.
  exists c. split; [reflexivity|]. unfold size. rewrite W, Hc, !Z.sub_0_r.
  split; [reflexivity|]. intros x y Hx Hy. rewrite In; [reflexivity|].
  apply in_bounds_true. lia.
Qed.

(** Full-bleed trim: a picture of height H with a trim 0 < T < H
    becomes a picture of height H - T, the rows at the top of the original. *)
Theorem full_art_crop_trim im :
  0 < width im -> 0 < FULL_ART_BOTTOM_CROP_PX s < height im ->
  exists c, full_art_crop s im = (Ok c, []) /\
    size c = (width im, height im - FULL_ART_BOTTOM_CROP_PX s) /\
    forall x y, 0 <= x < width c -> 0 <= y < height c -> px c x y = px im x y.
Proof. apply full_art_crop_cut. Qed.

(** Claim C25: a trim that meets or exceeds the height leaves the first row,
    with a warning. *)
Theorem full_art_crop_trim_exceeds im :
  0 <= width im -> 0 < height im <= FULL_ART_BOTTOM_CROP_PX s ->
  exists c, full_art_crop s im = (Ok c, [TrimExceedsHeight]) /\
    size c = (width im, 1).
Proof.
  intros Hw HT. unfold full_art_crop.
  replace (0 <? FULL_ART_BOTTOM_CROP_PX s) with true by lia.
  replace (height im <=? FULL_ART_BOTTOM_CROP_PX s) with true by lia.
  replace (0 <? height im) with true by lia.
  destruct (crop_ok im (Box 0 0 (width im) 1))
    as (c & E & W & Hc & _); cbn [x0 x1 y0 y1] in *; try lia.
  exists c. rewrite lbind_tell, E. split; [reflexivity|].
  unfold size. now rewrite W, Hc, !Z.sub_0_r.
Qed.

(** Without a trim the picture is used as it is. *)
Lemma full_art_crop_no_trim im :
  FULL_ART_BOTTOM_CROP_PX s <= 0 -> full_art_crop s im = (Ok im, []).
Proof.
  intros HT. unfold full_art_crop.
  now replace (0 <? FULL_ART_BOTTOM_CROP_PX s) with false by lia.
Qed.

(** The stages of a standard card whose crop, cut and resize are known. *)
Lemma render_standard_stages im tw th b c cropped r :
  0 <= width im -> 0 <= height im ->
  card_type_of s im = Ok standard ->
  is_bbox (is_content (BLACK_BORDER_THRESHOLD s)) im b ->
  proportional_crop p (width im) (height im) tw th b = (Ok (CropTo c), []) ->
  crop im c = Ok cropped -> resize_to_target cropped tw th = Ok r ->
  render s p im tw th = (Ok (apply_enhancements s r), []).
Proof.
  intros Hw Hh Et Hb Ec Ecr Er.
  render_stages im Et Hb. now rewrite (crop_branch_eq im tw th b c cropped r Ec Ecr Er).
Qed.

(** Claim C9: a standard card, end to end: no warning is printed, and the card
    is the resized crop of a box that holds the bounding box of the content
    and lies in the picture. *)
Theorem render_standard im tw th b :
  nonempty im -> 1 <= tw -> 1 <= th ->
  0 <= BORDER_LEFT_PX p -> 0 <= BORDER_TOP_PX p ->
  0 <= BORDER_RIGHT_PX p -> 0 <= BORDER_BOTTOM_PX p ->
  card_type_of s im = Ok standard ->
  is_bbox (is_content (BLACK_BORDER_THRESHOLD s)) im b ->
  exists c cropped r,
    proportional_crop p (width im) (height im) tw th b = (Ok (CropTo c), []) /\
    (0 <= x0 c <= x0 b /\ x1 b <= x1 c <= width im /\
     0 <= y0 c <= y0 b /\ y1 b <= y1 c <= height im) /\
    crop im c = Ok cropped /\ resize_to_target cropped tw th = Ok r /\
    render s p im tw th = (Ok (apply_enhancements s r), []).
Proof.
  intros [Hw Hh] Htw Hth BL BT BR BB Et Hb. pose proof (bbox_bounds _ _ _ Hb) as Bb.
  destruct (proportional_crop_grows p (width im) (height im) tw th b)
    as (c & Ec & Hc); try lia.
  destruct (crop_ok im c) as (cropped & Ecr & _); try lia.
  destruct (resize_to_target_ok cropped tw th Htw Hth) as (r & Er & _).
  exists c, cropped, r. repeat split; try assumption; try lia.
  apply (render_standard_stages im tw th b c cropped r); trivial; lia.
Qed.

(** The stages of an extended-art card whose sample row, crop, cut and
    resize are known. *)
Lemma render_extended_art_stages im tw th b l r c cropped res :
  0 <= width im -> 0 <= height im ->
  card_type_of s im = Ok extended_art ->
  is_bbox (is_content (BLACK_BORDER_THRESHOLD s)) im b ->
  0 <= y0 b + EXTENDED_ART_SCAN_OFFSET_Y_PX p < height im ->
  row_extent im (BLACK_BORDER_THRESHOLD s) (y0 b + EXTENDED_ART_SCAN_OFFSET_Y_PX p) l r ->
  proportional_crop p (width im) (height im) tw th (Box l (y0 b) r (y1 b))
  = (Ok (CropTo c), []) ->
  crop im c = Ok cropped -> resize_to_target cropped tw th = Ok res ->
  render s p im tw th = (Ok (apply_enhancements s res), []).
Proof.
  intros Hw Hh Et Hb Hy R Ec Ecr Er.
  render_stages im Et Hb. rewrite (extended_art_sides_row s p im b b l r Hy R).
  log_simpl. now rewrite (crop_branch_eq im tw th _ c cropped res Ec Ecr Er).
Qed.

(** An extended-art card, end to end: the sides of the content are those of
    the sample row, its top and bottom those of the bounding box; no warning
    is printed, and the card is the resized crop of a box that holds this
    content box and lies in the picture. *)
Theorem render_extended_art im tw th b l r :
  nonempty im -> 1 <= tw -> 1 <= th ->
  0 <= BORDER_LEFT_PX p -> 0 <= BORDER_TOP_PX p ->
  0 <= BORDER_RIGHT_PX p -> 0 <= BORDER_BOTTOM_PX p ->
  card_type_of s im = Ok extended_art ->
  is_bbox (is_content (BLACK_BORDER_THRESHOLD s)) im b ->
  let y := y0 b + EXTENDED_ART_SCAN_OFFSET_Y_PX p in
  0 <= y < height im -> row_extent im (BLACK_BORDER_THRESHOLD s) y l r -> l < r ->
  exists c cropped res,
    proportional_crop p (width im) (height im) tw th (Box l (y0 b) r (y1 b))
    = (Ok (CropTo c), []) /\
    (0 <= x0 c <= l /\ r <= x1 c <= width im /\
     0 <= y0 c <= y0 b /\ y1 b <= y1 c <= height im) /\
    crop im c = Ok cropped /\ resize_to_target cropped tw th = Ok res /\
    render s p im tw th = (Ok (apply_enhancements s res), []).
Proof.
  intros [Hw Hh] Htw Hth BL BT BR BB Et Hb y Hy R Hlr.
  pose proof (bbox_bounds _ _ _ Hb) as Bb. pose proof (extent_bounds _ _ _ _ _ R) as Br.
  destruct (proportional_crop_grows p (width im) (height im) tw th (Box l (y0 b) r (y1 b)))
    as (c & Ec & Hc); cbn [x0 x1 y0 y1] in *; try lia.
  destruct (crop_ok im c) as (cropped & Ecr & _); try lia.
  destruct (resize_to_target_ok cropped tw th Htw Hth) as (res & Er & _).
  exists c, cropped, res. repeat split; try assumption; try lia.
  apply (render_extended_art_stages im tw th b l r c cropped res); trivial; lia.
Qed.

(** A borderless card, end to end: the card is the resized trim of
    the picture, and only the trim prints. *)
Theorem render_borderless im tw th b :
  nonempty im -> 1 <= tw -> 1 <= th ->
  card_type_of s im = Ok borderless ->
  is_bbox (is_content (BLACK_BORDER_THRESHOLD s)) im b ->
  exists c log res,
    full_art_crop s im = (Ok c, log) /\ nonempty c /\
    resize_to_target c tw th = Ok res /\
    render s p im tw th = (Ok (apply_enhancements s res), log).
Proof.
  intros N Htw Hth Et Hb. pose proof N as [Hw Hh].
  destruct (full_art_crop_returns im N) as (c & log & Ec & Nc & _).
  destruct (resize_to_target_ok c tw th Htw Hth) as (res & Er & _).
  exists c, log, res. repeat split; try assumption; try apply Nc.
  render_stages im Et Hb. rewrite Ec. cbn [lbind]. rewrite Er. cbn [lift lret lbind].
  now rewrite !app_nil_r.
Qed.

(** *** The size of every card *)

Lemma resize_to_target_size img tw th r :
  resize_to_target img tw th = Ok r -> size r = (tw, th).
Proof.
  unfold resize_to_target, size_differs. destruct (_ && _) eqn:E; cbn [negb].
  - intros [= <-]. unfold copy, size. f_equal; zlia.
  - apply resize_size.
Qed.

Lemma resized_ensures img tw th :
  ensures (D:=diag) (resized <- lift (resize_to_target img tw th) ;; lret (Some resized))
          (card_sized tw th).
Proof.
  eapply ensures_bind; [apply ensures_lift; intros r E; exact (resize_to_target_size _ _ _ _ E)|].
  intros r Sz. apply ensures_lret. now exists r.
Qed.

(** Whatever the picture and the target, a card that [render] returns has
    the target size. *)
Lemma render_ensures im tw th :
  ensures (render s p im tw th) (fun card => size card = (tw, th)).
Proof.
  unfold render.
  eapply ensures_bind; [apply ensures_any|]. intros t _.
  eapply ensures_bind; [apply ensures_any|]. intros bbox _.
  eapply ensures_bind; [apply ensures_any|]. intros e _.
  eapply ensures_bind; [apply ensures_any|]. intros e' _.
  eapply ensures_bind with (P := card_sized tw th).
  { destruct t.
    - eapply ensures_bind; [apply ensures_any|]. intros c _.
      eapply ensures_bind; [apply ensures_any|]. intros i _. apply resized_ensures.
    - eapply ensures_bind; [apply ensures_any|]. intros c _.
      eapply ensures_bind; [apply ensures_any|]. intros i _. apply resized_ensures.
    - eapply ensures_bind; [apply ensures_any|]. intros i _. apply resized_ensures. }
  intros o (img & -> & Sz). rewrite lbind_lret. apply ensures_lret.
  now rewrite apply_enhancements_size.
Qed.

(** Every card [resize_card] returns has the target size. *)
Lemma resize_card_sized opened tw th card log :
  resize_card s p opened tw th = (Some card, log) -> size card = (tw, th).
Proof.
  unfold resize_card. destruct opened as [im|e]; [|discriminate].
  rewrite lbind_lift_Ok. destruct (render s p im tw th) as [[c|e] l] eqn:E;
    [|discriminate].
  intros [= <- _]. exact (render_ensures im tw th c l E).
Qed.

(** *** A target that cannot be resized to *)

Lemma resize_to_target_raises img tw th :
  nonempty img -> tw < 1 \/ th < 1 ->
  resize_to_target img tw th = Raise ValueError.
Proof.
  intros [Hw Hh] Ht. unfold resize_to_target, size_differs.
  replace ((width img =? tw) && (height img =? th)) with false by lia.
  cbn [negb]. unfold resize. cbn [fst snd].
  now replace ((tw <? 1) || (th <? 1)) with true by lia.
Qed.

Lemma resized_raises img tw th :
  nonempty img -> tw < 1 \/ th < 1 ->
  fst (resized <- lift (resize_to_target img tw th) ;; lret (D:=diag) (Some resized))
  = Raise ValueError.
Proof. intros N Ht. now rewrite resize_to_target_raises. Qed.

Lemma apply_crop_nonempty im c img :
  nonempty im -> valid_choice c -> apply_crop im c = Ok img -> nonempty img.
Proof.
  intros [Hw Hh] V E. destruct (apply_crop_ok im c Hw Hh V) as (img' & E' & N).
  rewrite E in E'. injection E' as <-. exact N.
Qed.

(** With a target below 1 x 1 every branch ends in a [resize] that
    raises. *)
Lemma render_raises im tw th :
  nonempty im -> tw < 1 \/ th < 1 ->
  fst (render s p im tw th) = Raise ValueError.
Proof.
  intros N Ht. pose proof N as [Hw Hh]. unfold render.
  destruct (card_type_of_ok im) as [t ->]; [lia|]. rewrite lbind_lift_Ok.
  rewrite get_content_bounding_box_mask by (split; lia). rewrite lbind_lift_Ok.
  eapply lbind_returns_raises; [apply effective_content_returns|]. intros e _.
  eapply lbind_returns_raises with (P := fun _ => True).
  { destruct t; try now apply returns_lret. apply extended_art_sides_returns. }
  intros e' _. apply lbind_raises.
  assert (C : forall e0, fst (choice <- proportional_crop p (width im) (height im) tw th e0 ;;
             img_to_final_resize <- lift (apply_crop im choice) ;;
             resized <- lift (resize_to_target img_to_final_resize tw th) ;;
             lret (Some resized)) = Raise ValueError).
  { intros e0. eapply lbind_returns_raises; [apply proportional_crop_returns|].
    intros c V. destruct (apply_crop_ok im c Hw Hh V) as (img & -> & Ni).
    rewrite lbind_lift_Ok. now apply resized_raises. }
  destruct t; [apply C | apply C |].
  eapply lbind_returns_raises; [now apply full_art_crop_returns|].
  intros c Nc. now apply resized_raises.
Qed.

(** A target size below 1 x 1 gives no card: the [ValueError] of
    the library's [resize] is caught and [None] is returned. *)
Theorem resize_card_bad_target im tw th :
  0 < width im -> 0 < height im -> tw < 1 \/ th < 1 ->
  fst (resize_card s p (Ok im) tw th) = None.
Proof.
  intros Hw Hh Ht. unfold resize_card. rewrite lbind_lift_Ok.
  pose proof (render_raises im tw th (conj Hw Hh) Ht) as R.
  destruct (render s p im tw th) as [r l]. cbn [fst] in *. now rewrite R.
Qed.

(** Claim C34: every card [resize_card] returns has exactly the target size,
    whatever the file, the picture and the target; when there is no card
    the last line printed is the error of the exception, and a file that
    cannot be opened prints nothing else. *)
Theorem resize_card_outcome opened tw th :
  match resize_card s p opened tw th with
  | (Some card, _) => size card = (tw, th)
  | (None, log) =>
      exists e log', log = log' ++ [report_error e] /\
        forall e', opened = Raise e' -> e' = e /\ log' = []
  end.
Proof.
  destruct (resize_card s p opened tw th) as [[card|] log] eqn:E.
  - exact (resize_card_sized opened tw th card log E).
  - unfold resize_card in E. destruct (_ <- _ ;; _)%log as [[c|e] l] eqn:R; [discriminate|].
    injection E as <-. exists e, l. split; [reflexivity|].
    intros e' ->. now injection R as -> ->.
Qed.
End RendererFacts.

(** ** Witnesses *)

Lemma resize_card_size_witness :
  exists card log,
    resize_card default_settings default_pixels
      (Ok (framed 750 1050 (Box 36 36 714 1014))) 3000 4200 = (Some card, log) /\
    size card = (3000, 4200) /\ ~ In FallbackError log.
Proof.
  apply (resize_card_size default_settings default_pixels
           (framed 750 1050 (Box 36 36 714 1014)) 3000 4200); cbn; lia.
Defined.

Lemma resize_card_bad_target_witness :
  fst (resize_card default_settings default_pixels
         (Ok (framed 750 1050 (Box 36 36 714 1014))) 0 4200) = None.
Proof.
  apply (resize_card_bad_target default_settings default_pixels
           (framed 750 1050 (Box 36 36 714 1014)) 0 4200); cbn; lia.
Defined.

Lemma full_art_crop_trim_witness :
  exists c, full_art_crop default_settings (framed 750 1050 (Box 0 0 750 1050)) = (Ok c, []) /\
    size c = (width (framed 750 1050 (Box 0 0 750 1050)),
              height (framed 750 1050 (Box 0 0 750 1050))
              - FULL_ART_BOTTOM_CROP_PX default_settings) /\
    forall x y, 0 <= x < width c -> 0 <= y < height c ->
                px c x y = px (framed 750 1050 (Box 0 0 750 1050)) x y.
Proof.
  apply (full_art_crop_trim default_settings (framed 750 1050 (Box 0 0 750 1050)));
    cbn; lia.
Defined.

Lemma full_art_crop_trim_exceeds_witness :
  exists c, full_art_crop default_settings (framed 75 60 (Box 0 0 75 60))
            = (Ok c, [TrimExceedsHeight]) /\
    size c = (width (framed 75 60 (Box 0 0 75 60)), 1).
Proof.
  apply (full_art_crop_trim_exceeds default_settings (framed 75 60 (Box 0 0 75 60)));
    cbn; lia.
Defined.

Lemma render_standard_witness :
  exists c cropped r,
    proportional_crop default_pixels (width (framed 750 1050 (Box 36 36 714 1014)))
      (height (framed 750 1050 (Box 36 36 714 1014))) 3000 4200 (Box 36 36 714 1014)
    = (Ok (CropTo c), []) /\
    (0 <= x0 c <= x0 (Box 36 36 714 1014) /\
     x1 (Box 36 36 714 1014) <= x1 c <= width (framed 750 1050 (Box 36 36 714 1014)) /\
     0 <= y0 c <= y0 (Box 36 36 714 1014) /\
     y1 (Box 36 36 714 1014) <= y1 c <= height (framed 750 1050 (Box 36 36 714 1014))) /\
    crop (framed 750 1050 (Box 36 36 714 1014)) c = Ok cropped /\
    resize_to_target cropped 3000 4200 = Ok r /\
    render default_settings default_pixels (framed 750 1050 (Box 36 36 714 1014))
      3000 4200 = (Ok (apply_enhancements default_settings r), []).
Proof.
  apply (render_standard default_settings default_pixels
           (framed 750 1050 (Box 36 36 714 1014)) 3000 4200 (Box 36 36 714 1014)).
  - split; cbn; lia.
  - lia.
  - lia.
  - cbn; lia.
  - cbn; lia.
  - cbn; lia.
  - cbn; lia.
  - vm_compute. reflexivity.
  - apply framed_is_bbox; cbn; lia.
Defined.

Lemma render_extended_art_witness :
  exists c cropped res,
    proportional_crop default_pixels (width (framed 750 1050 (Box 0 60 750 1000)))
      (height (framed 750 1050 (Box 0 60 750 1000))) 3000 4200
      (Box 0 (y0 (Box 0 60 750 1000)) 749 (y1 (Box 0 60 750 1000)))
    = (Ok (CropTo c), []) /\
    (0 <= x0 c <= 0 /\ 749 <= x1 c <= width (framed 750 1050 (Box 0 60 750 1000)) /\
     0 <= y0 c <= y0 (Box 0 60 750 1000) /\
     y1 (Box 0 60 750 1000) <= y1 c <= height (framed 750 1050 (Box 0 60 750 1000))) /\
    crop (framed 750 1050 (Box 0 60 750 1000)) c = Ok cropped /\
    resize_to_target cropped 3000 4200 = Ok res /\
    render default_settings default_pixels (framed 750 1050 (Box 0 60 750 1000))
      3000 4200 = (Ok (apply_enhancements default_settings res), []).
Proof.
  apply (render_extended_art default_settings default_pixels
           (framed 750 1050 (Box 0 60 750 1000)) 3000 4200 (Box 0 60 750 1000) 0 749).
  - split; cbn; lia.
  - lia.
  - lia.
  - cbn; lia.
  - cbn; lia.
  - cbn; lia.
  - cbn; lia.
  - vm_compute. reflexivity.
  - apply framed_is_bbox; cbn; lia.
  - cbn; lia.
  - apply (framed_row_extent 750 1050 (Box 0 60 750 1000) 50 202); cbn; lia.
  - lia.
Defined.

Lemma render_borderless_witness :
  exists c log res,
    full_art_crop default_settings (framed 750 1050 (Box 0 0 750 1050)) = (Ok c, log) /\
    nonempty c /\ resize_to_target c 3000 4200 = Ok res /\
    render default_settings default_pixels (framed 750 1050 (Box 0 0 750 1050)) 3000 4200
    = (Ok (apply_enhancements default_settings res), log).
Proof.
  apply (render_borderless default_settings default_pixels
           (framed 750 1050 (Box 0 0 750 1050)) 3000 4200 (Box 0 0 750 1050)).
  - split; cbn; lia.
  - lia.
  - lia.
  - vm_compute. reflexivity.
  - apply framed_is_bbox; cbn; lia.
Defined.
