(* ===== verification/Extensional.v ===== *)
(** * Extensional: a card depends on the pixels of the picture only

    A raster of the model is a size and a function on all coordinates, of
    which only the values inside the bounds are pixels of the picture.
    This file shows that nothing the pipeline computes depends on the other
    values: pictures that agree on their size and on every pixel inside
    their bounds ([Image.raster_eq]) have the same bounding box, the same
    row extents, the same frame style, and cards that agree as well, with
    the same warnings.  The resampling filter and the enhancers are assumed
    to read the pixels of the picture only (laws of [Image.Imaging]). *)

From Stdlib Require Import ZArith List Bool Lia Morphisms.
Import ListNotations.
From S2P Require Import Prelude PyNum Config Image Detector Solidity Classifier Cropper Renderer.
Local Open Scope Z_scope.

(** A picture with every value outside the bounds replaced by [c]. *)
Definition padded (im : image) (c : pixel) : image :=
  Raster (width im) (height im)
    (fun x y => if in_bounds im x y then px im x y else c).

(** Two outcomes of [resize_card] that agree: cards that agree on their
    pixels, or no card on either side, and the same warnings. *)
Definition same_outcome (a b : option image * list diag) : Prop :=
  match a, b with
  | (Some card, log), (Some card', log') => raster_eq card card' /\ log = log'
  | (None, log), (None, log') => log = log'
  | _, _ => False
  end.

Lemma padded_eq im c : raster_eq im (padded im c).
Proof.
  repeat split. intros x y Hx Hy. cbn [px padded].
  now rewrite (proj2 (in_bounds_true im x y)).
Qed.

(** ** Detector, solidity, classifier *)

Section Extensional.
Context (im im' : image) (E : raster_eq im im').

Lemma get_content_bounding_box_ext threshold :
  get_content_bounding_box im threshold = get_content_bounding_box im' threshold.
Proof.
  unfold get_content_bounding_box, size, mark_row. pose proof E as (Hw & Hh & _).
  rewrite <- Hw, <- Hh. destruct (_ || _); [reflexivity|].
  destruct (new _ _); [|reflexivity]. cbn [bind]. f_equal.
  apply fold_m_ext. intros st y _. apply fold_m_ext. intros [d b] x _.
  unfold mark_pixel. now rewrite E.
Qed.

Lemma get_content_extents_at_row_ext y threshold :
  get_content_extents_at_row im y threshold = get_content_extents_at_row im' y threshold.
Proof.
  unfold get_content_extents_at_row. pose proof E as (Hw & _). rewrite <- Hw.
  assert (C : forall x, content_at im y threshold x = content_at im' y threshold x)
    by (intros x; unfold content_at; now rewrite E).
  rewrite (find_m_ext _ _ _ (fun x _ => C x)).
  destruct (find_m _ _) as [[x|]|]; cbn [bind]; try reflexivity.
  destruct (_ =? -1); [reflexivity|].
  now rewrite (find_m_ext _ _ _ (fun x _ => C x)).
Qed.

Lemma check_strip_ext check_width_px threshold :
  check_strip_for_solid_lr_border im check_width_px threshold
  = check_strip_for_solid_lr_border im' check_width_px threshold.
Proof.
  unfold check_strip_for_solid_lr_border, band_solid. pose proof E as (Hw & Hh & _).
  rewrite <- Hw, <- Hh.
  assert (C : forall x, column_dark im (height im) threshold x
                        = column_dark im' (height im) threshold x).
  { intros x. apply forallb_m_ext. intros y _. now rewrite E. }
  now rewrite !(forallb_m_ext _ _ _ (fun x _ => C x)).
Qed.

End Extensional.

Lemma determine_card_type_ext im im' threshold w :
  raster_eq im im' ->
  determine_card_type im threshold w = determine_card_type im' threshold w.
Proof.
  intros E. unfold determine_card_type, size. pose proof E as (Hw & Hh & _).
  rewrite <- Hw, <- Hh. destruct (_ <? 20); [reflexivity|].
  apply result_rel_eq.
  eapply bind_rel; [apply (crop_proper _ _ E _ _ eq_refl)|]. intros t t' Et.
  eapply bind_rel; [apply (crop_proper _ _ E _ _ eq_refl)|]. intros m m' Em.
  rewrite (check_strip_ext t t' Et), (check_strip_ext m m' Em).
  now apply result_rel_eq.
Qed.

#[export] Instance get_content_bounding_box_proper :
  Proper (raster_eq ==> eq ==> eq) get_content_bounding_box.
Proof. intros im im' E t _ <-. now apply get_content_bounding_box_ext. Qed.

#[export] Instance get_content_extents_at_row_proper :
  Proper (raster_eq ==> eq ==> eq ==> eq) get_content_extents_at_row.
Proof. intros im im' E y _ <- t _ <-. now apply get_content_extents_at_row_ext. Qed.

#[export] Instance check_strip_proper :
  Proper (raster_eq ==> eq ==> eq ==> eq) check_strip_for_solid_lr_border.
Proof. intros im im' E w _ <- t _ <-. now apply check_strip_ext. Qed.

#[export] Instance determine_card_type_proper :
  Proper (raster_eq ==> eq ==> eq ==> eq) determine_card_type.
Proof. intros im im' E t _ <- w _ <-. now apply determine_card_type_ext. Qed.

(** ** Cropper and renderer *)

Section RenderExtensional.
Context `{Imaging} (s : settings) (p : pixels).
Context (im im' : image) (E : raster_eq im im').

Lemma card_type_of_ext : card_type_of s im = card_type_of s im'.
Proof. unfold card_type_of. now rewrite E. Qed.

Lemma extended_art_sides_ext bbox e :
  extended_art_sides s p im bbox e = extended_art_sides s p im' bbox e.
Proof.
  unfold extended_art_sides. pose proof E as (_ & Hh & _). rewrite <- Hh.
  now rewrite (get_content_extents_at_row_ext im im' E).
Qed.

Lemma apply_crop_rel c : result_rel raster_eq (apply_crop im c) (apply_crop im' c).
Proof.
  destruct c as [b|]; cbn [apply_crop]; [|exact E].
  apply (crop_proper _ _ E _ _ eq_refl).
Qed.

Lemma resize_to_target_rel img img' tw th :
  raster_eq img img' ->
  result_rel raster_eq (resize_to_target img tw th) (resize_to_target img' tw th).
Proof.
  intros Ei. unfold resize_to_target, size_differs. pose proof Ei as (<- & <- & _).
  destruct (negb _); [|exact Ei]. unfold resize.
  destruct (_ || _); [reflexivity|]. now apply resample_ext.
Qed.

Lemma resized_rel img img' tw th :
  raster_eq img img' ->
  logged_rel (D:=diag) (option_rel raster_eq)
    (resized <- lift (resize_to_target img tw th) ;; lret (Some resized))%log
    (resized <- lift (resize_to_target img' tw th) ;; lret (Some resized))%log.
Proof.
  intros Ei. eapply lbind_rel; [apply lift_rel, resize_to_target_rel, Ei|].
  intros r r' Er. now apply lret_rel.
Qed.

Lemma full_art_crop_rel : logged_rel raster_eq (full_art_crop s im) (full_art_crop s im').
Proof.
  unfold full_art_crop, copy. pose proof E as (<- & <- & _).
  destruct (0 <? _); [|now apply lret_rel].
  destruct (_ <=? _).
  - apply lbind_same. intros _. destruct (0 <? _).
    + apply lift_rel, (crop_proper _ _ E _ _ eq_refl).
    + apply lift_rel. destruct (new _ _); cbn; reflexivity.
  - destruct (0 <? _); [apply lift_rel, (crop_proper _ _ E _ _ eq_refl)|].
    destruct (_ =? 0); [|now apply lret_rel].
    apply lbind_same. intros _. apply lift_rel. destruct (new _ _); cbn; reflexivity.
Qed.

Lemma apply_enhancements_ext img img' :
  raster_eq img img' -> raster_eq (apply_enhancements s img) (apply_enhancements s img').
Proof.
  intros Ei. unfold apply_enhancements.
  destruct (py_ne (BRIGHTNESS_FACTOR s) _), (py_ne (SATURATION_FACTOR s) _);
    auto using enhance_brightness_ext, enhance_color_ext.
Qed.

Lemma render_rel tw th :
  logged_rel raster_eq (render s p im tw th) (render s p im' tw th).
Proof.
  unfold render. rewrite card_type_of_ext, (get_content_bounding_box_ext im im' E).
  pose proof E as (Hw & Hh & _). rewrite <- Hw, <- Hh.
  apply lbind_same. intros t. apply lbind_same. intros bbox.
  apply lbind_same. intros e. rewrite extended_art_sides_ext.
  apply lbind_same. intros e'.
  eapply lbind_rel with (R := option_rel raster_eq).
  - destruct t; try (apply lbind_same; intros c;
      (eapply lbind_rel; [apply lift_rel, apply_crop_rel|]);
      intros i i' Ei; now apply resized_rel).
    eapply lbind_rel; [apply full_art_crop_rel|]. intros i i' Ei. now apply resized_rel.
  - intros o o' Eo. eapply lbind_rel with (R := raster_eq).
    + destruct o, o'; try contradiction; [now apply lret_rel|].
      apply lbind_same. intros _. apply lift_rel. unfold resize, copy.
      destruct (_ || _); [reflexivity|]. now apply resample_ext.
    + intros r r' Er. now apply lret_rel, apply_enhancements_ext.
Qed.


End RenderExtensional.

(** ** Witness *)

