(* ===== verification/Pipeline.v ===== *)
(** * Pipeline: a framed picture from the file to the card

    The detector, the classifier, the cropper and the renderer are
    verified one by one in their files.  This file runs them together, as
    [resize_card] does, on the synthetic cards of the specification: a
    picture [framed w h b], white artwork in the box [b] and a black frame
    around it.

    [framed_card] says what makes the program take such a picture for a
    standard card: a frame at least as wide as the band the classifier
    checks.  [frame_holds_borders] says that the frame is wide enough for
    the borders the cropper keeps, so that the crop does not reach the
    sides of the picture.  Both are conditions on the picture and the
    configuration, not on what the program computes.

    [framed_card_borders] follows the picture through [resize_card]: the
    detector finds [b], the classifier answers standard, the cropper keeps
    the back-projected borders around [b], no warning is printed, and the card
    is the resized crop; when the artwork is at least as large as the card,
    each border of the card is printed within one pixel of the configured
    width.  [card_frame_round_trip] closes the loop for the resampling of
    [Image.nearest_imaging]: the detector, run on the card, finds the
    artwork behind borders that are the configured ones or one pixel
    off.

    [capped_card] is a picture with artwork from one side to the other
    between a black cap at the top and one at the bottom, which the
    program takes for extended art.  [extended_art_card_crop] follows it
    through [resize_card]: the sides of its content are those of the row
    the cropper scans, of which the right one is the last column of
    artwork and not the column after it, so that the crop ends at most at
    the last column, and before it when no right border is configured.

    [bare_card] is a picture whose artwork starts in its top left corner,
    which the program takes for a borderless card;
    [borderless_card_trim] follows it through [resize_card]: the card is
    made of the picture without the rows of the configured trim.

    [standard_card_stages], [capped_card_stages] and [bare_card_stages]
    give the crop, the cut and the resize of each style for every target
    of at least 1 x 1 and borders that are not negative
    ([borders_nonneg]); [synthetic_card_quiet] sums them up for a
    [synthetic_card] of any of the three styles: a card of the target
    size, and no warning. *)

From Stdlib Require Import ZArith QArith Qabs List Bool Lia Lqa Morphisms.
Import ListNotations.
From S2P Require Import Prelude Binary64 PyNum Config Image Detector Solidity Classifier.
From S2P Require Import Cropper Border Renderer Extensional.
Local Open Scope Z_scope.

(** ** Synthetic cards *)

Section Cards.
Context (s : settings) (p : pixels).

(** A picture with artwork in [b] that the classifier takes for a
    standard card. *)
Record framed_card (w h : Z) (b : box) : Prop := FramedCard {
  threshold_range : 0 <= BLACK_BORDER_THRESHOLD s < 255;
  card_tall : 20 <= h;
  band_fits : 0 < EDGE_ZONE_CHECK_WIDTH_PX s /\ 2 * EDGE_ZONE_CHECK_WIDTH_PX s <= w;
  frame_left : EDGE_ZONE_CHECK_WIDTH_PX s <= x0 b;
  frame_right : x1 b <= w - EDGE_ZONE_CHECK_WIDTH_PX s;
  art_wide : x0 b < x1 b;
  art_high : 0 <= y0 b < y1 b /\ y1 b <= h
}.

(** A picture with artwork from side to side in [b], between a black cap
    at the top and one at the bottom, that the classifier takes for
    extended art: the top zone lies in the upper cap, the middle zone
    starts in the artwork, and the row of the side scan is a row of the
    artwork. *)
Record capped_card (w h : Z) (b : box) : Prop := CappedCard {
  capped_threshold : 0 <= BLACK_BORDER_THRESHOLD s < 255;
  capped_free : FORCE_STANDARD_FRAME_TYPE s = false;
  capped_tall : 20 <= h;
  capped_band : 0 < EDGE_ZONE_CHECK_WIDTH_PX s /\ 2 * EDGE_ZONE_CHECK_WIDTH_PX s <= w;
  capped_sides : x0 b = 0 /\ x1 b = w;
  capped_art : 0 <= y0 b < y1 b /\ y1 b <= h;
  capped_top : y1 (top_zone w h (EDGE_ZONE_CHECK_WIDTH_PX s)) <= y0 b;
  capped_middle : y0 b <= y0 (middle_zone w h (EDGE_ZONE_CHECK_WIDTH_PX s)) < y1 b;
  capped_scan : 0 <= EXTENDED_ART_SCAN_OFFSET_Y_PX p < y1 b - y0 b
}.

(** A picture whose artwork [b] starts in its top left corner: the
    classifier finds no frame at the top and takes it for a borderless
    card. *)
Record bare_card (w h : Z) (b : box) : Prop := BareCard {
  bare_threshold : 0 <= BLACK_BORDER_THRESHOLD s < 255;
  bare_free : FORCE_STANDARD_FRAME_TYPE s = false;
  bare_corner : x0 b = 0 /\ y0 b = 0;
  bare_art : 0 < x1 b <= w /\ 0 < y1 b <= h
}.

(** A synthetic card of one of the three styles; the trim of a borderless
    one is smaller than its height. *)
Definition synthetic_card (w h : Z) (b : box) : Prop :=
  framed_card w h b \/ capped_card w h b \/
  (bare_card w h b /\ 0 < FULL_ART_BOTTOM_CROP_PX s < h).

(** The borders asked for are not negative. *)
Definition borders_nonneg : Prop :=
  0 <= BORDER_LEFT_PX p /\ 0 <= BORDER_TOP_PX p /\
  0 <= BORDER_RIGHT_PX p /\ 0 <= BORDER_BOTTOM_PX p.

(** The configured borders, as numbers a float holds exactly. *)
Definition borders_in_range : Prop :=
  0 <= BORDER_LEFT_PX p < 2 ^ 31 /\ 0 <= BORDER_TOP_PX p < 2 ^ 31 /\
  0 <= BORDER_RIGHT_PX p < 2 ^ 31 /\ 0 <= BORDER_BOTTOM_PX p < 2 ^ 31.

(** The frame is wider, on each side, than the border at the scale of the
    artwork plus one pixel: the crop stays inside the picture. *)
Definition frame_holds_borders (w h tw th : Z) (b : box) : Prop :=
  let faw := tw - BORDER_LEFT_PX p - BORDER_RIGHT_PX p in
  let fah := th - BORDER_TOP_PX p - BORDER_BOTTOM_PX p in
  BORDER_LEFT_PX p * (x1 b - x0 b) + faw <= x0 b * faw /\
  BORDER_RIGHT_PX p * (x1 b - x0 b) + faw <= (w - x1 b) * faw /\
  BORDER_TOP_PX p * (y1 b - y0 b) + fah <= y0 b * fah /\
  BORDER_BOTTOM_PX p * (y1 b - y0 b) + fah <= (h - y1 b) * fah.

(** The artwork is at least as large as its place on the card, and not
    absurdly larger. *)
Definition art_fills_card (tw th : Z) (b : box) : Prop :=
  let faw := tw - BORDER_LEFT_PX p - BORDER_RIGHT_PX p in
  let fah := th - BORDER_TOP_PX p - BORDER_BOTTOM_PX p in
  1 <= faw /\ 1 <= fah /\
  tw <= x1 b - x0 b <= 2 ^ 19 * faw /\ th <= y1 b - y0 b <= 2 ^ 19 * fah.

(** The four borders of the card, from the crop box [c] around the
    artwork [b], are printed within one pixel of the configured widths. *)
Definition printed_within_one (tw th : Z) (b c : box) : Prop :=
  (Qabs (printed (x0 b - x0 c) (x1 c - x0 c) tw - inject_Z (BORDER_LEFT_PX p)) < 1)%Q /\
  (Qabs (printed (x1 c - x1 b) (x1 c - x0 c) tw - inject_Z (BORDER_RIGHT_PX p)) < 1)%Q /\
  (Qabs (printed (y0 b - y0 c) (y1 c - y0 c) th - inject_Z (BORDER_TOP_PX p)) < 1)%Q /\
  (Qabs (printed (y1 c - y1 b) (y1 c - y0 c) th - inject_Z (BORDER_BOTTOM_PX p)) < 1)%Q.

(** The box [b] seen from the corner of the box [c]. *)
Definition shift (b c : box) : box :=
  Box (x0 b - x0 c) (y0 b - y0 c) (x1 b - x0 c) (y1 b - y0 c).

(** Division rounded up. *)
Definition cdiv (a b : Z) : Z := - (- a / b).

(** The box [b] of a picture [W] x [H] on its nearest-neighbour resampling
    to [tw] x [th]. *)
Definition scaled (b : box) (W H tw th : Z) : box :=
  Box (cdiv (x0 b * tw) W) (cdiv (y0 b * th) H)
      (cdiv (x1 b * tw) W) (cdiv (y1 b * th) H).

(** The four borders of a card [tw] x [th] around the box [a] are the
    configured ones or one pixel off. *)
Definition borders_within_one (tw th : Z) (a : box) : Prop :=
  Z.abs (x0 a - BORDER_LEFT_PX p) <= 1 /\ Z.abs (tw - x1 a - BORDER_RIGHT_PX p) <= 1 /\
  Z.abs (y0 a - BORDER_TOP_PX p) <= 1 /\ Z.abs (th - y1 a - BORDER_BOTTOM_PX p) <= 1.

End Cards.

(** Three synthetic cards for the source's configuration, with artwork of
    three aspect ratios: 18 : 25, 27 : 25 and 9 : 20. *)
Definition sample_cards : list (Z * Z * box) :=
  [(4000, 5600, Box 200 300 3800 5300);
   (6000, 5600, Box 300 300 5700 5300);
   (4000, 9000, Box 200 500 3800 8500)].

(** The source's sizes with no border asked for on any side. *)
Definition full_bleed : pixels := {|
  CARD_WIDTH_PX := 3000;
  CARD_HEIGHT_PX := 4200;
  BORDER_TOP_PX := 0;
  BORDER_LEFT_PX := 0;
  BORDER_RIGHT_PX := 0;
  BORDER_BOTTOM_PX := 0;
  EXTENDED_ART_SCAN_OFFSET_Y_PX := 142;
  PAPER_WIDTH_PX := 10200;
  PAPER_HEIGHT_PX := 13200;
  GRID_WIDTH_PX := 9000;
  GRID_HEIGHT_PX := 12600;
  MARGIN_X := 600;
  MARGIN_Y := 300
|}.

(** ** Theorems *)

(** A quotient of integers within one of an integer, without the
    division. *)
Lemma quotient_within_one a b c :
  0 < b -> (Qabs (inject_Z a / inject_Z b - inject_Z c) < 1)%Q ->
  (c - 1) * b < a < (c + 1) * b.
Proof.
  intros Pb [L U]%Qabs_Qlt_condition.
  assert (PB : (0 < inject_Z b)%Q) by (change 0%Q with (inject_Z 0); now rewrite <- Zlt_Qlt).
  assert (E : (inject_Z a == inject_Z a / inject_Z b * inject_Z b)%Q) by (field; lra).
  pose proof (Qmult_lt_compat_r _ _ _ PB L) as L'.
  pose proof (Qmult_lt_compat_r _ _ _ PB U) as U'.
  assert (c * b < a + b /\ a < c * b + b) as [L2 U2]; [|lia].
  rewrite !Zlt_Qlt, !inject_Z_plus, inject_Z_mult, E. lra.
Qed.

Lemma printed_quotient kept crop_w target_w :
  0 < crop_w ->
  (printed kept crop_w target_w == inject_Z (kept * target_w) / inject_Z crop_w)%Q.
Proof.
  intros P. unfold printed. rewrite inject_Z_mult. field.
  change 0%Q with (inject_Z 0). rewrite inject_Z_injective. lia.
Qed.

(** The border kept around the content, without the division: it is the
    exact quotient [B * cw / faw] up to less than one source pixel. *)
Lemma kept_border_bounds B faw cw k :
  0 <= B < 2 ^ 31 -> 1 <= faw -> 1 <= cw <= 2 ^ 19 * faw ->
  keep_orig_border B (NFloat (rn (inject_Z faw / inject_Z cw))) = Ok k ->
  B * cw - faw < k * faw < B * cw + faw.
Proof.
  intros HB Hf Hc E.
  destruct (keep_orig_border_near B faw cw) as (k' & E' & N); try lia.
  rewrite E in E'. injection E' as <-.
  pose proof (rounding_small B cw faw HB Hf Hc) as S. unfold rounding in S.
  assert (Q1 : (Qabs (inject_Z (B * cw) / inject_Z faw - inject_Z k) < 1)%Q).
  { rewrite Qabs_Qminus. eapply Qle_lt_trans; [exact N | exact S]. }
  apply quotient_within_one in Q1; lia.
Qed.

(** The border kept fits in a frame that is wider than the exact quotient
    by one pixel. *)
Lemma kept_border_fits B faw cw k frame :
  0 <= B < 2 ^ 31 -> 1 <= faw -> 1 <= cw <= 2 ^ 19 * faw ->
  keep_orig_border B (NFloat (rn (inject_Z faw / inject_Z cw))) = Ok k ->
  B * cw + faw <= frame * faw -> k < frame.
Proof.
  intros HB Hf Hc E G. pose proof (kept_border_bounds B faw cw k HB Hf Hc E).
  apply (Z.mul_lt_mono_pos_r faw); lia.
Qed.

(** One axis of a crop that stays inside the picture and is at least as
    long as the card: both printed borders are within one pixel. *)
Lemma unclamped_axis_within_one B0 B1 t lo hi n k0 k1 :
  0 <= B0 < 2 ^ 31 -> 0 <= B1 < 2 ^ 31 -> 0 <= lo < hi -> hi <= n ->
  1 <= t - B0 - B1 -> t <= hi - lo <= 2 ^ 19 * (t - B0 - B1) ->
  keep_orig_border B0 (NFloat (rn (inject_Z (t - B0 - B1) / inject_Z (hi - lo)))) = Ok k0 ->
  keep_orig_border B1 (NFloat (rn (inject_Z (t - B0 - B1) / inject_Z (hi - lo)))) = Ok k1 ->
  0 <= k0 < lo -> 0 <= k1 < n - hi ->
  (Qabs (printed k0 (hi - lo + k0 + k1) t - inject_Z B0) < 1)%Q /\
  (Qabs (printed k1 (hi - lo + k0 + k1) t - inject_Z B1) < 1)%Q.
Proof.
  intros H0 H1 Hlo Hhi Hf Hc E0 E1 K0 K1.
  pose proof (clamped_axis_within_one B0 B1 t lo hi n k0 k1 H0 H1 Hlo Hhi Hf
                ltac:(lia)) as A.
  rewrite Z.max_r in A by lia. specialize (A E0 E1). cbv zeta in A.
  rewrite Z.max_r, Z.min_r in A by lia.
  replace (lo - (lo - k0)) with k0 in A by lia.
  replace (hi + k1 - hi) with k1 in A by lia.
  replace (hi + k1 - (lo - k0)) with (hi - lo + k0 + k1) in A by lia.
  apply A; lia.
Qed.

Section CardFacts.
Context `{Imaging} (s : settings) (p : pixels).

(** The classifier on a synthetic card, with or without the override. *)
Lemma card_type_of_framed w h b :
  framed_card s w h b -> card_type_of s (framed w h b) = Ok standard.
Proof.
  intros [Ht Hh [He Hw] Hl Hr Hx Hy]. unfold card_type_of.
  destruct (FORCE_STANDARD_FRAME_TYPE s); [reflexivity|].
  now apply determine_card_type_framed.
Qed.

Lemma framed_card_bbox w h b :
  framed_card s w h b ->
  is_bbox (is_content (BLACK_BORDER_THRESHOLD s)) (framed w h b) b.
Proof. intros [Ht Hh [He Hw] Hl Hr Hx Hy]. apply framed_is_bbox; lia. Qed.

(** A piece cut out of a framed picture is a framed picture. *)
Lemma crop_framed w h b c :
  0 <= x0 c <= x1 c -> x1 c <= w -> 0 <= y0 c <= y1 c -> y1 c <= h ->
  exists cropped,
    crop (framed w h b) c = Ok cropped /\
    raster_eq cropped (framed (x1 c - x0 c) (y1 c - y0 c) (shift b c)).
Proof.
  intros Hx Hw Hy Hh.
  destruct (crop_ok (framed w h b) c) as (cropped & E & Wc & Hc & In & _); try lia.
  exists cropped. split; [exact E|]. split; [exact Wc | split; [exact Hc|]].
  intros x y Px Py. rewrite In by (unfold in_bounds; cbn [width height framed]; zlia).
  cbn [px framed].
  replace (in_box (shift b c) x y) with (in_box b (x0 c + x) (y0 c + y)); [reflexivity|].
  unfold in_box, shift. cbn [x0 x1 y0 y1]. apply eq_true_iff_eq. zlia.
Qed.

(** *** A standard card of any size *)

(** The stages of [resize_card] on a framed picture, whatever the size of
    its artwork: the crop is the content with the borders kept, clamped to
    the picture; no warning is printed. *)
Lemma standard_card_stages w h b tw th :
  framed_card s w h b -> borders_nonneg p -> 1 <= tw -> 1 <= th ->
  exists c cropped r,
    proportional_crop p w h tw th b = (Ok (CropTo c), []) /\
    crop (framed w h b) c = Ok cropped /\
    resize_to_target cropped tw th = Ok r /\ size r = (tw, th) /\
    resize_card s p (Ok (framed w h b)) tw th = (Some (apply_enhancements s r), []).
Proof.
  intros F (BL & BT & BR & BB) Htw Hth. pose proof F as [Ht Hh [He Hw] Hl Hr Hx Hy].
  destruct (proportional_crop_box p w h tw th b) as
    (kl & kt & kr & kb & _ & (Pl & Pt & Pr & Pb) & E); try lia.
  set (c := Box (Z.max _ _) _ _ _) in E.
  destruct (crop_ok (framed w h b) c) as (cropped & Ecr & _); try (cbn [c x0 x1 y0 y1]; lia).
  destruct (resize_to_target_ok cropped tw th Htw Hth) as (r & Er & Sr).
  exists c, cropped, r. do 4 (split; [assumption|]).
  unfold resize_card. rewrite lbind_lift_Ok.
  now rewrite (render_standard_stages s p (framed w h b) tw th b c cropped r)
    by (assumption || (cbn [width height framed]; lia)
        || auto using card_type_of_framed, framed_card_bbox).
Qed.

(** *** Extended art *)

Lemma card_type_of_capped w h b :
  capped_card s p w h b -> card_type_of s (framed w h b) = Ok extended_art.
Proof.
  intros [Ht Fr Hh [He Hw] [X0 X1] [Hy Hy1] Top Mid _]. unfold card_type_of. rewrite Fr.
  destruct (determine_card_type_run (framed w h b) (BLACK_BORDER_THRESHOLD s)
              (EDGE_ZONE_CHECK_WIDTH_PX s)) as (t & -> & F); [cbn [width framed]; lia|].
  f_equal. apply (frame_style_functional _ _ _ _ _ F).
  pose proof (middle_zone_shape w h (EDGE_ZONE_CHECK_WIDTH_PX s)) as (_ & _ & M).
  apply style_extended_art; cbn [width height framed]; [lia | |].
  - repeat split; try assumption. intros x y Hx Hz. unfold px_pad.
    destruct (in_bounds _ x y); [|unfold is_content; cbn; lia].
    rewrite framed_content by assumption. apply not_true_iff_false.
    rewrite in_box_true. unfold inside. lia.
  - intros (_ & _ & D).
    specialize (D 0 (y0 (middle_zone w h (EDGE_ZONE_CHECK_WIDTH_PX s)))
                  ltac:(lia) ltac:(lia)).
    unfold px_pad in D.
    rewrite (proj2 (in_bounds_true (framed w h b) _ _)) in D
      by (cbn [width height framed]; lia).
    rewrite framed_content in D by assumption.
    apply not_true_iff_false in D. apply D, in_box_true. unfold inside. lia.
Qed.

(** The stages of [resize_card] on a picture with artwork from side to
    side: the borders kept around the content of the row scanned, the crop,
    which is clamped to the picture, its cut and its resize. *)
Lemma capped_card_stages w h b tw th :
  capped_card s p w h b -> borders_nonneg p -> 1 <= tw -> 1 <= th ->
  exists kl kt kr kb cropped r,
    let c := Box (Z.max 0 (0 - kl)) (Z.max 0 (y0 b - kt))
                 (Z.min w (w - 1 + kr)) (Z.min h (y1 b + kb)) in
    (0 <= kl /\ 0 <= kt /\ 0 <= kr /\ 0 <= kb) /\
    (BORDER_RIGHT_PX p = 0 -> kr = 0) /\
    proportional_crop p w h tw th (Box 0 (y0 b) (w - 1) (y1 b)) = (Ok (CropTo c), []) /\
    crop (framed w h b) c = Ok cropped /\
    resize_to_target cropped tw th = Ok r /\ size r = (tw, th) /\
    resize_card s p (Ok (framed w h b)) tw th = (Some (apply_enhancements s r), []).
Proof.
  intros C (BL & BT & BR & BB) Htw Hth.
  pose proof C as [Ht Fr Hh [He Hw] [X0 X1] [Hy Hy1] Top Mid Sc].
  destruct (proportional_crop_box p w h tw th (Box 0 (y0 b) (w - 1) (y1 b))) as
    (kl & kt & kr & kb & (_ & _ & Er & _) & (Pl & Pt & Pr & Pb) & E);
    cbn [x0 x1 y0 y1] in *; try lia.
  exists kl, kt, kr, kb. set (c := Box (Z.max _ _) _ _ _) in *.
  destruct (crop_ok (framed w h b) c) as (cropped & Ecr & _); try (cbn [c x0 x1 y0 y1]; lia).
  destruct (resize_to_target_ok cropped tw th Htw Hth) as (r & Er' & Sr).
  exists cropped, r. split; [tauto|]. split.
  { intros Z. rewrite Z, keep_orig_border_no_border in Er. now apply Ok_inj in Er. }
  do 4 (split; [assumption|]). unfold resize_card. rewrite lbind_lift_Ok.
  rewrite (render_extended_art_stages s p (framed w h b) tw th b 0 (w - 1) c cropped r);
    try reflexivity; try assumption; try (cbn [width height framed]; lia).
  - now apply card_type_of_capped.
  - apply framed_is_bbox; lia.
  - rewrite <- X0, <- X1. apply framed_row_extent; lia.
Qed.

(** Claim C23: extended art through the whole of [resize_card]: the right
    side of the content is the last column of artwork itself, so the content
    is taken one column narrower than it is.  No warning is printed and the
    card is the resized crop of a box that starts at the left side of the
    picture and ends at its right side or one column before it; with no
    right border configured it ends one column before: the last column of
    the artwork is not on the card. *)
Theorem extended_art_card_crop w h b tw th :
  capped_card s p w h b -> borders_nonneg p -> 1 <= tw -> 1 <= th ->
  exists c cropped r,
    resize_card s p (Ok (framed w h b)) tw th = (Some (apply_enhancements s r), []) /\
    proportional_crop p w h tw th (Box 0 (y0 b) (w - 1) (y1 b)) = (Ok (CropTo c), []) /\
    crop (framed w h b) c = Ok cropped /\ resize_to_target cropped tw th = Ok r /\
    (x0 c = 0 /\ w - 1 <= x1 c <= w /\ 0 <= y0 c <= y0 b /\ y1 b <= y1 c <= h) /\
    (BORDER_RIGHT_PX p = 0 -> x1 c = w - 1).
Proof.
  intros C B Htw Hth.
  destruct (capped_card_stages w h b tw th C B Htw Hth) as
    (kl & kt & kr & kb & cropped & r & (Pl & Pt & Pr & Pb) & Z & E & Ecr & Er & _ & R).
  destruct C as [_ _ _ [He Hw] _ [Hy Hy1] _ _ _].
  eexists _, cropped, r. do 4 (split; [eassumption|]). cbn [x0 x1 y0 y1].
  split; [lia|]. intros ->%Z. lia.
Qed.

(** *** Borderless cards *)

Lemma card_type_of_bare w h b :
  bare_card s w h b -> card_type_of s (framed w h b) = Ok borderless.
Proof.
  intros [Ht Fr [X0 Y0] [Hx Hy]]. unfold card_type_of. rewrite Fr.
  destruct (determine_card_type_run (framed w h b) (BLACK_BORDER_THRESHOLD s)
              (EDGE_ZONE_CHECK_WIDTH_PX s)) as (t & -> & F); [cbn [width framed]; lia|].
  f_equal. apply (frame_style_functional _ _ _ _ _ F).
  destruct (Z_lt_ge_dec (height (framed w h b)) 20) as [S|T]; [now constructor|].
  apply style_borderless; [lia|]. intros (He & _ & D).
  pose proof (top_zone_shape (width (framed w h b)) (height (framed w h b))
                (EDGE_ZONE_CHECK_WIDTH_PX s)) as (_ & _ & T0 & T1).
  specialize (D 0 0 ltac:(lia) ltac:(lia)). unfold px_pad in D.
  rewrite (proj2 (in_bounds_true (framed w h b) _ _)) in D
    by (cbn [width height framed]; lia).
  rewrite framed_content in D by assumption.
  apply not_true_iff_false in D. apply D, in_box_true. unfold inside. lia.
Qed.

(** The stages of [resize_card] on a picture without a frame: the trim,
    with what it prints, and the resize. *)
Lemma bare_card_stages w h b tw th :
  bare_card s w h b -> 1 <= tw -> 1 <= th ->
  exists c log r,
    full_art_crop s (framed w h b) = (Ok c, log) /\
    resize_to_target c tw th = Ok r /\ size r = (tw, th) /\
    resize_card s p (Ok (framed w h b)) tw th = (Some (apply_enhancements s r), log).
Proof.
  intros B Htw Hth. pose proof B as [Ht Fr [X0 Y0] [Hx Hy]].
  destruct (render_borderless s p (framed w h b) tw th b) as (c & log & r & Ec & _ & Er & E);
    try assumption; [split; cbn [width height framed]; lia | now apply card_type_of_bare
                    | apply framed_is_bbox; lia |].
  exists c, log, r. split; [exact Ec|]. split; [exact Er|].
  split; [now apply resize_to_target_size in Er|].
  unfold resize_card. now rewrite lbind_lift_Ok, E.
Qed.

(** Claim C24: a picture without a frame through the whole of [resize_card],
    with a trim smaller than its height: the classifier answers borderless,
    no warning is printed, and the card is the enhanced resize of the
    picture without its last rows: the trim is of the full width and of the
    height of the picture less the configured trim, and holds the pixels of
    the picture. *)
Theorem borderless_card_trim w h b tw th :
  bare_card s w h b -> 1 <= tw -> 1 <= th ->
  0 < FULL_ART_BOTTOM_CROP_PX s < h ->
  exists c r,
    resize_card s p (Ok (framed w h b)) tw th = (Some (apply_enhancements s r), []) /\
    full_art_crop s (framed w h b) = (Ok c, []) /\
    size c = (w, h - FULL_ART_BOTTOM_CROP_PX s) /\
    (forall x y, 0 <= x < width c -> 0 <= y < height c ->
                 px c x y = px (framed w h b) x y) /\
    resize_to_target c tw th = Ok r.
Proof.
  intros B Htw Hth HT.
  destruct (bare_card_stages w h b tw th B Htw Hth) as (c & log & r & Ec & Er & _ & E).
  destruct B as [_ _ _ [Hx Hy]].
  destruct (full_art_crop_cut s (framed w h b)) as (c' & Ec' & Sc & Pc);
    [cbn [width framed]; lia | cbn [height framed]; lia |].
  rewrite Ec in Ec'. injection Ec' as -> ->. now exists c', r.
Qed.

(** *** The three styles *)

(** A synthetic card of any of the three styles gives a card of the target
    size, and no warning is printed. *)
Lemma synthetic_card_quiet w h b tw th :
  synthetic_card s p w h b -> borders_nonneg p -> 1 <= tw -> 1 <= th ->
  exists card,
    resize_card s p (Ok (framed w h b)) tw th = (Some card, []) /\ size card = (tw, th).
Proof.
  intros [F|[C|[B HT]]] N Htw Hth.
  - destruct (standard_card_stages w h b tw th F N Htw Hth) as
      (c & cropped & r & _ & _ & _ & Sr & E).
    exists (apply_enhancements s r). now rewrite apply_enhancements_size.
  - destruct (capped_card_stages w h b tw th C N Htw Hth) as
      (kl & kt & kr & kb & cropped & r & _ & _ & _ & _ & _ & Sr & E).
    exists (apply_enhancements s r). now rewrite apply_enhancements_size.
  - destruct (bare_card_stages w h b tw th B Htw Hth) as (c & log & r & Ec & Er & Sr & E).
    destruct B as [_ _ _ [Hx Hy]].
    destruct (full_art_crop_cut s (framed w h b)) as (c' & Ec' & _);
      [cbn [width framed]; lia | cbn [height framed]; lia |].
    rewrite Ec in Ec'. injection Ec' as -> ->.
    exists (apply_enhancements s r). now rewrite apply_enhancements_size.
Qed.

(** *** Standard cards *)

(** The crop of a synthetic card: the borders kept fit in the frame. *)
Lemma framed_crop_box w h b tw th :
  framed_card s w h b -> borders_in_range p ->
  art_fills_card p tw th b -> frame_holds_borders p w h tw th b ->
  let faw := tw - BORDER_LEFT_PX p - BORDER_RIGHT_PX p in
  let fah := th - BORDER_TOP_PX p - BORDER_BOTTOM_PX p in
  let scale_w := NFloat (rn (inject_Z faw / inject_Z (x1 b - x0 b))) in
  let scale_h := NFloat (rn (inject_Z fah / inject_Z (y1 b - y0 b))) in
  exists kl kt kr kb,
    (keep_orig_border (BORDER_LEFT_PX p) scale_w = Ok kl /\
     keep_orig_border (BORDER_TOP_PX p) scale_h = Ok kt /\
     keep_orig_border (BORDER_RIGHT_PX p) scale_w = Ok kr /\
     keep_orig_border (BORDER_BOTTOM_PX p) scale_h = Ok kb) /\
    (0 <= kl < x0 b /\ 0 <= kt < y0 b /\ 0 <= kr < w - x1 b /\ 0 <= kb < h - y1 b) /\
    proportional_crop p w h tw th b
    = (Ok (CropTo (Box (x0 b - kl) (y0 b - kt) (x1 b + kr) (y1 b + kb))), []).
Proof.
  intros [Ht Hh [He Hw] Hl Hr Hx Hy] (BL & BT & BR & BB) (Fw & Fh & Cw & Ch)
         (Gl & Gr & Gt & Gb) faw fah scale_w scale_h.
  destruct (proportional_crop_box p w h tw th b) as
    (kl & kt & kr & kb & (El & Et & Er & Eb) & (Pl & Pt & Pr & Pb) & E); try lia.
  cbv zeta in El, Et, Er, Eb. rewrite Z.max_r in El, Et, Er, Eb by lia.
  pose proof (kept_border_fits _ _ (x1 b - x0 b) _ _ BL Fw ltac:(lia) El Gl).
  pose proof (kept_border_fits _ _ (y1 b - y0 b) _ _ BT Fh ltac:(lia) Et Gt).
  pose proof (kept_border_fits _ _ (x1 b - x0 b) _ _ BR Fw ltac:(lia) Er Gr).
  pose proof (kept_border_fits _ _ (y1 b - y0 b) _ _ BB Fh ltac:(lia) Eb Gb).
  exists kl, kt, kr, kb. split; [now repeat split|].
  split; [lia|]. rewrite E. now rewrite !Z.max_r, !Z.min_r by lia.
Qed.

(** The stages of [resize_card] on a synthetic card: the borders kept,
    the picture cut out, which is a framed picture again, its resize, the
    card, and the four printed borders. *)
Lemma framed_card_stages w h b tw th :
  framed_card s w h b -> borders_in_range p ->
  art_fills_card p tw th b -> frame_holds_borders p w h tw th b ->
  exists kl kt kr kb cropped r,
    let c := Box (x0 b - kl) (y0 b - kt) (x1 b + kr) (y1 b + kb) in
    (0 <= kl < x0 b /\ 0 <= kt < y0 b /\ 0 <= kr < w - x1 b /\ 0 <= kb < h - y1 b) /\
    crop (framed w h b) c = Ok cropped /\
    raster_eq cropped (framed (x1 c - x0 c) (y1 c - y0 c) (shift b c)) /\
    resize_to_target cropped tw th = Ok r /\
    resize_card s p (Ok (framed w h b)) tw th = (Some (apply_enhancements s r), []) /\
    printed_within_one p tw th b c.
Proof.
  intros F B A G.
  destruct (framed_crop_box w h b tw th F B A G) as
    (kl & kt & kr & kb & (El & Et & Er & Eb) & (Kl & Kt & Kr & Kb) & Ec).
  pose proof F as [Ht Hh [He Hw] Hl Hr Hx Hy].
  destruct B as (BL & BT & BR & BB), A as (Fw & Fh & Cw & Ch).
  exists kl, kt, kr, kb. set (c := Box _ _ _ _) in *.
  destruct (crop_framed w h b c) as (cropped & Ecr & Eq); try (cbn [c x0 x1 y0 y1]; lia).
  destruct (resize_to_target_ok cropped tw th) as (r & Er' & _); try lia.
  exists cropped, r. do 4 (split; [assumption || lia|]). split.
  - unfold resize_card. rewrite lbind_lift_Ok.
    now rewrite (render_standard_stages s p (framed w h b) tw th b c cropped r)
      by (assumption || (cbn [width height framed]; lia)
          || auto using card_type_of_framed, framed_card_bbox).
  - unfold printed_within_one. cbn [c x0 x1 y0 y1].
    destruct (unclamped_axis_within_one _ _ tw (x0 b) (x1 b) w kl kr BL BR) as [Al Ar];
      try assumption; try lia.
    destruct (unclamped_axis_within_one _ _ th (y0 b) (y1 b) h kt kb BT BB) as [At Ab];
      try assumption; try lia.
    replace (x0 b - (x0 b - kl)) with kl by lia.
    replace (x1 b + kr - x1 b) with kr by lia.
    replace (x1 b + kr - (x0 b - kl)) with (x1 b - x0 b + kl + kr) by lia.
    replace (y0 b - (y0 b - kt)) with kt by lia.
    replace (y1 b + kb - y1 b) with kb by lia.
    replace (y1 b + kb - (y0 b - kt)) with (y1 b - y0 b + kt + kb) by lia.
    now repeat split.
Qed.

(** Claim C7: a synthetic card through the whole of [resize_card].  For a
    picture with white artwork in a black frame that is at least as wide
    as the band of the classifier and as the borders to keep, and whose
    artwork is at least as large as the card, the program prints no warning
    and returns the resized crop of a box that lies strictly inside the
    picture, and each of the four borders of the card is printed within
    one pixel of the configured width. *)
Theorem framed_card_borders w h b tw th :
  framed_card s w h b -> borders_in_range p ->
  art_fills_card p tw th b -> frame_holds_borders p w h tw th b ->
  exists c cropped r,
    resize_card s p (Ok (framed w h b)) tw th = (Some (apply_enhancements s r), []) /\
    crop (framed w h b) c = Ok cropped /\ resize_to_target cropped tw th = Ok r /\
    (0 < x0 c <= x0 b /\ x1 b <= x1 c < w /\ 0 < y0 c <= y0 b /\ y1 b <= y1 c < h) /\
    printed_within_one p tw th b c.
Proof.
  intros F B A G.
  destruct (framed_card_stages w h b tw th F B A G) as
    (kl & kt & kr & kb & cropped & r & K & Ecr & _ & Er & Ec & P).
  exists (Box (x0 b - kl) (y0 b - kt) (x1 b + kr) (y1 b + kb)), cropped, r.
  do 3 (split; [assumption|]). split; [cbn [x0 x1 y0 y1]; lia | exact P].
Qed.

End CardFacts.

(** ** The card under nearest-neighbour resampling *)

Lemma cdiv_le m d x : 0 < d -> cdiv m d <= x <-> m <= x * d.
Proof. intros Hd. unfold cdiv. Z.div_mod_to_equations. nia. Qed.

Lemma cdiv_bounds m d lo hi :
  0 < d -> lo * d < m -> m <= hi * d -> lo < cdiv m d <= hi.
Proof.
  intros Hd L U. pose proof (cdiv_le m d lo Hd). pose proof (cdiv_le m d hi Hd). lia.
Qed.

(** The column of the picture a column of the card is sampled from. *)
Lemma sample_index x W tw : 0 < W -> 0 <= x < tw -> 0 <= x * W / tw < W.
Proof. intros HW Hx. Z.div_mod_to_equations. nia. Qed.

Lemma sample_ge a x W tw :
  0 < W -> 0 < tw -> a <= x * W / tw <-> cdiv (a * tw) W <= x.
Proof.
  intros HW Ht. rewrite cdiv_le by assumption. Z.div_mod_to_equations. nia.
Qed.

(** A framed picture resampled is a framed picture. *)
Lemma nearest_framed W Hh b tw th :
  0 < W -> 0 < Hh -> 0 < tw -> 0 < th ->
  raster_eq (nearest (framed W Hh b) tw th) (framed tw th (scaled b W Hh tw th)).
Proof.
  intros PW PH Pt Ph. split; [reflexivity | split; [reflexivity|]].
  cbn [width height nearest]. intros x y Hx Hy. cbn [px nearest framed width height].
  pose proof (sample_index x W tw PW Hx). pose proof (sample_index y Hh th PH Hy).
  rewrite (proj2 (in_bounds_true (framed W Hh b) _ _)) by (cbn [width height framed]; lia).
  cbn [px framed].
  replace (in_box (scaled b W Hh tw th) x y)
    with (in_box b (x * W / tw) (y * Hh / th)); [reflexivity|].
  unfold in_box, scaled. cbn [x0 x1 y0 y1].
  pose proof (sample_ge (x0 b) x W tw PW Pt). pose proof (sample_ge (x1 b) x W tw PW Pt).
  pose proof (sample_ge (y0 b) y Hh th PH Ph). pose proof (sample_ge (y1 b) y Hh th PH Ph).
  apply eq_true_iff_eq. zlia.
Qed.

(** The resize of the library on this resampling. *)
Lemma resize_to_target_nearest img tw th :
  1 <= tw -> 1 <= th ->
  exists r, resize_to_target img tw th = Ok r /\ raster_eq r (nearest img tw th).
Proof.
  intros Ht Hh. unfold resize_to_target, size_differs, resize. cbn [fst snd].
  destruct (_ && _) eqn:E; cbn [negb].
  - exists img. split; [reflexivity|]. apply andb_true_iff in E as [Ew Eh].
    apply Z.eqb_eq in Ew, Eh. split; [exact Ew | split; [exact Eh|]].
    intros x y Hx Hy. cbn [px nearest]. rewrite Ew, Eh, !Z.div_mul by lia.
    now rewrite (proj2 (in_bounds_true img x y)).
  - replace ((tw <? 1) || (th <? 1)) with false by zlia. now eexists.
Qed.

Lemma apply_enhancements_nearest s img : apply_enhancements s img = img.
Proof. unfold apply_enhancements. now destruct (py_ne _ _), (py_ne _ _). Qed.

(** One axis of the card: the artwork of a crop [W] long starts at [a]
    and ends at [e]; on the card it starts and ends at these positions
    scaled and rounded up, which leaves borders within one pixel of the
    configured ones. *)
Lemma measured_axis B0 B1 t a e W :
  0 < W -> 0 <= a -> e <= W -> 0 <= B0 -> 0 <= B1 -> 0 <= t -> 2 <= t - B0 - B1 ->
  (Qabs (printed a W t - inject_Z B0) < 1)%Q ->
  (Qabs (printed (W - e) W t - inject_Z B1) < 1)%Q ->
  0 <= cdiv (a * t) W < cdiv (e * t) W /\ cdiv (e * t) W <= t /\
  Z.abs (cdiv (a * t) W - B0) <= 1 /\ Z.abs (t - cdiv (e * t) W - B1) <= 1.
Proof.
  intros PW Pa Pe P0 P1 Pt Hf Q0 Q1.
  rewrite printed_quotient in Q0, Q1 by assumption.
  apply quotient_within_one in Q0, Q1; try assumption.
  pose proof (cdiv_bounds (a * t) W (B0 - 1) (B0 + 1) PW ltac:(lia) ltac:(lia)).
  pose proof (cdiv_bounds (e * t) W (t - B1 - 1) (t - B1 + 1) PW ltac:(lia) ltac:(lia)).
  pose proof (proj2 (cdiv_le (e * t) W t PW) ltac:(nia)).
  lia.
Qed.

Section Nearest.
Context (s : settings) (p : pixels).

(** Claim C8: the frame of a synthetic card, round trip.  With the
    nearest-neighbour resampling, the card made from a framed picture is
    itself a framed picture: the detector, run on the card, finds the
    artwork in a box whose distance to each side of the card is the
    configured border or one pixel off. *)
Theorem card_frame_round_trip w h b tw th :
  framed_card s w h b -> borders_in_range p ->
  art_fills_card p tw th b -> frame_holds_borders p w h tw th b ->
  2 <= tw - BORDER_LEFT_PX p - BORDER_RIGHT_PX p ->
  2 <= th - BORDER_TOP_PX p - BORDER_BOTTOM_PX p ->
  exists card a,
    resize_card s p (Ok (framed w h b)) tw th = (Some card, []) /\
    get_content_bounding_box card (BLACK_BORDER_THRESHOLD s) = Ok (Some a) /\
    borders_within_one p tw th a.
Proof.
  intros F B A G Fw Fh.
  destruct (framed_card_stages s p w h b tw th F B A G) as
    (kl & kt & kr & kb & cropped & r & K & Ecr & Eq & Er & Ec & Pl & Pr & Pt & Pb).
  cbv zeta in *. set (c := Box _ _ _ _) in *.
  destruct B as (BL & BT & BR & BB), F as [Ht _ _ _ _ Hx Hy].
  destruct (resize_to_target_nearest cropped tw th) as (r' & Er' & Eqr); try lia.
  rewrite Er in Er'. injection Er' as <-. rewrite apply_enhancements_nearest in Ec.
  destruct (measured_axis (BORDER_LEFT_PX p) (BORDER_RIGHT_PX p) tw
              (x0 (shift b c)) (x1 (shift b c)) (x1 c - x0 c)) as (X0 & X1 & XL & XR);
    try (cbn [shift c x0 x1 y0 y1]; lia); try assumption.
  { now replace (x1 c - x0 c - x1 (shift b c)) with (x1 c - x1 b)
      by (cbn [shift c x0 x1 y0 y1]; lia). }
  destruct (measured_axis (BORDER_TOP_PX p) (BORDER_BOTTOM_PX p) th
              (y0 (shift b c)) (y1 (shift b c)) (y1 c - y0 c)) as (Y0 & Y1 & YT & YB);
    try (cbn [shift c x0 x1 y0 y1]; lia); try assumption.
  { now replace (y1 c - y0 c - y1 (shift b c)) with (y1 c - y1 b)
      by (cbn [shift c x0 x1 y0 y1]; lia). }
  exists r, (scaled (shift b c) (x1 c - x0 c) (y1 c - y0 c) tw th).
  split; [exact Ec | split; [|now repeat split]].
  rewrite (get_content_bounding_box_ext r (framed tw th
             (scaled (shift b c) (x1 c - x0 c) (y1 c - y0 c) tw th))).
  - apply get_content_bounding_box_framed; cbn [scaled x0 x1 y0 y1]; lia.
  - etransitivity; [exact Eqr|]. etransitivity; [apply nearest_ext, Eq|].
    apply nearest_framed; cbn [c x0 x1 y0 y1]; lia.
Qed.

End Nearest.

(** ** Witnesses *)

(** The three cards satisfy the conditions of the theorems. *)
Lemma sample_cards_ok :
  Forall (fun '(w, h, b) =>
            framed_card default_settings w h b /\
            art_fills_card default_pixels 3000 4200 b /\
            frame_holds_borders default_pixels w h 3000 4200 b) sample_cards.
Proof.
  repeat constructor; vm_compute; (reflexivity || discriminate).
Qed.

Lemma default_borders_nonneg : borders_nonneg default_pixels.
Proof. repeat split; discriminate. Qed.

Lemma default_borders_in_range : borders_in_range default_pixels.
Proof. repeat split; vm_compute; (reflexivity || discriminate). Qed.

Lemma sample_capped_card :
  capped_card default_settings full_bleed 4000 5600 (Box 0 300 4000 5300).
Proof. constructor; vm_compute; repeat split; (reflexivity || discriminate). Qed.

(** Of a picture 4000 columns wide with artwork from side to side, printed
    with no border, the card shows the columns 0 to 3998. *)
Lemma extended_art_card_crop_witness :
  exists c cropped r,
    resize_card default_settings full_bleed
      (Ok (framed 4000 5600 (Box 0 300 4000 5300))) 3000 4200
    = (Some (apply_enhancements default_settings r), []) /\
    crop (framed 4000 5600 (Box 0 300 4000 5300)) c = Ok cropped /\
    resize_to_target cropped 3000 4200 = Ok r /\
    x0 c = 0 /\ x1 c = 3999.
Proof.
  assert (Z : 0 <= 0) by discriminate.
  destruct (extended_art_card_crop default_settings full_bleed 4000 5600
              (Box 0 300 4000 5300) 3000 4200 sample_capped_card
              (conj Z (conj Z (conj Z Z))) ltac:(discriminate) ltac:(discriminate))
    as (c & cropped & r & A & _ & B & C & (D & _) & E).
  exists c, cropped, r. exact (conj A (conj B (conj C (conj D (E eq_refl))))).
Defined.

Lemma borderless_card_trim_witness :
  exists c r,
    resize_card default_settings default_pixels
      (Ok (framed 4000 5600 (Box 0 0 4000 5600))) 3000 4200
    = (Some (apply_enhancements default_settings r), []) /\
    full_art_crop default_settings (framed 4000 5600 (Box 0 0 4000 5600)) = (Ok c, []) /\
    size c = (4000, 5600 - FULL_ART_BOTTOM_CROP_PX default_settings) /\
    (forall x y, 0 <= x < width c -> 0 <= y < height c ->
                 px c x y = px (framed 4000 5600 (Box 0 0 4000 5600)) x y) /\
    resize_to_target c 3000 4200 = Ok r.
Proof.
  apply (borderless_card_trim default_settings default_pixels 4000 5600
           (Box 0 0 4000 5600) 3000 4200).
  - constructor; vm_compute; repeat split; (reflexivity || discriminate).
  - discriminate.
  - discriminate.
  - split; reflexivity.
Defined.

Lemma framed_card_borders_witness :
  exists c cropped r,
    resize_card default_settings default_pixels
      (Ok (framed 4000 5600 (Box 200 300 3800 5300))) 3000 4200
    = (Some (apply_enhancements default_settings r), []) /\
    crop (framed 4000 5600 (Box 200 300 3800 5300)) c = Ok cropped /\
    resize_to_target cropped 3000 4200 = Ok r /\
    (0 < x0 c <= x0 (Box 200 300 3800 5300) /\ x1 (Box 200 300 3800 5300) <= x1 c < 4000 /\
     0 < y0 c <= y0 (Box 200 300 3800 5300) /\ y1 (Box 200 300 3800 5300) <= y1 c < 5600) /\
    printed_within_one default_pixels 3000 4200 (Box 200 300 3800 5300) c.
Proof.
  pose proof sample_cards_ok as [(F & A & G) _]%Forall_cons_iff.
  exact (framed_card_borders default_settings default_pixels 4000 5600
           (Box 200 300 3800 5300) 3000 4200 F default_borders_in_range A G).
Defined.

(** The borders of the three cards, measured on the card by the detector,
    are the configured ones or one pixel off. *)
Lemma card_frame_round_trip_witness :
  Forall (fun '(w, h, b) =>
            exists card a,
              resize_card default_settings default_pixels (Ok (framed w h b)) 3000 4200
              = (Some card, []) /\
              get_content_bounding_box card (BLACK_BORDER_THRESHOLD default_settings)
              = Ok (Some a) /\
              borders_within_one default_pixels 3000 4200 a) sample_cards.
Proof.
  eapply Forall_impl; [|exact sample_cards_ok]. intros [[w h] b] (F & A & G).
  apply (card_frame_round_trip default_settings default_pixels w h b 3000 4200
           F default_borders_in_range A G);
    vm_compute; discriminate.
Defined.
