(* ===== verification/Names.v ===== *)
(** * Names: the names of the sheets

    Models [sanitize_filename_component] of [src/proxify.py] (lines
    424-431) and the name [__main__] gives a sheet (line 485).  A Python
    string is the list of its code points.  [basename] and [splitext_root]
    are [os.path.basename] and the first component of [os.path.splitext] on
    a POSIX system, [sub_runs] is [re.sub] for a pattern [[...]+] that
    matches the runs of a class of characters, [strip] is [str.strip] with
    one character; they follow the documentation of the library.

    The theorems show that a sanitised name is never empty and holds only
    valid characters, that sanitising is idempotent, and that the names of
    two sheets with different numbers differ, so that no sheet of a run
    overwrites another. *)

From Stdlib Require Import ZArith List Bool Lia Ascii String.
From Stdlib Require Import DecimalString DecimalPos DecimalZ.
Import ListNotations.
From S2P Require Import Prelude.
Local Open Scope Z_scope.

(** ** Strings *)

Definition pystr : Type := list Z.

(** The string of an ASCII literal. *)
Definition of_string (s : string) : pystr :=
  map (fun c => Z.of_N (N_of_ascii c)) (list_ascii_of_string s).

(** [str(n)] *)
Definition str_int (n : Z) : pystr := of_string (NilZero.string_of_int (Z.to_int n)).

(** [p.rfind(c)]: the index of the last [c], or -1. *)
Fixpoint rfind_from (c : Z) (p : pystr) (i last : Z) : Z :=
  match p with
  | [] => last
  | x :: r => rfind_from c r (i + 1) (if x =? c then i else last)
  end.

Definition rfind (p : pystr) (c : Z) : Z := rfind_from c p 0 (-1).

Definition slash : Z := 47.
Definition dot : Z := 46.
Definition underscore : Z := 95.

(** [os.path.basename(p)] *)
Definition basename (p : pystr) : pystr :=
  let i := rfind p slash + 1 in
  skipn (Z.to_nat i) p.

(** [os.path.splitext(p)[0]]: the extension starts at the last dot, unless
    only dots come before it in the last component. *)
Definition splitext_root (p : pystr) : pystr :=
  let sepIndex := rfind p slash in
  let dotIndex := rfind p dot in
  if sepIndex <? dotIndex
  then
    match find (fun filenameIndex =>
                  negb (nth (Z.to_nat filenameIndex) p 0 =? dot))
               (range (sepIndex + 1) dotIndex) with
    | Some _ => firstn (Z.to_nat dotIndex) p
    | None => p
    end
  else p.

(** [\s] on a string of code points. *)
Definition is_space (c : Z) : bool :=
  ((9 <=? c) && (c <=? 13)) || ((28 <=? c) && (c <=? 32)) ||
  (c =? 133) || (c =? 160) || (c =? 5760) || ((8192 <=? c) && (c <=? 8202)) ||
  (c =? 8232) || (c =? 8233) || (c =? 8239) || (c =? 8287) || (c =? 12288).

(** [re.sub(r'[...]+', '_', s)]: every maximal run of characters of the
    class becomes one underscore; [in_match] says that the previous
    character was in a run. *)
Fixpoint sub_runs (class : Z -> bool) (in_match : bool) (s : pystr) : pystr :=
  match s with
  | [] => []
  | c :: r =>
      if class c
      then if in_match then sub_runs class true r
           else underscore :: sub_runs class true r
      else c :: sub_runs class false r
  end.

Fixpoint lstrip (c : Z) (s : pystr) : pystr :=
  match s with
  | [] => []
  | x :: r => if x =? c then lstrip c r else s
  end.

(** [s.strip(c)] for a single character. *)
Definition strip (c : Z) (s : pystr) : pystr :=
  rev (lstrip c (rev (lstrip c s))).

(** ** The program *)

(** The class of characters of the pattern of line 427: less than, greater
    than, colon, double quote, slash, backslash, bar, question mark, star,
    white space and dot. *)
Definition invalid_chars (c : Z) : bool :=
  (c =? 60) || (c =? 62) || (c =? 58) || (c =? 34) || (c =? slash) || (c =? 92) ||
  (c =? 124) || (c =? 63) || (c =? 42) || is_space c || (c =? dot).

(** The class of the pattern of line 429. *)
Definition is_underscore (c : Z) : bool := c =? underscore.

Definition sanitize_filename_component (name_component : pystr) : pystr :=
  let name_component := basename name_component in
  let name_component := splitext_root name_component in
  let sanitized := sub_runs invalid_chars false name_component in
  let sanitized := sub_runs is_underscore false sanitized in
  let sanitized := strip underscore sanitized in
  match sanitized with
  | [] => of_string "file"
  | _ => sanitized
  end.

(** The name of the sheet of a chunk (line 485). *)
Definition output_sheet_name (first_file_sanitized last_file_sanitized : pystr)
    (num_sheets_created : Z) : pystr :=
  first_file_sanitized ++ of_string "_to_" ++ last_file_sanitized
  ++ of_string "_sheet_" ++ str_int (num_sheets_created + 1) ++ of_string ".png".

(** ** Specification *)

(** A clean name: no character of the class, no underscore at either end,
    no two underscores in a row, and at least one character. *)
Definition no_double (c : Z) (s : pystr) : Prop :=
  forall l1 l2, s <> l1 ++ c :: c :: l2.

Record clean_name (s : pystr) : Prop := {
  clean_nonempty : s <> [];
  clean_valid : Forall (fun c => invalid_chars c = false) s;
  clean_head : hd 0 s <> underscore;
  clean_last : last s 0 <> underscore;
  clean_no_double : no_double underscore s
}.

(** A decimal digit. *)
Definition is_digit (c : Z) : Prop := 48 <= c <= 57.

(** ** Checks on concrete names *)

Example sanitize_examples :
  sanitize_filename_component (of_string "cards/Black Lotus (alpha).png")
  = of_string "Black_Lotus_(alpha)" /\
  sanitize_filename_component (of_string "/tmp/a..b.c.jpg") = of_string "a_b_c" /\
  sanitize_filename_component (of_string "dir/.hidden") = of_string "hidden" /\
  sanitize_filename_component (of_string "__x__y__.gif") = of_string "x_y" /\
  sanitize_filename_component (of_string "???.png") = of_string "file" /\
  sanitize_filename_component (of_string "dir/") = of_string "file".
Proof. repeat split; vm_compute; reflexivity. Qed.

Example output_sheet_name_example :
  output_sheet_name (of_string "a") (of_string "b") 0 = of_string "a_to_b_sheet_1.png".
Proof. vm_compute. reflexivity. Qed.

(** ** Lists *)

Lemma last_rev_hd {A} (s : list A) d : last s d = hd d (rev s).
Proof.
  induction s as [|a s IH] using rev_ind; [reflexivity|].
  now rewrite last_last, rev_app_distr.
Qed.

Lemma no_double_rev c s : no_double c s -> no_double c (rev s).
Proof.
  intros H l1 l2 E. apply (H (rev l2) (rev l1)).
  rewrite <- (rev_involutive s), E, rev_app_distr. cbn [rev].
  now rewrite <- !app_assoc.
Qed.

Lemma no_double_suffix c pre s : no_double c (pre ++ s) -> no_double c s.
Proof. intros H l1 l2 ->. apply (H (pre ++ l1) l2). now rewrite app_assoc. Qed.

Lemma no_double_tail c x s : no_double c (x :: s) -> no_double c s.
Proof. apply (no_double_suffix c [x]). Qed.

Lemma no_double_cons c x s :
  no_double c s -> (x = c -> hd 0 s <> c) -> no_double c (x :: s).
Proof.
  intros H Hx [|a l1] l2 E; injection E as -> E.
  - subst s. now apply Hx.
  - now apply (H l1 l2).
Qed.

(** ** The stages of the sanitiser *)

Lemma rfind_absent c p i last : ~ In c p -> rfind_from c p i last = last.
Proof.
  revert i last. induction p as [|x p IH]; intros i last N; [reflexivity|].
  cbn [rfind_from]. replace (x =? c) with false.
  - apply IH. intros I. apply N. now right.
  - symmetry. apply Z.eqb_neq. intros ->. apply N. now left.
Qed.

Lemma sub_runs_Forall (P : Z -> Prop) class b s :
  P underscore -> (forall c, In c s -> class c = false -> P c) ->
  Forall P (sub_runs class b s).
Proof.
  intros Pu. revert b. induction s as [|c s IH]; intros b H; [constructor|].
  cbn [sub_runs]. assert (Hs : forall c0, In c0 s -> class c0 = false -> P c0)
    by (intros c0 I; apply H; now right).
  destruct (class c) eqn:E; [destruct b|]; try constructor; auto.
  apply H; [now left | assumption].
Qed.

Lemma sub_runs_id class b s :
  Forall (fun c => class c = false) s -> sub_runs class b s = s.
Proof.
  revert b. induction s as [|c s IH]; intros b H; [reflexivity|].
  inversion H as [|? ? Hc Hs]; subst. cbn [sub_runs]. rewrite Hc. f_equal. now apply IH.
Qed.

(** After a run the output does not start with an underscore. *)
Lemma sub_runs_no_double b s :
  no_double underscore (sub_runs is_underscore b s) /\
  (b = true -> hd 0 (sub_runs is_underscore b s) <> underscore).
Proof.
  revert b. induction s as [|c s IH]; intros b.
  - split; [intros [|? ?] ?; discriminate | intros _; discriminate].
  - cbn [sub_runs]. destruct (is_underscore c) eqn:E; unfold is_underscore in E.
    + destruct b.
      * apply IH.
      * split; [|discriminate]. apply no_double_cons; [apply IH|].
        intros _. now apply IH.
    + split; [|intros _; cbn; zlia]. apply no_double_cons; [apply IH|]. zlia.
Qed.

Lemma sub_runs_underscore_id b s :
  no_double underscore s -> (b = true -> hd 0 s <> underscore) ->
  sub_runs is_underscore b s = s.
Proof.
  revert b. induction s as [|c s IH]; intros b N Hb; [reflexivity|].
  cbn [sub_runs]. destruct (is_underscore c) eqn:E; unfold is_underscore in E.
  - apply Z.eqb_eq in E. subst c. destruct b; [now exfalso; apply Hb|].
    f_equal. apply IH; [now apply no_double_tail in N|]. intros _ Hh.
    destruct s as [|y s]; [discriminate|]. cbn in Hh. subst y. now apply (N [] s).
  - f_equal. apply IH; [now apply no_double_tail in N | discriminate].
Qed.

(** [lstrip] removes a prefix of [c]s and stops at another character. *)
Lemma lstrip_spec c s :
  exists pre, s = pre ++ lstrip c s /\ Forall (eq c) pre /\
              (c <> 0 -> hd 0 (lstrip c s) <> c).
Proof.
  induction s as [|x s (pre & E & F & Hh)].
  - exists []. repeat split; [constructor | cbn; congruence].
  - cbn [lstrip]. destruct (x =? c) eqn:Ex.
    + apply Z.eqb_eq in Ex. subst x. exists (c :: pre). cbn. split; [now f_equal|].
      split; [now constructor | assumption].
    + exists []. repeat split; [constructor|]. intros _. cbn. zlia.
Qed.

Lemma lstrip_id c s : hd 0 s <> c -> lstrip c s = s.
Proof.
  destruct s as [|x s]; [reflexivity|]. cbn. intros H.
  now replace (x =? c) with false by zlia.
Qed.

Lemma lstrip_Forall (P : Z -> Prop) c s : Forall P s -> Forall P (lstrip c s).
Proof.
  destruct (lstrip_spec c s) as (pre & E & _). intros F. rewrite E in F.
  now apply Forall_app in F.
Qed.

Lemma lstrip_no_double c d s : no_double d s -> no_double d (lstrip c s).
Proof.
  destruct (lstrip_spec c s) as (pre & E & _). intros N. rewrite E in N.
  now apply no_double_suffix in N.
Qed.

Section Strip.
Context (c : Z) (Hc : c <> 0).

Lemma strip_Forall (P : Z -> Prop) s : Forall P s -> Forall P (strip c s).
Proof.
  intros F. unfold strip. apply Forall_rev, lstrip_Forall, Forall_rev.
  now apply lstrip_Forall.
Qed.

Lemma strip_no_double d s : no_double d s -> no_double d (strip c s).
Proof.
  intros N. unfold strip. apply no_double_rev, lstrip_no_double, no_double_rev.
  now apply lstrip_no_double.
Qed.

Lemma strip_last s : last (strip c s) 0 <> c.
Proof.
  unfold strip. rewrite last_rev_hd, rev_involutive.
  destruct (lstrip_spec c (rev (lstrip c s))) as (_ & _ & _ & H). now apply H.
Qed.

Lemma strip_hd s : hd 0 (strip c s) <> c.
Proof.
  unfold strip. destruct (lstrip_spec c s) as (_ & _ & _ & H). specialize (H Hc).
  destruct (lstrip_spec c (rev (lstrip c s))) as (pre & E & F & _).
  set (t := lstrip c (rev (lstrip c s))) in *.
  apply (f_equal (@rev Z)) in E. rewrite rev_involutive, rev_app_distr in E.
  destruct (rev t) as [|x r]; [cbn; congruence|].
  rewrite E in H. exact H.
Qed.

Lemma strip_id s : hd 0 s <> c -> last s 0 <> c -> strip c s = s.
Proof.
  intros Hh Hl. unfold strip. rewrite (lstrip_id c s Hh).
  rewrite lstrip_id by now rewrite <- last_rev_hd.
  apply rev_involutive.
Qed.
End Strip.

(** ** The sanitiser *)

Lemma clean_file : clean_name (of_string "file").
Proof.
  constructor; try (cbn; discriminate).
  - repeat constructor.
  - intros [|a [|b [|c [|d [|e l1]]]]] l2 E; try discriminate;
      injection E; intros; subst; discriminate.
Qed.

Lemma invalid_chars_underscore : invalid_chars underscore = false.
Proof. reflexivity. Qed.

(** What the sanitiser returns is a clean name. *)
Lemma sanitize_clean name_component :
  clean_name (sanitize_filename_component name_component).
Proof.
  unfold sanitize_filename_component.
  set (s1 := sub_runs invalid_chars false _). set (s2 := sub_runs is_underscore false s1).
  assert (F : Forall (fun c => invalid_chars c = false) (strip underscore s2)).
  { apply strip_Forall. apply sub_runs_Forall; [reflexivity|].
    intros c I _. revert c I. apply Forall_forall.
    apply sub_runs_Forall; [reflexivity | auto]. }
  assert (N : no_double underscore (strip underscore s2))
    by apply strip_no_double, sub_runs_no_double.
  pose proof (strip_hd underscore ltac:(discriminate) s2) as Hh.
  pose proof (strip_last underscore ltac:(discriminate) s2) as Hl.
  destruct (strip underscore s2) as [|c s] eqn:E; [apply clean_file|].
  now constructor.
Qed.

(** A clean name is left as it is. *)
Lemma sanitize_fixed s :
  clean_name s -> sanitize_filename_component s = s.
Proof.
  intros [Ne V Hh Hl N]. unfold sanitize_filename_component.
  assert (Ns : forall c, invalid_chars c = true -> ~ In c s).
  { intros c Ic I. rewrite Forall_forall in V. rewrite (V c I) in Ic. discriminate. }
  assert (B : basename s = s).
  { unfold basename, rfind. now rewrite rfind_absent by (apply Ns; reflexivity). }
  assert (R : splitext_root s = s).
  { unfold splitext_root, rfind. now rewrite !rfind_absent by (apply Ns; reflexivity). }
  rewrite B, R, (sub_runs_id invalid_chars false s V).
  rewrite sub_runs_underscore_id by (assumption || discriminate).
  rewrite strip_id by assumption. destruct s; [contradiction | reflexivity].
Qed.

(** Claim C36: whatever the path, [sanitize_filename_component] returns a
    clean name: not empty, without any character of the class of line 427
    (so without slash, backslash, dot or white space), without underscore at
    either end and without two underscores in a row; and the clean names
    are exactly the names it returns unchanged. *)
Theorem sanitize_filename_component_clean name_component :
  clean_name (sanitize_filename_component name_component) /\
  (clean_name name_component <->
   sanitize_filename_component name_component = name_component).
Proof.
  split; [apply sanitize_clean|]. split; [apply sanitize_fixed|].
  intros <-. apply sanitize_clean.
Qed.

(** Sanitising is idempotent: a sanitised name is sanitised to
    itself. *)
Theorem sanitize_filename_component_idempotent name_component :
  sanitize_filename_component (sanitize_filename_component name_component)
  = sanitize_filename_component name_component.
Proof. apply sanitize_fixed, sanitize_clean. Qed.

(** ** Numbers in names *)

Lemma of_string_app a b : of_string (a ++ b)%string = of_string a ++ of_string b.
Proof.
  unfold of_string. induction a as [|x a IH]; [reflexivity|]. cbn. now rewrite <- IH.
Qed.

Lemma of_string_inj a b : of_string a = of_string b -> a = b.
Proof.
  revert b. induction a as [|x a IH]; intros [|y b] E; try discriminate; [reflexivity|].
  injection E as Ex E. f_equal; [|now apply IH].
  apply N2Z.inj in Ex. rewrite <- (ascii_N_embedding x), <- (ascii_N_embedding y).
  now f_equal.
Qed.

Lemma digits_of_uint d : Forall is_digit (of_string (NilEmpty.string_of_uint d)).
Proof.
  induction d; cbn [NilEmpty.string_of_uint]; try constructor; try assumption;
    unfold is_digit; cbn; lia.
Qed.

Lemma digits_str_int n : 0 <= n -> Forall is_digit (str_int n).
Proof.
  intros Hn. unfold str_int. destruct n as [|q|q]; [| |lia].
  - repeat constructor; unfold is_digit; cbn; lia.
  - cbn [Z.to_int NilZero.string_of_int]. unfold NilZero.string_of_uint.
    destruct (Pos.to_uint q); try apply digits_of_uint.
    repeat constructor; unfold is_digit; cbn; lia.
Qed.

Lemma to_int_nonnil n :
  Z.to_int n <> Decimal.Pos Decimal.Nil /\ Z.to_int n <> Decimal.Neg Decimal.Nil.
Proof.
  destruct n as [|q|q]; cbn; split; try discriminate; intros [= E];
    now apply (DecimalPos.Unsigned.to_uint_nonnil q).
Qed.

Lemma str_int_inj n m : str_int n = str_int m -> n = m.
Proof.
  intros E. apply of_string_inj in E. apply DecimalZ.to_int_inj.
  destruct (to_int_nonnil n) as [N1 N2]. destruct (to_int_nonnil m) as [M1 M2].
  pose proof (NilZero.isi (Z.to_int n) N1 N2) as I.
  rewrite E, (NilZero.isi _ M1 M2) in I. congruence.
Qed.

(** Two lists of digits followed by something else are equal when the
    wholes are. *)
Lemma digits_prefix l1 l2 x y r1 r2 :
  Forall is_digit l1 -> Forall is_digit l2 -> ~ is_digit x -> ~ is_digit y ->
  l1 ++ x :: r1 = l2 ++ y :: r2 -> l1 = l2.
Proof.
  revert l2. induction l1 as [|a l1 IH]; intros [|b l2] F1 F2 Nx Ny E;
    try reflexivity; injection E as E0 E.
  - inversion F2; subst. contradiction.
  - inversion F1; subst. contradiction.
  - subst b. f_equal. inversion F1; inversion F2; subst. now apply (IH l2).
Qed.

(** The number of a sheet can be read off its name: two sheets with the
    same name have the same number. *)
Lemma output_sheet_name_inj first last n first' last' n' :
  0 <= n -> 0 <= n' ->
  output_sheet_name first last n = output_sheet_name first' last' n' ->
  n = n'.
Proof.
  intros Hn Hn' E. unfold output_sheet_name in E.
  apply (f_equal (@rev Z)) in E. rewrite !rev_app_distr, <- !app_assoc in E.
  apply app_inv_head in E.
  change (rev (of_string "_sheet_")) with (95 :: rev (of_string "_sheet")) in E.
  cbn [app] in E.
  apply digits_prefix in E; try (unfold is_digit; lia);
    try (apply Forall_rev, digits_str_int; lia).
  apply (f_equal (@rev Z)) in E. rewrite !rev_involutive in E.
  apply str_int_inj in E. lia.
Qed.

(** A prefix of the name of a sheet is a prefix of its first component. *)
(** The name of a sheet has no slash: it is the name of a file of the
    folder it is joined to. *)
Lemma output_sheet_name_no_slash a b n :
  0 <= n ->
  ~ In slash (output_sheet_name (sanitize_filename_component a)
                (sanitize_filename_component b) n).
Proof.
  intros Hn. unfold output_sheet_name. rewrite !in_app_iff.
  assert (S : forall x, ~ In slash (sanitize_filename_component x)).
  { intros x I. pose proof (clean_valid _ (sanitize_clean x)) as V.
    rewrite Forall_forall in V. now apply V in I. }
  assert (D : ~ In slash (str_int (n + 1))).
  { intros I. pose proof (digits_str_int (n + 1) ltac:(lia)) as V.
    rewrite Forall_forall in V. apply V in I. unfold is_digit, slash in I. lia. }
  intros [I|[I|[I|[I|[I|I]]]]]; try (now apply S in I); try (now apply D in I);
    cbn in I; unfold slash in I; intuition discriminate.
Qed.

Lemma output_sheet_name_prefix pre first last n :
  pre ++ output_sheet_name first last n = output_sheet_name (pre ++ first) last n.
Proof. unfold output_sheet_name. now rewrite <- app_assoc. Qed.

(** Sheets numbered differently have different names, whatever the files
    they are named after. *)
Lemma output_sheet_names_nodup (first last : Z -> pystr) q :
  NoDup (map (fun j => output_sheet_name (first j) (last j) j) (range 0 q)).
Proof.
  apply NoDup_map_NoDup_ForallPairs; [|apply NoDup_range].
  intros i j Hi%in_range Hj%in_range E. now apply output_sheet_name_inj in E.
Qed.
