(* ===== verification/Narration.v ===== *)
(** * Narration: every line [resize_card] prints

    [Renderer.resize_card] keeps the warnings and the errors of
    [resize_card] (src/proxify.py, lines 231-386) and leaves out the lines
    that only say what the function is doing.  This file puts them back:
    [resize_card_log] is the same function with every [print] of the
    source, in the order of the source, as a list of [line]s: a [Progress]
    line for a progress message, a [Problem] line for a warning or an
    error.

    - [card_type_log] (lines 238-243), [extended_art_sides_log] (lines
      265-283) and [full_art_crop_log] (lines 338-351) are the three
      places where progress lines and warnings interleave; the parts of
      the function that print warnings only are the definitions of
      [Cropper] and [Renderer], their warnings renamed by [relog];
      [render_log] is the body of the [try] block and [resize_card_log]
      the function with its handlers.
    - [narration] is the reference: the progress lines of a run that made
      a card, from the frame style, the bounding box, the sample row and
      the card.

    Theorems: hiding the progress lines of [resize_card_log] gives
    [Renderer.resize_card], card and warnings ([resize_card_log_erases]);
    the progress lines of a run that made a card are [narration]
    ([progress_of_card], [card_lines]); a run prints [Processing] first
    when the file opened, [CardFinished] last with the size of the card when
    it made one, and the error of the exception last when it did not
    ([lines_bracket]); the lines of the three synthetic cards of
    [Pipeline] ([framed_card_lines], [capped_card_lines],
    [bare_card_lines]). *)

From Stdlib Require Import ZArith List Bool Lia.
Import ListNotations.
From S2P Require Import Prelude Binary64 PyNum Config Image Detector Classifier.
From S2P Require Import Cropper Renderer Pipeline Names.
Local Open Scope Z_scope.

(** The progress messages of [resize_card], by the line that prints them,
    with the values they show. *)
Inductive info : Type :=
| Processing (name : pystr) (original_w original_h : Z)              (* 235 *)
| ConfigOverride (card_type : card_type)                             (* 240 *)
| DetectedCardType (card_type : card_type)                           (* 243 *)
| ScanningSides (vertical_sample_y content_top_y_for_scan offset : Z) (* 271 *)
| FoundSideContent (vertical_sample_y cx_at_row_start cx_at_row_end : Z) (* 275 *)
| ActionProportional (card_type : card_type)                         (* 289 *)
| ActionFullArtCrop (trim : Z)                                       (* 340 *)
| ActionFullArtAsIs                                                  (* 351 *)
| CardFinished (name : pystr) (final_size : Z * Z).                  (* 376 *)

(** A line of the output of [resize_card]. *)
Inductive line : Type :=
| Progress (i : info)
| Problem (d : diag).

(** The warnings and errors among the lines, and the progress lines. *)
Definition problems_of (l : line) : list diag :=
  match l with Problem d => [d] | Progress _ => [] end.

Definition progress_of (l : line) : list info :=
  match l with Progress i => [i] | Problem _ => [] end.

Definition problems (log : list line) : list diag := flat_map problems_of log.
Definition progress (log : list line) : list info := flat_map progress_of log.

(** [print] of a progress message, [print] of a warning, and a computation
    of [Cropper] or [Renderer] with its warnings as lines. *)
Definition say (i : info) : logged line unit := tell (Progress i).
Definition warn (d : diag) : logged line unit := tell (Problem d).
Definition relog {A} (m : logged diag A) : logged line A :=
  log_map (fun d => [Problem d]) m.

(** A computation with its progress lines hidden, and a computation that
    prints no progress line. *)
Definition erase {A} (m : logged line A) : logged diag A := log_map problems_of m.

Definition hushed {A} (m : logged line A) : Prop := progress (snd m) = [].

Section Narration.
Context `{Imaging} (s : settings) (p : pixels).
Local Open Scope log_scope.

(** The frame style and the line that announces it (lines 238-243). *)
Definition card_type_log (original_img : image) : logged line card_type :=
  if FORCE_STANDARD_FRAME_TYPE s
  then
    let card_type := standard in
    say (ConfigOverride card_type) ;; lret card_type
  else
    card_type <- lift (determine_card_type original_img (BLACK_BORDER_THRESHOLD s)
                         (EDGE_ZONE_CHECK_WIDTH_PX s)) ;;
    say (DetectedCardType card_type) ;; lret card_type.

(** The sides of extended art, with the lines of the scan (lines 265-283). *)
Definition extended_art_sides_log (original_img : image)
    (overall_content_bbox : option box) (effective : box) : logged line box :=
  let original_h := height original_img in
  match overall_content_bbox with
  | Some _ =>
      let content_top_y_for_scan := y0 effective in
      let vertical_sample_y :=
        content_top_y_for_scan + EXTENDED_ART_SCAN_OFFSET_Y_PX p in
      if (0 <=? vertical_sample_y) && (vertical_sample_y <? original_h)
      then
        say (ScanningSides vertical_sample_y content_top_y_for_scan
               (EXTENDED_ART_SCAN_OFFSET_Y_PX p)) ;;
        ext <- lift (get_content_extents_at_row original_img vertical_sample_y
                       (BLACK_BORDER_THRESHOLD s)) ;;
        match ext with
        | (Some cx_at_row_start, Some cx_at_row_end) =>
            if cx_at_row_start <=? cx_at_row_end
            then
              say (FoundSideContent vertical_sample_y cx_at_row_start cx_at_row_end) ;;
              lret (Box cx_at_row_start (y0 effective) cx_at_row_end (y1 effective))
            else warn (NoSideContent vertical_sample_y) ;; lret effective
        | _ => warn (NoSideContent vertical_sample_y) ;; lret effective
        end
      else warn (SampleRowOutOfBounds vertical_sample_y) ;; lret effective
  | None => warn SideScanSkipped ;; lret effective
  end.

(** The trim of a borderless card, with the line that announces it (lines
    338-351). *)
Definition full_art_crop_log (original_img : image) : logged line image :=
  let original_w := width original_img in
  let original_h := height original_img in
  let img_for_full_art_processing := copy original_img in
  if 0 <? FULL_ART_BOTTOM_CROP_PX s
  then
    say (ActionFullArtCrop (FULL_ART_BOTTOM_CROP_PX s)) ;;
    if original_h <=? FULL_ART_BOTTOM_CROP_PX s
    then
      warn TrimExceedsHeight ;;
      if 0 <? original_h
      then lift (crop original_img (Box 0 0 original_w 1))
      else lift (new (Z.max 1 original_w, 1) transparent)
    else if 0 <? original_w
    then
      let crop_bottom_y := Z.max 1 (original_h - FULL_ART_BOTTOM_CROP_PX s) in
      lift (crop original_img (Box 0 0 original_w crop_bottom_y))
    else if original_w =? 0
    then warn ZeroWidthFullArt ;; lift (new (1, 1) transparent)
    else lret img_for_full_art_processing
  else say ActionFullArtAsIs ;; lret img_for_full_art_processing.

(** The branch of the frame style (lines 287-358): the crop, then the
    resize. *)
Definition crop_and_resize (original_img : image)
    (target_final_card_width_px target_final_card_height_px : Z)
    (card_type : card_type) (effective : box) : logged line (option image) :=
  let original_w := width original_img in
  let original_h := height original_img in
  match card_type with
  | standard | extended_art =>
      (match card_type with
       | standard => say (ActionProportional card_type)
       | _ => lret tt
       end) ;;
      choice <- relog (proportional_crop p original_w original_h
                         target_final_card_width_px target_final_card_height_px
                         effective) ;;
      img_to_final_resize <- lift (apply_crop original_img choice) ;;
      resized <- lift (resize_to_target img_to_final_resize
                         target_final_card_width_px target_final_card_height_px) ;;
      lret (Some resized)
  | borderless =>
      img_for_full_art_processing <- full_art_crop_log original_img ;;
      resized <- lift (resize_to_target img_for_full_art_processing
                         target_final_card_width_px target_final_card_height_px) ;;
      lret (Some resized)
  end.

(** The fallback when no branch gave a picture (lines 360-366). *)
Definition fallback (original_img : image)
    (target_final_card_width_px target_final_card_height_px : Z)
    (image_ready_for_enhancement : option image) : logged line image :=
  match image_ready_for_enhancement with
  | Some img => lret img
  | None =>
      warn FallbackError ;;
      lift (resize (copy original_img)
              (target_final_card_width_px, target_final_card_height_px))
  end.

(** The body of the [try] block with every print (lines 233-377). *)
Definition render_log (image_path : pystr) (original_img : image)
    (target_final_card_width_px target_final_card_height_px : Z)
    : logged line image :=
  let original_w := width original_img in
  let original_h := height original_img in
  say (Processing (basename image_path) original_w original_h) ;;
  card_type <- card_type_log original_img ;;
  overall_content_bbox <-
    lift (get_content_bounding_box original_img (BLACK_BORDER_THRESHOLD s)) ;;
  effective <- relog (effective_content original_w original_h overall_content_bbox) ;;
  effective <-
    (match card_type with
     | extended_art =>
         extended_art_sides_log original_img overall_content_bbox effective
     | _ => lret effective
     end) ;;
  image_ready_for_enhancement <-
    crop_and_resize original_img target_final_card_width_px
      target_final_card_height_px card_type effective ;;
  image_ready_for_enhancement <-
    fallback original_img target_final_card_width_px target_final_card_height_px
      image_ready_for_enhancement ;;
  let image_after_enhancements := apply_enhancements s image_ready_for_enhancement in
  say (CardFinished (basename image_path) (size image_after_enhancements)) ;;
  lret image_after_enhancements.

(** [resize_card] with every line it prints: the card, or [None] when
    opening the file or anything after it raised (lines 231-386). *)
Definition resize_card_log (image_path : pystr) (opened : result image)
    (target_final_card_width_px target_final_card_height_px : Z)
    : option image * list line :=
  let '(r, log) :=
    original_img <- lift opened ;;
    render_log image_path original_img
      target_final_card_width_px target_final_card_height_px in
  match r with
  | Ok image_after_enhancements => (Some image_after_enhancements, log)
  | Raise e => (None, log ++ [Problem (report_error e)])
  end.

(** ** Reference narration *)

(** The line that announces the frame style. *)
Definition type_line (t : card_type) : info :=
  if FORCE_STANDARD_FRAME_TYPE s then ConfigOverride t else DetectedCardType t.

(** The lines of the scan of the sides: for extended art with a bounding
    box and a sample row inside the picture, the row, and its extent when
    it has content. *)
Definition side_lines (original_img : image) (t : card_type) (bbox : option box)
    : list info :=
  match t, bbox with
  | extended_art, Some b =>
      let y := y0 b + EXTENDED_ART_SCAN_OFFSET_Y_PX p in
      if (0 <=? y) && (y <? height original_img)
      then
        ScanningSides y (y0 b) (EXTENDED_ART_SCAN_OFFSET_Y_PX p) ::
        match get_content_extents_at_row original_img y (BLACK_BORDER_THRESHOLD s) with
        | Ok (Some l, Some r) => if l <=? r then [FoundSideContent y l r] else []
        | _ => []
        end
      else []
  | _, _ => []
  end.

(** The line that announces what is done to the picture; extended art has
    none. *)
Definition action_lines (t : card_type) : list info :=
  match t with
  | standard => [ActionProportional standard]
  | extended_art => []
  | borderless =>
      [if 0 <? FULL_ART_BOTTOM_CROP_PX s
       then ActionFullArtCrop (FULL_ART_BOTTOM_CROP_PX s)
       else ActionFullArtAsIs]
  end.

(** The progress lines of a run that made the card [card]. *)
Definition narration (name : pystr) (original_img : image) (t : card_type)
    (bbox : option box) (card : image) : list info :=
  Processing name (width original_img) (height original_img) :: type_line t ::
  side_lines original_img t bbox ++ action_lines t ++ [CardFinished name (size card)].

End Narration.

(** The path [in/a.png], and three pictures 750 x 1050: a black frame of
    40 pixels, black caps of 60 rows, and no frame. *)
Definition sample_path : pystr := [105; 110; 47; 97; 46; 112; 110; 103].

Definition sample_framed : box := Box 40 40 710 1010.
Definition sample_capped : box := Box 0 60 750 990.
Definition sample_bare : box := Box 0 0 750 1050.

(** ** Theorems *)

(** *** Lines *)

Lemma problems_app l1 l2 : problems (l1 ++ l2) = problems l1 ++ problems l2.
Proof. apply flat_map_app. Qed.

Lemma progress_app l1 l2 : progress (l1 ++ l2) = progress l1 ++ progress l2.
Proof. apply flat_map_app. Qed.

Lemma progress_cons i l : progress (Progress i :: l) = i :: progress l.
Proof. reflexivity. Qed.

Lemma progress_map_Progress l : progress (map Progress l) = l.
Proof. induction l as [|i l IH]; [reflexivity|]. cbn. now f_equal. Qed.

Lemma progress_map_Problem l : progress (map Problem l) = [].
Proof. induction l as [|d l IH]; [reflexivity | exact IH]. Qed.

Lemma problems_map_Problem l : problems (map Problem l) = l.
Proof. induction l as [|d l IH]; [reflexivity|]. cbn. now f_equal. Qed.

(** Lines without a warning or an error are progress lines. *)
Lemma quiet_lines log : problems log = [] -> log = map Progress (progress log).
Proof.
  induction log as [|[i|d] log IH]; [reflexivity | | discriminate].
  intros Q. cbn. f_equal. exact (IH Q).
Qed.

Lemma lines_count log : length log = (length (progress log) + length (problems log))%nat.
Proof.
  unfold progress, problems.
  induction log as [|[i|d] log IH]; cbn [flat_map progress_of problems_of app length]; lia.
Qed.

Lemma problems_flat_map {A} (f : A -> list line) l :
  problems (flat_map f l) = flat_map (fun a => problems (f a)) l.
Proof.
  induction l as [|a l IH]; [reflexivity|]. cbn [flat_map]. now rewrite problems_app, IH.
Qed.

Lemma snd_relog {A} (m : logged diag A) : snd (relog m) = map Problem (snd m).
Proof.
  unfold relog, log_map. cbn [snd].
  induction (snd m) as [|d l IH]; [reflexivity|]. cbn. now f_equal.
Qed.

(** *** Hiding the progress lines *)

Lemma erase_lbind {A B} (m : logged line A) (k : A -> logged line B) :
  erase (lbind m k) = lbind (erase m) (fun a => erase (k a)).
Proof. apply log_map_lbind. Qed.

Lemma erase_say i : erase (say i) = lret tt.
Proof. reflexivity. Qed.

Lemma erase_warn d : erase (warn d) = tell d.
Proof. reflexivity. Qed.

Lemma erase_lift {A} (m : result A) : erase (lift m) = lift m.
Proof. reflexivity. Qed.

Lemma erase_lret {A} (a : A) : erase (lret a) = lret a.
Proof. reflexivity. Qed.

Lemma erase_relog {A} (m : logged diag A) : erase (relog m) = m.
Proof. unfold erase, relog. rewrite log_map_log_map. apply log_map_id. Qed.

(** Run [erase] through a computation, step by step. *)
Ltac erase_run :=
  repeat first
    [ progress rewrite ?erase_lbind, ?erase_say, ?erase_warn, ?erase_relog,
        ?erase_lift, ?erase_lret, ?lbind_lret
    | reflexivity
    | apply lbind_ext; intros ? ].

(** *** Computations without progress lines *)

Lemma hushed_lret {A} (a : A) : hushed (lret a).
Proof. reflexivity. Qed.

Lemma hushed_lift {A} (m : result A) : hushed (lift m).
Proof. reflexivity. Qed.

Lemma hushed_warn d : hushed (warn d).
Proof. reflexivity. Qed.

Lemma hushed_relog {A} (m : logged diag A) : hushed (relog m).
Proof. unfold hushed. rewrite snd_relog. apply progress_map_Problem. Qed.

Lemma progress_lbind {A B} (m : logged line A) (k : A -> logged line B) :
  (forall a, hushed (k a)) -> progress (snd (lbind m k)) = progress (snd m).
Proof.
  intros K. destruct m as [[a|e] l]; cbn [lbind snd]; [|reflexivity].
  specialize (K a). unfold hushed in K. destruct (k a) as [r l']. cbn [snd] in *.
  now rewrite progress_app, K, app_nil_r.
Qed.

Lemma progress_returned {A} (m : logged line A) a l :
  m = (Ok a, l) -> progress (snd m) = progress l.
Proof. now intros ->. Qed.

Lemma hushed_lbind {A B} (m : logged line A) (k : A -> logged line B) :
  hushed m -> (forall a, hushed (k a)) -> hushed (lbind m k).
Proof. intros M K. unfold hushed. now rewrite progress_lbind. Qed.

(** A progress line, then a computation without one. *)
Lemma progress_say {B} i (k : unit -> logged line B) :
  hushed (k tt) -> progress (snd (lbind (say i) k)) = [i].
Proof.
  intros K. unfold say. rewrite lbind_tell. cbn [snd]. unfold hushed in K.
  now rewrite progress_cons, K.
Qed.

Create HintDb hushed.
#[local] Hint Resolve hushed_lret hushed_lift hushed_warn hushed_relog : hushed.

(** Prove that a computation made of warnings and silent steps is hushed. *)
Ltac hush :=
  repeat first
    [ solve [auto with hushed]
    | apply hushed_lbind; [|intros ?]
    | match goal with |- hushed (if ?c then _ else _) => destruct c end
    | match goal with |- hushed (match ?x with _ => _ end) => destruct x end ].

Section NarrationFacts.
Context `{Imaging} (s : settings) (p : pixels).
Local Open Scope log_scope.

Lemma card_type_log_erase im : erase (card_type_log s im) = lift (card_type_of s im).
Proof.
  unfold card_type_log, card_type_of. destruct (FORCE_STANDARD_FRAME_TYPE s); [reflexivity|].
  now destruct (determine_card_type _ _ _).
Qed.

Lemma extended_art_sides_log_erase im bbox e :
  erase (extended_art_sides_log s p im bbox e) = extended_art_sides s p im bbox e.
Proof.
  unfold extended_art_sides_log, extended_art_sides.
  destruct bbox; [|reflexivity]. destruct (_ && _); [|reflexivity].
  erase_run. destruct a as [[l|] [r|]]; try reflexivity. now destruct (l <=? r).
Qed.

Lemma full_art_crop_log_erase im : erase (full_art_crop_log s im) = full_art_crop s im.
Proof.
  unfold full_art_crop_log, full_art_crop.
  destruct (0 <? FULL_ART_BOTTOM_CROP_PX s); [|reflexivity]. erase_run.
  destruct (height im <=? _); [erase_run; now destruct (0 <? height im)|].
  destruct (0 <? width im); [reflexivity|]. now destruct (width im =? 0).
Qed.

(** The body of [resize_card], its progress lines hidden, is [render]. *)
Lemma render_log_erase path im tw th :
  erase (render_log s p path im tw th) = render s p im tw th.
Proof.
  unfold render_log, render. rewrite erase_lbind, erase_say, lbind_lret.
  rewrite erase_lbind, card_type_log_erase. apply lbind_ext. intros t.
  erase_run. apply lbind_cong.
  { destruct t; try reflexivity. apply extended_art_sides_log_erase. }
  intros e. rewrite erase_lbind. apply lbind_cong.
  { unfold crop_and_resize. destruct t; erase_run.
    rewrite full_art_crop_log_erase. erase_run. }
  intros o. unfold fallback. destruct o; erase_run.
Qed.

(** The function with its handlers, its progress lines hidden. *)
Lemma resize_card_log_erase path opened tw th :
  (fst (resize_card_log s p path opened tw th),
   problems (snd (resize_card_log s p path opened tw th)))
  = resize_card s p opened tw th.
Proof.
  unfold resize_card_log, resize_card.
  destruct opened as [im|e]; [rewrite !lbind_lift_Ok | now rewrite !lbind_lift_Raise].
  rewrite <- (render_log_erase path im tw th).
  destruct (render_log s p path im tw th) as [[card|e] log]; cbn [erase log_map fst snd];
    [reflexivity|].
  now rewrite problems_app.
Qed.

Lemma resize_card_log_problems path opened tw th :
  problems (snd (resize_card_log s p path opened tw th)) = snd (resize_card s p opened tw th).
Proof. now rewrite <- (resize_card_log_erase path opened tw th). Qed.


(** *** The progress lines of each part *)

Lemma card_type_log_lines im t l :
  card_type_log s im = (Ok t, l) ->
  card_type_of s im = Ok t /\ l = [Progress (type_line s t)].
Proof.
  unfold card_type_log, card_type_of, type_line.
  destruct (FORCE_STANDARD_FRAME_TYPE s); [now intros [= <- <-]|].
  destruct (determine_card_type _ _ _) as [t'|e]; [|discriminate]. now intros [= <- <-].
Qed.

Lemma sides_lines im t b e :
  progress (snd (match t with
                 | extended_art => extended_art_sides_log s p im (Some b) b
                 | _ => lret e
                 end))
  = side_lines s p im t (Some b).
Proof.
  destruct t; try reflexivity. unfold extended_art_sides_log, side_lines.
  destruct (_ && _); [|reflexivity]. unfold say. rewrite lbind_tell. cbn [snd].
  rewrite progress_cons. f_equal.
  destruct (get_content_extents_at_row _ _ _) as [[[l|] [r|]]|e0]; try reflexivity.
  rewrite lbind_lift_Ok. now destruct (l <=? r).
Qed.

Lemma sides_lines_none im t e :
  hushed (match t with
          | extended_art => extended_art_sides_log s p im None e
          | _ => lret e
          end).
Proof. now destruct t. Qed.

Lemma full_art_crop_log_lines im :
  progress (snd (full_art_crop_log s im)) = action_lines s borderless.
Proof.
  unfold full_art_crop_log, action_lines.
  destruct (0 <? FULL_ART_BOTTOM_CROP_PX s); [|reflexivity]. apply progress_say. hush.
Qed.

(** The branch of the frame style prints the line of its action. *)
Lemma crop_and_resize_lines im t tw th e :
  progress (snd (crop_and_resize s p im tw th t e)) = action_lines s t.
Proof.
  unfold crop_and_resize. destruct t.
  - apply progress_say. hush.
  - rewrite lbind_lret. change (action_lines s extended_art) with (@nil info).
    apply hushed_lbind; [|intros ?]; hush.
  - rewrite progress_lbind by (intros; hush). apply full_art_crop_log_lines.
Qed.

Lemma fallback_hushed im tw th o : hushed (fallback im tw th o).
Proof. unfold fallback. hush. Qed.

(** *** The progress lines of a card *)

(** What the steps after the bounding box print, when they return. *)
Lemma after_bbox_lines path im tw th t bbox card log :
  (effective <- relog (effective_content (width im) (height im) bbox) ;;
   effective <-
     (match t with
      | extended_art => extended_art_sides_log s p im bbox effective
      | _ => lret effective
      end) ;;
   image_ready_for_enhancement <- crop_and_resize s p im tw th t effective ;;
   image_ready_for_enhancement <- fallback im tw th image_ready_for_enhancement ;;
   say (CardFinished (basename path)
          (size (apply_enhancements s image_ready_for_enhancement))) ;;
   lret (apply_enhancements s image_ready_for_enhancement)) = (Ok card, log) ->
  progress log
  = side_lines s p im t bbox ++ action_lines s t ++ [CardFinished (basename path) (size card)].
Proof.
  intros E. apply lbind_Ok_inv in E as (e & l1 & la & E1 & E & ->).
  apply lbind_Ok_inv in E as (e' & l2 & lb & E2 & E & ->).
  apply lbind_Ok_inv in E as (o & l3 & lc & E3 & E & ->).
  apply lbind_Ok_inv in E as (img & l4 & l5 & E4 & E5 & ->).
  rewrite !progress_app.
  pose proof (hushed_relog (effective_content (width im) (height im) bbox)) as Q1.
  pose proof (crop_and_resize_lines im t tw th e') as Q3.
  pose proof (fallback_hushed im tw th o) as Q4.
  unfold hushed in Q1, Q4. rewrite E1 in Q1. rewrite E3 in Q3. rewrite E4 in Q4.
  cbn [snd] in Q1, Q3, Q4. rewrite Q1, Q3, Q4. cbn [app].
  unfold say in E5. rewrite lbind_tell in E5. injection E5 as <- <-.
  f_equal. destruct bbox as [b|].
  - injection E1 as <- _. rewrite <- (progress_returned _ _ _ E2). apply sides_lines.
  - rewrite <- (progress_returned _ _ _ E2), (sides_lines_none im t e). now destruct t.
Qed.

(** The progress lines of a run that made a card are those of
    [narration], for the frame style and the bounding box of the
    picture. *)
Theorem progress_of_card path im tw th card log :
  render_log s p path im tw th = (Ok card, log) ->
  exists t bbox,
    card_type_of s im = Ok t /\
    get_content_bounding_box im (BLACK_BORDER_THRESHOLD s) = Ok bbox /\
    progress log = narration s p (basename path) im t bbox card.
Proof.
  unfold render_log. intros E.
  apply lbind_Ok_inv in E as (u & l0 & l & E0 & E & ->). injection E0 as _ <-.
  apply lbind_Ok_inv in E as (t & l1 & la & E1 & E & ->).
  apply card_type_log_lines in E1 as [Et ->].
  apply lbind_Ok_inv in E as (bbox & l2 & lb & E2 & E & ->). injection E2 as E2 <-.
  exists t, bbox. split; [exact Et|]. split; [exact E2|].
  unfold narration. cbn [app]. rewrite !progress_cons.
  do 2 f_equal. exact (after_bbox_lines path im tw th t bbox card lb E).
Qed.

(** The lines of a card made without a warning, for a file that opened. *)
Lemma card_narration path im tw th card :
  resize_card s p (Ok im) tw th = (Some card, []) ->
  exists t bbox,
    card_type_of s im = Ok t /\
    get_content_bounding_box im (BLACK_BORDER_THRESHOLD s) = Ok bbox /\
    resize_card_log s p path (Ok im) tw th
    = (Some card, map Progress (narration s p (basename path) im t bbox card)).
Proof.
  unfold resize_card, resize_card_log. rewrite !lbind_lift_Ok.
  rewrite <- (render_log_erase path im tw th).
  destruct (render_log s p path im tw th) as [[c|e] log] eqn:E; cbn [erase log_map fst snd];
    [|discriminate].
  intros [= -> Q]. destruct (progress_of_card path im tw th card log E) as (t & bbox & Et & Eb & P).
  exists t, bbox. split; [exact Et|]. split; [exact Eb|].
  now rewrite <- P, <- (quiet_lines log Q).
Qed.

(** Claim C21: a card made without a warning, whatever the file: the file
    opened, every line of [resize_card_log] is a progress line, and the
    lines are those of [narration] for the frame style and the bounding box
    of the picture: its name and size, its frame style, for extended art the
    sample row and the extent found on it, the action, and the size of the
    card. *)
Theorem card_lines path opened tw th card :
  resize_card s p opened tw th = (Some card, []) ->
  exists im t bbox,
    opened = Ok im /\
    card_type_of s im = Ok t /\
    get_content_bounding_box im (BLACK_BORDER_THRESHOLD s) = Ok bbox /\
    resize_card_log s p path opened tw th
    = (Some card, map Progress (narration s p (basename path) im t bbox card)).
Proof.
  destruct opened as [im|e]; [|discriminate]. intros E.
  destruct (card_narration path im tw th card E) as (t & bbox & R). now exists im, t, bbox.
Qed.

(** A file that opened prints [Processing] first, whatever follows. *)
Lemma resize_card_log_first path im tw th :
  exists rest,
    snd (resize_card_log s p path (Ok im) tw th)
    = Progress (Processing (basename path) (width im) (height im)) :: rest.
Proof.
  unfold resize_card_log, render_log, say. rewrite lbind_lift_Ok, lbind_tell.
  destruct (fst _) as [card|e]; cbn [snd app]; eauto.
Qed.

(** A body that returns printed [Processing] first and [CardFinished] last. *)
Lemma render_log_bracket path im tw th card log :
  render_log s p path im tw th = (Ok card, log) ->
  exists mid,
    log = Progress (Processing (basename path) (width im) (height im)) :: mid
          ++ [Progress (CardFinished (basename path) (size card))].
Proof.
  unfold render_log. intros E.
  apply lbind_Ok_inv in E as (u & l0 & l & E0 & E & ->). injection E0 as _ <-.
  apply lbind_Ok_inv in E as (t & l1 & la & _ & E & ->).
  apply lbind_Ok_inv in E as (bbox & l2 & lb & _ & E & ->).
  apply lbind_Ok_inv in E as (e & l3 & lc & _ & E & ->).
  apply lbind_Ok_inv in E as (e' & l4 & ld & _ & E & ->).
  apply lbind_Ok_inv in E as (o & l5 & le & _ & E & ->).
  apply lbind_Ok_inv in E as (img & l6 & lf & _ & E & ->).
  unfold say in E. rewrite lbind_tell in E. injection E as <- <-.
  exists (l1 ++ l2 ++ l3 ++ l4 ++ l5 ++ l6). cbn [app]. f_equal. now rewrite <- !app_assoc.
Qed.

(** The first and the last line.  A run that makes a card opened the file,
    prints [Processing] first and [CardFinished] last, with the size of the
    card; a run that makes no card prints the error of the exception last,
    and no [CardFinished] line before it when the file did not open. *)
Theorem lines_bracket path opened tw th :
  match resize_card_log s p path opened tw th with
  | (Some card, log) =>
      exists im mid,
        opened = Ok im /\
        log = Progress (Processing (basename path) (width im) (height im)) :: mid
              ++ [Progress (CardFinished (basename path) (size card))]
  | (None, log) =>
      exists e mid,
        log = mid ++ [Problem (report_error e)] /\
        (opened = Raise e -> mid = [])
  end.
Proof.
  unfold resize_card_log. destruct opened as [im|e0];
    [rewrite lbind_lift_Ok | rewrite lbind_lift_Raise; now exists e0, []].
  destruct (render_log s p path im tw th) as [[card|e] log] eqn:E.
  - destruct (render_log_bracket path im tw th card log E) as (mid & ->). now exists im, mid.
  - exists e, log. split; [reflexivity | discriminate].
Qed.

(** *** The lines of the three synthetic cards *)

Context (borders : borders_nonneg p).

(** A picture with a black frame: the size, the frame style, the crop
    with the borders and the size of the card. *)
Theorem framed_card_lines path w h b tw th :
  framed_card s w h b -> 1 <= tw -> 1 <= th ->
  exists card,
    resize_card_log s p path (Ok (framed w h b)) tw th
    = (Some card,
       map Progress [Processing (basename path) w h; type_line s standard;
                     ActionProportional standard; CardFinished (basename path) (tw, th)]).
Proof using borders.
  intros F Htw Hth.
  destruct (standard_card_stages s p w h b tw th F borders Htw Hth)
    as (c & cropped & r & _ & _ & _ & Sr & E).
  destruct (card_narration path _ _ _ _ E) as (t & bbox & Et & _ & L).
  rewrite (card_type_of_framed s w h b F) in Et. injection Et as <-.
  eexists. rewrite L. unfold narration. now rewrite apply_enhancements_size, Sr.
Qed.

(** A picture with black caps: the size, the frame style, the sample row
    and the extent found on it, which ends at the last column, and the
    size of the card. *)
Theorem capped_card_lines path w h b tw th :
  capped_card s p w h b -> 1 <= tw -> 1 <= th ->
  exists card,
    resize_card_log s p path (Ok (framed w h b)) tw th
    = (Some card,
       map Progress
         [Processing (basename path) w h; DetectedCardType extended_art;
          ScanningSides (y0 b + EXTENDED_ART_SCAN_OFFSET_Y_PX p) (y0 b)
            (EXTENDED_ART_SCAN_OFFSET_Y_PX p);
          FoundSideContent (y0 b + EXTENDED_ART_SCAN_OFFSET_Y_PX p) 0 (w - 1);
          CardFinished (basename path) (tw, th)]).
Proof using borders.
  intros C Htw Hth.
  destruct (capped_card_stages s p w h b tw th C borders Htw Hth)
    as (kl & kt & kr & kb & cropped & r & _ & _ & _ & _ & _ & Sr & E).
  destruct (card_narration path _ _ _ _ E) as (t & bbox & Et & Eb & L).
  rewrite (card_type_of_capped s p w h b C) in Et. injection Et as <-.
  destruct C as [Ht Fr Hh [He Hw] [X0 X1] [Hy Hy1] Top Mid Sc].
  rewrite (get_content_bounding_box_complete _ _ b) in Eb
    by (try apply framed_is_bbox; try split; cbn [width height framed]; lia).
  injection Eb as <-. eexists. rewrite L. unfold narration, type_line, side_lines.
  rewrite Fr, apply_enhancements_size, Sr. cbn [width height framed].
  replace ((0 <=? _) && (_ <? h)) with true by zlia.
  rewrite (get_content_extents_at_row_extent _ _ _ 0 (w - 1))
    by (cbn [height framed]; try lia; rewrite <- X0, <- X1; apply framed_row_extent; lia).
  now replace (0 <=? w - 1) with true by zlia.
Qed.

(** A picture without a frame: the size, the frame style, the trim and
    the size of the card. *)
Theorem bare_card_lines path w h b tw th :
  bare_card s w h b -> 0 < FULL_ART_BOTTOM_CROP_PX s < h -> 1 <= tw -> 1 <= th ->
  exists card,
    resize_card_log s p path (Ok (framed w h b)) tw th
    = (Some card,
       map Progress
         [Processing (basename path) w h; DetectedCardType borderless;
          ActionFullArtCrop (FULL_ART_BOTTOM_CROP_PX s);
          CardFinished (basename path) (tw, th)]).
Proof using borders.
  intros B HT Htw Hth.
  destruct (synthetic_card_quiet s p w h b tw th (or_intror (or_intror (conj B HT)))
              borders Htw Hth) as (card & E & Sz).
  destruct (card_narration path _ _ _ _ E) as (t & bbox & Et & _ & L).
  rewrite (card_type_of_bare s w h b B) in Et. injection Et as <-.
  exists card. rewrite L. unfold narration, type_line, action_lines.
  rewrite (bare_free s w h b B), Sz. cbn [side_lines app width height framed].
  now replace (0 <? FULL_ART_BOTTOM_CROP_PX s) with true by zlia.
Qed.

End NarrationFacts.

(** ** Witnesses *)

Lemma sample_framed_card : framed_card default_settings 750 1050 sample_framed.
Proof. constructor; vm_compute; repeat split; (reflexivity || discriminate). Qed.

Lemma sample_capped_lines_card :
  capped_card default_settings default_pixels 750 1050 sample_capped.
Proof. constructor; vm_compute; repeat split; (reflexivity || discriminate). Qed.

Lemma sample_bare_card : bare_card default_settings 750 1050 sample_bare.
Proof. constructor; vm_compute; repeat split; (reflexivity || discriminate). Qed.

Lemma card_lines_witness :
  exists card im t bbox,
    Ok (framed 750 1050 sample_framed) = Ok im /\
    card_type_of default_settings im = Ok t /\
    get_content_bounding_box im (BLACK_BORDER_THRESHOLD default_settings) = Ok bbox /\
    resize_card_log default_settings default_pixels sample_path
      (Ok (framed 750 1050 sample_framed)) 3000 4200
    = (Some card,
       map Progress (narration default_settings default_pixels (basename sample_path)
                       im t bbox card)).
Proof.
  destruct (standard_card_stages default_settings default_pixels 750 1050 sample_framed
              3000 4200 sample_framed_card default_borders_nonneg
              ltac:(discriminate) ltac:(discriminate)) as (c & cropped & r & _ & _ & _ & _ & E).
  eexists. exact (card_lines default_settings default_pixels sample_path _ 3000 4200 _ E).
Defined.

(** ** The lines of three pictures

    With the configuration of the source and any resampling, the pictures
    [a.png] with a frame, with caps and without frame print four, five and
    four lines; the caps are found from column 0 to column 749. *)

Example framed_picture_lines `{Imaging} :
  exists card,
    resize_card_log default_settings default_pixels sample_path
      (Ok (framed 750 1050 sample_framed)) 3000 4200
    = (Some card,
       map Progress [Processing [97; 46; 112; 110; 103] 750 1050;
                     DetectedCardType standard; ActionProportional standard;
                     CardFinished [97; 46; 112; 110; 103] (3000, 4200)]).
Proof.
  exact (framed_card_lines default_settings default_pixels default_borders_nonneg sample_path
           750 1050 sample_framed 3000 4200 sample_framed_card
           ltac:(discriminate) ltac:(discriminate)).
Qed.

Example capped_picture_lines `{Imaging} :
  exists card,
    resize_card_log default_settings default_pixels sample_path
      (Ok (framed 750 1050 sample_capped)) 3000 4200
    = (Some card,
       map Progress [Processing [97; 46; 112; 110; 103] 750 1050;
                     DetectedCardType extended_art; ScanningSides 202 60 142;
                     FoundSideContent 202 0 749;
                     CardFinished [97; 46; 112; 110; 103] (3000, 4200)]).
Proof.
  exact (capped_card_lines default_settings default_pixels default_borders_nonneg sample_path
           750 1050 sample_capped 3000 4200 sample_capped_lines_card
           ltac:(discriminate) ltac:(discriminate)).
Qed.

Example bare_picture_lines `{Imaging} :
  exists card,
    resize_card_log default_settings default_pixels sample_path
      (Ok (framed 750 1050 sample_bare)) 3000 4200
    = (Some card,
       map Progress [Processing [97; 46; 112; 110; 103] 750 1050;
                     DetectedCardType borderless; ActionFullArtCrop 80;
                     CardFinished [97; 46; 112; 110; 103] (3000, 4200)]).
Proof.
  exact (bare_card_lines default_settings default_pixels default_borders_nonneg sample_path
           750 1050 sample_bare 3000 4200 sample_bare_card
           ltac:(split; reflexivity) ltac:(discriminate) ltac:(discriminate)).
Qed.
