(* ===== verification/Sheet.v ===== *)
(** * Sheet: nine cards on a page

    Models [create_printable_sheet] of [src/proxify.py] (lines 388-422).
    A sheet is a white page on which the cards of a chunk of files are
    pasted in a 3 x 3 grid, row by row, and on which four cut lines are
    drawn.  The page is made first ([blank_page], line 390): the library
    refuses a negative size, and this [ValueError] leaves the function.
    The model records the drawing calls and their arguments in order
    ([draw_op]); the page they draw is computed in [Page].  A file stands
    for the outcome of opening it, the argument of
    [Renderer.resize_card].  Saving the page is the function [save] of the
    environment: what [sheet.save] does for a path and a page, return or
    raise.  The source prints the exception of a save and returns as after
    a save that worked (lines 418-422); the model returns the outcome of the
    save beside the page and the warnings.

    The two nested loops leave by [break] when the chunk is exhausted;
    [create_printable_sheet_layout] shows when the page is made and that
    the loops paste the first nine
    cards of the chunk, the k-th in the cell of row [k / 3] and column
    [k mod 3], and skip the cells of the files that gave no card;
    [sheet_of_opened_pictures] that files that open fill the cells in
    order; [placed_printed] that the log of the sheet is the warnings
    and errors of its files, file by file, and [sheet_of_quiet_cards]
    that files that give a card without a warning ([gives_card],
    [quiet]) give a sheet with an empty log. *)

From Stdlib Require Import ZArith List Bool Lia.
Import ListNotations.
From S2P Require Import Prelude Binary64 PyNum Config Image Cropper Renderer Names.
Local Open Scope Z_scope.

(** A call that draws on the page. *)
Inductive draw_op : Type :=
| Paste (card : image) (x y : Z)
| DrawLine (x0 y0 x1 y1 : Z) (fill : Z * Z * Z) (line_width : Z).

(** The variables of the loops: the index of the next file, what was drawn
    and what was printed so far. *)
Record composer : Type := Composer {
  current_image_index : Z;
  drawn : list draw_op;
  printed : list diag
}.

Section Sheet.
Context `{Imaging} (s : settings) (p : pixels).
Context (save : pystr -> list draw_op -> result unit).
Local Open Scope result_scope.

(** The body of the inner loop (lines 395-404). *)
Definition place_cell (image_file_paths_chunk : list (result image))
    (row : Z) (st : composer) (col : Z) : result (composer * bool) :=
  if current_image_index st <? Z.of_nat (length image_file_paths_chunk)
  then
    match nth_error image_file_paths_chunk (Z.to_nat (current_image_index st)) with
    | Some image_path =>
        let '(card_img, log) :=
          resize_card s p image_path (CARD_WIDTH_PX p) (CARD_HEIGHT_PX p) in
        let drawn :=
          match card_img with
          | Some card_img =>
              let paste_x_sheet := MARGIN_X p + col * CARD_WIDTH_PX p in
              let paste_y_sheet := MARGIN_Y p + row * CARD_HEIGHT_PX p in
              drawn st ++ [Paste card_img paste_x_sheet paste_y_sheet]
          | None => drawn st
          end in
        Ok (Composer (current_image_index st + 1) drawn (printed st ++ log), false)
    | None => Raise IndexError
    end
  else Ok (st, true).

(** The body of the outer loop (lines 393-406). *)
Definition place_row (image_file_paths_chunk : list (result image))
    (st : composer) (row : Z) : result (composer * bool) :=
  st <- for_break (place_cell image_file_paths_chunk row) (range 0 3) st ;;
  Ok (st, Z.of_nat (length image_file_paths_chunk) <=? current_image_index st).

(** The four cut lines (lines 408-417). *)
Definition vertical_line (col_idx : Z) : draw_op :=
  let line_x := MARGIN_X p + col_idx * CARD_WIDTH_PX p in
  DrawLine (line_x - LINE_WIDTH s / 2) 0
           (line_x - LINE_WIDTH s / 2) (PAPER_HEIGHT_PX p)
           (LINE_COLOR s) (LINE_WIDTH s).

Definition horizontal_line (row_idx : Z) : draw_op :=
  let line_y := MARGIN_Y p + row_idx * CARD_HEIGHT_PX p in
  DrawLine 0 (line_y - LINE_WIDTH s / 2)
           (PAPER_WIDTH_PX p) (line_y - LINE_WIDTH s / 2)
           (LINE_COLOR s) (LINE_WIDTH s).

Definition cut_lines : list draw_op :=
  map vertical_line (range 1 3) ++ map horizontal_line (range 1 3).

(** The page before anything is drawn: white, of the size of the paper
    (line 390).  The library refuses a negative size. *)
Definition blank_page : result image :=
  new (PAPER_WIDTH_PX p, PAPER_HEIGHT_PX p) white.

(** The calls that draw a sheet, what is printed on the way, and the
    outcome of saving the sheet, which does not leave the function. *)
Definition create_printable_sheet (image_file_paths_chunk : list (result image))
    (output_path_for_sheet : pystr)
    : result (list draw_op * list diag * result unit) :=
  sheet <- blank_page ;;
  st <- for_break (place_row image_file_paths_chunk) (range 0 3) (Composer 0 [] []) ;;
  let calls := drawn st ++ cut_lines in
  Ok (calls, printed st, save output_path_for_sheet calls).

(** ** Reference layout *)

(** A paper the library can make a page of. *)
Definition paper_ok : Prop := 0 <= PAPER_WIDTH_PX p /\ 0 <= PAPER_HEIGHT_PX p.

(** The corner of the k-th cell, counting row by row. *)
Definition cell_origin (k : Z) : Z * Z :=
  (MARGIN_X p + (k mod 3) * CARD_WIDTH_PX p, MARGIN_Y p + (k / 3) * CARD_HEIGHT_PX p).

(** The paste of one file in cell [k], if it gives a card. *)
Definition paste_of (k : Z) (image_path : result image) : list draw_op :=
  match fst (resize_card s p image_path (CARD_WIDTH_PX p) (CARD_HEIGHT_PX p)) with
  | Some card_img => [Paste card_img (fst (cell_origin k)) (snd (cell_origin k))]
  | None => []
  end.

(** The state after the first [n] files of the chunk. *)
Fixpoint placed (chunk : list (result image)) (n : nat) : composer :=
  match n with
  | O => Composer 0 [] []
  | S n' =>
      let st := placed chunk n' in
      match nth_error chunk n' with
      | Some image_path =>
          Composer (Z.of_nat n)
            (drawn st ++ paste_of (Z.of_nat n') image_path)
            (printed st ++ snd (resize_card s p image_path (CARD_WIDTH_PX p)
                                  (CARD_HEIGHT_PX p)))
      | None => st
      end
  end.

(** The rectangle a card pasted in cell [k] covers. *)
Definition cell_box (k : Z) : box :=
  Box (fst (cell_origin k)) (snd (cell_origin k))
      (fst (cell_origin k) + CARD_WIDTH_PX p) (snd (cell_origin k) + CARD_HEIGHT_PX p).

(** A call that belongs on the sheet of a chunk. *)
Definition on_grid (chunk : list (result image)) (op : draw_op) : Prop :=
  match op with
  | Paste c x y =>
      exists k image_path,
        0 <= k < 9 /\ nth_error chunk (Z.to_nat k) = Some image_path /\
        (x, y) = cell_origin k /\ size c = (CARD_WIDTH_PX p, CARD_HEIGHT_PX p)
  | DrawLine _ _ _ _ _ _ => In op cut_lines
  end.

Definition disjoint (a b : box) : Prop :=
  x1 a <= x0 b \/ x1 b <= x0 a \/ y1 a <= y0 b \/ y1 b <= y0 a.

(** A file that opened as a picture with at least one pixel. *)
Definition opened (image_path : result image) : Prop :=
  exists im, image_path = Ok im /\ nonempty im.

(** A call that pastes a card of the card size in cell [k]. *)
Definition card_at (k : Z) (op : draw_op) : Prop :=
  exists card, op = Paste card (fst (cell_origin k)) (snd (cell_origin k)) /\
               size card = (CARD_WIDTH_PX p, CARD_HEIGHT_PX p).

(** A file that gives a card of the card size, and a file for which
    [resize_card] prints no warning and no error. *)
Definition gives_card (image_path : result image) : Prop :=
  exists card,
    fst (resize_card s p image_path (CARD_WIDTH_PX p) (CARD_HEIGHT_PX p)) = Some card /\
    size card = (CARD_WIDTH_PX p, CARD_HEIGHT_PX p).

Definition quiet (image_path : result image) : Prop :=
  snd (resize_card s p image_path (CARD_WIDTH_PX p) (CARD_HEIGHT_PX p)) = [].

End Sheet.

(** ** Theorems *)

Lemma paper_ok_dec (p : pixels) : {paper_ok p} + {~ paper_ok p}.
Proof.
  unfold paper_ok.
  destruct (Z_le_dec 0 (PAPER_WIDTH_PX p)), (Z_le_dec 0 (PAPER_HEIGHT_PX p));
    (left; tauto) || (right; tauto).
Qed.

Section SheetFacts.
Context `{Imaging} (s : settings) (p : pixels).

Lemma range_0_3 : range 0 3 = [0; 1; 2].
Proof. reflexivity. Qed.

Lemma placed_index chunk n :
  (n <= length chunk)%nat -> current_image_index (placed s p chunk n) = Z.of_nat n.
Proof.
  destruct n as [|n]; [reflexivity|]. intros Hn. cbn [placed].
  destruct (nth_error chunk n) eqn:E; [reflexivity|].
  apply nth_error_None in E. lia.
Qed.

(** Past the end of the chunk nothing more is placed. *)
Lemma placed_full chunk n :
  (length chunk <= n)%nat -> placed s p chunk n = placed s p chunk (length chunk).
Proof.
  induction n as [|n IH]; intros Hn.
  - now replace (length chunk) with 0%nat by lia.
  - destruct (Nat.eq_dec (length chunk) (S n)) as [->|Ne]; [reflexivity|].
    cbn [placed]. rewrite (proj2 (nth_error_None chunk n)) by lia. apply IH. lia.
Qed.

Lemma cell_origin_row_col row col :
  0 <= col < 3 ->
  cell_origin p (3 * row + col)
  = (MARGIN_X p + col * CARD_WIDTH_PX p, MARGIN_Y p + row * CARD_HEIGHT_PX p).
Proof.
  intros Hc. unfold cell_origin.
  replace ((3 * row + col) mod 3) with col by zdiv.
  now replace ((3 * row + col) / 3) with row by zdiv.
Qed.

(** One turn of the inner loop on the state after [n] files. *)
Lemma place_cell_step chunk row col n :
  0 <= col < 3 -> Z.of_nat n = 3 * row + col -> (n <= length chunk)%nat ->
  place_cell s p chunk row (placed s p chunk n) col
  = Ok (placed s p chunk (S n), negb (Z.of_nat n <? Z.of_nat (length chunk))).
Proof.
  intros Hc Hn Hl. unfold place_cell. rewrite placed_index by assumption.
  destruct (Z.of_nat n <? _) eqn:E; cbn [negb].
  - rewrite Nat2Z.id. cbn [placed]. destruct (nth_error chunk n) as [o|] eqn:En.
    + unfold paste_of. rewrite Hn, cell_origin_row_col by assumption.
      destruct (resize_card _ _ _ _ _) as [[c|] l]; cbn [fst snd];
        rewrite ?app_nil_r; repeat f_equal; lia.
    + apply nth_error_None in En. zlia.
  - now rewrite (placed_full chunk (S n)), (placed_full chunk n) by zlia.
Qed.

(** The inner loop on row [row], from the state after [3 * row] files. *)
Lemma inner_loop chunk row :
  0 <= row -> (Z.to_nat (3 * row) <= length chunk)%nat ->
  for_break (place_cell s p chunk row) (range 0 3) (placed s p chunk (Z.to_nat (3 * row)))
  = Ok (placed s p chunk (Z.to_nat (3 * row + 3))).
Proof.
  intros Hr Hl. rewrite range_0_3. set (n := Z.to_nat (3 * row)) in *.
  replace (Z.to_nat (3 * row + 3)) with (S (S (S n))) by lia.
  cbn [for_break]. rewrite place_cell_step by lia. cbn [bind fst snd].
  destruct (Z.of_nat n <? _) eqn:E0; cbn [negb];
    [|now rewrite (placed_full chunk (S n)), (placed_full chunk (S (S (S n)))) by zlia].
  rewrite place_cell_step by zlia. cbn [bind fst snd].
  destruct (Z.of_nat (S n) <? _) eqn:E1; cbn [negb];
    [|now rewrite (placed_full chunk (S (S n))), (placed_full chunk (S (S (S n)))) by zlia].
  rewrite place_cell_step by zlia. cbn [bind fst snd].
  now destruct (Z.of_nat (S (S n)) <? _).
Qed.

(** One turn of the outer loop. *)
Lemma place_row_step chunk row :
  0 <= row -> (Z.to_nat (3 * row) <= length chunk)%nat ->
  place_row s p chunk (placed s p chunk (Z.to_nat (3 * row))) row
  = Ok (placed s p chunk (Z.to_nat (3 * row + 3)),
        Z.of_nat (length chunk) <=? 3 * row + 3).
Proof.
  intros Hr Hl. unfold place_row. rewrite inner_loop by assumption. cbn [bind].
  f_equal. f_equal. destruct (Nat.le_gt_cases (Z.to_nat (3 * row + 3)) (length chunk)).
  - rewrite placed_index by assumption. f_equal. lia.
  - rewrite placed_full, placed_index by lia.
    rewrite !(proj2 (Z.leb_le _ _)) by lia. reflexivity.
Qed.

(** The paper of a configuration without a negative length. *)
Lemma calculated_paper_ok :
  calculations s = Ok p -> settings_nonneg s -> paper_ok p.
Proof.
  intros E N. pose proof (calculations_sizes s p E N) as F. unfold sizes in F.
  repeat match goal with H : Forall _ (_ :: _) |- _ => apply Forall_cons_iff in H as [? H] end.
  now split.
Qed.

Lemma blank_page_ok :
  paper_ok p ->
  blank_page p = Ok (Raster (PAPER_WIDTH_PX p) (PAPER_HEIGHT_PX p) (fun _ _ => white)).
Proof. intros [Hw Hh]. unfold blank_page. now rewrite new_ok. Qed.

Lemma blank_page_raise : ~ paper_ok p -> blank_page p = Raise ValueError.
Proof.
  intros N. unfold blank_page, new, paper_ok in *. cbn [fst snd].
  destruct (PAPER_WIDTH_PX p <? 0) eqn:Ew, (PAPER_HEIGHT_PX p <? 0) eqn:Eh;
    try reflexivity. exfalso. apply N. zlia.
Qed.

(** The loops leave the state [placed chunk 9], and the cut lines are
    drawn after the cards. *)
Lemma loops_layout chunk :
  for_break (place_row s p chunk) (range 0 3) (Composer 0 [] []) = Ok (placed s p chunk 9).
Proof.
  rewrite range_0_3. cbn [for_break].
  change (Composer 0 [] []) with (placed s p chunk (Z.to_nat (3 * 0))).
  rewrite place_row_step by (cbn; lia). cbn [bind fst snd].
  destruct (_ <=? 3 * 0 + 3) eqn:E0;
    [now rewrite (placed_full chunk 9), (placed_full chunk (Z.to_nat _)) by zlia|].
  change (Z.to_nat (3 * 0 + 3)) with (Z.to_nat (3 * 1)).
  rewrite place_row_step by zlia. cbn [bind fst snd].
  destruct (_ <=? 3 * 1 + 3) eqn:E1;
    [now rewrite (placed_full chunk 9), (placed_full chunk (Z.to_nat _)) by zlia|].
  change (Z.to_nat (3 * 1 + 3)) with (Z.to_nat (3 * 2)).
  rewrite place_row_step by zlia. cbn [bind fst snd].
  now destruct (_ <=? 3 * 2 + 3).
Qed.

Context (save : pystr -> list draw_op -> result unit) (output_path_for_sheet : pystr).

(** The sheet on any paper: the page is made first, and a paper it cannot
    be made of ends the function before a file is opened. *)
Lemma sheet_layout_any chunk :
  create_printable_sheet s p save chunk output_path_for_sheet
  = (_ <- blank_page p ;;
     Ok (drawn (placed s p chunk 9) ++ cut_lines s p, printed (placed s p chunk 9),
         save output_path_for_sheet (drawn (placed s p chunk 9) ++ cut_lines s p)))%result.
Proof. unfold create_printable_sheet. now rewrite loops_layout. Qed.

(** Claim C10: the sheet, on any paper and any chunk: the page is made first,
    and a negative paper size raises before a file is opened; otherwise the
    loops never raise, consume the first nine files of the chunk and no
    more, pasting them in order, and draw the four cut lines after the
    cards. *)
Theorem create_printable_sheet_layout chunk :
  create_printable_sheet s p save chunk output_path_for_sheet
  = (_ <- blank_page p ;;
     Ok (drawn (placed s p chunk 9) ++ cut_lines s p, printed (placed s p chunk 9),
         save output_path_for_sheet (drawn (placed s p chunk 9) ++ cut_lines s p)))%result /\
  (blank_page p = Raise ValueError <-> ~ paper_ok p) /\
  current_image_index (placed s p chunk 9) = Z.min 9 (Z.of_nat (length chunk)).
Proof.
  split; [apply sheet_layout_any|]. split.
  - split; [|apply blank_page_raise]. intros E P.
    now rewrite (blank_page_ok P) in E.
  - destruct (Nat.le_gt_cases 9 (length chunk)).
    + rewrite placed_index by assumption. lia.
    + rewrite placed_full, placed_index by lia. lia.
Qed.

(** *** On a paper of a size that is not negative *)

Context (paper : paper_ok p).

Lemma sheet_layout chunk :
  create_printable_sheet s p save chunk output_path_for_sheet
  = Ok (drawn (placed s p chunk 9) ++ cut_lines s p, printed (placed s p chunk 9),
        save output_path_for_sheet (drawn (placed s p chunk 9) ++ cut_lines s p)).
Proof. now rewrite sheet_layout_any, blank_page_ok. Qed.

(** *** The grid *)

(** Every paste of the first [n] files is the card of one of them, of the
    card size, at the origin of the cell of its index. *)
Lemma placed_pastes chunk n c x y :
  In (Paste c x y) (drawn (placed s p chunk n)) ->
  exists k image_path,
    0 <= k < Z.of_nat n /\ nth_error chunk (Z.to_nat k) = Some image_path /\
    fst (resize_card s p image_path (CARD_WIDTH_PX p) (CARD_HEIGHT_PX p)) = Some c /\
    (x, y) = cell_origin p k.
Proof.
  induction n as [|n IH]; [intros []|]. cbn [placed].
  destruct (nth_error chunk n) as [o|] eqn:E; cbn [drawn].
  - rewrite in_app_iff. intros [I|I].
    + destruct (IH I) as (k & o' & Hk & R). exists k, o'. split; [lia | exact R].
    + unfold paste_of in I. destruct (fst (resize_card _ _ _ _ _)) as [c'|] eqn:Ec;
        [|destruct I]. destruct I as [[= <- <- <-]|[]].
      exists (Z.of_nat n), o. rewrite Nat2Z.id. repeat split; try lia; try assumption.
  - intros I. destruct (IH I) as (k & o' & Hk & R). exists k, o'. split; [lia | exact R].
Qed.

(** Two different cells of the grid do not overlap. *)
Lemma cell_boxes_disjoint k k' :
  0 < CARD_WIDTH_PX p -> 0 < CARD_HEIGHT_PX p ->
  0 <= k < 9 -> 0 <= k' < 9 -> k <> k' ->
  disjoint (cell_box p k) (cell_box p k').
Proof using Type.
  clear save output_path_for_sheet.
  intros Hw Hh Hk Hk' Ne. unfold disjoint, cell_box, cell_origin. cbn [x0 x1 y0 y1 fst snd].
  assert (C : k mod 3 < k' mod 3 \/ k' mod 3 < k mod 3 \/ k / 3 < k' / 3 \/ k' / 3 < k / 3)
    by zdiv.
  destruct C as [C|[C|[C|C]]]; [left | right; left | right; right; left | right; right; right]; nia.
Qed.

(** A cell lies on the page when the grid does. *)
Lemma cell_box_on_page k :
  0 <= CARD_WIDTH_PX p -> 0 <= CARD_HEIGHT_PX p ->
  0 <= MARGIN_X p -> 0 <= MARGIN_Y p ->
  MARGIN_X p + 3 * CARD_WIDTH_PX p <= PAPER_WIDTH_PX p ->
  MARGIN_Y p + 3 * CARD_HEIGHT_PX p <= PAPER_HEIGHT_PX p ->
  0 <= k < 9 ->
  0 <= x0 (cell_box p k) /\ x1 (cell_box p k) <= PAPER_WIDTH_PX p /\
  0 <= y0 (cell_box p k) /\ y1 (cell_box p k) <= PAPER_HEIGHT_PX p.
Proof using Type.
  clear save output_path_for_sheet.
  intros Hw Hh Mx My Gx Gy Hk. unfold cell_box, cell_origin. cbn [x0 x1 y0 y1 fst snd].
  assert (C : 0 <= k mod 3 <= 2 /\ 0 <= k / 3 <= 2) by zdiv. nia.
Qed.

Lemma cell_origin_inj k k' :
  0 < CARD_WIDTH_PX p -> 0 < CARD_HEIGHT_PX p ->
  cell_origin p k = cell_origin p k' -> k = k'.
Proof using Type.
  clear save output_path_for_sheet.
  intros Hw Hh. unfold cell_origin. intros [= Ex Ey].
  assert (k mod 3 = k' mod 3) by nia. assert (k / 3 = k' / 3) by nia. zdiv.
Qed.

Lemma in_cut_lines c x y : ~ In (Paste c x y) (cut_lines s p).
Proof.
  unfold cut_lines. rewrite in_app_iff, !in_map_iff.
  intros [(i & E & _)|(i & E & _)]; discriminate.
Qed.

Lemma in_cut_lines' chunk n a b c d f w :
  ~ In (DrawLine a b c d f w) (drawn (placed s p chunk n)).
Proof.
  induction n as [|n IH]; [intros []|]. cbn [placed].
  destruct (nth_error chunk n); [|exact IH]. cbn [drawn]. rewrite in_app_iff.
  intros [I|I]; [now apply IH|]. unfold paste_of in I.
  destruct (fst _); [destruct I as [|[]]; discriminate | destruct I].
Qed.

(** The pastes of a sheet are pastes of the first nine files. *)
Lemma sheet_pastes chunk ops log r c x y :
  create_printable_sheet s p save chunk output_path_for_sheet = Ok (ops, log, r) ->
  In (Paste c x y) ops ->
  In (Paste c x y) (drawn (placed s p chunk 9)).
Proof.
  rewrite sheet_layout. generalize (placed s p chunk 9) as st.
  intros st [= <- _ _]. rewrite in_app_iff.
  intros [I|I]; [assumption|]. now apply in_cut_lines in I.
Qed.

(** *** Files that open *)

(** The pastes of the first [n] files, file by file. *)
Lemma placed_drawn chunk n :
  (n <= length chunk)%nat ->
  drawn (placed s p chunk n)
  = concat (map (fun k => paste_of s p k (nth (Z.to_nat k) chunk (Raise IndexError)))
                (range 0 (Z.of_nat n))).
Proof.
  induction n as [|n IH]; intros Hn; [reflexivity|].
  rewrite Nat2Z.inj_succ, <- Z.add_1_r, range_snoc by lia.
  rewrite map_app, concat_app. cbn [map concat placed]. rewrite app_nil_r.
  destruct (nth_error chunk n) as [o|] eqn:E; [|apply nth_error_None in E; lia].
  cbn [drawn]. rewrite IH by lia.
  replace (Z.of_nat n + 1 - 1) with (Z.of_nat n) by lia. rewrite Nat2Z.id.
  now rewrite (nth_error_nth _ _ _ E).
Qed.

(** A file that opened gives a card. *)
Lemma opened_gives_card o :
  opened o -> 1 <= CARD_WIDTH_PX p -> 1 <= CARD_HEIGHT_PX p -> gives_card s p o.
Proof.
  intros (im & -> & N) Hw Hh.
  destruct (resize_card_opened s p im _ _ N Hw Hh) as (card & E & Sz).
  exists card. now rewrite E.
Qed.

(** The paste of a file that gives a card: its card, of the card size. *)
Lemma paste_of_card k o :
  gives_card s p o -> exists op, paste_of s p k o = [op] /\ card_at p k op.
Proof.
  intros (card & E & Sz). unfold paste_of. rewrite E.
  eexists. split; [reflexivity|]. now exists card.
Qed.

Lemma paste_of_opened k o :
  opened o -> 1 <= CARD_WIDTH_PX p -> 1 <= CARD_HEIGHT_PX p ->
  exists op, paste_of s p k o = [op] /\ card_at p k op.
Proof. intros O Hw Hh. now apply paste_of_card, opened_gives_card. Qed.

Lemma pastes_of_cards chunk (ks : list Z) :
  Forall (gives_card s p) chunk ->
  Forall (fun k => 0 <= k < Z.of_nat (length chunk)) ks ->
  Forall2 (card_at p) ks
    (concat (map (fun k => paste_of s p k (nth (Z.to_nat k) chunk (Raise IndexError))) ks)).
Proof.
  intros N. induction 1 as [|k ks Hk _ IH]; [constructor|].
  cbn [map concat].
  destruct (nth_error chunk (Z.to_nat k)) as [o|] eqn:E; [|apply nth_error_None in E; lia].
  rewrite (nth_error_nth chunk (Z.to_nat k) _ E).
  destruct (paste_of_card k o) as (op & -> & C); [|now constructor].
  rewrite Forall_forall in N. eapply N, nth_error_In, E.
Qed.

(** When every file gives a card, the first nine cells hold a card each. *)
Lemma placed_cards chunk :
  Forall (gives_card s p) chunk ->
  Forall2 (card_at p) (range 0 (Z.min 9 (Z.of_nat (length chunk))))
          (drawn (placed s p chunk 9)).
Proof.
  intros N. set (n := Nat.min 9 (length chunk)).
  replace (placed s p chunk 9) with (placed s p chunk n).
  - rewrite placed_drawn by lia. replace (Z.min 9 _) with (Z.of_nat n) by lia.
    apply pastes_of_cards; trivial. apply Forall_forall. intros k Hk%in_range. lia.
  - destruct (Nat.le_gt_cases 9 (length chunk)); [now replace n with 9%nat by lia|].
    replace n with (length chunk) by lia. symmetry. apply placed_full. lia.
Qed.

Lemma placed_opened chunk :
  Forall opened chunk -> 1 <= CARD_WIDTH_PX p -> 1 <= CARD_HEIGHT_PX p ->
  Forall2 (card_at p) (range 0 (Z.min 9 (Z.of_nat (length chunk))))
          (drawn (placed s p chunk 9)).
Proof.
  intros N Hw Hh. apply placed_cards. eapply Forall_impl; [|exact N].
  intros o O. now apply opened_gives_card.
Qed.

(** What is printed for the first [n] files: the warnings and the errors of
    each, file by file. *)
Lemma placed_printed chunk n :
  printed (placed s p chunk n)
  = flat_map (fun o => snd (resize_card s p o (CARD_WIDTH_PX p) (CARD_HEIGHT_PX p)))
             (firstn n chunk).
Proof.
  induction n as [|n IH]; [reflexivity|]. cbn [placed].
  destruct (nth_error chunk n) as [o|] eqn:E.
  - cbn [printed]. rewrite (firstn_snoc _ _ _ E), flat_map_app, IH. cbn [flat_map].
    now rewrite app_nil_r.
  - now rewrite (firstn_past _ _ E).
Qed.

(** Files for which [resize_card] prints no warning and no error leave
    the log of the sheet empty. *)
Lemma placed_quiet chunk n :
  Forall (quiet s p) chunk -> printed (placed s p chunk n) = [].
Proof.
  intros Q. induction n as [|n IH]; [reflexivity|]. cbn [placed].
  destruct (nth_error chunk n) as [o|] eqn:E; [|exact IH]. cbn [printed].
  rewrite IH. rewrite Forall_forall in Q. exact (Q o (nth_error_In _ _ E)).
Qed.

(** A file that opened has its card in its cell. *)
Lemma placed_has_card chunk n k o :
  (n <= length chunk)%nat -> 0 <= k < Z.of_nat n ->
  nth_error chunk (Z.to_nat k) = Some o -> opened o ->
  1 <= CARD_WIDTH_PX p -> 1 <= CARD_HEIGHT_PX p ->
  exists op, In op (drawn (placed s p chunk n)) /\ card_at p k op.
Proof.
  intros Hn Hk E O Hw Hh. rewrite placed_drawn by assumption.
  destruct (paste_of_opened k o O Hw Hh) as (op & Ep & C).
  exists op. split; [|exact C]. apply in_concat.
  exists (paste_of s p k o). split; [|rewrite Ep; now left].
  apply in_map_iff. exists k. rewrite (nth_error_nth _ _ _ E).
  split; [reflexivity|]. apply in_range. lia.
Qed.

(** Every call that draws a sheet is a cut line or the paste of a
    card of the card size at the origin of the cell of its file: file [k]
    of the chunk, [k < 9], in column [k mod 3] and row [k / 3]. *)
Theorem sheet_cards_in_cells chunk :
  match create_printable_sheet s p save chunk output_path_for_sheet with
  | Ok (ops, _, _) => Forall (on_grid s p chunk) ops
  | Raise _ => False
  end.
Proof.
  rewrite sheet_layout. apply Forall_app. split; apply Forall_forall; intros op I.
  - destruct op as [c x y|]; cbn [on_grid]; [|apply in_cut_lines' in I; contradiction].
    apply placed_pastes in I as (k & o & Hk & Ho & Hc & Hxy).
    exists k, o. repeat split; try assumption; try lia.
    destruct (resize_card s p o _ _) as [c' l] eqn:R. cbn [fst] in Hc. subst c'.
    exact (resize_card_sized s p _ _ _ _ _ R).
  - destruct op; [now apply in_cut_lines in I | exact I].
Qed.

(** Claim C35: two cards pasted at different places of a sheet do not
    overlap. *)
Theorem sheet_cards_disjoint chunk :
  0 < CARD_WIDTH_PX p -> 0 < CARD_HEIGHT_PX p ->
  match create_printable_sheet s p save chunk output_path_for_sheet with
  | Ok (ops, _, _) =>
      forall c x y c' x' y',
        In (Paste c x y) ops -> In (Paste c' x' y') ops -> (x, y) <> (x', y') ->
        disjoint (Box x y (x + CARD_WIDTH_PX p) (y + CARD_HEIGHT_PX p))
                 (Box x' y' (x' + CARD_WIDTH_PX p) (y' + CARD_HEIGHT_PX p))
  | Raise _ => False
  end.
Proof.
  intros Hw Hh.
  destruct (create_printable_sheet s p save chunk output_path_for_sheet)
    as [[[ops log] r]|e] eqn:E;
    [|now rewrite sheet_layout in E].
  intros c x y c' x' y' I I' Ne.
  apply (sheet_pastes _ _ _ _ _ _ _ E), placed_pastes in I as (k & _ & Hk & _ & _ & Hxy).
  apply (sheet_pastes _ _ _ _ _ _ _ E), placed_pastes in I' as (k' & _ & Hk' & _ & _ & Hxy').
  assert (Nk : k <> k') by (intros ->; congruence).
  pose proof (cell_boxes_disjoint k k' Hw Hh ltac:(lia) ltac:(lia) Nk) as D.
  unfold cell_box in D. rewrite <- Hxy, <- Hxy' in D. exact D.
Qed.

(** A file that cannot be opened leaves its cell of the sheet
    empty; the sheet is still composed. *)
Theorem sheet_skips_unopened chunk k e :
  0 < CARD_WIDTH_PX p -> 0 < CARD_HEIGHT_PX p ->
  0 <= k -> nth_error chunk (Z.to_nat k) = Some (Raise e) ->
  exists ops log,
    create_printable_sheet s p save chunk output_path_for_sheet
    = Ok (ops, log, save output_path_for_sheet ops) /\
    forall c, ~ In (Paste c (fst (cell_origin p k)) (snd (cell_origin p k))) ops.
Proof.
  intros Hw Hh Hk Ek. rewrite sheet_layout. eexists _, _.
  split; [reflexivity|]. intros c. rewrite in_app_iff. intros [I|I];
    [|now apply in_cut_lines in I].
  apply placed_pastes in I as (k' & o & _ & Ho & Hc & Hxy).
  rewrite <- surjective_pairing in Hxy. apply cell_origin_inj in Hxy; try assumption.
  subst k'. rewrite Ek in Ho. injection Ho as <-. discriminate.
Qed.
(** When the files of a chunk open as pictures with at least one
    pixel, the sheet is drawn without an exception: one card of the card
    size in each of the first min(9, len(chunk)) cells, in order, followed
    by the four cut lines. *)
Theorem sheet_of_opened_pictures chunk :
  Forall opened chunk -> 1 <= CARD_WIDTH_PX p -> 1 <= CARD_HEIGHT_PX p ->
  exists cards log,
    create_printable_sheet s p save chunk output_path_for_sheet
    = Ok (cards ++ cut_lines s p, log, save output_path_for_sheet (cards ++ cut_lines s p)) /\
    Forall2 (card_at p) (range 0 (Z.min 9 (Z.of_nat (length chunk)))) cards.
Proof.
  intros N Hw Hh. rewrite sheet_layout. eexists _, _. split; [reflexivity|].
  now apply placed_opened.
Qed.

(** When every file of a chunk gives a card without a warning or an
    error, the sheet is the cards in the first min(9, len(chunk)) cells, in
    order, followed by the four cut lines, and its log is empty. *)
Theorem sheet_of_quiet_cards chunk :
  Forall (gives_card s p) chunk -> Forall (quiet s p) chunk ->
  exists cards,
    create_printable_sheet s p save chunk output_path_for_sheet
    = Ok (cards ++ cut_lines s p, [], save output_path_for_sheet (cards ++ cut_lines s p)) /\
    Forall2 (card_at p) (range 0 (Z.min 9 (Z.of_nat (length chunk)))) cards.
Proof.
  intros G Q. rewrite sheet_layout, (placed_quiet chunk 9 Q).
  eexists. split; [reflexivity|]. now apply placed_cards.
Qed.

End SheetFacts.

(** ** Witnesses *)

Lemma default_paper_ok : paper_ok default_pixels.
Proof. split; cbn; lia. Qed.

Lemma sheet_cards_disjoint_witness :
  match create_printable_sheet default_settings default_pixels (fun _ _ => Ok tt)
          [Ok (new_black 4 3); Raise FileNotFoundError; Ok (new_black 4 3)] [] with
  | Ok (ops, _, _) =>
      forall c x y c' x' y',
        In (Paste c x y) ops -> In (Paste c' x' y') ops -> (x, y) <> (x', y') ->
        disjoint (Box x y (x + CARD_WIDTH_PX default_pixels)
                      (y + CARD_HEIGHT_PX default_pixels))
                 (Box x' y' (x' + CARD_WIDTH_PX default_pixels)
                      (y' + CARD_HEIGHT_PX default_pixels))
  | Raise _ => False
  end.
Proof.
  apply (sheet_cards_disjoint default_settings default_pixels (fun _ _ => Ok tt) []
           default_paper_ok [Ok (new_black 4 3); Raise FileNotFoundError; Ok (new_black 4 3)]); cbn; lia.
Defined.

Lemma sheet_cards_in_cells_witness :
  match create_printable_sheet default_settings default_pixels (fun _ _ => Ok tt)
          [Ok (new_black 4 3); Raise FileNotFoundError; Ok (new_black 4 3)] [] with
  | Ok (ops, _, _) =>
      Forall (on_grid default_settings default_pixels
                [Ok (new_black 4 3); Raise FileNotFoundError; Ok (new_black 4 3)]) ops
  | Raise _ => False
  end.
Proof.
  exact (sheet_cards_in_cells default_settings default_pixels (fun _ _ => Ok tt) []
           default_paper_ok [Ok (new_black 4 3); Raise FileNotFoundError; Ok (new_black 4 3)]).
Defined.

Lemma sheet_skips_unopened_witness :
  exists ops log,
    create_printable_sheet default_settings default_pixels (fun _ _ => Raise OSError)
      [Ok (new_black 4 3); Raise FileNotFoundError; Ok (new_black 4 3)] []
    = Ok (ops, log, Raise OSError) /\
    forall c, ~ In (Paste c (fst (cell_origin default_pixels 1))
                          (snd (cell_origin default_pixels 1))) ops.
Proof.
  apply (sheet_skips_unopened default_settings default_pixels (fun _ _ => Raise OSError) []
           default_paper_ok [Ok (new_black 4 3); Raise FileNotFoundError; Ok (new_black 4 3)] 1
           FileNotFoundError);
    [cbn; lia | cbn; lia | lia | reflexivity].
Defined.

(** ** Concrete checks *)

(** With the source's configuration the cut lines are drawn two pixels
    before the boundaries of the cells, across the whole page. *)
Example default_cut_lines :
  cut_lines default_settings default_pixels
  = [DrawLine 3598 0 3598 13200 (255, 51, 153) 4;
     DrawLine 6598 0 6598 13200 (255, 51, 153) 4;
     DrawLine 0 4498 10200 4498 (255, 51, 153) 4;
     DrawLine 0 8698 10200 8698 (255, 51, 153) 4].
Proof. reflexivity. Qed.

Lemma sheet_of_opened_pictures_witness :
  exists cards log,
    create_printable_sheet default_settings default_pixels (fun _ _ => Ok tt)
      [Ok (new_black 4 3); Ok (framed 8 6 (Box 2 1 6 5))] []
    = Ok (cards ++ cut_lines default_settings default_pixels, log, Ok tt) /\
    Forall2 (card_at default_pixels)
      (range 0 (Z.min 9 (Z.of_nat (length [Ok (new_black 4 3); Ok (framed 8 6 (Box 2 1 6 5))]))))
      cards.
Proof.
  apply (sheet_of_opened_pictures default_settings default_pixels (fun _ _ => Ok tt) []
           default_paper_ok [Ok (new_black 4 3); Ok (framed 8 6 (Box 2 1 6 5))]).
  - repeat constructor; eexists; (split; [reflexivity | split; cbn; lia]).
  - cbn. lia.
  - cbn. lia.
Defined.
