(* ===== verification/Page.v ===== *)
(** * Page: the pixels of a sheet

    [Sheet.create_printable_sheet] records the calls that draw a sheet.
    This file gives them their meaning on the page: [sheet.paste(card_img,
    (x, y), card_img)] of line 401 and [draw.line] of lines 410 and 415
    change the page in place, one after the other, so the page that is
    saved is the fold of the calls over the white page of line 390
    ([page_of], [printed_page]).

    The two calls are the library's.  A paste with a mask copies the pixel
    of the card where the mask is 255, keeps the pixel of the page where it
    is 0 and mixes the two in between; the mask is the card itself, that is
    its alpha channel, every card being of mode RGBA (line 233), and the
    part of the card that falls outside the page is dropped.  What a mix
    computes and which pixels a line of some width covers is left to the
    class [Canvas], which promises two things of a line: it stays within
    its width of the rectangle spanned by its end points, and a line along
    an axis covers the pixels between its end points.  [box_canvas] is an
    instance that computes.

    [printed_page_pixels] gives every pixel of the page of a chunk: the
    colour of the cut lines under a cut line; otherwise, in the cell of a
    file that gave a card, the pixel of the card over white; white
    everywhere else.  It rests on the cells being disjoint
    ([Sheet.cell_boxes_disjoint]): no card covers another.  The corollaries
    read off what the specification asks of a sheet: the cut lines are
    visible from edge to edge, an opaque pixel of a card away from the cut
    lines is on the page unchanged, and the cell of a file that gave no
    card stays white. *)

From Stdlib Require Import ZArith List Bool Lia Morphisms.
Import ListNotations.
From S2P Require Import Prelude Binary64 PyNum Config Image Cropper Renderer Names Sheet.
Local Open Scope Z_scope.

(** ** The drawing operations of the library *)

Class Canvas : Type := {
  (** the pixel a paste leaves where the mask is neither 0 nor 255, from
      the pixel of the page and the pixel pasted *)
  mix : pixel -> pixel -> pixel;
  (** [on_line a b w x y]: a line from [a] to [b] of width [w] covers the
      pixel [(x, y)] *)
  on_line : Z * Z -> Z * Z -> Z -> Z -> Z -> bool;
  on_line_near : forall a b w x y,
    0 <= w -> on_line a b w x y = true ->
    Z.min (fst a) (fst b) - w <= x <= Z.max (fst a) (fst b) + w /\
    Z.min (snd a) (snd b) - w <= y <= Z.max (snd a) (snd b) + w;
  on_line_segment : forall a b w x y,
    fst a = fst b \/ snd a = snd b ->
    Z.min (fst a) (fst b) <= x <= Z.max (fst a) (fst b) ->
    Z.min (snd a) (snd b) <= y <= Z.max (snd a) (snd b) ->
    on_line a b w x y = true
}.

(** A canvas whose lines are rectangles: a line of width [w] along an axis
    covers [w] columns or rows, [w / 2] of them before its coordinate, and
    a slanted line covers the rectangle around it; a mix weighs the two
    pixels by the alpha of the pixel pasted. *)
Definition weigh (a below above : Z) : Z := (below * (255 - a) + above * a) / 255.

Definition box_mix (below above : pixel) : pixel :=
  let a := alpha above in
  RGBA (weigh a (red below) (red above)) (weigh a (green below) (green above))
       (weigh a (blue below) (blue above)) (weigh a (alpha below) (alpha above)).

(** How far a line of width [h] reaches before and after its coordinate. *)
Definition spread (widen : bool) (h : Z) : Z * Z :=
  if widen then (h / 2, (h - 1) / 2) else (0, 0).

Definition box_on_line (a b : Z * Z) (w x y : Z) : bool :=
  let h := Z.max 1 w in
  let '(x_before, x_after) := spread (negb (snd a =? snd b)) h in
  let '(y_before, y_after) := spread (negb (fst a =? fst b)) h in
  (Z.min (fst a) (fst b) - x_before <=? x) && (x <=? Z.max (fst a) (fst b) + x_after) &&
  (Z.min (snd a) (snd b) - y_before <=? y) && (y <=? Z.max (snd a) (snd b) + y_after).

(** ** Drawing on the page *)

Section Drawing.
Context `{Canvas}.

(** One pixel of a paste with a mask: the pixel of the page [below], the
    pixel of the card [above], whose alpha is the mask. *)
Definition blend (below above : pixel) : pixel :=
  if alpha above =? 255 then above
  else if alpha above =? 0 then below
  else mix below above.

(** [sheet.paste(card_img, (x, y), card_img)] *)
Definition paste (sheet card_img : image) (x y : Z) : image :=
  Raster (width sheet) (height sheet)
    (fun u v =>
       if in_bounds card_img (u - x) (v - y)
       then blend (px sheet u v) (px card_img (u - x) (v - y))
       else px sheet u v).

(** The ink of a colour given as three numbers, on a page of mode RGBA. *)
Definition ink (fill : Z * Z * Z) : pixel :=
  let '(r, g, b) := fill in RGBA r g b 255.

(** [draw.line([(x0, y0), (x1, y1)], fill=fill, width=line_width)] *)
Definition draw_line (sheet : image) (x0 y0 x1 y1 : Z) (fill : Z * Z * Z)
    (line_width : Z) : image :=
  Raster (width sheet) (height sheet)
    (fun u v =>
       if on_line (x0, y0) (x1, y1) line_width u v then ink fill else px sheet u v).

(** One call on the page. *)
Definition draw (sheet : image) (op : draw_op) : image :=
  match op with
  | Paste card_img x y => paste sheet card_img x y
  | DrawLine x0 y0 x1 y1 fill line_width => draw_line sheet x0 y0 x1 y1 fill line_width
  end.

(** Calls that draw lines in one colour. *)
Definition line_in (fill : Z * Z * Z) (op : draw_op) : Prop :=
  match op with
  | Paste _ _ _ => False
  | DrawLine _ _ _ _ fill' _ => fill' = fill
  end.

(** A line call covers a pixel. *)
Definition covers (u v : Z) (op : draw_op) : bool :=
  match op with
  | Paste _ _ _ => false
  | DrawLine x0 y0 x1 y1 _ line_width => on_line (x0, y0) (x1, y1) line_width u v
  end.

End Drawing.

(** ** The page of a sheet *)

Section Page.
Context `{Imaging} `{Canvas} (s : settings) (p : pixels).
Local Open Scope result_scope.

(** The page after the calls [ops], from the white page of line 390. *)
Definition page_of (ops : list draw_op) : result image :=
  sheet <- blank_page p ;;
  Ok (fold_left draw ops sheet).

(** The page [create_printable_sheet] hands to [sheet.save] (line 419); it
    depends neither on the path nor on what the save does. *)
Definition printed_page (image_file_paths_chunk : list (result image)) : result image :=
  r <- create_printable_sheet s p (fun _ _ => Ok tt) image_file_paths_chunk [] ;;
  page_of (fst (fst r)).

(** ** Reference picture *)

(** The card of the k-th file of a chunk, if it gave one. *)
Definition card_of (chunk : list (result image)) (k : Z) : option image :=
  match nth_error chunk (Z.to_nat k) with
  | Some image_path => fst (resize_card s p image_path (CARD_WIDTH_PX p) (CARD_HEIGHT_PX p))
  | None => None
  end.

(** The cell among the first [n] that holds a pixel of the page. *)
Definition cell_of (n u v : Z) : option Z :=
  find (fun k => in_box (cell_box p k) u v) (range 0 n).

(** A pixel of the page after the cards of the first [n] files. *)
Definition cards_pixel (chunk : list (result image)) (n u v : Z) : pixel :=
  match cell_of n u v with
  | Some k =>
      match card_of chunk k with
      | Some card_img =>
          blend white (px card_img (u - fst (cell_origin p k)) (v - snd (cell_origin p k)))
      | None => white
      end
  | None => white
  end.

(** A pixel under a cut line. *)
Definition on_cut_line (u v : Z) : bool := existsb (covers u v) (cut_lines s p).

(** A pixel further than the width of the lines from the two columns and
    the two rows the cut lines are drawn along. *)
Definition clear_of_lines (u v : Z) : Prop :=
  forall i, 1 <= i < 3 ->
    LINE_WIDTH s < Z.abs (u - (MARGIN_X p + i * CARD_WIDTH_PX p - LINE_WIDTH s / 2)) /\
    LINE_WIDTH s < Z.abs (v - (MARGIN_Y p + i * CARD_HEIGHT_PX p - LINE_WIDTH s / 2)).

(** A pixel of the finished page. *)
Definition page_pixel (chunk : list (result image)) (u v : Z) : pixel :=
  if on_cut_line u v then ink (LINE_COLOR s)
  else cards_pixel chunk (Z.min 9 (Z.of_nat (length chunk))) u v.

Definition layout_page (chunk : list (result image)) : image :=
  Raster (PAPER_WIDTH_PX p) (PAPER_HEIGHT_PX p) (page_pixel chunk).

End Page.

(** Three files: a framed picture, a file that cannot be opened and a
    picture without content. *)
Definition sample_chunk : list (result image) :=
  [Ok (framed 40 56 (Box 12 12 28 44)); Raise FileNotFoundError; Ok (new_black 4 3)].

(** ** Theorems *)

Lemma spread_bounds widen h w :
  0 <= w -> h = Z.max 1 w ->
  0 <= fst (spread widen h) <= w /\ 0 <= snd (spread widen h) <= w.
Proof. intros Hw ->. unfold spread. destruct widen; cbn [fst snd]; zdiv. Qed.

Lemma box_on_line_near a b w x y :
  0 <= w -> box_on_line a b w x y = true ->
  Z.min (fst a) (fst b) - w <= x <= Z.max (fst a) (fst b) + w /\
  Z.min (snd a) (snd b) - w <= y <= Z.max (snd a) (snd b) + w.
Proof.
  intros Hw. unfold box_on_line.
  pose proof (spread_bounds (negb (snd a =? snd b)) _ w Hw eq_refl) as X.
  pose proof (spread_bounds (negb (fst a =? fst b)) _ w Hw eq_refl) as Y.
  destruct (spread (negb (snd a =? snd b)) _), (spread (negb (fst a =? fst b)) _).
  cbn [fst snd] in X, Y. intros ?. zlia.
Qed.

Lemma box_on_line_segment a b w x y :
  fst a = fst b \/ snd a = snd b ->
  Z.min (fst a) (fst b) <= x <= Z.max (fst a) (fst b) ->
  Z.min (snd a) (snd b) <= y <= Z.max (snd a) (snd b) ->
  box_on_line a b w x y = true.
Proof.
  intros _ Hx Hy. unfold box_on_line.
  pose proof (spread_bounds (negb (snd a =? snd b)) _ (Z.max 1 w) ltac:(lia)
                ltac:(symmetry; apply Z.max_r; lia)) as X.
  pose proof (spread_bounds (negb (fst a =? fst b)) _ (Z.max 1 w) ltac:(lia)
                ltac:(symmetry; apply Z.max_r; lia)) as Y.
  destruct (spread (negb (snd a =? snd b)) _), (spread (negb (fst a =? fst b)) _).
  cbn [fst snd] in X, Y. zlia.
Qed.

#[export] Instance box_canvas : Canvas := {|
  mix := box_mix;
  on_line := box_on_line;
  on_line_near := box_on_line_near;
  on_line_segment := box_on_line_segment
|}.

Section DrawingFacts.
Context `{Canvas}.

Lemma blend_opaque below above : alpha above = 255 -> blend below above = above.
Proof. intros E. unfold blend. now rewrite E. Qed.

Lemma blend_clear below above : alpha above = 0 -> blend below above = below.
Proof. intros E. unfold blend. now rewrite E. Qed.

(** Drawing leaves the size of the page alone. *)
Lemma fold_draw_size ops sheet :
  width (fold_left draw ops sheet) = width sheet /\
  height (fold_left draw ops sheet) = height sheet.
Proof.
  revert sheet. induction ops as [|op ops IH]; intros sheet; [now split|].
  cbn [fold_left]. destruct (IH (draw sheet op)) as [-> ->]. now destruct op.
Qed.

(** Lines of one colour, in any order: a pixel that one of them covers has
    this colour, the others are as before. *)
Lemma lines_pixels fill ops sheet u v :
  Forall (line_in fill) ops ->
  px (fold_left draw ops sheet) u v
  = if existsb (covers u v) ops then ink fill else px sheet u v.
Proof.
  intros F. revert sheet. induction F as [|op ops L _ IH]; intros sheet; [reflexivity|].
  cbn [fold_left existsb]. rewrite IH.
  destruct op as [|a b c d f w]; [contradiction|]. cbn in L. subst f.
  cbn [draw covers draw_line px].
  now destruct (on_line _ _ _ _ _), (existsb _ _).
Qed.

(** A card of the card size pasted at the origin of a cell changes the
    pixels of the cell and no other. *)
Lemma paste_pixel (p : pixels) sheet card_img k u v :
  size card_img = (CARD_WIDTH_PX p, CARD_HEIGHT_PX p) ->
  px (paste sheet card_img (fst (cell_origin p k)) (snd (cell_origin p k))) u v
  = if in_box (cell_box p k) u v
    then blend (px sheet u v)
           (px card_img (u - fst (cell_origin p k)) (v - snd (cell_origin p k)))
    else px sheet u v.
Proof.
  intros [= W Hh]. cbn [paste px]. unfold in_bounds, in_box, cell_box. cbn [x0 x1 y0 y1].
  rewrite W, Hh.
  replace ((0 <=? u - _) && (u - _ <? _) && (0 <=? v - _) && (v - _ <? _))
    with ((fst (cell_origin p k) <=? u) && (u <? fst (cell_origin p k) + CARD_WIDTH_PX p)
          && (snd (cell_origin p k) <=? v) && (v <? snd (cell_origin p k) + CARD_HEIGHT_PX p));
    [reflexivity|].
  apply eq_true_iff_eq. zlia.
Qed.

End DrawingFacts.

Section PageFacts.
Context `{Imaging} `{Canvas} (s : settings) (p : pixels).

Lemma in_box_true_iff b u v : in_box b u v = true <-> inside b u v.
Proof. unfold in_box, inside. zlia. Qed.

Lemma in_box_disjoint a b u v :
  disjoint a b -> in_box a u v = true -> in_box b u v = false.
Proof. unfold disjoint, in_box. intros D I. zlia. Qed.

Lemma cell_of_Some n u v k :
  cell_of p n u v = Some k -> 0 <= k < n /\ in_box (cell_box p k) u v = true.
Proof. intros [I E]%find_some. now apply in_range in I. Qed.

Lemma cell_of_None n u v k :
  cell_of p n u v = None -> 0 <= k < n -> in_box (cell_box p k) u v = false.
Proof. intros N Hk. apply (find_none _ _ N). now apply in_range. Qed.

Lemma cell_of_succ n u v :
  0 <= n ->
  cell_of p (n + 1) u v
  = match cell_of p n u v with
    | Some k => Some k
    | None => if in_box (cell_box p n) u v then Some n else None
    end.
Proof.
  intros Hn. unfold cell_of. rewrite (range_snoc 0 (n + 1)) by lia.
  rewrite find_app. replace (n + 1 - 1) with n by lia. reflexivity.
Qed.

Lemma cut_lines_colour : Forall (line_in (LINE_COLOR s)) (cut_lines s p).
Proof.
  unfold cut_lines. apply Forall_app. split; apply Forall_map, Forall_forall; now intros.
Qed.

(** The page of a chunk, as the calls of the sheet on the white page. *)
Lemma printed_page_calls chunk :
  paper_ok p ->
  printed_page s p chunk
  = Ok (fold_left draw (drawn (placed s p chunk 9) ++ cut_lines s p)
          (Raster (PAPER_WIDTH_PX p) (PAPER_HEIGHT_PX p) (fun _ _ => white))).
Proof.
  intros P. unfold printed_page, page_of.
  rewrite (sheet_layout s p _ _ P). cbn [bind fst]. now rewrite (blank_page_ok p P).
Qed.

Lemma printed_page_raise chunk : ~ paper_ok p -> printed_page s p chunk = Raise ValueError.
Proof.
  intros N. unfold printed_page. rewrite sheet_layout_any.
  now rewrite (blank_page_raise p N).
Qed.

(** What a cut line covers has its colour, whatever was pasted. *)
Lemma page_under_line ops sheet u v :
  on_cut_line s p u v = true ->
  px (fold_left draw (ops ++ cut_lines s p) sheet) u v = ink (LINE_COLOR s).
Proof.
  intros L. rewrite fold_left_app, (lines_pixels (LINE_COLOR s)) by apply cut_lines_colour.
  unfold on_cut_line in L. now rewrite L.
Qed.

Lemma on_vertical_line col_idx v :
  1 <= col_idx < 3 -> 0 <= v <= PAPER_HEIGHT_PX p ->
  on_cut_line s p (MARGIN_X p + col_idx * CARD_WIDTH_PX p - LINE_WIDTH s / 2) v = true.
Proof.
  intros Hc Hv. apply existsb_exists. exists (vertical_line s p col_idx). split.
  - apply in_or_app. left. apply in_map, in_range. lia.
  - apply on_line_segment; cbn [fst snd]; lia.
Qed.

Lemma on_horizontal_line row_idx u :
  1 <= row_idx < 3 -> 0 <= u <= PAPER_WIDTH_PX p ->
  on_cut_line s p u (MARGIN_Y p + row_idx * CARD_HEIGHT_PX p - LINE_WIDTH s / 2) = true.
Proof.
  intros Hr Hu. apply existsb_exists. exists (horizontal_line s p row_idx). split.
  - apply in_or_app. right. apply in_map, in_range. lia.
  - apply on_line_segment; cbn [fst snd]; lia.
Qed.

Lemma clear_of_lines_off u v :
  0 <= LINE_WIDTH s -> clear_of_lines s p u v -> on_cut_line s p u v = false.
Proof.
  intros Hw C. apply not_true_is_false. intros (op & I & Cv)%existsb_exists.
  apply in_app_or in I as [I|I]; apply in_map_iff in I as (i & <- & Hi%in_range);
    apply on_line_near in Cv; trivial; cbn [fst snd] in Cv; specialize (C i Hi); lia.
Qed.

(** Claim C32: the four cut lines are visible on every sheet, from
    one edge of the page to the other: the pixels of the column [LINE_WIDTH
    // 2] before the boundary between two columns of cards, and those of the
    row [LINE_WIDTH // 2] before the boundary between two rows, have the
    colour of the lines, whatever the cards are. *)
Theorem cut_lines_visible chunk page i t :
  printed_page s p chunk = Ok page -> 1 <= i < 3 ->
  (0 <= t <= PAPER_HEIGHT_PX p ->
   px page (MARGIN_X p + i * CARD_WIDTH_PX p - LINE_WIDTH s / 2) t = ink (LINE_COLOR s)) /\
  (0 <= t <= PAPER_WIDTH_PX p ->
   px page t (MARGIN_Y p + i * CARD_HEIGHT_PX p - LINE_WIDTH s / 2) = ink (LINE_COLOR s)).
Proof.
  destruct (paper_ok_dec p) as [P|N]; [|now rewrite (printed_page_raise chunk N)].
  rewrite (printed_page_calls chunk P). intros <-%Ok_inj Hi.
  split; intros Ht; apply page_under_line;
    [now apply on_vertical_line | now apply on_horizontal_line].
Qed.

Context (card_w : 0 < CARD_WIDTH_PX p) (card_h : 0 < CARD_HEIGHT_PX p).

(** A pixel lies in one cell at most. *)
Lemma cell_of_unique n u v k :
  0 <= k < n -> n <= 9 -> in_box (cell_box p k) u v = true -> cell_of p n u v = Some k.
Proof.
  intros Hk Hn I. destruct (cell_of p n u v) as [k'|] eqn:C.
  - apply cell_of_Some in C as [Hk' I']. destruct (Z.eq_dec k' k) as [->|Ne]; [reflexivity|].
    pose proof (cell_boxes_disjoint p k' k card_w card_h ltac:(lia) ltac:(lia) Ne) as D.
    rewrite (in_box_disjoint _ _ _ _ D I') in I. discriminate.
  - rewrite (cell_of_None _ _ _ k C Hk) in I. discriminate.
Qed.

(** The card of a file that takes part in the sheet. *)
Lemma card_of_nth chunk (n : nat) image_path :
  nth_error chunk n = Some image_path ->
  card_of s p chunk (Z.of_nat n)
  = fst (resize_card s p image_path (CARD_WIDTH_PX p) (CARD_HEIGHT_PX p)).
Proof. intros E. unfold card_of. now rewrite Nat2Z.id, E. Qed.

(** One more file: its card, if any, is pasted over the white of its
    cell. *)
Lemma placed_step chunk n image_path sheet u v :
  (n < 9)%nat -> nth_error chunk n = Some image_path ->
  px sheet u v = cards_pixel s p chunk (Z.of_nat n) u v ->
  px (fold_left draw (paste_of s p (Z.of_nat n) image_path) sheet) u v
  = cards_pixel s p chunk (Z.of_nat (S n)) u v.
Proof.
  intros Hn E P. unfold cards_pixel in *.
  rewrite Nat2Z.inj_succ, <- Z.add_1_r, cell_of_succ by lia.
  unfold paste_of.
  destruct (resize_card s p image_path _ _) as [[c|] l] eqn:R; cbn [fst fold_left draw].
  - rewrite (paste_pixel p), P by exact (resize_card_sized s p _ _ _ _ _ R).
    destruct (cell_of p (Z.of_nat n) u v) as [k|] eqn:C.
    + apply cell_of_Some in C as [Hk I].
      now rewrite (in_box_disjoint _ _ _ _
                     (cell_boxes_disjoint p k (Z.of_nat n) card_w card_h
                        ltac:(lia) ltac:(lia) ltac:(lia)) I).
    + destruct (in_box _ u v); [|reflexivity].
      now rewrite (card_of_nth _ _ _ E), R.
  - rewrite P. destruct (cell_of p (Z.of_nat n) u v) as [k|]; [reflexivity|].
    destruct (in_box _ u v); [|reflexivity]. now rewrite (card_of_nth _ _ _ E), R.
Qed.

(** The page after the first [n] files of a chunk. *)
Lemma placed_pixels chunk n sheet u v :
  (n <= length chunk)%nat -> (n <= 9)%nat -> px sheet u v = white ->
  px (fold_left draw (drawn (placed s p chunk n)) sheet) u v
  = cards_pixel s p chunk (Z.of_nat n) u v.
Proof.
  intros Hl Hn W. induction n as [|n IH]; [exact W|].
  destruct (nth_error chunk n) as [image_path|] eqn:E;
    [|apply nth_error_None in E; lia].
  cbn [placed]. rewrite E. cbn [drawn]. rewrite fold_left_app.
  apply placed_step; [lia | exact E | apply IH; lia].
Qed.

(** The cards that take part in a sheet are the first nine of the chunk. *)
Lemma placed_nine_pixels chunk sheet u v :
  px sheet u v = white ->
  px (fold_left draw (drawn (placed s p chunk 9)) sheet) u v
  = cards_pixel s p chunk (Z.min 9 (Z.of_nat (length chunk))) u v.
Proof.
  intros W. destruct (Nat.le_gt_cases 9 (length chunk)) as [L|L].
  - rewrite placed_pixels by (lia || assumption). f_equal. lia.
  - rewrite placed_full, placed_pixels by (lia || assumption). f_equal. lia.
Qed.

Lemma page_pixels chunk sheet u v :
  px sheet u v = white ->
  px (fold_left draw (drawn (placed s p chunk 9) ++ cut_lines s p) sheet) u v
  = page_pixel s p chunk u v.
Proof.
  intros W. rewrite fold_left_app, (lines_pixels (LINE_COLOR s)) by apply cut_lines_colour.
  unfold page_pixel, on_cut_line. destruct (existsb _ _); [reflexivity|].
  now apply placed_nine_pixels.
Qed.

(** Claim C11: on a paper of a size that is not negative, the page of
    a chunk has the size of the paper and its pixels are those of
    [layout_page]: the colour of the cut lines under a cut line; elsewhere,
    in the cell of one of the first nine files that gave a card, the pixel
    of this card pasted over white; and white everywhere else. *)
Theorem printed_page_pixels chunk :
  paper_ok p -> result_eq (printed_page s p chunk) (Ok (layout_page s p chunk)).
Proof.
  intros P. rewrite (printed_page_calls chunk P). cbn [result_eq].
  split; [exact (proj1 (fold_draw_size _ _)) | split; [exact (proj2 (fold_draw_size _ _))|]].
  intros x y _ _. now apply page_pixels.
Qed.

(** The page of a chunk exists on every paper of a size that is not
    negative, and [page_pixel] gives its pixels. *)
Lemma printed_page_at chunk :
  paper_ok p ->
  exists page,
    printed_page s p chunk = Ok page /\
    size page = (PAPER_WIDTH_PX p, PAPER_HEIGHT_PX p) /\
    forall u v, px page u v = page_pixel s p chunk u v.
Proof.
  intros P. eexists. split; [exact (printed_page_calls chunk P)|]. split.
  - exact (f_equal2 pair (proj1 (fold_draw_size _ _)) (proj2 (fold_draw_size _ _))).
  - intros u v. now apply page_pixels.
Qed.

(** A pixel of a cell, away from the cut lines. *)
Lemma page_pixel_cell chunk k u v :
  0 <= k < Z.min 9 (Z.of_nat (length chunk)) ->
  in_box (cell_box p k) u v = true -> on_cut_line s p u v = false ->
  page_pixel s p chunk u v
  = match card_of s p chunk k with
    | Some card_img =>
        blend white (px card_img (u - fst (cell_origin p k)) (v - snd (cell_origin p k)))
    | None => white
    end.
Proof.
  intros Hk I L. unfold page_pixel, cards_pixel. rewrite L.
  now rewrite (cell_of_unique _ u v k Hk ltac:(lia) I).
Qed.

(** The pixel of a page that was made. *)
Lemma printed_page_px chunk page u v :
  printed_page s p chunk = Ok page -> px page u v = page_pixel s p chunk u v.
Proof.
  destruct (paper_ok_dec p) as [P|N]; [|now rewrite (printed_page_raise chunk N)].
  rewrite (printed_page_calls chunk P). intros <-%Ok_inj. now apply page_pixels.
Qed.

(** Claim C22: a card on the page.  For a file among the first nine
    of the chunk that gave a card, every pixel of the card that is opaque
    and further than the width of the lines from the cut lines is on the
    page unchanged, at its place in the cell of the file: no other card and
    no line is drawn over it. *)
Theorem card_pixels_on_page chunk page k card_img x y :
  printed_page s p chunk = Ok page -> 0 <= LINE_WIDTH s ->
  0 <= k < 9 -> card_of s p chunk k = Some card_img ->
  0 <= x < CARD_WIDTH_PX p -> 0 <= y < CARD_HEIGHT_PX p ->
  alpha (px card_img x y) = 255 ->
  clear_of_lines s p (fst (cell_origin p k) + x) (snd (cell_origin p k) + y) ->
  px page (fst (cell_origin p k) + x) (snd (cell_origin p k) + y) = px card_img x y.
Proof.
  intros Pg Hl Hk C Hx Hy A Cl. rewrite (printed_page_px _ _ _ _ Pg).
  assert (Hn : (Z.to_nat k < length chunk)%nat).
  { apply nth_error_Some. unfold card_of in C. now destruct (nth_error chunk _). }
  rewrite (page_pixel_cell chunk k), C.
  - rewrite !Z.add_simpl_l. now apply blend_opaque.
  - lia.
  - unfold in_box, cell_box. cbn [x0 x1 y0 y1]. zlia.
  - now apply clear_of_lines_off.
Qed.

(** The cell of a file that gave no card stays white, away
    from the cut lines: a file that cannot be opened leaves a blank on the
    sheet and the cards after it keep their cells. *)
Theorem skipped_cell_blank chunk page k e u v :
  printed_page s p chunk = Ok page ->
  0 <= k < 9 -> nth_error chunk (Z.to_nat k) = Some (Raise e) ->
  in_box (cell_box p k) u v = true -> on_cut_line s p u v = false ->
  px page u v = white.
Proof.
  intros Pg Hk E I L. rewrite (printed_page_px _ _ _ _ Pg).
  assert (Hn : (Z.to_nat k < length chunk)%nat) by (apply nth_error_Some; congruence).
  rewrite (page_pixel_cell chunk k) by (lia || assumption).
  unfold card_of. now rewrite E.
Qed.

(** Outside the cells of the files of the chunk the page is white, away
    from the cut lines. *)
Theorem margins_blank chunk page u v :
  printed_page s p chunk = Ok page ->
  (forall k, 0 <= k < Z.min 9 (Z.of_nat (length chunk)) -> in_box (cell_box p k) u v = false) ->
  on_cut_line s p u v = false ->
  px page u v = white.
Proof.
  intros Pg O L. rewrite (printed_page_px _ _ _ _ Pg). unfold page_pixel, cards_pixel.
  rewrite L. destruct (cell_of p _ u v) as [k|] eqn:C; [|reflexivity].
  apply cell_of_Some in C as [Hk I]. now rewrite (O k Hk) in I.
Qed.

End PageFacts.

(** ** Witnesses *)

Lemma printed_page_pixels_witness :
  result_eq (printed_page default_settings default_pixels sample_chunk)
            (Ok (layout_page default_settings default_pixels sample_chunk)).
Proof.
  apply (printed_page_pixels default_settings default_pixels);
    [cbn; lia | cbn; lia | exact default_paper_ok].
Defined.

Lemma cut_lines_visible_witness :
  exists page,
    printed_page default_settings default_pixels sample_chunk = Ok page /\
    ((0 <= 100 <= PAPER_HEIGHT_PX default_pixels ->
      px page (MARGIN_X default_pixels + 1 * CARD_WIDTH_PX default_pixels
               - LINE_WIDTH default_settings / 2) 100
      = ink (LINE_COLOR default_settings)) /\
     (0 <= 100 <= PAPER_WIDTH_PX default_pixels ->
      px page 100 (MARGIN_Y default_pixels + 1 * CARD_HEIGHT_PX default_pixels
                   - LINE_WIDTH default_settings / 2)
      = ink (LINE_COLOR default_settings))).
Proof.
  eexists. split; [exact (printed_page_calls _ _ _ default_paper_ok)|].
  apply (cut_lines_visible default_settings default_pixels sample_chunk _ 1 100);
    [exact (printed_page_calls _ _ _ default_paper_ok) | lia].
Defined.

Lemma card_pixels_on_page_witness :
  exists page,
    printed_page default_settings default_pixels sample_chunk = Ok page /\
    match card_of default_settings default_pixels sample_chunk 2 with
    | Some card_img =>
        px page (fst (cell_origin default_pixels 2) + 7)
                (snd (cell_origin default_pixels 2) + 9)
        = px card_img 7 9
    | None => False
    end.
Proof.
  eexists. split; [exact (printed_page_calls _ _ _ default_paper_ok)|].
  destruct (card_of default_settings default_pixels sample_chunk 2) as [card_img|] eqn:C.
  - pose proof (f_equal (fun o => match o with Some c => alpha (px c 7 9) | None => 0 end) C)
      as A.
    vm_compute in A.
    apply (card_pixels_on_page default_settings default_pixels)
      with (chunk := sample_chunk) (k := 2);
      [cbn; lia | cbn; lia | exact (printed_page_calls _ _ _ default_paper_ok)
      | cbn; lia | lia | exact C | cbn; lia | cbn; lia | now symmetry |].
    intros i Hi. assert (i = 1 \/ i = 2) as [-> | ->] by lia; vm_compute; now split.
  - apply (f_equal (fun o => match o with Some _ => true | None => false end)) in C.
    vm_compute in C. discriminate.
Defined.

Lemma skipped_cell_blank_witness :
  exists page,
    printed_page default_settings default_pixels sample_chunk = Ok page /\
    px page 3700 400 = white.
Proof.
  eexists. split; [exact (printed_page_calls _ _ _ default_paper_ok)|].
  apply (skipped_cell_blank default_settings default_pixels)
    with (chunk := sample_chunk) (k := 1) (e := FileNotFoundError);
    [cbn; lia | cbn; lia | exact (printed_page_calls _ _ _ default_paper_ok)
    | lia | reflexivity | reflexivity | reflexivity].
Defined.

(** ** Concrete checks *)

(** Six pixels of the page of [sample_chunk] on the canvas whose lines
    are rectangles: the margin, the black border and the white artwork of
    the first card, a cut line over that card, the empty second cell and
    the third card. *)
Example sample_page_pixels :
  map (fun '(u, v) => page_pixel default_settings default_pixels sample_chunk u v)
      [(0, 0); (600, 300); (2100, 2400); (3598, 300); (3700, 400); (6700, 400)]
  = [white; black; white; RGBA 255 51 153 255; white; black].
Proof. vm_compute. reflexivity. Qed.
