(* ===== verification/Scanner.v ===== *)
(** * Scanner: the files of a run

    Models lines 452-456 of [src/proxify.py]: the names of the input folder
    that end in one of six extensions, whatever their case, are joined to
    the folder and sorted.  The listing of the folder is the argument
    [listdir]: what [os.listdir] returned.

    [endswith], [startswith], [join] ([os.path.join] on a POSIX system) and
    [sorted] follow the documentation of the library; strings are compared
    code point by code point.  [str.lower] lowers every cased character of
    Unicode: the class [Lowercase] holds it, with its value on ASCII
    strings as its law, and [ascii_lowercase] is an instance that
    computes. *)

From Stdlib Require Import ZArith List Bool Lia Ascii String Sorted Permutation.
Import ListNotations.
From S2P Require Import Prelude Names.
Local Open Scope Z_scope.

(** ** Strings *)

(** [a == b] *)
Fixpoint str_eqb (a b : pystr) : bool :=
  match a, b with
  | [], [] => true
  | x :: a', y :: b' => (x =? y) && str_eqb a' b'
  | _, _ => false
  end.

(** [s.endswith(suffix)] *)
Definition endswith (s suffix : pystr) : bool :=
  (List.length suffix <=? List.length s)%nat
  && str_eqb (skipn (List.length s - List.length suffix) s) suffix.

(** [s.startswith(prefix)] *)
Definition startswith (s prefix : pystr) : bool :=
  str_eqb (firstn (List.length prefix) s) prefix.

(** [a <= b]: strings are compared code point by code point. *)
Fixpoint str_leb (a b : pystr) : bool :=
  match a, b with
  | [], _ => true
  | _ :: _, [] => false
  | x :: a', y :: b' => (x <? y) || ((x =? y) && str_leb a' b')
  end.

(** [sorted(l)], by insertion. *)
Fixpoint insert_sorted (x : pystr) (l : list pystr) : list pystr :=
  match l with
  | [] => [x]
  | y :: l' => if str_leb x y then x :: l else y :: insert_sorted x l'
  end.

Definition sorted (l : list pystr) : list pystr := fold_right insert_sorted [] l.

(** [os.path.join(a, b)] on a POSIX system. *)
Definition join (a b : pystr) : pystr :=
  if startswith b [slash] then b
  else if (match a with [] => true | _ => false end) || endswith a [slash]
  then a ++ b
  else a ++ [slash] ++ b.

(** The lower case of an ASCII letter. *)
Definition ascii_lower (c : Z) : Z := if (65 <=? c) && (c <=? 90) then c + 32 else c.

Definition is_ascii (c : Z) : Prop := 0 <= c < 128.

(** [str.lower]: the library lowers every cased character of Unicode; the
    model knows it on ASCII strings. *)
Class Lowercase : Type := {
  lower : pystr -> pystr;
  lower_ascii : forall s, Forall is_ascii s -> lower s = map ascii_lower s
}.

#[export] Instance ascii_lowercase : Lowercase := {|
  lower := map ascii_lower;
  lower_ascii := fun _ _ => eq_refl
|}.

(** ** The program *)

Section Scanner.
Context `{Lowercase}.

(** The extensions of line 455. *)
Definition image_extensions : list pystr :=
  map of_string [".png"; ".jpg"; ".jpeg"; ".bmp"; ".gif"; ".tiff"]%string.

(** [f.lower().endswith((...))] *)
Definition is_image_file (f : pystr) : bool :=
  existsb (endswith (lower f)) image_extensions.

(** The files of a run (lines 452-456), from the listing of the folder. *)
Definition all_image_files (input_folder : pystr) (listdir : list pystr) : list pystr :=
  sorted (map (join input_folder) (filter is_image_file listdir)).

End Scanner.

(** ** Specification *)

Definition str_le (a b : pystr) : Prop := str_leb a b = true.

(** A folder as the user names it: not empty, and without a slash at its
    end. *)
Definition plain_folder (a : pystr) : Prop := a <> [] /\ endswith a [slash] = false.

(** ** Theorems *)

Lemma str_eqb_eq a b : str_eqb a b = true <-> a = b.
Proof.
  revert b. induction a as [|x a IH]; intros [|y b]; cbn; try easy.
  rewrite andb_true_iff, Z.eqb_eq, IH. split; [now intros [-> ->] | now intros [= -> ->]].
Qed.

Lemma str_leb_total a b : str_leb a b = true \/ str_leb b a = true.
Proof.
  revert b. induction a as [|x a IH]; intros [|y b]; cbn; auto.
  destruct (Z.lt_total x y) as [L|[->|L]].
  - left. now rewrite (proj2 (Z.ltb_lt _ _) L).
  - rewrite Z.ltb_irrefl, Z.eqb_refl. cbn. apply IH.
  - right. now rewrite (proj2 (Z.ltb_lt _ _) L).
Qed.

Lemma str_leb_trans a b c : str_le a b -> str_le b c -> str_le a c.
Proof.
  unfold str_le. revert b c. induction a as [|x a IH]; intros [|y b] [|z c]; cbn; try easy.
  rewrite !orb_true_iff, !andb_true_iff, !Z.ltb_lt, !Z.eqb_eq.
  intros [L|[-> L]] [L'|[-> L']]; [left; lia | now left | now left |].
  right. split; [reflexivity|]. now apply (IH b c).
Qed.

Lemma str_leb_antisym a b : str_le a b -> str_le b a -> a = b.
Proof.
  unfold str_le. revert b. induction a as [|x a IH]; intros [|y b]; cbn; try easy.
  rewrite !orb_true_iff, !andb_true_iff, !Z.ltb_lt, !Z.eqb_eq.
  intros [L|[-> L]] [L'|[E L']]; try lia. f_equal. now apply IH.
Qed.

Lemma insert_sorted_perm x l : Permutation (x :: l) (insert_sorted x l).
Proof.
  induction l as [|y l IH]; cbn; [reflexivity|].
  destruct (str_leb x y); [reflexivity|].
  rewrite perm_swap. now apply perm_skip.
Qed.

Lemma sorted_perm l : Permutation l (sorted l).
Proof.
  induction l as [|x l IH]; cbn; [reflexivity|].
  rewrite <- insert_sorted_perm. now apply perm_skip.
Qed.

Lemma insert_sorted_Sorted x l :
  StronglySorted str_le l -> StronglySorted str_le (insert_sorted x l).
Proof.
  induction 1 as [|y l S IH F]; cbn; [repeat constructor|].
  destruct (str_leb x y) eqn:E.
  - constructor; [now constructor|]. constructor; [exact E|].
    eapply Forall_impl; [|exact F]. intros z. now apply str_leb_trans.
  - constructor; [exact IH|].
    rewrite <- (insert_sorted_perm x l). constructor; [|exact F].
    destruct (str_leb_total x y) as [L|L]; [congruence | exact L].
Qed.

Lemma sorted_Sorted l : StronglySorted str_le (sorted l).
Proof.
  induction l as [|x l IH]; cbn; [constructor | now apply insert_sorted_Sorted].
Qed.

(** *** Suffixes and the extension test *)

Lemma endswith_spec s suffix :
  endswith s suffix = true <-> exists stem, s = stem ++ suffix.
Proof.
  unfold endswith. rewrite andb_true_iff, Nat.leb_le, str_eqb_eq. split.
  - intros [L E]. exists (firstn (List.length s - List.length suffix) s).
    pose proof (firstn_skipn (List.length s - List.length suffix) s) as F.
    now rewrite E in F.
  - intros [stem ->]. rewrite length_app. split; [lia|].
    replace (_ + _ - _)%nat with (List.length stem + 0)%nat by lia.
    now rewrite skipn_app, Nat.add_0_r, skipn_all, Nat.sub_diag.
Qed.

Section ScannerFacts.
Context `{Lowercase}.

Lemma is_image_file_spec f :
  is_image_file f = true <->
  exists ext stem, In ext image_extensions /\ lower f = stem ++ ext.
Proof.
  unfold is_image_file. rewrite existsb_exists. split.
  - intros (ext & I & E). apply endswith_spec in E as [stem E]. now exists ext, stem.
  - intros (ext & stem & I & E). exists ext. split; [exact I|].
    apply endswith_spec. now exists stem.
Qed.

(** *** Paths *)

(** A joined path ends with its second component. *)
Lemma join_suffix a b : exists pre, join a b = pre ++ b.
Proof.
  unfold join. destruct (startswith b [slash]); [now exists []|].
  destruct (_ || _); [now exists a|]. exists (a ++ [slash]). now rewrite <- app_assoc.
Qed.

Lemma rfind_last_slash a f i last :
  ~ In slash f -> rfind_from slash (a ++ slash :: f) i last = i + Z.of_nat (List.length a).
Proof.
  intros N. revert i last. induction a as [|x a IH]; intros i last.
  - cbn [app rfind_from List.length]. rewrite Z.eqb_refl, rfind_absent by assumption. cbn. lia.
  - cbn [app rfind_from List.length]. rewrite IH. lia.
Qed.

Lemma basename_no_slash f : ~ In slash f -> basename f = f.
Proof.
  intros N. unfold basename, rfind. now rewrite rfind_absent.
Qed.

Lemma basename_after_slash a f : ~ In slash f -> basename (a ++ slash :: f) = f.
Proof.
  intros N. unfold basename, rfind. rewrite rfind_last_slash by assumption.
  replace (Z.to_nat (0 + Z.of_nat (List.length a) + 1)) with (List.length a + 1)%nat by lia.
  rewrite skipn_app, skipn_all2 by lia.
  now replace (List.length a + 1 - List.length a)%nat with 1%nat by lia.
Qed.

(** The name of a joined path is the name that was joined. *)
Lemma basename_join input_folder f :
  ~ In slash f -> basename (join input_folder f) = f.
Proof.
  intros N. unfold join.
  destruct (startswith f [slash]) eqn:S.
  { apply str_eqb_eq in S. destruct f as [|c f]; [discriminate|].
    cbn in S. injection S as ->. exfalso. apply N. now left. }
  destruct input_folder as [|c a]; cbn [orb]; [now apply basename_no_slash|].
  destruct (endswith (c :: a) [slash]) eqn:E; [|now apply basename_after_slash].
  apply endswith_spec in E as [stem ->]. rewrite <- app_assoc.
  now apply basename_after_slash.
Qed.

(** The path of a name in a folder. *)
Lemma join_plain a b :
  plain_folder a -> ~ In slash b -> join a b = a ++ slash :: b.
Proof.
  intros [Na Ea] Nb. unfold join. rewrite Ea.
  replace (startswith b [slash]) with false.
  - now destruct a.
  - destruct b as [|c b]; [reflexivity|]. unfold startswith. cbn.
    destruct (c =? slash) eqn:E; [|reflexivity]. exfalso. apply Nb. left. lia.
Qed.

(** A path says which folder and which name it was joined of. *)
Lemma join_inj a a' b b' :
  plain_folder a -> plain_folder a' -> ~ In slash b -> ~ In slash b' ->
  join a b = join a' b' -> a = a' /\ b = b'.
Proof.
  intros Pa Pa' Nb Nb' E. rewrite !join_plain in E by assumption.
  assert (Eb : b = b').
  { apply (f_equal basename) in E. now rewrite !basename_after_slash in E. }
  subst b'. now apply app_inv_tail in E.
Qed.

(** The files of a run are entries of the folder, joined to it. *)
Lemma in_all_image_files input_folder listdir path :
  In path (all_image_files input_folder listdir) <->
  exists f, In f listdir /\ is_image_file f = true /\ path = join input_folder f.
Proof.
  unfold all_image_files.
  rewrite <- (Permutation_in' eq_refl (sorted_perm _)), in_map_iff.
  split; intros (f & A & B); exists f.
  - apply filter_In in B. now destruct B.
  - destruct B as [B ->]. split; [reflexivity|]. now apply filter_In.
Qed.


(** The name of a sheet does not depend on the folder: the
    sanitised name of a file of the run is the sanitised name of its entry
    in the folder. *)
Theorem sanitize_scanned_file input_folder f :
  ~ In slash f ->
  sanitize_filename_component (join input_folder f) = sanitize_filename_component f.
Proof.
  intros N. unfold sanitize_filename_component.
  now rewrite basename_join, basename_no_slash.
Qed.

End ScannerFacts.

(** *** The sheets of an earlier run *)

(** The name of a sheet ends in [.png]: when the sheets of a run
    are in the folder the next run reads, for instance because the same
    folder was given as input and as output, the scanner takes them for
    pictures of cards. *)
Theorem sheets_are_scanned input_folder entries first_file last_file n :
  In (output_sheet_name first_file last_file n) entries ->
  In (join input_folder (output_sheet_name first_file last_file n))
     (all_image_files input_folder entries).
Proof.
  intros I. unfold all_image_files.
  apply (Permutation_in _ (sorted_perm _)), in_map, filter_In. split; [exact I|].
  apply is_image_file_spec. unfold output_sheet_name. rewrite !app_assoc.
  cbn [lower ascii_lowercase]. rewrite map_app.
  eexists _, _. split; [|reflexivity]. now left.
Qed.

Lemma sheets_are_scanned_witness :
  In (join (of_string "cards")
        (output_sheet_name (of_string "a") (of_string "i") 0))
     (all_image_files (of_string "cards")
        [of_string "a.png"; output_sheet_name (of_string "a") (of_string "i") 0]).
Proof.
  apply (sheets_are_scanned (of_string "cards")
           [of_string "a.png"; output_sheet_name (of_string "a") (of_string "i") 0]
           (of_string "a") (of_string "i") 0).
  right. now left.
Defined.

(** ** Concrete checks *)

Example is_image_file_examples :
  map (fun f => is_image_file (of_string f))
      ["Card.PNG"; "a.jpeg"; "notes.txt"; ".gif"; "a.png.bak"; "tiff"; "b.TiFf"]%string
  = [true; true; false; true; false; false; true].
Proof. reflexivity. Qed.

Example all_image_files_example :
  all_image_files (of_string "in")
    (map of_string ["b.png"; "readme.md"; "a.JPG"; "B.gif"]%string)
  = map of_string ["in/B.gif"; "in/a.JPG"; "in/b.png"]%string.
Proof. reflexivity. Qed.

Lemma sanitize_scanned_file_witness :
  sanitize_filename_component (join (of_string "cards/in") (of_string "Black Lotus.png"))
  = sanitize_filename_component (of_string "Black Lotus.png").
Proof.
  apply (sanitize_scanned_file (of_string "cards/in") (of_string "Black Lotus.png")).
  cbn. intuition discriminate.
Defined.
