(* ===== verification/Batch.v ===== *)
(** * Batch: the files of a run, nine to a sheet

    The batching of the [__main__] block of [src/proxify.py] (lines
    458-505) as a function of the list of files: the sorted list is cut into
    consecutive chunks of nine, one sheet each, numbered in order; a run
    that finds fewer than nine files makes no sheet; the files after the
    last full chunk are printed as left over.  [sheet_name] is the name of
    the sheet of a chunk.  [Run] has the loop as the program runs it and
    shows that it computes [main_batches].

    [main_batches_partition] shows that the chunks and the leftover files
    are the files found, in order, each once. *)

From Stdlib Require Import ZArith List Bool Lia.
Import ListNotations.
From S2P Require Import Prelude Names.
Local Open Scope Z_scope.

(** [range(lo, hi, step)] for a positive step. *)
Definition range_step (lo hi step : Z) : list Z :=
  map (fun j => lo + j * step) (range 0 ((hi - lo + step - 1) / step)).

(** [l[i : j]] for [0 <= i]. *)
Definition slice {A} (l : list A) (i j : Z) : list A :=
  firstn (Z.to_nat (j - i)) (skipn (Z.to_nat i) l).

(** What a run does with the files it found. *)
Inductive batches (A : Type) : Type :=
| NoImages
| NotEnough (num_total_images : Z)
| Sheets (chunks : list (Z * list A)) (leftover : list A).
Arguments NoImages {A}.
Arguments NotEnough {A}.
Arguments Sheets {A}.

Section Batch.
Context {A : Type}.

(** The files printed as left over (lines 500-505). *)
Definition leftover_files (all_image_files : list A) (from num_total_images : Z)
    : list A :=
  flat_map (fun leftover_idx =>
              match nth_error all_image_files (Z.to_nat leftover_idx) with
              | Some f => [f]
              | None => []
              end)
           (range from num_total_images).

(** The loop over the chunks (lines 479-490): each chunk with the value of
    [num_sheets_created] when its sheet is named. *)
Definition chunk_loop (all_image_files : list A)
    (num_images_to_process_in_full_sheets : Z) : list (Z * list A) :=
  fold_left (fun sheets i =>
               let num_sheets_created := Z.of_nat (length sheets) in
               sheets ++ [(num_sheets_created, slice all_image_files i (i + 9))])
            (range_step 0 num_images_to_process_in_full_sheets 9) [].

(** The batching of [__main__] (lines 458-505). *)
Definition main_batches (all_image_files : list A) : batches A :=
  let num_total_images := Z.of_nat (length all_image_files) in
  if num_total_images =? 0 then NoImages
  else if num_total_images <? 9 then NotEnough num_total_images
  else
    let num_images_to_process_in_full_sheets := (num_total_images / 9) * 9 in
    if num_images_to_process_in_full_sheets =? 0 then NotEnough num_total_images
    else
      let leftover_count := num_total_images mod 9 in
      Sheets (chunk_loop all_image_files num_images_to_process_in_full_sheets)
             (if 0 <? leftover_count
              then leftover_files all_image_files
                     num_images_to_process_in_full_sheets num_total_images
              else []).
End Batch.

(** The name of the sheet of a chunk (lines 482-485). *)
Definition sheet_name (current_chunk_paths : list pystr) (num_sheets_created : Z)
    : result pystr :=
  match current_chunk_paths with
  | [] => Raise IndexError
  | first :: _ =>
      let first_file_sanitized := sanitize_filename_component first in
      let last_file_sanitized :=
        sanitize_filename_component (last current_chunk_paths []) in
      Ok (output_sheet_name first_file_sanitized last_file_sanitized
            num_sheets_created)
  end.

(** ** Theorems *)

Section BatchFacts.
Context {A : Type}.
Implicit Types l : list A.

Lemma range_step_9 q : 0 <= q -> range_step 0 (q * 9) 9 = map (fun j => 0 + j * 9) (range 0 q).
Proof.
  intros Hq. unfold range_step. replace ((q * 9 - 0 + 9 - 1) / 9) with q by zdiv.
  reflexivity.
Qed.

Lemma slice_length l i j :
  0 <= i <= j -> j <= Z.of_nat (length l) -> length (slice l i j) = Z.to_nat (j - i).
Proof.
  intros Hi Hj. unfold slice. rewrite length_firstn, length_skipn. lia.
Qed.

Lemma slice_nth l i j k :
  0 <= i -> 0 <= k < j - i ->
  nth_error (slice l i j) (Z.to_nat k) = nth_error l (Z.to_nat (i + k)).
Proof.
  intros Hi Hk. unfold slice. rewrite nth_error_firstn.
  replace (Z.to_nat k <? Z.to_nat (j - i))%nat with true
    by (symmetry; apply Nat.ltb_lt; lia).
  rewrite nth_error_skipn. f_equal. lia.
Qed.

(** The chunks of the first [q] turns of the loop. *)
Lemma chunk_loop_turns l q :
  0 <= q ->
  chunk_loop l (q * 9)
  = map (fun j => (j, slice l (j * 9) (j * 9 + 9))) (range 0 q).
Proof.
  intros Hq. unfold chunk_loop. rewrite range_step_9 by assumption.
  pattern q. apply natlike_ind; [reflexivity| |assumption]. clear q Hq.
  intros q Hq IH. unfold Z.succ. rewrite range_snoc by lia.
  replace (q + 1 - 1) with q by lia. rewrite !map_app, fold_left_app, IH.
  cbn [map fold_left]. rewrite length_map, range_length. repeat f_equal. lia.
Qed.

Lemma firstn_plus l (n m : nat) :
  firstn (n + m) l = firstn n l ++ firstn m (skipn n l).
Proof.
  revert l. induction n as [|n IH]; intros l; [reflexivity|].
  destruct l as [|a l]; cbn; [now rewrite firstn_nil | now rewrite IH].
Qed.

Lemma concat_slices l q :
  0 <= q -> q * 9 <= Z.of_nat (length l) ->
  concat (map (fun j => slice l (j * 9) (j * 9 + 9)) (range 0 q))
  = firstn (Z.to_nat (q * 9)) l.
Proof.
  intros Hq. pattern q. apply natlike_ind; [reflexivity| |assumption]. clear q Hq.
  intros q Hq IH Hl. unfold Z.succ. rewrite range_snoc by lia.
  replace (q + 1 - 1) with q by lia. rewrite map_app, concat_app, IH by lia.
  cbn [map concat]. rewrite app_nil_r. unfold slice.
  replace (Z.to_nat (q * 9 + 9 - q * 9)) with 9%nat by lia.
  replace (Z.to_nat ((q + 1) * 9)) with (Z.to_nat (q * 9) + 9)%nat by lia.
  symmetry. apply firstn_plus.
Qed.

(** A file of a run is in a full chunk or after the last one. *)
Lemma file_in_chunk l a :
  let n := Z.of_nat (length l) in
  In a l ->
  (exists j, 0 <= j < n / 9 /\ In a (slice l (j * 9) (j * 9 + 9))) \/
  In a (skipn (Z.to_nat (n / 9 * 9)) l).
Proof.
  intros n I. rewrite <- (firstn_skipn (Z.to_nat (n / 9 * 9)) l) in I.
  apply in_app_or in I as [I|I]; [left | now right].
  rewrite <- concat_slices in I by (unfold n; zdiv).
  apply in_concat in I as (c & (j & <- & Ij%in_range)%in_map_iff & I). now exists j.
Qed.

Lemma leftover_files_skipn l from :
  0 <= from <= Z.of_nat (length l) ->
  leftover_files l from (Z.of_nat (length l)) = skipn (Z.to_nat from) l.
Proof.
  intros H. unfold leftover_files.
  remember (Z.to_nat (Z.of_nat (length l) - from)) as n eqn:En.
  revert from H En. induction n as [|n IH]; intros from H En.
  - rewrite range_nil by lia. rewrite skipn_all2 by lia. reflexivity.
  - rewrite range_cons by lia. cbn [flat_map].
    destruct (nth_error l (Z.to_nat from)) as [f|] eqn:E;
      [|apply nth_error_None in E; lia].
    rewrite IH by lia. replace (Z.to_nat (from + 1)) with (S (Z.to_nat from)) by lia.
    symmetry. now apply skipn_nth_error.
Qed.

(** With nine files or more the run makes [n / 9] sheets, numbered from 1,
    of the consecutive slices of nine files, and reports the rest. *)
Lemma main_batches_sheets l :
  let n := Z.of_nat (length l) in
  9 <= n ->
  main_batches l
  = Sheets (map (fun j => (j, slice l (j * 9) (j * 9 + 9))) (range 0 (n / 9)))
           (skipn (Z.to_nat (n / 9 * 9)) l).
Proof.
  intros n Hn. unfold main_batches. fold n.
  replace (n =? 0) with false by lia. replace (n <? 9) with false by lia.
  replace (n / 9 * 9 =? 0) with false by zdiv.
  rewrite chunk_loop_turns by zdiv. f_equal.
  destruct (0 <? n mod 9) eqn:E.
  - apply leftover_files_skipn. fold n. zdiv.
  - rewrite skipn_all2; [reflexivity|]. zdiv.
Qed.

(** Claim C13: when sheets are made, no file is lost and none is used
    twice: the chunks in order, followed by the files reported as left
    over, are the files found; every chunk has nine files; there are
    [n / 9] chunks and [n mod 9] files left over. *)
Theorem main_batches_partition l chunks leftover :
  main_batches l = Sheets chunks leftover ->
  let n := Z.of_nat (length l) in
  concat (map snd chunks) ++ leftover = l /\
  Forall (fun c => length (snd c) = 9%nat) chunks /\
  Z.of_nat (length chunks) = n / 9 /\ Z.of_nat (length leftover) = n mod 9.
Proof.
  intros E n. subst n. assert (Hn : 9 <= Z.of_nat (length l)).
  { unfold main_batches in E. destruct (_ =? 0); [discriminate|].
    destruct (_ <? 9) eqn:E9; [discriminate|zlia]. }
  rewrite (main_batches_sheets l Hn) in E. injection E as <- <-.
  remember (Z.of_nat (length l)) as n eqn:En.
  assert (Hq : 0 <= n / 9 /\ n / 9 * 9 <= n) by zdiv.
  repeat split.
  - rewrite map_map. cbn [snd]. rewrite concat_slices by lia. apply firstn_skipn.
  - apply Forall_forall. intros c I. apply in_map_iff in I as (j & Ej & Ij).
    apply in_range in Ij. subst c. cbn [snd]. rewrite slice_length; lia.
  - rewrite length_map, range_length. lia.
  - rewrite length_skipn. zdiv.
Qed.

(** With fewer than nine files no sheet is made. *)
Theorem main_batches_not_enough l :
  Z.of_nat (length l) < 9 ->
  main_batches l = NoImages \/ main_batches l = NotEnough (Z.of_nat (length l)).
Proof.
  intros Hn. unfold main_batches. destruct (_ =? 0); [now left|].
  replace (_ <? 9) with true by lia. now right.
Qed.

(** Eleven files give one sheet, of the first nine, and the last
    two are reported as left over. *)
Theorem main_batches_eleven l :
  length l = 11%nat ->
  exists c r1 r2, main_batches l = Sheets [(0, c)] [r1; r2] /\
    l = c ++ [r1; r2] /\ length c = 9%nat.
Proof.
  intros Hl. do 11 (destruct l as [|? l]; [discriminate|]).
  destruct l; [|discriminate]. eexists _, _, _. split; [reflexivity|].
  split; reflexivity.
Qed.
End BatchFacts.

(** A slice holds elements of the list only. *)
Lemma slice_incl {A} (l : list A) i j : incl (slice l i j) l.
Proof.
  intros a I. unfold slice in I. rewrite <- (firstn_skipn (Z.to_nat i) l).
  apply in_or_app. right.
  rewrite <- (firstn_skipn (Z.to_nat (j - i)) (skipn _ l)). apply in_or_app. now left.
Qed.

(** The name of the sheet of a chunk that is not empty. *)
Lemma sheet_name_ok (chunk : list pystr) n :
  chunk <> [] ->
  sheet_name chunk n
  = Ok (output_sheet_name (sanitize_filename_component (hd [] chunk))
          (sanitize_filename_component (last chunk [])) n).
Proof. destruct chunk; [contradiction | reflexivity]. Qed.

Lemma slice_nonempty {A} (l : list A) i j :
  0 <= i < j -> j <= Z.of_nat (length l) -> slice l i j <> [].
Proof.
  intros Hi Hj E. pose proof (slice_length l i j ltac:(lia) Hj) as L.
  rewrite E in L. cbn in L. lia.
Qed.

(** The sheets of a run get pairwise different names. *)
Lemma sheet_names_distinct (l : list pystr) chunks leftover :
  main_batches l = Sheets chunks leftover ->
  exists names,
    map (fun c => sheet_name (snd c) (fst c)) chunks = map Ok names /\
    NoDup names.
Proof.
  intros E. assert (Hn : 9 <= Z.of_nat (length l)).
  { unfold main_batches in E. destruct (_ =? 0); [discriminate|].
    destruct (_ <? 9) eqn:E9; [discriminate|zlia]. }
  rewrite (main_batches_sheets l Hn) in E. injection E as <- _.
  assert (Hq : 0 <= Z.of_nat (length l) / 9 * 9 <= Z.of_nat (length l)) by zdiv.
  eexists. split; [|apply output_sheet_names_nodup].
  rewrite !map_map. apply map_ext_in. intros j Hj%in_range. cbn [fst snd].
  apply sheet_name_ok, slice_nonempty; lia.
Qed.

(** ** Witnesses *)

Lemma main_batches_partition_witness :
  concat (map snd [(0, [1; 2; 3; 4; 5; 6; 7; 8; 9])]) ++ [10; 11]
  = [1; 2; 3; 4; 5; 6; 7; 8; 9; 10; 11] /\
  Forall (fun c : Z * list Z => length (snd c) = 9%nat) [(0, [1; 2; 3; 4; 5; 6; 7; 8; 9])] /\
  Z.of_nat (length [(0, [1; 2; 3; 4; 5; 6; 7; 8; 9])])
  = Z.of_nat (length [1; 2; 3; 4; 5; 6; 7; 8; 9; 10; 11]) / 9 /\
  Z.of_nat (length [10; 11]) = Z.of_nat (length [1; 2; 3; 4; 5; 6; 7; 8; 9; 10; 11]) mod 9.
Proof.
  apply (main_batches_partition [1; 2; 3; 4; 5; 6; 7; 8; 9; 10; 11]
           [(0, [1; 2; 3; 4; 5; 6; 7; 8; 9])] [10; 11]).
  reflexivity.
Defined.

Lemma main_batches_not_enough_witness :
  main_batches [1; 2; 3] = NoImages \/
  main_batches [1; 2; 3] = NotEnough (Z.of_nat (length [1; 2; 3])).
Proof. apply (main_batches_not_enough [1; 2; 3]). cbn. lia. Defined.

Lemma main_batches_eleven_witness :
  exists c r1 r2,
    main_batches [1; 2; 3; 4; 5; 6; 7; 8; 9; 10; 11] = Sheets [(0, c)] [r1; r2] /\
    [1; 2; 3; 4; 5; 6; 7; 8; 9; 10; 11] = c ++ [r1; r2] /\ length c = 9%nat.
Proof. apply (main_batches_eleven [1; 2; 3; 4; 5; 6; 7; 8; 9; 10; 11]). reflexivity. Defined.

