(* ===== verification/Run.v ===== *)
(** * Run: a whole run of the program

    Models the [__main__] block of [src/proxify.py] from line 458 on: the
    exits for no or too few files, and the loop that takes the sorted files
    nine at a time, names the sheet of each batch and has
    [Sheet.create_printable_sheet] draw and save it.  The file system is
    two functions: [open], what [Image.open(path).convert("RGBA")] gives for
    a path, a picture or an exception, and [save], what [sheet.save] does
    for a path and a page.  A run ends with the sheets saved, by path, the
    saves that raised, the warnings printed and the files left over.

    [Batch.main_batches] is the same batching as a function of the list of
    files alone; [main_outcome] shows that the loop computes it, with
    [sheet_of] applied to every chunk, on a paper of a size that is not
    negative ([Sheet.paper_ok]); on any paper the run is [run_of], which
    raises at the first page when the paper has a negative size
    ([main_run_of], [main_bad_paper]).  The other theorems follow a file
    from the list of files to a card of the card size pasted in a cell of
    a sheet that is saved under a path no other sheet of the run has, and
    say what the run does when saves raise: it goes on, and counts their
    sheets as created. *)

From Stdlib Require Import ZArith List Bool Lia Permutation.
From Stdlib Require Ascii String.
Import ListNotations.
From S2P Require Import Prelude Config Image Cropper Renderer Sheet Names Scanner Batch.
Local Open Scope Z_scope.
Local Open Scope result_scope.

(** How a run ends. *)
Inductive outcome : Type :=
| ExitNoImages                                   (* 461-463 *)
| ExitNotEnough (num_total_images : Z)           (* 465-467, 472-474 *)
| Finished (num_sheets_created : Z)
           (saved : list (pystr * list draw_op))
           (failed : list (pystr * exn))
           (reported : list diag)
           (leftover : list pystr).

(** The variables of the loop over the batches. *)
Record run_state : Type := RunState {
  num_sheets_created : Z;
  saved : list (pystr * list draw_op);
  failed : list (pystr * exn);
  reported : list diag
}.

(** What a save leaves on the disk: the page under its path when it
    returns (line 420), nothing when it raises. *)
Definition written (path : pystr) (sheet : list draw_op) (outcome : result unit)
    : list (pystr * list draw_op) :=
  match outcome with
  | Ok _ => [(path, sheet)]
  | Raise _ => []
  end.

(** The save that raised, as line 422 prints it. *)
Definition unwritten (path : pystr) (outcome : result unit) : list (pystr * exn) :=
  match outcome with
  | Ok _ => []
  | Raise e => [(path, e)]
  end.

Section Program.
Context `{Imaging} (s : settings) (p : pixels).
Context (open : pystr -> result image) (save : pystr -> list draw_op -> result unit).
Context (output_dir_path : pystr).

(** The body of the loop (lines 480-490).  The sheet counts as created
    whatever its save did. *)
Definition process_batch (all_image_files : list pystr) (st : run_state) (i : Z)
    : result run_state :=
  let current_chunk_paths := slice all_image_files i (i + 9) in
  output_sheet_name <- sheet_name current_chunk_paths (num_sheets_created st) ;;
  let full_output_path_for_sheet := join output_dir_path output_sheet_name in
  sheet <- create_printable_sheet s p save (map open current_chunk_paths)
             full_output_path_for_sheet ;;
  let '(page, printed, outcome) := sheet in
  Ok (RunState (num_sheets_created st + 1)
        (saved st ++ written full_output_path_for_sheet page outcome)
        (failed st ++ unwritten full_output_path_for_sheet outcome)
        (reported st ++ printed)).

(** [__main__] from line 458 on. *)
Definition main (all_image_files : list pystr) : result outcome :=
  let num_total_images := Z.of_nat (length all_image_files) in
  if num_total_images =? 0 then Ok ExitNoImages
  else if num_total_images <? 9 then Ok (ExitNotEnough num_total_images)
  else
    let num_images_to_process_in_full_sheets := (num_total_images / 9) * 9 in
    if num_images_to_process_in_full_sheets =? 0
    then Ok (ExitNotEnough num_total_images)
    else
      st <- fold_m (process_batch all_image_files)
              (range_step 0 num_images_to_process_in_full_sheets 9)
              (RunState 0 [] [] []) ;;
      let leftover_count := num_total_images mod 9 in
      Ok (Finished (num_sheets_created st) (saved st) (failed st) (reported st)
            (if 0 <? leftover_count
             then leftover_files all_image_files
                    num_images_to_process_in_full_sheets num_total_images
             else [])).

(** The program from the listing of the input folder on (lines 452-505). *)
Definition run `{Lowercase} (input_folder : pystr) (listdir : list pystr)
    : result outcome :=
  main (all_image_files input_folder listdir).

(** ** Reference *)

(** The j-th chunk of the files, with its number. *)
Definition chunk_at (files : list pystr) (j : Z) : Z * list pystr :=
  (j, slice files (j * 9) (j * 9 + 9)).

(** The sheet of a chunk: its path and the calls that draw it. *)
Definition sheet_of (chunk : Z * list pystr) : pystr * list draw_op :=
  (join output_dir_path
     (output_sheet_name (sanitize_filename_component (hd [] (snd chunk)))
                        (sanitize_filename_component (last (snd chunk) []))
                        (fst chunk)),
   drawn (placed s p (map open (snd chunk)) 9) ++ cut_lines s p).

(** What saving the sheet of a chunk does. *)
Definition save_of (chunk : Z * list pystr) : result unit :=
  save (fst (sheet_of chunk)) (snd (sheet_of chunk)).

Definition saved_of (chunk : Z * list pystr) : list (pystr * list draw_op) :=
  written (fst (sheet_of chunk)) (snd (sheet_of chunk)) (save_of chunk).

Definition failed_of (chunk : Z * list pystr) : list (pystr * exn) :=
  unwritten (fst (sheet_of chunk)) (save_of chunk).

Definition report_of (chunk : Z * list pystr) : list diag :=
  printed (placed s p (map open (snd chunk)) 9).

(** The variables of the loop after the chunks. *)
Definition after (chunks : list (Z * list pystr)) : run_state :=
  RunState (Z.of_nat (length chunks)) (concat (map saved_of chunks))
           (concat (map failed_of chunks)) (concat (map report_of chunks)).

(** How a run that got through the loop ends. *)
Definition finished (st : run_state) (leftover : list pystr) : outcome :=
  Finished (num_sheets_created st) (saved st) (failed st) (reported st) leftover.

(** What the batches of a run become. *)
Definition outcome_of (b : batches pystr) : outcome :=
  match b with
  | NoImages => ExitNoImages
  | NotEnough n => ExitNotEnough n
  | Sheets chunks leftover => finished (after chunks) leftover
  end.

(** The same on any paper: the page of the first sheet is made before a
    file is opened, and the exception of a negative paper size is not
    caught. *)
Definition run_of (b : batches pystr) : result outcome :=
  match b with
  | Sheets _ _ => _ <- blank_page p ;; Ok (outcome_of b)
  | _ => Ok (outcome_of b)
  end.

End Program.

(** Where a call draws: the corner of a paste, the start of a line. *)
Definition position (op : draw_op) : Z * Z :=
  match op with
  | Paste _ x y => (x, y)
  | DrawLine x0 y0 _ _ _ _ => (x0, y0)
  end.

Section RunFacts.
Context `{Imaging} (s : settings) (p : pixels).
Context (open : pystr -> result image) (save : pystr -> list draw_op -> result unit).
Context (output_dir_path : pystr).

(** On a paper the page cannot be made of, the first batch raises. *)
Lemma main_bad_paper files :
  ~ paper_ok p -> 9 <= Z.of_nat (length files) ->
  main s p open save output_dir_path files = Raise ValueError.
Proof.
  intros N Hn. unfold main. set (n := Z.of_nat (length files)) in *.
  replace (n =? 0) with false by lia. replace (n <? 9) with false by lia.
  replace (n / 9 * 9 =? 0) with false by zdiv.
  replace (n / 9 * 9) with ((n / 9 - 1 + 1) * 9) by lia.
  rewrite range_step_9, (range_cons 0) by zdiv. cbn [map fold_m].
  unfold process_batch at 1.
  rewrite sheet_name_ok by (apply slice_nonempty; unfold n in *; zdiv). cbn [bind].
  now rewrite sheet_layout_any, (blank_page_raise p N).
Qed.

(** *** On a paper of a size that is not negative *)

Context (paper : paper_ok p).

(** One turn of the loop, on a full chunk. *)
Lemma process_batch_step files chunks j :
  0 <= j -> j * 9 + 9 <= Z.of_nat (length files) -> Z.of_nat (length chunks) = j ->
  process_batch s p open save output_dir_path files
    (after s p open save output_dir_path chunks) (0 + j * 9)
  = Ok (after s p open save output_dir_path (chunks ++ [chunk_at files j])).
Proof.
  intros Hj Hl <-. unfold process_batch. rewrite Z.add_0_l.
  rewrite sheet_name_ok by (apply slice_nonempty; lia). cbn [bind].
  rewrite (sheet_layout s p save _ paper). unfold after. cbn [bind num_sheets_created saved failed reported].
  rewrite !map_app, !concat_app, length_app, Nat2Z.inj_add. cbn [map concat length].
  rewrite !app_nil_r. unfold saved_of, failed_of, report_of, save_of, sheet_of, chunk_at.
  cbn [fst snd]. reflexivity.
Qed.

(** The state after [q] turns. *)
Lemma process_batches files q :
  0 <= q -> q * 9 <= Z.of_nat (length files) ->
  fold_m (process_batch s p open save output_dir_path files)
         (map (fun j => 0 + j * 9) (range 0 q)) (RunState 0 [] [] [])
  = Ok (after s p open save output_dir_path (map (chunk_at files) (range 0 q))).
Proof.
  intros Hq. pattern q. apply natlike_ind; [reflexivity| |assumption]. clear q Hq.
  intros q Hq IH Hl. unfold Z.succ. rewrite range_snoc by lia.
  replace (q + 1 - 1) with q by lia. rewrite !map_app, fold_m_app, IH by lia.
  cbn [bind map fold_m]. rewrite process_batch_step; [reflexivity|lia..|].
  rewrite length_map, range_length. lia.
Qed.

(** The outcome of a run on nine files or more. *)
Lemma main_sheets files :
  let n := Z.of_nat (length files) in
  9 <= n ->
  main s p open save output_dir_path files
  = Ok (finished (after s p open save output_dir_path
                    (map (chunk_at files) (range 0 (n / 9))))
                 (skipn (Z.to_nat (n / 9 * 9)) files)).
Proof.
  intros n Hn. unfold main. fold n.
  replace (n =? 0) with false by lia. replace (n <? 9) with false by lia.
  replace (n / 9 * 9 =? 0) with false by zdiv.
  rewrite range_step_9, process_batches by zdiv. cbn [bind]. unfold finished.
  do 2 f_equal. destruct (0 <? n mod 9) eqn:E.
  - apply leftover_files_skipn. fold n. zdiv.
  - rewrite skipn_all2; [reflexivity|]. zdiv.
Qed.

(** Every sheet of a run is either saved or among the saves that raised. *)
Lemma saved_or_failed chunks :
  let st := after s p open save output_dir_path chunks in
  Permutation (map fst (saved st) ++ map fst (failed st))
              (map (fun c => fst (sheet_of s p open output_dir_path c)) chunks).
Proof.
  cbn [after saved failed]. induction chunks as [|c chunks IH]; [constructor|].
  cbn [map concat]. unfold saved_of at 1, failed_of at 1.
  destruct (save_of _ _ _ _ _ c); cbn [written unwritten app map fst].
  - now constructor.
  - symmetry. apply Permutation_cons_app. now symmetry.
Qed.

(** The sheets of a run have pairwise different paths. *)
Lemma sheet_paths_nodup files q :
  NoDup (map (fun c => fst (sheet_of s p open output_dir_path c))
             (map (chunk_at files) (range 0 q))).
Proof.
  rewrite map_map. apply NoDup_map_NoDup_ForallPairs; [|apply NoDup_range].
  intros i j Hi%in_range Hj%in_range. cbn [sheet_of chunk_at fst snd].
  destruct (join_suffix output_dir_path (output_sheet_name
              (sanitize_filename_component (hd [] (slice files (i * 9) (i * 9 + 9))))
              (sanitize_filename_component (last (slice files (i * 9) (i * 9 + 9)) []))
              i)) as [pre ->].
  destruct (join_suffix output_dir_path (output_sheet_name
              (sanitize_filename_component (hd [] (slice files (j * 9) (j * 9 + 9))))
              (sanitize_filename_component (last (slice files (j * 9) (j * 9 + 9)) []))
              j)) as [pre' ->].
  rewrite !output_sheet_name_prefix. now intros E%output_sheet_name_inj.
Qed.

(** A sheet whose save returns is on the disk. *)
Lemma saved_of_In chunks c :
  In c chunks -> save_of s p open save output_dir_path c = Ok tt ->
  In (sheet_of s p open output_dir_path c)
     (saved (after s p open save output_dir_path chunks)).
Proof.
  intros I E. apply in_concat. exists (saved_of s p open save output_dir_path c).
  split; [now apply in_map|]. unfold saved_of. rewrite E. cbn [written]. left.
  now destruct (sheet_of _ _ _ _ c).
Qed.

(** The loop of [__main__] computes the batching of [Batch.main_batches]:
    it never raises, exits without a sheet exactly when the batching has
    none, and otherwise draws and saves the sheet [sheet_of] of every
    chunk, in order, and reports the leftover files of the batching. *)
Lemma main_outcome files :
  main s p open save output_dir_path files
  = Ok (outcome_of s p open save output_dir_path (main_batches files)).
Proof.
  destruct (Z.of_nat (length files) <? 9) eqn:E9.
  - unfold main, main_batches. rewrite E9. now destruct (_ =? 0).
  - now rewrite main_sheets, main_batches_sheets by lia.
Qed.

(** The sheets of a run have pairwise different paths, whether
    their save returned or raised, so no sheet overwrites another; the
    count of sheets the run reports is the number of saves it tried, those
    that raised included. *)
Theorem saved_sheets_distinct files :
  match main s p open save output_dir_path files with
  | Ok (Finished k saved failed _ _) =>
      NoDup (map fst saved ++ map fst failed) /\
      k = Z.of_nat (length saved) + Z.of_nat (length failed)
  | _ => True
  end.
Proof.
  destruct (Z.of_nat (length files) <? 9) eqn:E9.
  - unfold main. rewrite E9. now destruct (_ =? 0).
  - rewrite main_sheets by lia. cbn [finished].
    pose proof (saved_or_failed (map (chunk_at files)
                  (range 0 (Z.of_nat (length files) / 9)))) as P. cbn zeta in P.
    split; [apply (Permutation_NoDup (Permutation_sym P)), sheet_paths_nodup|].
    apply Permutation_length in P. rewrite length_app, !length_map in P.
    cbn [after num_sheets_created]. rewrite length_map. lia.
Qed.

(** No file of a full batch is forgotten: if the i-th file opens as a
    picture with at least one pixel and the save of sheet number [i / 9]
    returns, this sheet is on the disk after the loop, with a card of the
    card size pasted in cell [i mod 9]. *)
Lemma card_on_sheet files i path :
  1 <= CARD_WIDTH_PX p -> 1 <= CARD_HEIGHT_PX p ->
  0 <= i < Z.of_nat (length files) / 9 * 9 ->
  nth_error files (Z.to_nat i) = Some path -> opened (open path) ->
  save_of s p open save output_dir_path (chunk_at files (i / 9)) = Ok tt ->
  exists ops op,
    In (fst (sheet_of s p open output_dir_path (chunk_at files (i / 9))), ops)
       (saved (after s p open save output_dir_path
                 (map (chunk_at files) (range 0 (Z.of_nat (length files) / 9))))) /\
    In op ops /\ card_at p (i mod 9) op.
Proof.
  intros Hw Hh Hi E O Sv. set (chunk := slice files (i / 9 * 9) (i / 9 * 9 + 9)).
  destruct (placed_has_card s p (map open chunk) 9 (i mod 9) (open path))
    as (op & I & C); trivial.
  - unfold chunk. rewrite length_map, slice_length; zdiv.
  - zdiv.
  - apply map_nth_error. unfold chunk. rewrite slice_nth by zdiv.
    now replace (i / 9 * 9 + i mod 9) with i by zdiv.
  - exists (snd (sheet_of s p open output_dir_path (chunk_at files (i / 9)))), op.
    split; [|split; [|exact C]].
    + rewrite <- surjective_pairing. apply saved_of_In; [|exact Sv].
      apply in_map, in_range. zdiv.
    + cbn [sheet_of chunk_at snd]. apply in_or_app. now left.
Qed.

(** Claim C29: on an output folder where no save returns, a run still counts
    a sheet for every batch, and leaves none on the disk. *)
Theorem failed_saves_counted files :
  9 <= Z.of_nat (length files) ->
  (forall path sheet, save path sheet <> Ok tt) ->
  exists failed log leftover,
    main s p open save output_dir_path files
    = Ok (Finished (Z.of_nat (length files) / 9) [] failed log leftover) /\
    Z.of_nat (length failed) = Z.of_nat (length files) / 9.
Proof.
  intros Hn Sv. rewrite main_sheets by assumption. unfold finished.
  set (chunks := map _ (range 0 _)).
  assert (L : Z.of_nat (length chunks) = Z.of_nat (length files) / 9)
    by (unfold chunks; rewrite length_map, range_length; zdiv).
  pose proof (saved_or_failed chunks) as P. cbn zeta in P.
  assert (E : saved (after s p open save output_dir_path chunks) = []).
  { apply concat_nil_Forall, Forall_map, Forall_forall. intros c _.
    unfold saved_of. destruct (save_of _ _ _ _ _ c) as [[]|e] eqn:Ec;
      [now apply Sv in Ec | reflexivity]. }
  rewrite E in *. apply Permutation_length in P. cbn [map app] in P.
  rewrite !length_map in P. do 3 eexists.
  split; [cbn [after num_sheets_created]; now rewrite L|]. now rewrite P.
Qed.

End RunFacts.

Section RunAny.
Context `{Imaging} (s : settings) (p : pixels).
Context (open : pystr -> result image) (save : pystr -> list draw_op -> result unit).
Context (output_dir_path : pystr).

(** The loop of [__main__] on any paper. *)
Lemma main_run_of files :
  main s p open save output_dir_path files
  = run_of s p open save output_dir_path (main_batches files).
Proof.
  destruct (paper_ok_dec p) as [P|N].
  - rewrite (main_outcome s p open save output_dir_path P). unfold run_of.
    rewrite (blank_page_ok p P). now destruct (main_batches files).
  - destruct (Z.of_nat (length files) <? 9) eqn:E9.
    + unfold main, main_batches. rewrite E9. now destruct (_ =? 0).
    + rewrite main_bad_paper, main_batches_sheets by (assumption || lia).
      unfold run_of. now rewrite (blank_page_raise p N).
Qed.

End RunAny.

(** ** Witnesses *)

Lemma failed_saves_counted_witness :
  exists failed log leftover,
    main default_settings default_pixels (fun _ => Ok (new_black 4 3))
      (fun _ _ => Raise OSError) [111] (map (fun c => [c]) (range 97 107))
    = Ok (Finished (Z.of_nat (length (map (fun c => [c]) (range 97 107))) / 9) []
            failed log leftover) /\
    Z.of_nat (length failed) = Z.of_nat (length (map (fun c => [c]) (range 97 107))) / 9.
Proof.
  apply (failed_saves_counted default_settings default_pixels
           (fun _ => Ok (new_black 4 3)) (fun _ _ => Raise OSError) [111] default_paper_ok
           (map (fun c => [c]) (range 97 107))).
  - vm_compute. discriminate.
  - discriminate.
Defined.

Lemma saved_sheets_distinct_witness :
  match main default_settings default_pixels (fun _ => Ok (new_black 4 3))
          (fun path _ => if Z.eqb (nth 2 path 0) 98 then Raise OSError else Ok tt) [111]
          (map (fun c => [c; c]) (range 97 116)) with
  | Ok (Finished k saved failed _ _) =>
      NoDup (map fst saved ++ map fst failed) /\
      k = Z.of_nat (length saved) + Z.of_nat (length failed)
  | _ => True
  end.
Proof.
  apply (saved_sheets_distinct default_settings default_pixels
           (fun _ => Ok (new_black 4 3))
           (fun path _ => if Z.eqb (nth 2 path 0) 98 then Raise OSError else Ok tt) [111]
           default_paper_ok (map (fun c => [c; c]) (range 97 116))).
Defined.

(** ** A run on a folder of twelve entries *)

Section Scenario.
Import String.

(** A folder with eleven pictures and a text file, every picture a
    small framed card: the run saves one sheet, named after the first and
    the ninth picture in sorted order, with nine cards at the corners of the
    nine cells followed by the four cut lines; it prints no warning and
    reports the last two pictures as left over. *)
Example run_eleven_files :
  match run default_settings default_pixels (fun _ => Ok (framed 24 20 (Box 10 5 14 15)))
          (fun _ _ => Ok tt) (of_string "out") (of_string "in")
          (map of_string ["k.png"; "b.png"; "c.jpg"; "d.png"; "e.PNG"; "f.png";
                          "g.gif"; "h.png"; "i.png"; "j.png"; "a.png"; "notes.txt"]%string) with
  | Ok (Finished k [(path, ops)] failed log leftover) =>
      k = 1 /\ path = of_string "out/a_to_i_sheet_1.png" /\ failed = [] /\
      leftover = map of_string ["in/j.png"; "in/k.png"]%string /\
      map position ops
      = [(600, 300); (3600, 300); (6600, 300);
         (600, 4500); (3600, 4500); (6600, 4500);
         (600, 8700); (3600, 8700); (6600, 8700);
         (3598, 0); (6598, 0); (0, 4498); (0, 8698)] /\
      log = []
  | _ => False
  end.
Proof. vm_compute. repeat split. Qed.

End Scenario.
