(* ===== verification/Disk.v ===== *)
(** * Disk: a run on a disk that changes

    [Run.main] takes what opening a file gives as a function of its path:
    the disk as it was when the run started.  But the run writes: every
    sheet whose save returns is a file of the output folder when the next
    batch is read, and nothing in [src/proxify.py] keeps the output folder
    apart from the input folder.  This file models the loop of the
    [__main__] block (lines 479-490) on a disk that the saves change, as a
    function ([main_on]) and as a transition system ([step]) whose states
    are the index of the loop, the disk and the variables of the loop.

    A [disk] says what opening a path gives and what saving under a path
    does.  A save that returns puts a file under its path; what opening
    that file gives is [read_back] of the page, a parameter: the encoding
    of the file is the library's.  A save that raises leaves the disk as it
    was.

    The invariant [inv] of the reachable states is proved by induction on
    the transitions: the index is nine times the number of sheets, every
    path written is the path of the sheet of an earlier batch, a sheet
    that was saved opens as its page, and every other path opens as at the
    start.  From it: when no sheet of the run has the path of a file of the
    run, the run on the disk is the run of [Run.main] on the disk of the
    start ([disk_refines_run]); when the first sheet has the path of a file
    of the second batch, the second batch reads the sheet, not the picture
    that was there ([sheet_read_as_picture]). *)

From Stdlib Require Import ZArith List Bool Lia Relations.
Import ListNotations.
From S2P Require Import Prelude Config Image Cropper Renderer Names Sheet Scanner Batch Run.
Local Open Scope Z_scope.
Local Open Scope result_scope.

(** The files of a disk, as the run meets them. *)
Record disk : Type := Disk {
  opened : pystr -> result image;   (* Image.open(path).convert("RGBA") *)
  saving : pystr -> result unit     (* whether sheet.save(path) returns *)
}.

(** The state of the loop: the disk and the variables. *)
Record machine : Type := Machine {
  files_of : disk;
  vars : run_state
}.

Section Disk.
Context `{Imaging} (s : settings) (p : pixels).
Context (read_back : list draw_op -> result image).
Context (output_dir_path : pystr).

(** The disk with the page under the path. *)
Definition write (d : disk) (path : pystr) (page : list draw_op) : disk :=
  {| opened := fun q => if str_eqb q path then read_back page else opened d q;
     saving := saving d |}.

(** The disk after [sheet.save(path)] (lines 418-422). *)
Definition save_on (d : disk) (path : pystr) (page : list draw_op) : disk :=
  match saving d path with
  | Ok _ => write d path page
  | Raise _ => d
  end.

(** The body of the loop (lines 480-490) on the disk of the state: the
    files of the chunk are opened on it, and the save changes it. *)
Definition process_batch_on (all_image_files : list pystr) (m : machine) (i : Z)
    : result machine :=
  let d := files_of m in
  let st := vars m in
  let current_chunk_paths := slice all_image_files i (i + 9) in
  output_sheet_name <- sheet_name current_chunk_paths (num_sheets_created st) ;;
  let full_output_path_for_sheet := join output_dir_path output_sheet_name in
  sheet <- create_printable_sheet s p (fun q _ => saving d q)
             (map (opened d) current_chunk_paths) full_output_path_for_sheet ;;
  let '(page, printed, outcome) := sheet in
  Ok (Machine (save_on d full_output_path_for_sheet page)
        (RunState (num_sheets_created st + 1)
           (saved st ++ written full_output_path_for_sheet page outcome)
           (failed st ++ unwritten full_output_path_for_sheet outcome)
           (reported st ++ printed))).

(** The state the loop starts in. *)
Definition start (d : disk) : machine := Machine d (RunState 0 [] [] []).

(** [__main__] from line 458 on, on a disk: how the run ends and the disk
    it leaves. *)
Definition main_on (d : disk) (all_image_files : list pystr) : result (outcome * disk) :=
  let num_total_images := Z.of_nat (length all_image_files) in
  if num_total_images =? 0 then Ok (ExitNoImages, d)
  else if num_total_images <? 9 then Ok (ExitNotEnough num_total_images, d)
  else
    let num_images_to_process_in_full_sheets := (num_total_images / 9) * 9 in
    if num_images_to_process_in_full_sheets =? 0
    then Ok (ExitNotEnough num_total_images, d)
    else
      m <- fold_m (process_batch_on all_image_files)
             (range_step 0 num_images_to_process_in_full_sheets 9) (start d) ;;
      let st := vars m in
      let leftover_count := num_total_images mod 9 in
      Ok (Finished (num_sheets_created st) (saved st) (failed st) (reported st)
            (if 0 <? leftover_count
             then leftover_files all_image_files
                    num_images_to_process_in_full_sheets num_total_images
             else []),
          files_of m).

(** ** The loop as a transition system *)

(** One turn of the loop: from the index [i] of a full chunk and a state
    to the next index and the state after the body.  A body that raises
    makes no transition. *)
Inductive step (all_image_files : list pystr) : Z * machine -> Z * machine -> Prop :=
| step_batch i m m' :
    0 <= i -> i + 9 <= Z.of_nat (length all_image_files) ->
    process_batch_on all_image_files m i = Ok m' ->
    step all_image_files (i, m) (i + 9, m').

(** The states the loop can be in, from a disk. *)
Definition reachable (all_image_files : list pystr) (d : disk) : Z * machine -> Prop :=
  clos_refl_trans_n1 _ (step all_image_files) (0, start d).

(** ** Specification *)

(** The path of the sheet of the j-th batch. *)
Definition sheet_path (all_image_files : list pystr) (j : Z) : pystr :=
  join output_dir_path
    (output_sheet_name
       (sanitize_filename_component (hd [] (slice all_image_files (j * 9) (j * 9 + 9))))
       (sanitize_filename_component (last (slice all_image_files (j * 9) (j * 9 + 9)) []))
       j).

(** The state after the j-th batch, from the state before it. *)
Definition batch_on (all_image_files : list pystr) (m : machine) (j : Z) : machine :=
  let d := files_of m in
  let st := vars m in
  let path := sheet_path all_image_files j in
  let chunk := map (opened d) (slice all_image_files (j * 9) (j * 9 + 9)) in
  let page := drawn (placed s p chunk 9) ++ cut_lines s p in
  Machine (save_on d path page)
    (RunState (num_sheets_created st + 1)
       (saved st ++ written path page (saving d path))
       (failed st ++ unwritten path (saving d path))
       (reported st ++ printed (placed s p chunk 9))).

(** The invariant of the loop. *)
Record inv (all_image_files : list pystr) (d : disk) (c : Z * machine) : Prop := Inv {
  inv_index : fst c = 9 * num_sheets_created (vars (snd c)) /\
              0 <= fst c <= Z.of_nat (length all_image_files);
  inv_saving : saving (files_of (snd c)) = saving d;
  inv_paths : forall path,
      In path (map fst (saved (vars (snd c))) ++ map fst (failed (vars (snd c)))) ->
      exists j, 0 <= j < num_sheets_created (vars (snd c)) /\
                path = sheet_path all_image_files j;
  inv_sheets : forall path page,
      In (path, page) (saved (vars (snd c))) ->
      opened (files_of (snd c)) path = read_back page;
  inv_frame : forall q,
      ~ In q (map fst (saved (vars (snd c)))) ->
      opened (files_of (snd c)) q = opened d q
}.

(** No sheet of the run has the path of a file of the run. *)
Definition sheets_apart (all_image_files : list pystr) : Prop :=
  forall j, 0 <= j < Z.of_nat (length all_image_files) / 9 ->
            ~ In (sheet_path all_image_files j) all_image_files.

(** The sheets an outcome holds. *)
Definition sheets_of (o : outcome) : list (pystr * list draw_op) :=
  match o with
  | Finished _ saved _ _ _ => saved
  | _ => []
  end.

End Disk.

(** ** Sample disks *)

(** A disk on which every file opens as a small black picture and every
    save returns, and the picture a saved page is read back as. *)
Definition sample_disk : disk :=
  {| opened := fun _ => Ok (new_black 4 3); saving := fun _ => Ok tt |}.

Definition sample_read_back (page : list draw_op) : result image := Ok (new_black 1 1).

(** The entries [a.png] to [j.png] of a folder. *)
Definition sample_listing : list pystr :=
  map (fun c => [c; 46; 112; 110; 103]) (range 97 107).

Section Samples.
Import String.

(** Eighteen files of a folder [d], in increasing order; the tenth has the
    name of the sheet of the first nine. *)
Definition hazard_files : list pystr :=
  map (fun name => of_string ("d/" ++ name ++ ".png"))
      ["x"; "x1"; "x2"; "x3"; "x4"; "x5"; "x6"; "x7"; "x8"; "x_to_x8_sheet_1";
       "y1"; "y2"; "y3"; "y4"; "y5"; "y6"; "y7"; "y8"]%string.

End Samples.

(** ** Theorems *)

Section DiskFacts.
Context `{Imaging} (s : settings) (p : pixels).
Context (read_back : list draw_op -> result image).
Context (output_dir_path : pystr).

Lemma str_eqb_refl a : str_eqb a a = true.
Proof. now apply str_eqb_eq. Qed.

Lemma str_eqb_neq a b : a <> b -> str_eqb a b = false.
Proof.
  intros N. destruct (str_eqb a b) eqn:E; [|reflexivity]. now apply str_eqb_eq in E.
Qed.

(** A file that was written opens as its page, the others as before. *)
Lemma opened_write_same d path page :
  opened (write read_back d path page) path = read_back page.
Proof. cbn. now rewrite str_eqb_refl. Qed.

Lemma opened_write_other d path page q :
  q <> path -> opened (write read_back d path page) q = opened d q.
Proof. intros N. cbn. now rewrite str_eqb_neq. Qed.

Lemma saving_save_on d path page : saving (save_on read_back d path page) = saving d.
Proof. unfold save_on. now destruct (saving d path). Qed.

(** What a save adds to the sheets saved and to the saves that raised. *)
Lemma in_written q page path pg (o : result unit) :
  In (q, page) (written path pg o) <-> is_ok o = true /\ q = path /\ page = pg.
Proof.
  destruct o; cbn [written In is_ok]; [|intuition discriminate].
  split; [now intros [[= <- <-]|[]] | intros (_ & -> & ->); now left].
Qed.

Lemma in_map_written q path pg (o : result unit) :
  In q (map fst (written path pg o)) <-> is_ok o = true /\ q = path.
Proof.
  destruct o; cbn [written map fst In is_ok]; [|intuition discriminate].
  intuition congruence.
Qed.

Lemma in_map_unwritten q path (o : result unit) :
  In q (map fst (unwritten path o)) -> q = path.
Proof. destruct o; cbn [unwritten map fst In]; intuition congruence. Qed.

Lemma opened_save_on d path page q :
  opened (save_on read_back d path page) q
  = if is_ok (saving d path) && str_eqb q path then read_back page else opened d q.
Proof. unfold save_on. now destruct (saving d path). Qed.

(** The sheets of two batches have different paths. *)
Lemma sheet_path_inj files j j' :
  0 <= j -> 0 <= j' ->
  sheet_path output_dir_path files j = sheet_path output_dir_path files j' -> j = j'.
Proof.
  intros Hj Hj'. unfold sheet_path.
  destruct (join_suffix output_dir_path (output_sheet_name
              (sanitize_filename_component (hd [] (slice files (j * 9) (j * 9 + 9))))
              (sanitize_filename_component (last (slice files (j * 9) (j * 9 + 9)) []))
              j)) as [pre ->].
  destruct (join_suffix output_dir_path (output_sheet_name
              (sanitize_filename_component (hd [] (slice files (j' * 9) (j' * 9 + 9))))
              (sanitize_filename_component (last (slice files (j' * 9) (j' * 9 + 9)) []))
              j')) as [pre' ->].
  rewrite !output_sheet_name_prefix. now intros E%output_sheet_name_inj.
Qed.

(** A batch on a disk that agrees with another on the files of the chunk
    leaves the variables the batch of [Run.main] on the other leaves. *)
Lemma process_batch_on_vars files d m i :
  saving (files_of m) = saving d ->
  (forall f, In f (slice files i (i + 9)) -> opened (files_of m) f = opened d f) ->
  match process_batch_on s p read_back output_dir_path files m i with
  | Ok m' => Ok (vars m')
  | Raise e => Raise e
  end
  = process_batch s p (opened d) (fun q _ => saving d q) output_dir_path files (vars m) i.
Proof.
  intros Es Eo. unfold process_batch_on, process_batch.
  destruct (sheet_name _ _) as [name|e]; [cbn [bind]|reflexivity].
  rewrite (map_ext_in _ _ _ Eo), Es.
  now destruct (create_printable_sheet _ _ _ _ _) as [[[page printed] outcome]|e].
Qed.

(** *** On a paper of a size that is not negative *)

Context (paper : paper_ok p).

(** One turn of the loop, on a full chunk. *)
Lemma process_batch_on_step files m j :
  0 <= j -> j * 9 + 9 <= Z.of_nat (length files) ->
  num_sheets_created (vars m) = j ->
  process_batch_on s p read_back output_dir_path files m (j * 9)
  = Ok (batch_on s p read_back output_dir_path files m j).
Proof.
  intros Hj Hl <-. unfold process_batch_on.
  rewrite sheet_name_ok by (apply slice_nonempty; lia). cbn [bind].
  now rewrite (sheet_layout s p _ _ paper).
Qed.

(** *** The invariant *)

Lemma inv_start files d : inv read_back output_dir_path files d (0, start d).
Proof. constructor; cbn; try easy. lia. Qed.

(** A turn of the loop from a state that satisfies the invariant. *)
Section Turn.
Variables (files : list pystr) (d : disk) (i : Z) (m : machine).
Hypothesis I : inv read_back output_dir_path files d (i, m).
Hypothesis Hi : i + 9 <= Z.of_nat (length files).

Let j := num_sheets_created (vars m).
Let path := sheet_path output_dir_path files j.
Let m' := batch_on s p read_back output_dir_path files m j.

Lemma turn_index : i = j * 9 /\ 0 <= j.
Proof using I.
  destruct (inv_index _ _ _ _ _ I) as [E B]. cbn [fst snd] in E, B. subst j. lia.
Qed.

Lemma turn_step : process_batch_on s p read_back output_dir_path files m i = Ok m'.
Proof using I Hi paper.
  destruct turn_index as [-> Hj]. apply process_batch_on_step; solve [trivial | lia].
Qed.

(** The paths written so far are those of earlier sheets: the sheet of
    this turn has another. *)
Lemma turn_fresh q :
  In q (map fst (saved (vars m)) ++ map fst (failed (vars m))) -> q <> path.
Proof using I.
  intros (j' & Hj' & ->)%(inv_paths _ _ _ _ _ I) E. cbn [snd] in Hj'.
  apply sheet_path_inj in E; fold j in Hj'; lia.
Qed.

Lemma turn_paths q :
  In q (map fst (saved (vars m')) ++ map fst (failed (vars m'))) ->
  exists j', 0 <= j' < j + 1 /\ q = sheet_path output_dir_path files j'.
Proof using I.
  destruct turn_index as [_ Hj]. unfold m', batch_on. cbn [vars saved failed].
  rewrite !map_app, !in_app_iff. fold path. intros [[O|N]|[O|N]].
  1,3: destruct (inv_paths _ _ _ _ _ I q) as (j' & Hj' & ->);
         [cbn [snd]; rewrite in_app_iff; tauto | exists j'; cbn [snd] in Hj'; fold j in Hj'];
         split; [lia | reflexivity].
  - apply in_map_written in N as [_ ->]. exists j. split; [lia | reflexivity].
  - apply in_map_unwritten in N as ->. exists j. split; [lia | reflexivity].
Qed.

Lemma turn_sheets q page :
  In (q, page) (saved (vars m')) -> opened (files_of m') q = read_back page.
Proof using I.
  unfold m', batch_on. cbn [vars saved files_of]. fold path.
  rewrite in_app_iff, opened_save_on. intros [O|N].
  - rewrite str_eqb_neq, andb_false_r; [now apply (inv_sheets _ _ _ _ _ I)|].
    apply turn_fresh, in_or_app. left. now apply (in_map fst) in O.
  - apply in_written in N as (-> & -> & ->). now rewrite str_eqb_refl.
Qed.

Lemma turn_frame q :
  ~ In q (map fst (saved (vars m'))) -> opened (files_of m') q = opened d q.
Proof using I.
  unfold m', batch_on. cbn [vars saved files_of]. fold path.
  rewrite map_app, in_app_iff, in_map_written, opened_save_on. intros N.
  destruct (is_ok (saving (files_of m) path)) eqn:O; cbn [andb].
  - rewrite str_eqb_neq by tauto. apply (inv_frame _ _ _ _ _ I). cbn [snd]. tauto.
  - apply (inv_frame _ _ _ _ _ I). cbn [snd]. tauto.
Qed.

(** The turn keeps the invariant. *)
Lemma inv_turn : inv read_back output_dir_path files d (i + 9, m').
Proof using I Hi.
  destruct turn_index as [E Hj]. constructor; cbn [fst snd].
  - unfold m', batch_on. cbn [vars num_sheets_created]. fold j. lia.
  - unfold m', batch_on. cbn [files_of]. rewrite saving_save_on.
    apply (inv_saving _ _ _ _ _ I).
  - intros q Hq. destruct (turn_paths q Hq) as (j' & Hj' & ->). exists j'.
    split; [|reflexivity]. unfold m', batch_on. cbn [vars num_sheets_created].
    fold j. lia.
  - apply turn_sheets.
  - apply turn_frame.
Qed.

End Turn.

(** Every transition keeps the invariant. *)
Lemma inv_step files d c c' :
  inv read_back output_dir_path files d c ->
  step s p read_back output_dir_path files c c' ->
  inv read_back output_dir_path files d c'.
Proof.
  intros I S. destruct S as [i m m' Hi Hl E].
  rewrite (turn_step files d i m I Hl) in E. apply Ok_inj in E as <-.
  now apply inv_turn.
Qed.

(** The invariant holds in every state the loop can be in. *)
Lemma reachable_inv files d c :
  reachable s p read_back output_dir_path files d c ->
  inv read_back output_dir_path files d c.
Proof.
  induction 1 as [|c c' S R IH]; [apply inv_start | now apply (inv_step files d c)].
Qed.

(** *** The loop and the transition system *)

(** The loop goes through the states of the transition system: after [q]
    turns it is in a state that can be reached, at the index [q * 9]. *)
Lemma loop_reachable files d q :
  0 <= q -> q * 9 <= Z.of_nat (length files) ->
  exists m,
    fold_m (process_batch_on s p read_back output_dir_path files)
           (map (fun j => 0 + j * 9) (range 0 q)) (start d) = Ok m /\
    reachable s p read_back output_dir_path files d (q * 9, m).
Proof.
  intros Hq. pattern q. apply natlike_ind; [|clear q Hq|assumption].
  { intros _. exists (start d). split; [reflexivity | constructor]. }
  intros q Hq IH Hl. destruct IH as (m & E & R); [lia|]. unfold Z.succ.
  rewrite range_snoc by lia. replace (q + 1 - 1) with q by lia.
  rewrite !map_app, fold_m_app, E. cbn [bind map fold_m]. rewrite Z.add_0_l.
  pose proof (turn_step files d (q * 9) m (reachable_inv files d _ R) ltac:(lia)) as S.
  rewrite S. eexists. split; [reflexivity|].
  replace ((q + 1) * 9) with (q * 9 + 9) by lia.
  apply (Relation_Operators.rtn1_trans _ _ _ (q * 9, m));
    [constructor; (lia || assumption) | exact R].
Qed.

(** The run on a disk, with nine files or more: it ends in a state the
    loop can reach, after the last full chunk. *)
Lemma main_on_sheets files d :
  let n := Z.of_nat (length files) in
  9 <= n ->
  exists m,
    main_on s p read_back output_dir_path d files
    = Ok (finished (vars m) (skipn (Z.to_nat (n / 9 * 9)) files), files_of m) /\
    reachable s p read_back output_dir_path files d (n / 9 * 9, m).
Proof.
  intros n Hn. unfold main_on. fold n.
  replace (n =? 0) with false by lia. replace (n <? 9) with false by lia.
  replace (n / 9 * 9 =? 0) with false by zdiv. rewrite range_step_9 by zdiv.
  destruct (loop_reachable files d (n / 9)) as (m & -> & R); [zdiv | unfold n; zdiv |].
  exists m. split; [|exact R]. cbn [bind]. unfold finished. do 3 f_equal.
  destruct (0 <? n mod 9) eqn:E.
  - apply leftover_files_skipn. fold n. zdiv.
  - rewrite skipn_all2; [reflexivity|]. zdiv.
Qed.

(** The transition system is deterministic, and on a paper of a size that
    is not negative it is never stuck before the last full chunk. *)
Lemma step_deterministic files c c1 c2 :
  step s p read_back output_dir_path files c c1 ->
  step s p read_back output_dir_path files c c2 -> c1 = c2.
Proof using Type.
  clear paper. intros S1 S2. destruct S1 as [i m m1 _ _ E1]. inversion S2 as [? ? m2 _ _ E2].
  subst. rewrite E1 in E2. now apply Ok_inj in E2 as ->.
Qed.

Lemma step_progress files d i m :
  reachable s p read_back output_dir_path files d (i, m) ->
  i + 9 <= Z.of_nat (length files) ->
  exists m', step s p read_back output_dir_path files (i, m) (i + 9, m').
Proof.
  intros R%reachable_inv Hl. eexists. constructor; [|exact Hl|].
  - destruct (inv_index _ _ _ _ _ R) as [_ B]. cbn [fst] in B. lia.
  - now apply (turn_step files d).
Qed.

(** Claim C27: the run on a disk returns, and what it leaves on the disk is
    what its outcome says: every sheet it saved opens as its page, every
    other path opens as before the run, and what can be saved has not
    changed. *)
Theorem main_on_disk files d :
  exists o d',
    main_on s p read_back output_dir_path d files = Ok (o, d') /\
    (forall path page, In (path, page) (sheets_of o) -> opened d' path = read_back page) /\
    (forall q, ~ In q (map fst (sheets_of o)) -> opened d' q = opened d q) /\
    saving d' = saving d.
Proof.
  destruct (Z.of_nat (length files) <? 9) eqn:E9.
  - unfold main_on. rewrite E9.
    destruct (_ =? 0); eexists _, d; (split; [reflexivity|]); cbn; intuition.
  - destruct (main_on_sheets files d) as (m & -> & I%reachable_inv); [lia|].
    eexists _, _. split; [reflexivity|]. cbn [sheets_of finished].
    exact (conj (inv_sheets _ _ _ _ _ I)
             (conj (inv_frame _ _ _ _ _ I) (inv_saving _ _ _ _ _ I))).
Qed.

(** *** Sheets apart from the files *)

(** While no sheet has the path of a file of the run, the files of the run
    open as at the start. *)
Lemma apart_frame files d i m f :
  sheets_apart output_dir_path files ->
  inv read_back output_dir_path files d (i, m) ->
  In f files -> opened (files_of m) f = opened d f.
Proof using Type.
  clear paper. intros A I F. apply (inv_frame _ _ _ _ _ I). cbn [snd]. intros Hs.
  destruct (inv_paths _ _ _ _ _ I f) as (j & Hj & ->);
    [cbn [snd]; apply in_or_app; now left|].
  destruct (inv_index _ _ _ _ _ I) as [Ei Bi]. cbn [fst snd] in *.
  apply (A j); [zdiv | exact F].
Qed.

(** The variables of a reachable state are those of the loop of
    [Run.main] on the disk of the start. *)
Lemma apart_vars files d c :
  sheets_apart output_dir_path files ->
  reachable s p read_back output_dir_path files d c ->
  vars (snd c)
  = after s p (opened d) (fun q _ => saving d q) output_dir_path
      (map (chunk_at files) (range 0 (fst c / 9))).
Proof.
  intros A R. induction R as [|c c' S R IH]; [reflexivity|].
  pose proof (reachable_inv files d c R) as I. destruct S as [i m m' Hi Hl E].
  cbn [fst snd] in *. destruct (turn_index files d i m I) as [Ei Hj].
  set (j := num_sheets_created (vars m)) in *.
  assert (Fr : forall f, In f (slice files i (i + 9)) ->
                         opened (files_of m) f = opened d f)
    by (intros f Hf%slice_incl; now apply (apart_frame files d i m)).
  pose proof (process_batch_on_vars files d m i (inv_saving _ _ _ _ _ I) Fr) as V.
  rewrite E, IH in V.
  replace (i / 9) with j in V by zdiv. replace ((i + 9) / 9) with (j + 1) by zdiv.
  rewrite range_snoc, map_app by lia. replace (j + 1 - 1) with j by lia.
  rewrite Ei, <- (Z.add_0_l (j * 9)), (process_batch_step s p) in V
    by (assumption || rewrite ?length_map, ?range_length; lia).
  cbn [map]. now apply Ok_inj.
Qed.

(** When no sheet of the run has the path of a file of the run, the run on
    the disk that changes is the run of [Run.main] on the disk of the
    start: it ends in the same way, with the same sheets, and it leaves
    the files of the run as they were. *)
Lemma main_on_apart files d :
  sheets_apart output_dir_path files ->
  exists o d',
    main_on s p read_back output_dir_path d files = Ok (o, d') /\
    main s p (opened d) (fun q _ => saving d q) output_dir_path files = Ok o /\
    (forall f, In f files -> opened d' f = opened d f).
Proof.
  intros A. destruct (Z.of_nat (length files) <? 9) eqn:E9.
  - unfold main_on, main. rewrite E9. destruct (_ =? 0); eexists _, d; intuition.
  - destruct (main_on_sheets files d) as (m & -> & R); [lia|].
    eexists _, _. split; [reflexivity|]. split.
    + pose proof (apart_vars files d _ A R) as V. cbn [fst snd] in V.
      rewrite Z.div_mul in V by lia.
      now rewrite (main_sheets s p _ _ _ paper), V by lia.
    + intros f. apply (apart_frame files d _ m f A (reachable_inv files d _ R)).
Qed.

(** Claim C28: when the first sheet has the path of a file of the second
    batch and its save returns, the second batch reads the sheet: the
    picture it makes the card of is the page of the first sheet, read back,
    whatever was under that path before. *)
Theorem sheet_read_as_picture files d k :
  18 <= Z.of_nat (length files) ->
  saving d (sheet_path output_dir_path files 0) = Ok tt ->
  nth_error (slice files 9 18) k = Some (sheet_path output_dir_path files 0) ->
  exists m1 m2 page,
    process_batch_on s p read_back output_dir_path files (start d) 0 = Ok m1 /\
    process_batch_on s p read_back output_dir_path files m1 9 = Ok m2 /\
    saved (vars m1) = [(sheet_path output_dir_path files 0, page)] /\
    reported (vars m2)
    = reported (vars m1)
      ++ printed (placed s p (map (opened (files_of m1)) (slice files 9 18)) 9) /\
    nth_error (map (opened (files_of m1)) (slice files 9 18)) k = Some (read_back page).
Proof.
  intros Hn Hs Hk.
  exists (batch_on s p read_back output_dir_path files (start d) 0),
         (batch_on s p read_back output_dir_path files
            (batch_on s p read_back output_dir_path files (start d) 0) 1).
  eexists. split; [apply (process_batch_on_step files (start d) 0); (lia || reflexivity)|].
  split; [apply (process_batch_on_step files _ 1); (lia || reflexivity)|].
  split; [unfold batch_on at 1; cbn [vars saved start files_of app]; now rewrite Hs|].
  split; [reflexivity|].
  rewrite nth_error_map, Hk. cbn [option_map]. f_equal. unfold batch_on.
  cbn [files_of start]. now rewrite opened_save_on, Hs, str_eqb_refl.
Qed.

End DiskFacts.

Section Folders.
Context `{Imaging} `{Lowercase} (s : settings) (p : pixels).
Context (read_back : list draw_op -> result image).

(** The sheets of a run that writes to another folder than it reads are
    apart from its files. *)
Lemma folders_apart input_folder output_dir_path listdir :
  plain_folder input_folder -> plain_folder output_dir_path ->
  input_folder <> output_dir_path ->
  Forall (fun f => ~ In slash f) listdir ->
  sheets_apart output_dir_path (all_image_files input_folder listdir).
Proof.
  intros Pi Po N S j Hj (f & F & _ & E)%in_all_image_files.
  unfold sheet_path in E. apply join_inj in E as [E _]; try assumption.
  - now apply N.
  - apply output_sheet_name_no_slash. lia.
  - rewrite Forall_forall in S. now apply S.
Qed.

(** Claim C16: a run that writes its sheets to another folder than it reads its
    pictures from does on the disk that changes what [Run.main] does on
    the disk of the start: it returns, ends in the same way with the
    same sheets, and leaves the files of the run as they were.  The
    folders are named without a slash at the end, and the entries of the
    input folder are names, without a slash. *)
Theorem disk_refines_run input_folder output_dir_path listdir d :
  paper_ok p ->
  plain_folder input_folder -> plain_folder output_dir_path ->
  input_folder <> output_dir_path ->
  Forall (fun f => ~ In slash f) listdir ->
  let files := all_image_files input_folder listdir in
  exists o d',
    main_on s p read_back output_dir_path d files = Ok (o, d') /\
    main s p (opened d) (fun q _ => saving d q) output_dir_path files = Ok o /\
    (forall f, In f files -> opened d' f = opened d f).
Proof.
  intros P Pi Po N S files. apply (main_on_apart s p read_back output_dir_path P).
  now apply folders_apart.
Qed.

End Folders.

(** ** Witnesses *)

Lemma disk_refines_run_witness :
  exists o d',
    main_on default_settings default_pixels sample_read_back [111] sample_disk
      (all_image_files [105] sample_listing) = Ok (o, d') /\
    main default_settings default_pixels (opened sample_disk)
      (fun q _ => saving sample_disk q) [111] (all_image_files [105] sample_listing)
    = Ok o /\
    (forall f, In f (all_image_files [105] sample_listing) ->
               opened d' f = opened sample_disk f).
Proof.
  apply (disk_refines_run default_settings default_pixels sample_read_back
           [105] [111] sample_listing sample_disk default_paper_ok).
  - split; [discriminate | reflexivity].
  - split; [discriminate | reflexivity].
  - discriminate.
  - apply Forall_forall.
    intros f (c & <- & Hc%in_range)%in_map_iff [E|[E|[E|[E|[E|[]]]]]];
      unfold slash in E; lia.
Defined.

Lemma main_on_disk_witness :
  exists o d',
    main_on default_settings default_pixels sample_read_back [100] sample_disk
      hazard_files = Ok (o, d') /\
    (forall path page, In (path, page) (sheets_of o) ->
                       opened d' path = sample_read_back page) /\
    (forall q, ~ In q (map fst (sheets_of o)) -> opened d' q = opened sample_disk q) /\
    saving d' = saving sample_disk.
Proof.
  apply (main_on_disk default_settings default_pixels sample_read_back [100]
           default_paper_ok hazard_files sample_disk).
Defined.

Lemma sheet_read_as_picture_witness :
  exists m1 m2 page,
    process_batch_on default_settings default_pixels sample_read_back [100]
      hazard_files (start sample_disk) 0 = Ok m1 /\
    process_batch_on default_settings default_pixels sample_read_back [100]
      hazard_files m1 9 = Ok m2 /\
    saved (vars m1) = [(sheet_path [100] hazard_files 0, page)] /\
    reported (vars m2)
    = reported (vars m1)
      ++ printed (placed default_settings default_pixels
                    (map (opened (files_of m1)) (slice hazard_files 9 18)) 9) /\
    nth_error (map (opened (files_of m1)) (slice hazard_files 9 18)) 0
    = Some (sample_read_back page).
Proof.
  apply (sheet_read_as_picture default_settings default_pixels sample_read_back [100]
           default_paper_ok hazard_files sample_disk 0).
  - vm_compute. discriminate.
  - reflexivity.
  - vm_compute. reflexivity.
Defined.

(** ** A sheet that overwrites a picture

    The folder [d] is read and written.  Its tenth file, which cannot be
    opened when the run starts, has the name of the first sheet.  On the
    disk of the start the second batch would report the file and leave its
    cell empty; on the disk that changes the first sheet is saved under
    that name first, the second batch opens it as a picture, and nothing
    is reported. *)
Example sheet_overwrites_picture :
  let d := {| opened := fun q => if str_eqb q (sheet_path [100] hazard_files 0)
                                 then Raise FileNotFoundError
                                 else Ok (framed 24 20 (Box 10 5 14 15));
              saving := fun _ => Ok tt |} in
  let read_back := fun _ : list draw_op => Ok (framed 24 20 (Box 10 5 14 15)) in
  match main_on default_settings default_pixels read_back [100] d hazard_files,
        main default_settings default_pixels (opened d) (fun q _ => saving d q) [100]
          hazard_files with
  | Ok (Finished 2 _ [] log_on [], _), Ok (Finished 2 _ [] log []) =>
      log_on = [] /\ log = [ImageFileNotFound]
  | _, _ => False
  end.
Proof. vm_compute. split; reflexivity. Qed.
