(* ===== verification/Program.v ===== *)
(** * Program: the start of a run, and the program as a whole

    Models the first lines of the [__main__] block of [src/proxify.py]
    (lines 433-450), which check the two folders the user names, and
    composes them with [Run.run] into the whole program.

    The operating system is a record [world] of the six calls the program
    makes: what each of them returns or raises for its arguments.  The
    program looks at the folders once, before it lists the input folder, so
    the world is not a state that changes; [makedirs] is the only call whose
    effect on the folders matters, and nothing is asked of the folders after
    it.  The two prompts of lines 434-435 are the arguments
    [input_folder] and [output_dir_path].

    The theorems say when the program gets to the pictures
    ([check_folders_spec]), that a folder that fails the checks ends the run
    before any file is listed, opened or saved ([setup_errors_are_fatal]),
    that only two calls can make the program raise on a paper of a size
    that is not negative ([program_raises_iff]) and that a negative one
    makes it raise at its first page ([program_bad_paper]), and follow a
    picture from the folder to its sheet on the disk
    ([program_saves_cards]). *)

From Stdlib Require Import ZArith List Bool Lia.
Import ListNotations.
From S2P Require Import Prelude Config Image Cropper Renderer Names Sheet Scanner Batch Run.
Local Open Scope Z_scope.
Local Open Scope result_scope.

(** The calls to the operating system and to the image library that read
    or write files. *)
Record world : Type := World {
  isdir : pystr -> bool;                        (* os.path.isdir *)
  path_exists : pystr -> bool;                  (* os.path.exists *)
  makedirs : pystr -> result unit;              (* os.makedirs *)
  listdir : pystr -> result (list pystr);       (* os.listdir *)
  open : pystr -> result image;                 (* Image.open(path).convert("RGBA") *)
  save : pystr -> list draw_op -> result unit   (* sheet.save *)
}.

(** The errors that end the run before the input folder is listed. *)
Inductive setup_error : Type :=
| InputFolderNotFound                 (* 438 *)
| ErrorCreatingOutput (e : exn)       (* 446 *)
| OutputNotADirectory.                (* 449 *)

(** How the program ends: on a setup error, or as the run from the listing
    on ends; [created] says that the output folder was made (line 444). *)
Inductive ending : Type :=
| Exit (r : setup_error)
| Ran (created : bool) (o : outcome).

(** Lines 437-450: a setup error, or whether the output folder was made. *)
Definition check_folders (w : world) (input_folder output_dir_path : pystr)
    : result (setup_error + bool) :=
  if negb (isdir w input_folder) then Ok (inl InputFolderNotFound)
  else if negb (path_exists w output_dir_path) then
    match makedirs w output_dir_path with
    | Ok _ => Ok (inr true)
    | Raise e => if is_OSError e then Ok (inl (ErrorCreatingOutput e)) else Raise e
    end
  else if negb (isdir w output_dir_path) then Ok (inl OutputNotADirectory)
  else Ok (inr false).

Section Program.
Context `{Imaging} `{Lowercase} (s : settings) (p : pixels).

(** The [__main__] block. *)
Definition program (w : world) (input_folder output_dir_path : pystr)
    : result ending :=
  checked <- check_folders w input_folder output_dir_path ;;
  match checked with
  | inl r => Ok (Exit r)
  | inr created =>
      entries <- listdir w input_folder ;;
      o <- run s p (open w) (save w) output_dir_path input_folder entries ;;
      Ok (Ran created o)
  end.

End Program.

(** ** Specification *)

(** The folders let the run start: the input is a folder, and the output is
    one or can be made. *)
Definition folders_ready (w : world) (input_folder output_dir_path : pystr)
    (created : bool) : Prop :=
  isdir w input_folder = true /\
  if created
  then path_exists w output_dir_path = false /\ makedirs w output_dir_path = Ok tt
  else path_exists w output_dir_path = true /\ isdir w output_dir_path = true.

(** Two worlds with the same folders: they may differ in what listing,
    opening and saving do. *)
Definition same_folders (w w' : world) : Prop :=
  isdir w = isdir w' /\ path_exists w = path_exists w' /\ makedirs w = makedirs w'.

(** A world built from the folders that exist, the entries of the input
    folder and one picture for every file. *)
Definition simple_world (dirs : list pystr) (entries : list pystr) (im : image)
    (save : pystr -> list draw_op -> result unit) : world :=
  {| isdir := fun q => existsb (str_eqb q) dirs;
     path_exists := fun q => existsb (str_eqb q) dirs;
     makedirs := fun _ => Ok tt;
     listdir := fun _ => Ok entries;
     open := fun _ => Ok im;
     save := save |}.

(** ** Theorems *)

Lemma check_folders_ready w input_folder output_dir_path created :
  check_folders w input_folder output_dir_path = Ok (inr created) <->
  folders_ready w input_folder output_dir_path created.
Proof.
  unfold check_folders, folders_ready.
  destruct (isdir w input_folder), (path_exists w output_dir_path); cbn [negb];
    [destruct (isdir w output_dir_path) | destruct (makedirs w _) as [[]|e];
       [|destruct (is_OSError e)] | |]; destruct created;
    intuition (discriminate || congruence).
Qed.

Lemma check_folders_raises w input_folder output_dir_path e :
  check_folders w input_folder output_dir_path = Raise e <->
  isdir w input_folder = true /\ path_exists w output_dir_path = false /\
  makedirs w output_dir_path = Raise e /\ is_OSError e = false.
Proof.
  unfold check_folders.
  destruct (isdir w input_folder), (path_exists w output_dir_path); cbn [negb];
    [destruct (isdir w output_dir_path) | destruct (makedirs w _) as [[]|e'];
       [|destruct (is_OSError e') eqn:O] | |];
    intuition (discriminate || congruence).
Qed.

Lemma check_folders_same w w' input_folder output_dir_path :
  same_folders w w' ->
  check_folders w input_folder output_dir_path
  = check_folders w' input_folder output_dir_path.
Proof. intros (E1 & E2 & E3). unfold check_folders. now rewrite E1, E2, E3. Qed.

Section ProgramFacts.
Context `{Imaging} `{Lowercase} (s : settings) (p : pixels).

(** The program on folders that pass the checks and a paper of a size
    that is not negative. *)
Lemma program_ready w input_folder output_dir_path created entries :
  paper_ok p ->
  folders_ready w input_folder output_dir_path created ->
  listdir w input_folder = Ok entries ->
  program s p w input_folder output_dir_path
  = Ok (Ran created
          (outcome_of s p (open w) (save w) output_dir_path
             (main_batches (all_image_files input_folder entries)))).
Proof.
  intros P R%check_folders_ready L. unfold program, run. rewrite R. cbn [bind].
  rewrite L. cbn [bind]. now rewrite main_outcome.
Qed.

(** Claim C12: the program, end to end: it ends on the error of the folders,
    or raises what the checks or the listing raise, or else lists the input
    folder and ends as the batching [Batch.main_batches] of the pictures
    found says: no sheet for fewer than nine of them, and otherwise the
    sheet [sheet_of] of every chunk of nine, drawn and saved in order, and
    the last files left over; with a negative paper size, the first sheet
    raises instead. *)
Theorem program_refines_batches w input_folder output_dir_path :
  program s p w input_folder output_dir_path
  = match check_folders w input_folder output_dir_path with
    | Raise e => Raise e
    | Ok (inl r) => Ok (Exit r)
    | Ok (inr created) =>
        match listdir w input_folder with
        | Raise e => Raise e
        | Ok entries =>
            o <- run_of s p (open w) (save w) output_dir_path
                   (main_batches (all_image_files input_folder entries)) ;;
            Ok (Ran created o)
        end
    end.
Proof.
  unfold program, run.
  destruct (check_folders w input_folder output_dir_path) as [[r|c]|e]; try reflexivity.
  cbn [bind]. destruct (listdir w input_folder); [|reflexivity].
  cbn [bind]. now rewrite main_run_of.
Qed.

(** Claim C30: the checks of the folders, case by case: the run starts
    exactly when the input is a folder and the output is one or can be made;
    each of the three messages is printed in its case, and an exception of
    [makedirs] that is not an [OSError] is not caught. *)
Theorem check_folders_spec w input_folder output_dir_path :
  match check_folders w input_folder output_dir_path with
  | Ok (inr created) => folders_ready w input_folder output_dir_path created
  | Ok (inl InputFolderNotFound) => isdir w input_folder = false
  | Ok (inl (ErrorCreatingOutput e)) =>
      isdir w input_folder = true /\ path_exists w output_dir_path = false /\
      makedirs w output_dir_path = Raise e /\ is_OSError e = true
  | Ok (inl OutputNotADirectory) =>
      isdir w input_folder = true /\ path_exists w output_dir_path = true /\
      isdir w output_dir_path = false
  | Raise e => makedirs w output_dir_path = Raise e /\ is_OSError e = false
  end.
Proof.
  unfold check_folders, folders_ready.
  destruct (isdir w input_folder), (path_exists w output_dir_path); cbn [negb];
    [destruct (isdir w output_dir_path) | destruct (makedirs w _) as [[]|e];
       [|destruct (is_OSError e) eqn:O] | |]; repeat split; assumption.
Qed.

(** A setup error is fatal: when the folders fail the checks, the
    program ends with the error whatever listing, opening and saving would
    do, so before any picture is processed. *)
Theorem setup_errors_are_fatal w w' input_folder output_dir_path r :
  check_folders w input_folder output_dir_path = Ok (inl r) ->
  same_folders w w' ->
  program s p w' input_folder output_dir_path = Ok (Exit r).
Proof.
  intros C S. unfold program.
  now rewrite <- (check_folders_same w w' _ _ S), C.
Qed.

(** With a paper size that is not negative, the program raises in two
    cases only: [makedirs] raises an exception that is not an [OSError], or
    the folders pass the checks and the listing of the input folder raises.
    Nothing that happens to a picture or to a sheet makes the program
    raise. *)
Theorem program_raises_iff w input_folder output_dir_path e :
  paper_ok p ->
  (program s p w input_folder output_dir_path = Raise e <->
   check_folders w input_folder output_dir_path = Raise e \/
   (exists created, folders_ready w input_folder output_dir_path created) /\
   listdir w input_folder = Raise e).
Proof.
  intros P. unfold program, run.
  destruct (check_folders w input_folder output_dir_path) as [[r|c]|e'] eqn:C;
    cbn [bind].
  - split; [discriminate|]. intros [|[[c R%check_folders_ready] _]]; congruence.
  - destruct (listdir w input_folder) as [entries|e'] eqn:L; cbn [bind].
    + rewrite main_outcome by assumption. cbn [bind]. split; [discriminate|].
      intros [|[_ ?]]; discriminate.
    + split; [intros [= ->]; right | intros [|[_ ?]]; congruence].
      split; [exists c; now apply check_folders_ready | reflexivity].
  - split; [intros [= ->]; now left|].
    intros [|[[c R%check_folders_ready] _]]; congruence.
Qed.

(** With a negative paper size and nine pictures or more, the program
    raises [ValueError] when it makes the page of the first sheet: the
    folders were checked and listed, and no file was opened. *)
Theorem program_bad_paper w input_folder output_dir_path created entries :
  ~ paper_ok p ->
  folders_ready w input_folder output_dir_path created ->
  listdir w input_folder = Ok entries ->
  9 <= Z.of_nat (length (all_image_files input_folder entries)) ->
  program s p w input_folder output_dir_path = Raise ValueError.
Proof.
  intros N R%check_folders_ready L Hn. unfold program, run. rewrite R. cbn [bind].
  rewrite L. cbn [bind]. now rewrite main_bad_paper.
Qed.

(** Claim C14: from the folder to the disk: on folders that pass the checks,
    if the i-th picture of the input folder, in sorted order, belongs to a
    full batch and opens as a picture with at least one pixel, and the save
    of its sheet returns, then the program ends with this sheet on the disk,
    under a path in the output folder, with a card of the card size pasted
    in cell [i mod 9]. *)
Theorem program_saves_cards w input_folder output_dir_path created entries i path :
  1 <= CARD_WIDTH_PX p -> 1 <= CARD_HEIGHT_PX p -> paper_ok p ->
  folders_ready w input_folder output_dir_path created ->
  listdir w input_folder = Ok entries ->
  let files := all_image_files input_folder entries in
  0 <= i < Z.of_nat (length files) / 9 * 9 ->
  nth_error files (Z.to_nat i) = Some path -> opened (open w path) ->
  save_of s p (open w) (save w) output_dir_path (chunk_at files (i / 9)) = Ok tt ->
  exists k saved failed log leftover name ops op,
    program s p w input_folder output_dir_path
    = Ok (Ran created (Finished k saved failed log leftover)) /\
    In (join output_dir_path name, ops) saved /\
    In op ops /\ card_at p (i mod 9) op.
Proof.
  intros Hw Hh P R L files Hi E O Sv.
  rewrite (program_ready w _ _ created entries P R L). fold files.
  destruct (card_on_sheet s p (open w) (save w) output_dir_path files i path)
    as (ops & op & I & Io & C); try assumption.
  rewrite main_batches_sheets by zdiv. cbn [outcome_of]. unfold finished.
  do 5 eexists. eexists _, ops, op. split; [reflexivity|].
  split; [exact I|]. now split.
Qed.

End ProgramFacts.

(** ** Witnesses *)

Lemma setup_errors_are_fatal_witness :
  program default_settings default_pixels
    (simple_world [[105]] [] (new_black 4 3) (fun _ _ => Raise OSError)) [120] [111]
  = Ok (Exit InputFolderNotFound).
Proof.
  apply (setup_errors_are_fatal default_settings default_pixels
           (simple_world [[105]] [[97]] (new_black 4 3) (fun _ _ => Ok tt))
           (simple_world [[105]] [] (new_black 4 3) (fun _ _ => Raise OSError))
           [120] [111] InputFolderNotFound).
  - reflexivity.
  - repeat split.
Defined.

Lemma program_saves_cards_witness :
  exists k saved failed log leftover name ops op,
    program default_settings default_pixels
      (simple_world [[105]; [111]] (map (fun c => [c; 46; 112; 110; 103]) (range 97 107))
         (new_black 4 3) (fun _ _ => Ok tt)) [105] [111]
    = Ok (Ran false (Finished k saved failed log leftover)) /\
    In (join [111] name, ops) saved /\
    In op ops /\ card_at default_pixels (4 mod 9) op.
Proof.
  apply (program_saves_cards default_settings default_pixels
           (simple_world [[105]; [111]]
              (map (fun c => [c; 46; 112; 110; 103]) (range 97 107))
              (new_black 4 3) (fun _ _ => Ok tt))
           [105] [111] false (map (fun c => [c; 46; 112; 110; 103]) (range 97 107))
           4 [105; 47; 101; 46; 112; 110; 103]).
  - cbn. lia.
  - cbn. lia.
  - exact default_paper_ok.
  - repeat split.
  - reflexivity.
  - vm_compute. split; [discriminate | reflexivity].
  - reflexivity.
  - eexists. split; [reflexivity|]. split; cbn; lia.
  - reflexivity.
Defined.

(** ** A run that cannot save *)

(** A folder of ten pictures and an output folder in which no file can be
    written: the program does not stop at the first sheet; it ends as after
    a run that worked, counts one sheet as created and leaves none on the
    disk. *)
Example unwritable_output_folder :
  match program default_settings default_pixels
          (simple_world [[105]; [111]]
             (map (fun c => [c; 46; 112; 110; 103]) (range 97 107))
             (new_black 4 3) (fun _ _ => Raise OSError)) [105] [111] with
  | Ok (Ran created (Finished k saved failed _ leftover)) =>
      created = false /\ k = 1 /\ saved = [] /\
      map snd failed = [OSError] /\ length leftover = 1%nat
  | _ => False
  end.
Proof. vm_compute. repeat split. Qed.
