(* ===== verification/Transcript.v ===== *)
(** * Transcript: what a run prints

    Models the [print] calls of the [__main__] block of [src/proxify.py]
    (lines 438-505) and of [create_printable_sheet] (lines 389, 420 and
    422), in the order the program makes them.  [program_log] is
    [Program.program] with its prints: a computation in [Prelude.logged],
    whose messages stay printed when it raises.  The warnings and errors of
    the cards, which [Sheet.create_printable_sheet] collects, are printed
    between the announcement of the sheet and the message of its save; the
    progress lines of [resize_card] (lines 235-243, 271, 275, 289, 340,
    351 and 376) are not part of a transcript: [sheet_lines] gives every
    line the cards of a sheet print, from [Narration.resize_card_log], and
    [cards_in_transcript] shows that a transcript holds these lines with
    the progress lines hidden; [Output] has the output with every line.

    [transcript_of] is the reference: the transcript as a function of the
    batching of the files ([Batch.main_batches]).  The theorems show that
    the program without its prints is [Program.program], that it prints
    the reference transcript, which of its messages can never be printed,
    that every file of the run is on a sheet that is announced or is
    listed as left over, and what is printed before a setup error and
    before the exception of a paper of negative size. *)

From Stdlib Require Import ZArith List Bool Lia.
Import ListNotations.
From S2P Require Import Prelude Config Image Cropper Renderer Names Narration Sheet Scanner.
From S2P Require Import Batch Run.
From S2P Require Import Program.
Local Open Scope Z_scope.

(** The messages, by the line that prints them. *)
Inductive message : Type :=
| InputNotFound (input_folder : pystr)                          (* 438 *)
| CreatedOutput (output_dir_path : pystr)                       (* 444 *)
| ErrorCreating (output_dir_path : pystr) (e : exn)             (* 446 *)
| OutputNotDirectory (output_dir_path : pystr)                  (* 449 *)
| Found (num_total_images : Z) (input_folder : pystr)           (* 459 *)
| NoImagesFound                                                 (* 462 *)
| OnlyFound (num_total_images : Z)                              (* 466 *)
| NotEnoughImages (num_total_images : Z)                        (* 473 *)
| ForcedStandard                                                (* 477 *)
| ProcessingBatch (number : Z) (output_sheet_name : pystr)      (* 488 *)
| CreatingSheet (name : pystr)                                  (* 389 *)
| Card (d : diag)                                               (* 260-383 *)
| SavedSheet (output_path_for_sheet : pystr)                    (* 420 *)
| ErrorSavingSheet (output_path_for_sheet : pystr) (e : exn)    (* 422 *)
| Summary                                                       (* 492 *)
| FinishedProcessing (num_sheets_created : Z) (output_dir_path : pystr) (* 494 *)
| NoFullSheets (num_total_images : Z)                           (* 496 *)
| LeftOver (leftover_count : Z)                                 (* 502 *)
| LeftoverFiles                                                 (* 503 *)
| LeftoverFile (name : pystr).                                  (* 505 *)

(** The message of lines 420 and 422 for the outcome of a save. *)
Definition save_message (output_path_for_sheet : pystr) (outcome : result unit)
    : message :=
  match outcome with
  | Ok _ => SavedSheet output_path_for_sheet
  | Raise e => ErrorSavingSheet output_path_for_sheet e
  end.

Section Transcript.
Context `{Imaging} `{Lowercase} (s : settings) (p : pixels).
Context (open : pystr -> result image) (save : pystr -> list draw_op -> result unit).
Context (input_folder output_dir_path : pystr).
Local Open Scope log_scope.

(** [create_printable_sheet] with its prints (lines 388-422). *)
Definition create_printable_sheet_log (image_file_paths_chunk : list (result image))
    (output_path_for_sheet : pystr)
    : logged message (list draw_op * list diag * result unit) :=
  tell (CreatingSheet (basename output_path_for_sheet)) ;;
  sheet <- lift (create_printable_sheet s p save image_file_paths_chunk
                   output_path_for_sheet) ;;
  tell_all (map Card (snd (fst sheet))) ;;
  tell (save_message output_path_for_sheet (snd sheet)) ;;
  lret sheet.

(** Every line the cards of a chunk print, progress lines included: the
    lines of [resize_card] (line 400) on its first nine files, file by
    file. *)
Definition sheet_lines (current_chunk_paths : list pystr) : list line :=
  flat_map (fun image_path =>
              snd (resize_card_log s p image_path (open image_path)
                     (CARD_WIDTH_PX p) (CARD_HEIGHT_PX p)))
           (firstn 9 current_chunk_paths).

(** The body of the loop with its print (lines 480-490). *)
Definition process_batch_log (all_image_files : list pystr) (st : run_state) (i : Z)
    : logged message run_state :=
  let current_chunk_paths := slice all_image_files i (i + 9) in
  output_sheet_name <- lift (sheet_name current_chunk_paths (num_sheets_created st)) ;;
  let full_output_path_for_sheet := join output_dir_path output_sheet_name in
  tell (ProcessingBatch (num_sheets_created st + 1) output_sheet_name) ;;
  sheet <- create_printable_sheet_log (map open current_chunk_paths)
             full_output_path_for_sheet ;;
  let '(page, printed, outcome) := sheet in
  lret (RunState (num_sheets_created st + 1)
          (saved st ++ written full_output_path_for_sheet page outcome)
          (failed st ++ unwritten full_output_path_for_sheet outcome)
          (reported st ++ printed)).

(** The list of the leftover files (lines 504-505). *)
Definition print_leftover (all_image_files : list pystr) (from num_total_images : Z)
    : logged message unit :=
  fold_log (fun _ leftover_idx =>
              match nth_error all_image_files (Z.to_nat leftover_idx) with
              | Some f => tell (LeftoverFile (basename f))
              | None => lift (Raise IndexError)
              end)
           (range from num_total_images) tt.

(** The summary (lines 492-505). *)
Definition print_summary (all_image_files : list pystr)
    (num_sheets_created num_images_to_process_in_full_sheets : Z)
    : logged message unit :=
  let num_total_images := Z.of_nat (length all_image_files) in
  tell Summary ;;
  (if 0 <? num_sheets_created
   then tell (FinishedProcessing num_sheets_created output_dir_path)
   else if 0 <? num_total_images then tell (NoFullSheets num_total_images)
   else lret tt) ;;
  let leftover_count := num_total_images mod 9 in
  if 0 <? leftover_count
  then tell (LeftOver leftover_count) ;;
       tell LeftoverFiles ;;
       print_leftover all_image_files num_images_to_process_in_full_sheets
         num_total_images
  else lret tt.

(** [__main__] from line 458 on, with its prints. *)
Definition main_log (all_image_files : list pystr) : logged message outcome :=
  let num_total_images := Z.of_nat (length all_image_files) in
  tell (Found num_total_images input_folder) ;;
  if num_total_images =? 0 then tell NoImagesFound ;; lret ExitNoImages
  else if num_total_images <? 9
  then tell (OnlyFound num_total_images) ;; lret (ExitNotEnough num_total_images)
  else
    let num_images_to_process_in_full_sheets := (num_total_images / 9) * 9 in
    if num_images_to_process_in_full_sheets =? 0
    then tell (NotEnoughImages num_total_images) ;;
         lret (ExitNotEnough num_total_images)
    else
      (if FORCE_STANDARD_FRAME_TYPE s then tell ForcedStandard else lret tt) ;;
      st <- fold_log (process_batch_log all_image_files)
              (range_step 0 num_images_to_process_in_full_sheets 9)
              (RunState 0 [] [] []) ;;
      print_summary all_image_files (num_sheets_created st)
        num_images_to_process_in_full_sheets ;;
      let leftover_count := num_total_images mod 9 in
      lret (Finished (num_sheets_created st) (saved st) (failed st) (reported st)
              (if 0 <? leftover_count
               then leftover_files all_image_files
                      num_images_to_process_in_full_sheets num_total_images
               else [])).

End Transcript.

(** The message of a setup error. *)
Definition setup_message (input_folder output_dir_path : pystr) (r : setup_error)
    : message :=
  match r with
  | InputFolderNotFound => InputNotFound input_folder
  | ErrorCreatingOutput e => ErrorCreating output_dir_path e
  | OutputNotADirectory => OutputNotDirectory output_dir_path
  end.

Section Program.
Context `{Imaging} `{Lowercase} (s : settings) (p : pixels).
Local Open Scope log_scope.

(** Lines 437-450 with their prints. *)
Definition check_folders_log (w : world) (input_folder output_dir_path : pystr)
    : logged message (setup_error + bool) :=
  if negb (isdir w input_folder)
  then tell (InputNotFound input_folder) ;; lret (inl InputFolderNotFound)
  else if negb (path_exists w output_dir_path) then
    match makedirs w output_dir_path with
    | Ok _ => tell (CreatedOutput output_dir_path) ;; lret (inr true)
    | Raise e =>
        if is_OSError e
        then tell (ErrorCreating output_dir_path e) ;; lret (inl (ErrorCreatingOutput e))
        else lift (Raise e)
    end
  else if negb (isdir w output_dir_path)
  then tell (OutputNotDirectory output_dir_path) ;; lret (inl OutputNotADirectory)
  else lret (inr false).

(** The [__main__] block with its prints. *)
Definition program_log (w : world) (input_folder output_dir_path : pystr)
    : logged message ending :=
  checked <- check_folders_log w input_folder output_dir_path ;;
  match checked with
  | inl r => lret (Exit r)
  | inr created =>
      entries <- lift (listdir w input_folder) ;;
      o <- main_log s p (Program.open w) (Program.save w) input_folder output_dir_path
             (all_image_files input_folder entries) ;;
      lret (Ran created o)
  end.

End Program.

(** ** Reference transcript *)

Section Reference.
Context `{Imaging} (s : settings) (p : pixels).
Context (open : pystr -> result image) (save : pystr -> list draw_op -> result unit).
Context (input_folder output_dir_path : pystr).

(** What is printed for a chunk before its page is made: the batch and
    the sheet. *)
Definition announced (chunk : Z * list pystr) : list message :=
  [ProcessingBatch (fst chunk + 1)
     (output_sheet_name (sanitize_filename_component (hd [] (snd chunk)))
                        (sanitize_filename_component (last (snd chunk) []))
                        (fst chunk));
   CreatingSheet (basename (fst (sheet_of s p open output_dir_path chunk)))].

(** What is printed for the sheet of a chunk: the batch, the sheet, the
    warnings of its cards and the outcome of its save. *)
Definition batch_messages (chunk : Z * list pystr) : list message :=
  announced chunk
  ++ map Card (report_of s p open chunk)
  ++ [save_message (fst (sheet_of s p open output_dir_path chunk))
        (save_of s p open save output_dir_path chunk)].

(** The report of the files left over; nothing when there is none. *)
Definition leftover_messages (leftover : list pystr) : list message :=
  match leftover with
  | [] => []
  | _ => LeftOver (Z.of_nat (length leftover)) :: LeftoverFiles
         :: map (fun f => LeftoverFile (basename f)) leftover
  end.

(** The line about the configuration override. *)
Definition forced_message : list message :=
  if FORCE_STANDARD_FRAME_TYPE s then [ForcedStandard] else [].

(** The transcript of a run from the listing on, by its batching. *)
Definition transcript_of (num_total_images : Z) (b : batches pystr) : list message :=
  Found num_total_images input_folder ::
  match b with
  | NoImages => [NoImagesFound]
  | NotEnough n => [OnlyFound n]
  | Sheets chunks leftover =>
      forced_message ++ flat_map batch_messages chunks
      ++ [Summary; FinishedProcessing (Z.of_nat (length chunks)) output_dir_path]
      ++ leftover_messages leftover
  end.

End Reference.

(** What the checks of the folders print, by their outcome. *)
Definition checked_messages (input_folder output_dir_path : pystr)
    (checked : result (setup_error + bool)) : list message :=
  match checked with
  | Ok (inl r) => [setup_message input_folder output_dir_path r]
  | Ok (inr true) => [CreatedOutput output_dir_path]
  | _ => []
  end.

(** The messages of lines 473 and 496. *)
Definition never_printed (m : message) : bool :=
  match m with
  | NotEnoughImages _ | NoFullSheets _ => true
  | _ => false
  end.

(** ** Sample runs *)

(** A folder [i] of ten pictures [a.png] to [j.png], each four by three
    pixels, and an output folder [o]; every save returns. *)
Definition sample_entries : list pystr :=
  map (fun c => [c; 46; 112; 110; 103]) (range 97 107).

Definition sample_world : world :=
  simple_world [[105]; [111]] sample_entries (new_black 4 3) (fun _ _ => Ok tt).

(** Eleven files [a] to [k]. *)
Definition sample_files : list pystr := map (fun c => [c]) (range 97 108).

(** ** Theorems *)

(** A logged computation is what it returns and what it prints. *)
Lemma logged_eq {D A} (m : logged D A) r l : fst m = r -> snd m = l -> m = (r, l).
Proof. destruct m. cbn. now intros -> ->. Qed.

(** What two computations in a row print. *)
Lemma snd_lbind {D A B} (m : logged D A) (k : A -> logged D B) :
  snd (lbind m k)
  = snd m ++ match fst m with Ok a => snd (k a) | Raise _ => [] end.
Proof.
  destruct m as [[a|e] l]; cbn; [now destruct (k a) | now rewrite app_nil_r].
Qed.

(** Proves that no message of a list of messages is one of lines 473 and
    496, part by part. *)
Ltac printed :=
  repeat first
    [ apply Forall_nil
    | apply Forall_cons; [reflexivity|]
    | apply Forall_app; split
    | apply Forall_map, Forall_forall; intros; reflexivity
    | apply Forall_flat_map, Forall_forall; intros ].

Section TranscriptFacts.
Context `{Imaging} `{Lowercase} (s : settings) (p : pixels).
Context (open : pystr -> result image) (save : pystr -> list draw_op -> result unit).
Context (input_folder output_dir_path : pystr).

(** *** The program without its prints *)

Lemma create_printable_sheet_log_erase chunk path :
  fst (create_printable_sheet_log s p save chunk path)
  = create_printable_sheet s p save chunk path.
Proof.
  unfold create_printable_sheet_log. rewrite lbind_tell. cbn [fst].
  rewrite fst_lbind. cbn [lift fst].
  destruct (create_printable_sheet s p save chunk path); reflexivity.
Qed.

Lemma process_batch_log_erase files st i :
  fst (process_batch_log s p open save output_dir_path files st i)
  = process_batch s p open save output_dir_path files st i.
Proof.
  unfold process_batch_log, process_batch. rewrite fst_lbind. cbn [lift fst].
  apply bind_ext. intros name. rewrite lbind_tell. cbn [fst].
  rewrite fst_lbind, create_printable_sheet_log_erase.
  apply bind_ext. now intros [[page printed] outcome].
Qed.

(** The leftover files are those from the first file that is on no sheet
    on; the loop that prints them does not raise. *)
Lemma print_leftover_ok files from :
  0 <= from ->
  print_leftover files from (Z.of_nat (length files))
  = (Ok tt, map (fun f => LeftoverFile (basename f)) (skipn (Z.to_nat from) files)).
Proof.
  intros Hf. unfold print_leftover.
  destruct (Z_le_gt_dec (Z.of_nat (length files)) from) as [Hl|Hl].
  { now rewrite range_nil, skipn_all2 by lia. }
  remember (Z.to_nat (Z.of_nat (length files) - from)) as k eqn:Ek.
  revert from Hf Hl Ek. induction k as [|k IH]; intros from Hf Hl Ek; [lia|].
  rewrite range_cons by lia. cbn [fold_log].
  destruct (nth_error files (Z.to_nat from)) as [f|] eqn:E;
    [|apply nth_error_None in E; lia].
  rewrite lbind_tell, (skipn_nth_error _ _ _ E).
  replace (S (Z.to_nat from)) with (Z.to_nat (from + 1)) by lia. cbn [map].
  destruct (Z_le_gt_dec (Z.of_nat (length files)) (from + 1)) as [Hl'|Hl'].
  - now rewrite range_nil, skipn_all2 by lia.
  - now rewrite IH by lia.
Qed.

(** The summary never raises. *)
Lemma print_summary_ok files c m :
  0 <= m ->
  let n := Z.of_nat (length files) in
  print_summary output_dir_path files c m
  = (Ok tt,
     Summary
     :: (if 0 <? c then [FinishedProcessing c output_dir_path]
         else if 0 <? n then [NoFullSheets n] else [])
     ++ (if 0 <? n mod 9
         then LeftOver (n mod 9) :: LeftoverFiles
              :: map (fun f => LeftoverFile (basename f)) (skipn (Z.to_nat m) files)
         else [])).
Proof.
  intros Hm n. unfold print_summary. fold n. rewrite lbind_tell.
  destruct (0 <? c), (0 <? n); unfold tell, lret; cbn [lbind fst snd app];
    destruct (0 <? n mod 9); cbn [lbind fst snd app]; unfold n;
    rewrite ?print_leftover_ok by assumption; reflexivity.
Qed.

Lemma main_log_erase files :
  fst (main_log s p open save input_folder output_dir_path files)
  = main s p open save output_dir_path files.
Proof.
  unfold main_log, main. rewrite lbind_tell. cbn [fst].
  set (n := Z.of_nat (length files)).
  destruct (n =? 0); [reflexivity|]. destruct (n <? 9); [reflexivity|].
  destruct (n / 9 * 9 =? 0); [reflexivity|]. rewrite fst_lbind.
  rewrite fst_lbind,
    (fst_fold_log _ (process_batch s p open save output_dir_path files))
    by apply process_batch_log_erase.
  destruct (FORCE_STANDARD_FRAME_TYPE s); cbn [fst tell lret bind];
    apply bind_ext; intros st; rewrite fst_lbind, print_summary_ok by zdiv;
    reflexivity.
Qed.

(** *** The lines of the cards *)

(** The warnings and errors a sheet collects are the lines its cards
    print, progress lines hidden, in the order of the files. *)
Lemma sheet_lines_problems paths :
  printed (placed s p (map open paths) 9) = problems (sheet_lines s p open paths).
Proof.
  unfold sheet_lines. rewrite placed_printed, problems_flat_map, firstn_map, flat_map_concat_map,
    map_map, <- flat_map_concat_map.
  apply flat_map_ext. intros path. now rewrite resize_card_log_problems.
Qed.

(** Between the announcement of a sheet and the message of its save the
    transcript shows the lines of its cards without the progress lines. *)
Theorem cards_in_transcript paths output_path_for_sheet :
  paper_ok p ->
  snd (create_printable_sheet_log s p save (map open paths) output_path_for_sheet)
  = CreatingSheet (basename output_path_for_sheet)
    :: map Card (problems (sheet_lines s p open paths))
    ++ [save_message output_path_for_sheet
          (save output_path_for_sheet
             (drawn (placed s p (map open paths) 9) ++ cut_lines s p))].
Proof.
  intros P. unfold create_printable_sheet_log.
  rewrite (sheet_layout s p save output_path_for_sheet P), lbind_tell, lbind_lift_Ok.
  cbn [fst snd]. rewrite lbind_tell_all, lbind_tell. cbn [fst snd lret].
  now rewrite sheet_lines_problems.
Qed.

(** *** On a paper of negative size *)

(** The first page raises: the batch and the sheet were announced, and no
    summary follows. *)
Lemma main_log_bad_paper files :
  ~ paper_ok p -> 9 <= Z.of_nat (length files) ->
  main_log s p open save input_folder output_dir_path files
  = (Raise ValueError,
     Found (Z.of_nat (length files)) input_folder
     :: forced_message s ++ announced s p open output_dir_path (chunk_at files 0)).
Proof.
  intros N Hn. unfold main_log. set (n := Z.of_nat (length files)) in *.
  replace (n =? 0) with false by lia. replace (n <? 9) with false by lia.
  replace (n / 9 * 9 =? 0) with false by zdiv.
  replace (n / 9 * 9) with ((n / 9 - 1 + 1) * 9) by lia.
  rewrite range_step_9, (range_cons 0) by zdiv. cbn [map fold_log].
  unfold process_batch_log at 1.
  rewrite sheet_name_ok by (apply slice_nonempty; unfold n in *; zdiv).
  rewrite lbind_lift_Ok. unfold create_printable_sheet_log.
  rewrite sheet_layout_any, (blank_page_raise p N). unfold forced_message.
  now destruct (FORCE_STANDARD_FRAME_TYPE s).
Qed.

(** *** On a paper of a size that is not negative *)

Context (paper : paper_ok p).

(** One turn of the loop, on a full chunk. *)
Lemma process_batch_log_step files chunks j :
  0 <= j -> j * 9 + 9 <= Z.of_nat (length files) -> Z.of_nat (length chunks) = j ->
  process_batch_log s p open save output_dir_path files
    (after s p open save output_dir_path chunks) (0 + j * 9)
  = (Ok (after s p open save output_dir_path (chunks ++ [chunk_at files j])),
     batch_messages s p open save output_dir_path (chunk_at files j)).
Proof.
  intros Hj Hl Hc. apply logged_eq.
  - rewrite process_batch_log_erase. now apply process_batch_step.
  - subst j. unfold process_batch_log. rewrite Z.add_0_l.
    rewrite sheet_name_ok by (apply slice_nonempty; lia).
    rewrite lbind_lift_Ok. unfold create_printable_sheet_log.
    rewrite (sheet_layout s p save _ paper), lbind_lift_Ok.
    cbn [lbind tell tell_all lret fst snd app after num_sheets_created].
    unfold batch_messages, announced, report_of, save_of, sheet_of, chunk_at.
    cbn [fst snd app]. now rewrite app_nil_r.
Qed.

(** The state and the messages after [q] turns. *)
Lemma process_batches_log files q :
  0 <= q -> q * 9 <= Z.of_nat (length files) ->
  fold_log (process_batch_log s p open save output_dir_path files)
           (map (fun j => 0 + j * 9) (range 0 q)) (RunState 0 [] [] [])
  = (Ok (after s p open save output_dir_path (map (chunk_at files) (range 0 q))),
     flat_map (batch_messages s p open save output_dir_path)
              (map (chunk_at files) (range 0 q))).
Proof.
  intros Hq Hl.
  rewrite (fold_log_turns _ (fun j => 0 + j * 9)
             (fun j => after s p open save output_dir_path (map (chunk_at files) (range 0 j)))
             (fun j => batch_messages s p open save output_dir_path (chunk_at files j)));
    [now rewrite flat_map_map | assumption |].
  intros j Hj. rewrite (range_snoc 0 (j + 1)), map_app by lia.
  replace (j + 1 - 1) with j by lia.
  apply process_batch_log_step; rewrite ?length_map, ?range_length; lia.
Qed.

(** The report of the files after the last full chunk. *)
Lemma leftover_messages_skipn files :
  let n := Z.of_nat (length files) in
  (if 0 <? n mod 9
   then LeftOver (n mod 9) :: LeftoverFiles
        :: map (fun f => LeftoverFile (basename f)) (skipn (Z.to_nat (n / 9 * 9)) files)
   else [])
  = leftover_messages (skipn (Z.to_nat (n / 9 * 9)) files).
Proof using Type.
  clear open save input_folder output_dir_path.
  intros n. assert (L : Z.of_nat (length (skipn (Z.to_nat (n / 9 * 9)) files)) = n mod 9).
  { rewrite length_skipn. unfold n. zdiv. }
  unfold leftover_messages. destruct (skipn _ files) as [|f l].
  - cbn [length] in L. now replace (0 <? n mod 9) with false by lia.
  - rewrite L. now replace (0 <? n mod 9) with true by (cbn [length] in L; lia).
Qed.

(** The summary of a run that made sheets: their number, and the report of
    the leftover files. *)
Lemma summary_of_sheets files :
  let n := Z.of_nat (length files) in
  9 <= n ->
  print_summary output_dir_path files (n / 9) (n / 9 * 9)
  = (Ok tt, [Summary; FinishedProcessing (n / 9) output_dir_path]
            ++ leftover_messages (skipn (Z.to_nat (n / 9 * 9)) files)).
Proof using Type.
  clear open save input_folder.
  intros n Hn. pose proof (leftover_messages_skipn files) as L. cbv zeta in L.
  unfold n. rewrite print_summary_ok by zdiv. fold n. fold n in L.
  replace (0 <? n / 9) with true by zdiv. now rewrite L.
Qed.

(** The run from the listing on prints the reference transcript of its
    batching, and ends as the run without prints. *)
Lemma main_log_spec files :
  main_log s p open save input_folder output_dir_path files
  = (Ok (outcome_of s p open save output_dir_path (main_batches files)),
     transcript_of s p open save input_folder output_dir_path
       (Z.of_nat (length files)) (main_batches files)).
Proof.
  apply logged_eq; [rewrite main_log_erase; now apply main_outcome|].
  destruct (Z.of_nat (length files) <? 9) eqn:E9.
  - unfold main_log, main_batches. rewrite E9. now destruct (_ =? 0).
  - rewrite main_batches_sheets by lia. unfold main_log, transcript_of, forced_message.
    pose proof (summary_of_sheets files) as S. cbv zeta in S.
    set (n := Z.of_nat (length files)) in *. replace (n =? 0) with false by lia.
    rewrite E9. replace (n / 9 * 9 =? 0) with false by zdiv.
    rewrite range_step_9, process_batches_log by zdiv.
    rewrite lbind_tell. cbn [snd after num_sheets_created]. f_equal.
    rewrite !length_map, range_length, Z.sub_0_r, Z2Nat.id by zdiv.
    destruct (FORCE_STANDARD_FRAME_TYPE s); cbn [lbind tell lret app snd after num_sheets_created];
      rewrite !length_map, range_length, Z.sub_0_r, Z2Nat.id, S by zdiv;
      cbn [lbind lret snd]; now rewrite app_nil_r.
Qed.

End TranscriptFacts.

Section ProgramFacts.
Context `{Imaging} `{Lowercase} (s : settings) (p : pixels).

Lemma check_folders_log_spec w input_folder output_dir_path :
  check_folders_log w input_folder output_dir_path
  = (check_folders w input_folder output_dir_path,
     checked_messages input_folder output_dir_path
       (check_folders w input_folder output_dir_path)).
Proof.
  unfold check_folders_log, check_folders.
  destruct (isdir w input_folder), (path_exists w output_dir_path); cbn [negb];
    try reflexivity.
  - now destruct (isdir w output_dir_path).
  - destruct (makedirs w output_dir_path) as [[]|e]; [reflexivity|].
    now destruct (is_OSError e).
Qed.

(** No run prints the message of line 473 or that of line 496. *)
Lemma transcript_of_printed open save input_folder output_dir_path n b :
  Forall (fun m => never_printed m = false)
    (transcript_of s p open save input_folder output_dir_path n b).
Proof.
  unfold transcript_of, forced_message, leftover_messages, batch_messages, announced.
  destruct b as [| |chunks [|f leftover]], (FORCE_STANDARD_FRAME_TYPE s); printed;
    (constructor; [now destruct (save_of _ _ _ _ _ _) | constructor]).
Qed.

Lemma main_log_printed open save input_folder output_dir_path files :
  Forall (fun m => never_printed m = false)
    (snd (main_log s p open save input_folder output_dir_path files)).
Proof.
  destruct (paper_ok_dec p) as [P|N].
  { rewrite (main_log_spec s p open save input_folder output_dir_path P).
    apply transcript_of_printed. }
  destruct (Z.of_nat (length files) <? 9) eqn:E9.
  - unfold main_log. rewrite E9. destruct (_ =? 0); printed.
  - rewrite main_log_bad_paper by (assumption || lia).
    unfold forced_message, announced. destruct (FORCE_STANDARD_FRAME_TYPE s); printed.
Qed.

(** The program with its prints is the program: what [program_log]
    returns or raises, its messages put aside, is what [Program.program]
    does, in every world; every theorem about the sheets of the program
    holds of the program that prints. *)
Theorem program_log_erases w input_folder output_dir_path :
  fst (program_log s p w input_folder output_dir_path)
  = program s p w input_folder output_dir_path.
Proof.
  unfold program_log, program, run. rewrite fst_lbind, check_folders_log_spec.
  cbn [fst]. apply bind_ext. intros [r|created]; [reflexivity|].
  rewrite fst_lbind. cbn [lift fst]. apply bind_ext. intros entries.
  rewrite fst_lbind, main_log_erase. now apply bind_ext.
Qed.

(** When the folders fail the checks the program prints one message, that
    of the failed check, and nothing else. *)
Theorem setup_error_transcript w input_folder output_dir_path r :
  check_folders w input_folder output_dir_path = Ok (inl r) ->
  program_log s p w input_folder output_dir_path
  = (Ok (Exit r), [setup_message input_folder output_dir_path r]).
Proof.
  intros E. unfold program_log. now rewrite check_folders_log_spec, E.
Qed.

(** The transcript of a run: on folders that pass the checks, a
    listing that returns and a paper of a size that is not negative, the
    program prints that it made the output folder, if it did, then the
    number of files found, then either the message of its exit, or the line
    of the override if it is set, for every chunk in order the batch, the
    sheet, the warnings of its cards and the outcome of its save, the
    summary with the number of chunks, and the leftover files if there are
    any. *)
Theorem program_transcript w input_folder output_dir_path created entries :
  paper_ok p ->
  folders_ready w input_folder output_dir_path created ->
  listdir w input_folder = Ok entries ->
  let files := all_image_files input_folder entries in
  program_log s p w input_folder output_dir_path
  = (Ok (Ran created
           (outcome_of s p (Program.open w) (Program.save w) output_dir_path
              (main_batches files))),
     (if created then [CreatedOutput output_dir_path] else [])
     ++ transcript_of s p (Program.open w) (Program.save w) input_folder output_dir_path
          (Z.of_nat (length files)) (main_batches files)).
Proof.
  intros P F%check_folders_ready L files. unfold program_log.
  rewrite check_folders_log_spec, F. cbn [lbind]. rewrite L, lbind_lift_Ok. fold files.
  rewrite (main_log_spec s p _ _ input_folder output_dir_path P).
  destruct created; cbn [lbind lret checked_messages]; now rewrite app_nil_r.
Qed.

(** Claim C31: in no world, on no paper and for no folder does the program
    print the message of line 473 (not enough images to form a sheet) or
    that of line 496 (no full sheet was created): with nine files or more
    there is a full chunk, and a run that reaches its summary has made a
    sheet. *)
Theorem unreachable_messages w input_folder output_dir_path :
  Forall (fun m => never_printed m = false)
    (snd (program_log s p w input_folder output_dir_path)).
Proof.
  unfold program_log. rewrite snd_lbind, check_folders_log_spec. cbn [fst snd].
  destruct (check_folders w input_folder output_dir_path) as [[[]|[]]|e];
    cbn [checked_messages setup_message app]; printed;
    rewrite snd_lbind; cbn [lift fst snd app];
    (destruct (listdir w input_folder); [|constructor]);
    rewrite snd_lbind; apply Forall_app; (split; [apply main_log_printed|]);
    now destruct (fst _).
Qed.

End ProgramFacts.

Section Files.
Context `{Imaging} (s : settings) (p : pixels).
Context (open : pystr -> result image) (save : pystr -> list draw_op -> result unit).
Context (input_folder output_dir_path : pystr).
Context (paper : paper_ok p).

(** No file of a run goes unreported: with nine files or more,
    every file is in a chunk for which the batch, the sheet, the warnings of
    the cards and the outcome of the save are in the transcript, or its name
    is in the list of the leftover files. *)
Theorem every_file_reported files f :
  9 <= Z.of_nat (length files) -> In f files ->
  let t := snd (main_log s p open save input_folder output_dir_path files) in
  (exists j, In f (slice files (j * 9) (j * 9 + 9)) /\
             incl (batch_messages s p open save output_dir_path (chunk_at files j)) t) \/
  In (LeftoverFile (basename f)) t.
Proof.
  intros Hn I. rewrite (main_log_spec s p open save input_folder output_dir_path paper).
  rewrite main_batches_sheets by assumption. cbn [snd transcript_of].
  apply file_in_chunk in I as [(j & Ij%in_range & I)|I].
  - left. exists j.
    split; [exact I|]. intros m Im. right. apply in_or_app. right.
    apply in_or_app. left. apply in_flat_map. exists (chunk_at files j).
    split; [|exact Im]. now apply (in_map (chunk_at files)) in Ij.
  - right. right. do 3 (apply in_or_app; right). unfold leftover_messages.
    destruct (skipn _ files) as [|g l] eqn:E; [contradiction|].
    do 2 right. now apply (in_map (fun f => LeftoverFile (basename f))).
Qed.

End Files.

(** ** Witnesses *)

Lemma program_transcript_witness :
  program_log default_settings default_pixels sample_world [105] [111]
  = (Ok (Ran false
           (outcome_of default_settings default_pixels (Program.open sample_world)
              (Program.save sample_world) [111]
              (main_batches (all_image_files [105] sample_entries)))),
     [] ++ transcript_of default_settings default_pixels (Program.open sample_world)
             (Program.save sample_world) [105] [111]
             (Z.of_nat (length (all_image_files [105] sample_entries)))
             (main_batches (all_image_files [105] sample_entries))).
Proof.
  apply (program_transcript default_settings default_pixels sample_world [105] [111]
           false sample_entries default_paper_ok).
  - repeat split.
  - reflexivity.
Defined.

Lemma every_file_reported_witness :
  (exists j, In [106] (slice sample_files (j * 9) (j * 9 + 9)) /\
             incl (batch_messages default_settings default_pixels
                     (fun _ => Ok (new_black 4 3)) (fun _ _ => Ok tt) [111]
                     (chunk_at sample_files j))
                  (snd (main_log default_settings default_pixels
                          (fun _ => Ok (new_black 4 3)) (fun _ _ => Ok tt)
                          [105] [111] sample_files))) \/
  In (LeftoverFile (basename [106]))
     (snd (main_log default_settings default_pixels (fun _ => Ok (new_black 4 3))
             (fun _ _ => Ok tt) [105] [111] sample_files)).
Proof.
  apply (every_file_reported default_settings default_pixels
           (fun _ => Ok (new_black 4 3)) (fun _ _ => Ok tt) [105] [111]
           default_paper_ok sample_files [106]).
  - discriminate.
  - apply in_map_iff. exists 106. split; [reflexivity | apply in_range; lia].
Defined.

(** ** The transcript of a run *)

Section Scenario.
Import String.

(** A folder with eleven pictures and a text file, of which one picture
    cannot be opened, and an output folder that does not exist yet: the
    program says that it made the folder and found eleven pictures,
    announces one batch and its sheet, reports the picture it could not
    open, saves the sheet, and lists the last two pictures as left over. *)
Example transcript_eleven_files :
  let entries :=
    map of_string ["k.png"; "b.png"; "c.jpg"; "d.png"; "e.PNG"; "f.png";
                   "g.gif"; "h.png"; "i.png"; "j.png"; "a.png"; "notes.txt"]%string in
  let w :=
    {| isdir := fun q => str_eqb q (of_string "in");
       path_exists := fun q => str_eqb q (of_string "in");
       makedirs := fun _ => Ok tt;
       listdir := fun _ => Ok entries;
       Program.open := fun q => if str_eqb q (of_string "in/c.jpg")
                                then Raise FileNotFoundError
                                else Ok (framed 24 20 (Box 10 5 14 15));
       Program.save := fun _ _ => Ok tt |} in
  snd (program_log default_settings default_pixels w (of_string "in") (of_string "out"))
  = [CreatedOutput (of_string "out");
     Found 11 (of_string "in");
     ProcessingBatch 1 (of_string "a_to_i_sheet_1.png");
     CreatingSheet (of_string "a_to_i_sheet_1.png");
     Card ImageFileNotFound;
     SavedSheet (of_string "out/a_to_i_sheet_1.png");
     Summary;
     FinishedProcessing 1 (of_string "out");
     LeftOver 2;
     LeftoverFiles;
     LeftoverFile (of_string "j.png");
     LeftoverFile (of_string "k.png")].
Proof. vm_compute. reflexivity. Qed.

End Scenario.
