(* ===== verification/Output.v ===== *)
(** * Output: every line the program prints

    [Transcript.program_log] holds the messages of the [__main__] block and
    of the sheets, and of the cards their warnings only.  This file adds
    what is left of the standard output of [src/proxify.py]: the warning
    of the calculations (line 60), the two prompts (lines 434-435) and the
    progress lines of the cards (lines 235-376), in the order the program
    prints them.

    - [create_printable_sheet_out], [process_batch_out], [main_out] and
      [program_out] are the definitions of [Transcript] with the lines of
      the cards ([Transcript.sheet_lines], from
      [Narration.resize_card_log]) in the place of their warnings; the
      summary and the checks of the folders are those of [Transcript];
    - [script_out] is the module as it runs: the calculations with their
      warning, the prompts, then the [__main__] block.

    [output_of] is the reference: the output as a function of the batching
    of the files.  The theorems show that the output with the progress
    lines, the prompts and the warning of the calculations hidden is the
    transcript ([program_out_erases]), what the program prints on folders
    that pass the checks ([program_output]), and that every file is in the
    output: a file of a full chunk prints its first line, its name and its
    size when it opened and its error when it did not, and every other
    file is listed as left over ([every_file_in_output]).

    The traceback of line 385 goes to the error stream and is not part of
    the output; an exception is printed as its class. *)

From Stdlib Require Import ZArith List Bool Lia.
Import ListNotations.
From S2P Require Import Prelude PyNum Config Image Classifier Cropper Renderer Names.
From S2P Require Import Narration Sheet Scanner Batch Run Program Transcript.
Local Open Scope Z_scope.

(** A line of the standard output, by the part of the program that prints
    it. *)
Inductive output : Type :=
| GridExceedsPaper          (* 60 *)
| PromptInputFolder         (* 434 *)
| PromptOutputDir           (* 435 *)
| Said (m : message)        (* 389, 420-422, 438-505 *)
| CardSaid (l : line).      (* 235-383 *)

(** The messages of a transcript in the output: those of the block and of
    the sheets, and the warnings and errors of the cards. *)
Definition hide (o : output) : list message :=
  match o with
  | Said m => [m]
  | CardSaid (Problem d) => [Card d]
  | _ => []
  end.

(** A computation of [Transcript] whose messages are lines of the
    output. *)
Definition said {A} (m : logged message A) : logged output A :=
  log_map (fun m => [Said m]) m.

Section Output.
Context `{Imaging} `{Lowercase} (s : settings) (p : pixels).
Context (open : pystr -> result image) (save : pystr -> list draw_op -> result unit).
Context (input_folder output_dir_path : pystr).
Local Open Scope log_scope.

(** [create_printable_sheet] with its prints and those of the cards (lines
    388-422). *)
Definition create_printable_sheet_out (current_chunk_paths : list pystr)
    (output_path_for_sheet : pystr)
    : logged output (list draw_op * list diag * result unit) :=
  tell (Said (CreatingSheet (basename output_path_for_sheet))) ;;
  sheet <- lift (create_printable_sheet s p save (map open current_chunk_paths)
                   output_path_for_sheet) ;;
  tell_all (map CardSaid (sheet_lines s p open current_chunk_paths)) ;;
  tell (Said (save_message output_path_for_sheet (snd sheet))) ;;
  lret sheet.

(** The body of the loop (lines 480-490). *)
Definition process_batch_out (all_image_files : list pystr) (st : run_state) (i : Z)
    : logged output run_state :=
  let current_chunk_paths := slice all_image_files i (i + 9) in
  output_sheet_name <- lift (sheet_name current_chunk_paths (num_sheets_created st)) ;;
  let full_output_path_for_sheet := join output_dir_path output_sheet_name in
  tell (Said (ProcessingBatch (num_sheets_created st + 1) output_sheet_name)) ;;
  sheet <- create_printable_sheet_out current_chunk_paths full_output_path_for_sheet ;;
  let '(page, printed, outcome) := sheet in
  lret (RunState (num_sheets_created st + 1)
          (saved st ++ written full_output_path_for_sheet page outcome)
          (failed st ++ unwritten full_output_path_for_sheet outcome)
          (reported st ++ printed)).

(** [__main__] from line 458 on. *)
Definition main_out (all_image_files : list pystr) : logged output outcome :=
  let num_total_images := Z.of_nat (length all_image_files) in
  tell (Said (Found num_total_images input_folder)) ;;
  if num_total_images =? 0 then tell (Said NoImagesFound) ;; lret ExitNoImages
  else if num_total_images <? 9
  then tell (Said (OnlyFound num_total_images)) ;; lret (ExitNotEnough num_total_images)
  else
    let num_images_to_process_in_full_sheets := (num_total_images / 9) * 9 in
    if num_images_to_process_in_full_sheets =? 0
    then tell (Said (NotEnoughImages num_total_images)) ;;
         lret (ExitNotEnough num_total_images)
    else
      (if FORCE_STANDARD_FRAME_TYPE s then tell (Said ForcedStandard) else lret tt) ;;
      st <- fold_log (process_batch_out all_image_files)
              (range_step 0 num_images_to_process_in_full_sheets 9)
              (RunState 0 [] [] []) ;;
      said (print_summary output_dir_path all_image_files (num_sheets_created st)
              num_images_to_process_in_full_sheets) ;;
      let leftover_count := num_total_images mod 9 in
      lret (Finished (num_sheets_created st) (saved st) (failed st) (reported st)
              (if 0 <? leftover_count
               then leftover_files all_image_files
                      num_images_to_process_in_full_sheets num_total_images
               else [])).

End Output.

Section Script.
Context `{Imaging} `{Lowercase}.
Local Open Scope log_scope.

(** The [__main__] block: the prompts, the checks of the folders, the
    listing and the run (lines 433-505). *)
Definition program_out (s : settings) (p : pixels) (w : world)
    (input_folder output_dir_path : pystr) : logged output ending :=
  tell PromptInputFolder ;;
  tell PromptOutputDir ;;
  checked <- said (check_folders_log w input_folder output_dir_path) ;;
  match checked with
  | inl r => lret (Exit r)
  | inr created =>
      entries <- lift (listdir w input_folder) ;;
      o <- main_out s p (Program.open w) (Program.save w) input_folder output_dir_path
             (all_image_files input_folder entries) ;;
      lret (Ran created o)
  end.

(** The warning of the calculations (lines 59-60), from the sizes of the
    paper and of the grid. *)
Definition calculations_out (s : settings) : logged output pixels :=
  p <- lift (calculations s) ;;
  let margin_x := (PAPER_WIDTH_PX p - GRID_WIDTH_PX p) / 2 in
  let margin_y := (PAPER_HEIGHT_PX p - GRID_HEIGHT_PX p) / 2 in
  (if grid_exceeds_paper margin_x margin_y then tell GridExceedsPaper else lret tt) ;;
  lret p.

(** The module as it runs: the calculations, then the [__main__] block
    for the two lines read at the prompts. *)
Definition script_out (s : settings) (w : world)
    (input_folder output_dir_path : pystr) : logged output ending :=
  p <- calculations_out s ;;
  program_out s p w input_folder output_dir_path.

End Script.

(** ** Reference output *)

Section Reference.
Context `{Imaging} (s : settings) (p : pixels).
Context (open : pystr -> result image) (save : pystr -> list draw_op -> result unit).
Context (input_folder output_dir_path : pystr).

(** What is printed for the sheet of a chunk: the batch, the sheet, every
    line of its cards and the outcome of its save. *)
Definition batch_output (chunk : Z * list pystr) : list output :=
  map Said (announced s p open output_dir_path chunk)
  ++ map CardSaid (sheet_lines s p open (snd chunk))
  ++ [Said (save_message (fst (sheet_of s p open output_dir_path chunk))
              (save_of s p open save output_dir_path chunk))].

(** The output of a run from the listing on, by its batching. *)
Definition output_of (num_total_images : Z) (b : batches pystr) : list output :=
  Said (Found num_total_images input_folder) ::
  match b with
  | NoImages => [Said NoImagesFound]
  | NotEnough n => [Said (OnlyFound n)]
  | Sheets chunks leftover =>
      map Said (forced_message s) ++ flat_map batch_output chunks
      ++ map Said ([Summary; FinishedProcessing (Z.of_nat (length chunks)) output_dir_path]
                   ++ leftover_messages leftover)
  end.

End Reference.

(** ** Theorems *)

Lemma hide_Said l : flat_map hide (map Said l) = l.
Proof. rewrite flat_map_map. cbn [hide]. now rewrite flat_map_single, map_id. Qed.

(** The lines of the cards in a transcript: their warnings and errors. *)
Lemma hide_CardSaid l : flat_map hide (map CardSaid l) = map Card (problems l).
Proof.
  induction l as [|[i|d] l IH]; [reflexivity | exact IH|].
  cbn [map flat_map hide app]. rewrite IH. reflexivity.
Qed.

Lemma hide_said {A} (m : logged message A) : log_map hide (said m) = m.
Proof.
  unfold said. rewrite log_map_log_map. cbn [flat_map hide app]. apply log_map_id.
Qed.

Lemma snd_said {A} (m : logged message A) : snd (said m) = map Said (snd m).
Proof. unfold said, log_map. cbn [snd]. apply flat_map_single. Qed.

Lemma fst_said {A} (m : logged message A) : fst (said m) = fst m.
Proof. reflexivity. Qed.

Section OutputFacts.
Context `{Imaging} `{Lowercase} (s : settings) (p : pixels).
Context (open : pystr -> result image) (save : pystr -> list draw_op -> result unit).
Context (input_folder output_dir_path : pystr).
Local Open Scope log_scope.

(** *** The transcript in the output *)

Lemma create_printable_sheet_out_hide paths path :
  log_map hide (create_printable_sheet_out s p open save paths path)
  = create_printable_sheet_log s p save (map open paths) path.
Proof.
  unfold create_printable_sheet_out, create_printable_sheet_log.
  rewrite log_map_lbind, log_map_tell. apply lbind_ext. intros _.
  rewrite sheet_layout_any. destruct (blank_page p) as [page|e]; [|reflexivity].
  cbn [bind]. rewrite log_map_lbind, log_map_lift, !lbind_lift_Ok.
  rewrite log_map_lbind, log_map_tell_all, hide_CardSaid. cbn [fst snd].
  now rewrite (sheet_lines_problems s p open paths).
Qed.

Lemma process_batch_out_hide files st i :
  log_map hide (process_batch_out s p open save output_dir_path files st i)
  = process_batch_log s p open save output_dir_path files st i.
Proof.
  unfold process_batch_out, process_batch_log.
  rewrite log_map_lbind, log_map_lift. apply lbind_ext. intros name.
  rewrite log_map_lbind, log_map_tell. apply lbind_ext. intros _.
  rewrite log_map_lbind, create_printable_sheet_out_hide. apply lbind_ext.
  now intros [[page printed] outcome].
Qed.

Lemma main_out_hide files :
  log_map hide (main_out s p open save input_folder output_dir_path files)
  = main_log s p open save input_folder output_dir_path files.
Proof.
  unfold main_out, main_log. rewrite log_map_lbind, log_map_tell. apply lbind_ext. intros _.
  destruct (_ =? 0); [reflexivity|]. destruct (_ <? 9); [reflexivity|].
  destruct (_ / 9 * 9 =? 0); [reflexivity|].
  rewrite log_map_lbind. apply lbind_cong; [now destruct (FORCE_STANDARD_FRAME_TYPE s)|].
  intros _. rewrite log_map_lbind, log_map_fold_log.
  rewrite (fold_log_ext _ _ _ _ (process_batch_out_hide files)).
  apply lbind_ext. intros st. now rewrite log_map_lbind, hide_said.
Qed.

(** *** On a paper of a size that is not negative *)

Context (paper : paper_ok p).

(** One turn of the loop, on a full chunk. *)
Lemma process_batch_out_step files j :
  0 <= j -> j * 9 + 9 <= Z.of_nat (length files) ->
  process_batch_out s p open save output_dir_path files
    (after s p open save output_dir_path (map (chunk_at files) (range 0 j))) (0 + j * 9)
  = (Ok (after s p open save output_dir_path (map (chunk_at files) (range 0 (j + 1)))),
     batch_output s p open save output_dir_path (chunk_at files j)).
Proof using paper.
  intros Hj Hl. apply logged_eq.
  - change (fst (process_batch_out s p open save output_dir_path files ?st ?i))
      with (fst (log_map hide (process_batch_out s p open save output_dir_path files st i))).
    rewrite process_batch_out_hide, process_batch_log_erase, (range_snoc 0 (j + 1)) by lia.
    replace (j + 1 - 1) with j by lia. rewrite map_app.
    apply process_batch_step; rewrite ?length_map, ?range_length; solve [assumption | lia].
  - unfold process_batch_out. rewrite Z.add_0_l.
    rewrite sheet_name_ok by (apply slice_nonempty; lia).
    rewrite lbind_lift_Ok. unfold create_printable_sheet_out.
    rewrite (sheet_layout s p save _ paper), lbind_lift_Ok.
    cbn [lbind tell tell_all lret fst snd app after num_sheets_created].
    rewrite length_map, range_length, Z.sub_0_r, Z2Nat.id by lia.
    unfold batch_output, announced, save_of, sheet_of, chunk_at.
    cbn [fst snd app map]. now rewrite app_nil_r.
Qed.

(** The run from the listing on prints the reference output of its
    batching, and ends as the run without prints. *)
Lemma main_out_spec files :
  main_out s p open save input_folder output_dir_path files
  = (Ok (outcome_of s p open save output_dir_path (main_batches files)),
     output_of s p open save input_folder output_dir_path
       (Z.of_nat (length files)) (main_batches files)).
Proof using paper.
  apply logged_eq.
  { change (fst ?m) with (fst (log_map hide m)).
    now rewrite main_out_hide, (main_log_spec s p open save input_folder output_dir_path paper). }
  destruct (Z.of_nat (length files) <? 9) eqn:E9.
  - unfold main_out, main_batches. rewrite E9. now destruct (_ =? 0).
  - rewrite main_batches_sheets by lia. unfold main_out, output_of.
    set (n := Z.of_nat (length files)) in *. replace (n =? 0) with false by lia.
    rewrite E9. replace (n / 9 * 9 =? 0) with false by zdiv.
    rewrite range_step_9 by zdiv.
    rewrite (fold_log_turns _ (fun j => 0 + j * 9)
               (fun j => after s p open save output_dir_path (map (chunk_at files) (range 0 j)))
               (fun j => batch_output s p open save output_dir_path (chunk_at files j)))
      by (try (intros; apply process_batch_out_step; unfold n in *); zdiv).
    rewrite lbind_tell. cbn [snd after num_sheets_created]. f_equal.
    rewrite !length_map, range_length, Z.sub_0_r, Z2Nat.id by zdiv.
    pose proof (summary_of_sheets output_dir_path files) as S. cbv zeta in S. fold n in S.
    unfold forced_message. destruct (FORCE_STANDARD_FRAME_TYPE s);
      cbn [lbind tell lret app snd after num_sheets_created forced_message map];
      rewrite !length_map, range_length, Z.sub_0_r, Z2Nat.id, S by zdiv;
      unfold said, log_map; cbn [lbind lret fst snd];
      now rewrite flat_map_single, flat_map_map, app_nil_r.
Qed.

(** The lines of a file among those of its chunk. *)
Lemma lines_in_batch_output files j f l :
  0 <= j -> j * 9 + 9 <= Z.of_nat (length files) ->
  In f (slice files (j * 9) (j * 9 + 9)) ->
  In l (snd (resize_card_log s p f (open f) (CARD_WIDTH_PX p) (CARD_HEIGHT_PX p))) ->
  In (CardSaid l) (batch_output s p open save output_dir_path (chunk_at files j)).
Proof using Type.
  clear input_folder paper.
  intros Hj Hl If Il. unfold batch_output. apply in_or_app. right. apply in_or_app. left.
  apply in_map, in_flat_map. exists f. split; [|exact Il]. cbn [chunk_at snd].
  rewrite firstn_all2; [exact If|]. rewrite slice_length by lia. lia.
Qed.

(** What a file prints first: its name and its size when it opens, the
    error of the exception when it does not. *)
Lemma first_line_printed f :
  In (match open f with
      | Ok im => Progress (Processing (basename f) (width im) (height im))
      | Raise e => Problem (report_error e)
      end)
     (snd (resize_card_log s p f (open f) (CARD_WIDTH_PX p) (CARD_HEIGHT_PX p))).
Proof using Type.
  clear input_folder output_dir_path save paper.
  destruct (open f) as [im|e]; [|now left].
  destruct (resize_card_log_first s p f im (CARD_WIDTH_PX p) (CARD_HEIGHT_PX p)) as [rest ->].
  now left.
Qed.

(** Claim C18: no file of a run is passed over in silence: with nine files
    or more, every file that is in a full chunk has its first line in the
    output, its name and its size if it opened and the error if it did not,
    and every other file is listed as left over. *)
Theorem every_file_in_output files f :
  9 <= Z.of_nat (length files) -> In f files ->
  let t := snd (main_out s p open save input_folder output_dir_path files) in
  In (CardSaid match open f with
               | Ok im => Progress (Processing (basename f) (width im) (height im))
               | Raise e => Problem (report_error e)
               end) t \/
  In (Said (LeftoverFile (basename f))) t.
Proof using paper.
  intros Hn I. rewrite main_out_spec, main_batches_sheets by assumption.
  cbn [snd output_of]. set (n := Z.of_nat (length files)) in *.
  apply file_in_chunk in I as [(j & Hj & I)|I]; try fold n in Hj.
  - left. right. apply in_or_app. right. apply in_or_app. left. apply in_flat_map.
    exists (chunk_at files j). split; [apply (in_map (chunk_at files)), in_range, Hj|].
    apply (lines_in_batch_output files j f); try assumption; try apply first_line_printed;
      unfold n in *; zdiv.
  - right. right. do 2 (apply in_or_app; right). apply in_map. do 2 right.
    unfold leftover_messages. destruct (skipn _ files) as [|g l] eqn:E; [contradiction|].
    do 2 right. now apply (in_map (fun f => LeftoverFile (basename f))).
Qed.

End OutputFacts.

Section ScriptFacts.
Context `{Imaging} `{Lowercase} (s : settings) (p : pixels).
Local Open Scope log_scope.

Lemma program_out_hide w input_folder output_dir_path :
  log_map hide (program_out s p w input_folder output_dir_path)
  = program_log s p w input_folder output_dir_path.
Proof.
  unfold program_out, program_log. rewrite !lbind_tell. unfold log_map. cbn [fst snd flat_map hide app].
  change (fst ?m, flat_map hide (snd ?m)) with (log_map hide m).
  rewrite log_map_lbind, hide_said. apply lbind_ext. intros [r|created]; [reflexivity|].
  rewrite log_map_lbind, log_map_lift. apply lbind_ext. intros entries.
  rewrite log_map_lbind, main_out_hide. now apply lbind_ext.
Qed.

(** The output with the prompts and the progress lines of the cards hidden
    is the transcript, and the program that prints everything does what
    [Program.program] does, in every world and on every paper. *)
Theorem program_out_erases w input_folder output_dir_path :
  log_map hide (program_out s p w input_folder output_dir_path)
  = program_log s p w input_folder output_dir_path /\
  fst (program_out s p w input_folder output_dir_path)
  = program s p w input_folder output_dir_path.
Proof.
  split; [apply program_out_hide|].
  change (fst ?m) with (fst (log_map hide m)). rewrite program_out_hide.
  apply program_log_erases.
Qed.

(** What the calculations print: the warning, exactly when the grid of
    three cards by three is wider or higher than the paper. *)
Lemma calculations_out_spec :
  calculations s = Ok p ->
  calculations_out s
  = (Ok p, if (PAPER_WIDTH_PX p - GRID_WIDTH_PX p <? 0) || (PAPER_HEIGHT_PX p - GRID_HEIGHT_PX p <? 0)
           then [GridExceedsPaper] else []).
Proof.
  intros E. unfold calculations_out. rewrite E, lbind_lift_Ok. unfold grid_exceeds_paper.
  replace ((PAPER_WIDTH_PX p - GRID_WIDTH_PX p) / 2 <? 0)
    with (PAPER_WIDTH_PX p - GRID_WIDTH_PX p <? 0) by zdiv.
  replace ((PAPER_HEIGHT_PX p - GRID_HEIGHT_PX p) / 2 <? 0)
    with (PAPER_HEIGHT_PX p - GRID_HEIGHT_PX p <? 0) by zdiv.
  now destruct (_ || _).
Qed.

(** Claim C17: the output of the program on folders that pass the checks, a
    listing that returns and a paper of a size that is not negative: the two
    prompts, the message that the output folder was made, if it was, and the
    reference output of the batching of the files: the files found, for
    every chunk the batch, the sheet, every line of its cards and the
    outcome of its save, then the summary and the leftover files. *)
Theorem program_output w input_folder output_dir_path created entries :
  paper_ok p ->
  folders_ready w input_folder output_dir_path created ->
  listdir w input_folder = Ok entries ->
  let files := all_image_files input_folder entries in
  program_out s p w input_folder output_dir_path
  = (Ok (Ran created
           (outcome_of s p (Program.open w) (Program.save w) output_dir_path
              (main_batches files))),
     PromptInputFolder :: PromptOutputDir
     :: map Said (if created then [CreatedOutput output_dir_path] else [])
     ++ output_of s p (Program.open w) (Program.save w) input_folder output_dir_path
          (Z.of_nat (length files)) (main_batches files)).
Proof.
  intros P F%check_folders_ready L files. unfold program_out.
  rewrite !lbind_tell, check_folders_log_spec, F. unfold said, log_map. cbn [fst snd lbind].
  rewrite L, lbind_lift_Ok. fold files.
  rewrite (main_out_spec s p _ _ input_folder output_dir_path P).
  destruct created; cbn [lbind lret checked_messages fst snd flat_map app map];
    now rewrite app_nil_r.
Qed.

(** The module as it runs: the warning of the calculations, if the grid
    exceeds the paper, then the output of the [__main__] block. *)
Theorem script_out_spec w input_folder output_dir_path :
  calculations s = Ok p ->
  script_out s w input_folder output_dir_path
  = (fst (program_out s p w input_folder output_dir_path),
     (if (PAPER_WIDTH_PX p - GRID_WIDTH_PX p <? 0)
         || (PAPER_HEIGHT_PX p - GRID_HEIGHT_PX p <? 0)
      then [GridExceedsPaper] else [])
     ++ snd (program_out s p w input_folder output_dir_path)).
Proof.
  intros E. unfold script_out. rewrite (calculations_out_spec E). cbn [lbind].
  now destruct (program_out s p w input_folder output_dir_path).
Qed.

End ScriptFacts.

(** With the configuration of the source the grid fits on the paper: the
    module prints what its [__main__] block prints. *)
Theorem script_out_default `{Imaging} `{Lowercase} w input_folder output_dir_path :
  script_out default_settings w input_folder output_dir_path
  = program_out default_settings default_pixels w input_folder output_dir_path.
Proof.
  rewrite (script_out_spec default_settings default_pixels w _ _ calculations_default).
  now destruct (program_out _ _ _ _ _).
Qed.

(** ** Witnesses *)

Lemma program_output_witness :
  program_out default_settings default_pixels sample_world [105] [111]
  = (Ok (Ran false
           (outcome_of default_settings default_pixels (Program.open sample_world)
              (Program.save sample_world) [111]
              (main_batches (all_image_files [105] sample_entries)))),
     PromptInputFolder :: PromptOutputDir :: map Said []
     ++ output_of default_settings default_pixels (Program.open sample_world)
          (Program.save sample_world) [105] [111]
          (Z.of_nat (length (all_image_files [105] sample_entries)))
          (main_batches (all_image_files [105] sample_entries))).
Proof.
  apply (program_output default_settings default_pixels sample_world [105] [111]
           false sample_entries default_paper_ok).
  - repeat split.
  - reflexivity.
Defined.

Lemma every_file_in_output_witness :
  In (CardSaid (Progress (Processing (basename [106]) (width (new_black 4 3))
                            (height (new_black 4 3)))))
     (snd (main_out default_settings default_pixels (fun _ => Ok (new_black 4 3))
             (fun _ _ => Ok tt) [105] [111] sample_files)) \/
  In (Said (LeftoverFile (basename [106])))
     (snd (main_out default_settings default_pixels (fun _ => Ok (new_black 4 3))
             (fun _ _ => Ok tt) [105] [111] sample_files)).
Proof.
  apply (every_file_in_output default_settings default_pixels
           (fun _ => Ok (new_black 4 3)) (fun _ _ => Ok tt) [105] [111]
           default_paper_ok sample_files [106]).
  - discriminate.
  - apply in_map_iff. exists 106. split; [reflexivity | apply in_range; lia].
Defined.

(** ** The output of a run *)

Section Scenario.
Import String.

(** The run of [Transcript.transcript_eleven_files] with everything it
    prints: after the prompts and the messages of the folders, the batch
    and the sheet, every picture of the batch prints its name and size,
    its frame style, what is done to it and the size of its card, except
    the picture that cannot be opened, which prints its error; then the
    sheet is saved, and the last two pictures are listed as left over. *)
Example output_eleven_files :
  let entries :=
    map of_string ["k.png"; "b.png"; "c.jpg"; "d.png"; "e.PNG"; "f.png";
                   "g.gif"; "h.png"; "i.png"; "j.png"; "a.png"; "notes.txt"]%string in
  let w :=
    {| isdir := fun q => str_eqb q (of_string "in");
       path_exists := fun q => str_eqb q (of_string "in");
       makedirs := fun _ => Ok tt;
       listdir := fun _ => Ok entries;
       Program.open := fun q => if str_eqb q (of_string "in/c.jpg")
                                then Raise FileNotFoundError
                                else Ok (framed 24 20 (Box 10 5 14 15));
       Program.save := fun _ _ => Ok tt |} in
  let card name :=
    map (fun i => CardSaid (Progress i))
      [Processing (of_string name) 24 20; DetectedCardType standard;
       ActionProportional standard; CardFinished (of_string name) (3000, 4200)] in
  snd (script_out default_settings w (of_string "in") (of_string "out"))
  = [PromptInputFolder; PromptOutputDir;
     Said (CreatedOutput (of_string "out"));
     Said (Found 11 (of_string "in"));
     Said (ProcessingBatch 1 (of_string "a_to_i_sheet_1.png"));
     Said (CreatingSheet (of_string "a_to_i_sheet_1.png"))]
    ++ flat_map card ["a.png"; "b.png"]%string
    ++ [CardSaid (Problem ImageFileNotFound)]
    ++ flat_map card ["d.png"; "e.PNG"; "f.png"; "g.gif"; "h.png"; "i.png"]%string
    ++ [Said (SavedSheet (of_string "out/a_to_i_sheet_1.png"));
        Said Summary;
        Said (FinishedProcessing 1 (of_string "out"));
        Said (LeftOver 2);
        Said LeftoverFiles;
        Said (LeftoverFile (of_string "j.png"));
        Said (LeftoverFile (of_string "k.png"))].
Proof. vm_compute. reflexivity. Qed.

End Scenario.
