(* ===== verification/Scenario.v ===== *)
(** * Scenario: nine cards of three frame styles, from the folder to the page

    The end-to-end scenario of the specification, run on the model: a
    folder holds nine pictures and a text file; three of the pictures have
    a black frame all around, three have black caps at the top and at the
    bottom only, and three have no frame.  The pictures are small (20 to 28
    columns) so that the whole pipeline evaluates; the configuration is the
    source's, and the resampling and the canvas are the instances that
    compute ([Image.nearest_imaging], [Page.box_canvas]).

    [nine_cards_styles] checks that the classifier tells the three styles
    apart; [nine_cards_sheet] runs the whole program and reads the outcome:
    one sheet saved under the name made of the first and the last file,
    nine cards of the card size at the nine corners of the grid, then the
    four cut lines, no warning printed and no file left over;
    [nine_cards_page] looks at the page that is saved: it has the size of
    the paper, the corner of each card shows the frame of its style, the
    middle of each card is artwork, the cut lines are drawn and the margin
    is white.

    The same scenario at the size of the specification, where nothing
    evaluates: [nine_pictures] are nine pictures 750 x 1050, three of each
    style.  [synthetic_sheet] shows, for any configuration with a paper
    and borders that are not negative, any resampling and any canvas, that
    a chunk of synthetic cards ([synthetic], from [Pipeline]) gives a
    sheet of cards of the card size in the cells of the grid, in order,
    then the cut lines, without a warning, and that the cut lines cross
    the page; [nine_pictures_scenario] is the scenario for the
    configuration of the source. *)

From Stdlib Require Import ZArith List Bool Lia String.
Import ListNotations.
From S2P Require Import Prelude Config Image Detector Classifier Cropper Renderer Names.
From S2P Require Import Pipeline Sheet Page Scanner Batch Run Program.
Local Open Scope Z_scope.

(** ** The folder *)

(** A card with a black frame, a card with black caps at the top and the
    bottom, and a card without frame. *)
Definition standard_card : image := framed 28 40 (Box 10 10 18 30).
Definition extended_art_card : image := framed 20 200 (Box 0 12 20 188).
Definition borderless_card : image := framed 20 100 (Box 0 0 20 100).

(** The entries of the input folder. *)
Definition entries : list pystr :=
  map of_string ["c.png"; "a.png"; "b.jpg"; "notes.txt"; "d.png"; "e.PNG"; "f.png";
                 "i.gif"; "h.png"; "g.png"]%string.

(** What opening a file gives: the style goes by the letter that names the
    file in the folder [in]. *)
Definition open_picture (path : pystr) : result image :=
  match nth_error path 3 with
  | Some letter =>
      match (letter - 97) mod 3 with
      | 0 => Ok standard_card
      | 1 => Ok extended_art_card
      | _ => Ok borderless_card
      end
  | None => Raise FileNotFoundError
  end.

(** The input folder exists, the output folder does not and can be made;
    every save returns. *)
Definition nine_cards_world : world :=
  {| isdir := fun q => str_eqb q (of_string "in");
     path_exists := fun q => str_eqb q (of_string "in");
     makedirs := fun _ => Ok tt;
     listdir := fun _ => Ok entries;
     open := open_picture;
     save := fun _ _ => Ok tt |}.

(** The nine pictures in the order of the sheet. *)
Definition nine_cards : list (result image) :=
  map open_picture (all_image_files (of_string "in") entries).

(** The corner and the middle of the nine cells. *)
Definition corners : list (Z * Z) := map (cell_origin default_pixels) (range 0 9).

Definition middles : list (Z * Z) :=
  map (fun '(x, y) => (x + 1500, y + 2100)) corners.

(** What a call draws and where: the corner and the size of a card, the
    two ends of a line. *)
Definition drawn_at (op : draw_op) : (Z * Z) * (Z * Z) :=
  match op with
  | Paste card_img x y => ((x, y), size card_img)
  | DrawLine x0 y0 x1 y1 _ _ => ((x0, y0), (x1, y1))
  end.

(** The outcome of the program without the pixels of the cards. *)
Definition summary (e : result ending) :=
  match e with
  | Ok (Ran created (Finished k saved failed log leftover)) =>
      Some (created, k, map (fun '(path, ops) => (path, map drawn_at ops)) saved,
            map fst failed, log, leftover)
  | _ => None
  end.

(** ** The scenario at the size of the specification *)

(** The three pictures, 750 x 1050: a black frame of 40 pixels all around,
    black caps of 60 rows at the top and at the bottom, and no frame. *)
Definition framed_picture : image := framed 750 1050 (Box 40 40 710 1010).
Definition capped_picture : image := framed 750 1050 (Box 0 60 750 990).
Definition bare_picture : image := framed 750 1050 (Box 0 0 750 1050).

Definition three_pictures : list (result image) :=
  [Ok framed_picture; Ok capped_picture; Ok bare_picture].

(** Nine files: three of each style. *)
Definition nine_pictures : list (result image) :=
  three_pictures ++ three_pictures ++ three_pictures.

(** A file that opened as a synthetic card of one of the three styles. *)
Definition synthetic (s : settings) (p : pixels) (image_path : result image) : Prop :=
  exists w h b, image_path = Ok (framed w h b) /\ synthetic_card s p w h b.

(** The white page of the size of the paper. *)
Definition white_page (p : pixels) : image :=
  Raster (PAPER_WIDTH_PX p) (PAPER_HEIGHT_PX p) (fun _ _ => white).

(** The cut lines cross the page [page]: the columns and the rows they are
    drawn along have the colour of the lines from one edge to the other. *)
Definition lines_cross (s : settings) (p : pixels) (page : image) : Prop :=
  forall i t, 1 <= i < 3 ->
    (0 <= t <= PAPER_HEIGHT_PX p ->
     px page (MARGIN_X p + i * CARD_WIDTH_PX p - LINE_WIDTH s / 2) t = ink (LINE_COLOR s)) /\
    (0 <= t <= PAPER_WIDTH_PX p ->
     px page t (MARGIN_Y p + i * CARD_HEIGHT_PX p - LINE_WIDTH s / 2) = ink (LINE_COLOR s)).

(** The nine cells lie on the page and no two of them overlap. *)
Definition cells_apart (p : pixels) : Prop :=
  forall k, 0 <= k < 9 ->
    (0 <= x0 (cell_box p k) /\ x1 (cell_box p k) <= PAPER_WIDTH_PX p /\
     0 <= y0 (cell_box p k) /\ y1 (cell_box p k) <= PAPER_HEIGHT_PX p) /\
    forall k', 0 <= k' < 9 -> k <> k' -> disjoint (cell_box p k) (cell_box p k').

(** ** The run *)

(** The classifier tells the three styles apart. *)
Example nine_cards_styles :
  map (fun im => determine_card_type im (BLACK_BORDER_THRESHOLD default_settings)
                   (EDGE_ZONE_CHECK_WIDTH_PX default_settings))
      [standard_card; extended_art_card; borderless_card]
  = [Ok standard; Ok extended_art; Ok borderless].
Proof. vm_compute. reflexivity. Qed.

(** The whole program on the folder: the output folder is made, one sheet
    is saved under the name of the first and the ninth picture, with nine
    cards of the card size at the corners of the nine cells followed by the
    four cut lines; no warning is printed and no file is left over. *)
Example nine_cards_sheet :
  summary (program default_settings default_pixels nine_cards_world
             (of_string "in") (of_string "out"))
  = Some (true, 1,
          [(of_string "out/a_to_i_sheet_1.png",
            map (fun c => (c, (3000, 4200))) corners
            ++ [((3598, 0), (3598, 13200)); ((6598, 0), (6598, 13200));
                ((0, 4498), (10200, 4498)); ((0, 8698), (10200, 8698))])],
          [], [], []).
Proof. vm_refl. Qed.

(** The page that is saved: it has the size of the paper; the corner of a
    card is black for the cards with a frame or a cap and artwork for the
    cards without frame; the middle of every card is artwork; the cut
    lines are drawn along the boundaries of the cells; the margin of the
    page is white. *)
Example nine_cards_page :
  exists page,
    printed_page default_settings default_pixels nine_cards = Ok page /\
    size page = (10200, 13200) /\
    map (fun '(u, v) => px page u v) corners
    = [black; black; white; black; black; white; black; black; white] /\
    map (fun '(u, v) => px page u v) middles = repeat white 9 /\
    map (fun '(u, v) => px page u v) [(3598, 0); (6598, 13199); (0, 4498); (10199, 8698)]
    = repeat (ink (LINE_COLOR default_settings)) 4 /\
    map (fun '(u, v) => px page u v) [(0, 0); (599, 299); (10199, 13199)] = repeat white 3.
Proof.
  destruct (printed_page_at default_settings default_pixels eq_refl eq_refl nine_cards
              default_paper_ok) as (page & E & S & P).
  exists page. split; [exact E | split; [exact S|]].
  let c := eval vm_compute in corners in change corners with c.
  let m := eval vm_compute in middles in change middles with m.
  cbn [map]. rewrite !P. split; [|split; [|split]]; vm_refl.
Qed.

(** ** Synthetic cards on a sheet *)

Section Synthetic.
Context `{Imaging} `{Canvas} (s : settings) (p : pixels).
Context (paper : paper_ok p) (borders : borders_nonneg p).
Context (card_w : 1 <= CARD_WIDTH_PX p) (card_h : 1 <= CARD_HEIGHT_PX p).

(** A synthetic card gives a card of the card size, and no warning or
    error is printed on the way. *)
Lemma synthetic_gives_card o : synthetic s p o -> gives_card s p o /\ quiet s p o.
Proof using borders card_w card_h.
  intros (w & h & b & -> & S).
  destruct (synthetic_card_quiet s p w h b _ _ S borders card_w card_h) as (c & E & Sz).
  unfold gives_card, quiet. rewrite E. split; [now exists c | reflexivity].
Qed.

Lemma synthetic_chunk chunk :
  Forall (synthetic s p) chunk ->
  Forall (gives_card s p) chunk /\ Forall (quiet s p) chunk.
Proof using borders card_w card_h.
  intros F. split; (eapply Forall_impl; [|exact F]); intros o S;
    now destruct (synthetic_gives_card o S).
Qed.

(** A chunk of synthetic cards: the sheet is one card in each of the first
    min(9, len(chunk)) cells, in order, then the four cut lines; no warning
    or error is printed; the page is these calls drawn on the white page,
    and the cut lines cross it. *)
Theorem synthetic_sheet save path chunk :
  Forall (synthetic s p) chunk ->
  exists cards,
    create_printable_sheet s p save chunk path
    = Ok (cards ++ cut_lines s p, [], save path (cards ++ cut_lines s p)) /\
    Forall2 (card_at p) (range 0 (Z.min 9 (Z.of_nat (List.length chunk)))) cards /\
    printed_page s p chunk = Ok (fold_left draw (cards ++ cut_lines s p) (white_page p)) /\
    lines_cross s p (fold_left draw (cards ++ cut_lines s p) (white_page p)).
Proof using paper borders card_w card_h.
  intros [G Q]%synthetic_chunk. exists (drawn (placed s p chunk 9)).
  rewrite (sheet_layout s p save path paper), (placed_quiet s p chunk 9 Q).
  split; [reflexivity|]. split; [now apply placed_cards|].
  split; [now apply printed_page_calls|].
  intros i t Hi. split; intros Ht; apply page_under_line;
    [now apply on_vertical_line | now apply on_horizontal_line].
Qed.

(** The cells of a grid that fits on the paper. *)
Lemma grid_cells_apart :
  0 <= MARGIN_X p -> 0 <= MARGIN_Y p ->
  MARGIN_X p + 3 * CARD_WIDTH_PX p <= PAPER_WIDTH_PX p ->
  MARGIN_Y p + 3 * CARD_HEIGHT_PX p <= PAPER_HEIGHT_PX p ->
  cells_apart p.
Proof using card_w card_h.
  intros Mx My Gx Gy k Hk. split.
  - apply cell_box_on_page; lia.
  - intros k' Hk' Ne. apply cell_boxes_disjoint; lia.
Qed.

End Synthetic.

(** ** The scenario *)

Lemma three_pictures_synthetic :
  Forall (synthetic default_settings default_pixels) three_pictures.
Proof.
  repeat apply Forall_cons; [| | |apply Forall_nil]; eexists _, _, _; (split; [reflexivity|]).
  - left. constructor; vm_compute; repeat split; (reflexivity || discriminate).
  - right; left. constructor; vm_compute; repeat split; (reflexivity || discriminate).
  - right; right. split; [|split; reflexivity].
    constructor; vm_compute; repeat split; (reflexivity || discriminate).
Qed.

Lemma nine_pictures_synthetic :
  Forall (synthetic default_settings default_pixels) nine_pictures.
Proof. repeat (apply Forall_app; split); exact three_pictures_synthetic. Qed.

(** Claim C15: the scenario of the specification, with any resampling and any
    canvas: nine pictures 750 x 1050, three with a black frame, three with
    black caps and three without frame, give one sheet without a warning
    or an error: nine cards of the card size in the nine cells of the grid,
    in the order of the files, then the four cut lines; the cells lie on
    the page and no two overlap; the page has the size of the paper and the
    cut lines cross it from edge to edge. *)
Theorem nine_pictures_scenario `{Imaging} `{Canvas} save path :
  exists cards page,
    create_printable_sheet default_settings default_pixels save nine_pictures path
    = Ok (cards ++ cut_lines default_settings default_pixels, [],
          save path (cards ++ cut_lines default_settings default_pixels)) /\
    Forall2 (card_at default_pixels) (range 0 9) cards /\
    cells_apart default_pixels /\
    printed_page default_settings default_pixels nine_pictures = Ok page /\
    size page = (10200, 13200) /\
    lines_cross default_settings default_pixels page.
Proof.
  destruct (synthetic_sheet default_settings default_pixels default_paper_ok
              default_borders_nonneg ltac:(discriminate) ltac:(discriminate)
              save path nine_pictures nine_pictures_synthetic) as (cards & E & C & P & L).
  exists cards, (fold_left draw (cards ++ cut_lines default_settings default_pixels)
                   (white_page default_pixels)).
  split; [exact E|]. split; [exact C|]. split.
  - apply grid_cells_apart; discriminate.
  - split; [exact P|]. split; [|exact L].
    exact (f_equal2 pair (proj1 (fold_draw_size _ _)) (proj2 (fold_draw_size _ _))).
Qed.
